(** * Equipment parameter model: cleaning, training, prediction, persistence

    A shallow embedding of [backend/api/ml_models.py] (class
    [EquipmentMLModel]) together with the save sequence of its callers in
    [backend/api/views.py].

    Conventions.
    - A DataFrame is the ordered list of its rows; a numeric cell is
      [option Q], [None] standing for NaN (what [isnull()] tests).
    - Floating point numbers are idealised as exact rationals.  A NaN
      produced by [0/0] is kept explicit, because the code's comparisons
      ([z < 3], [r2 > best]) are all false on it.  Square roots are not
      rational: a comparison against a standard deviation is decided on
      the squares (lemma [zscore_lt_3_real] relates it to the real-valued
      z-score), and where a root is returned [np.sqrt] is a parameter.
    - Exceptions are values of [exn]; fallible code returns [result].
    - The learners of scikit-learn ([fit]/[predict]) and the shuffle of
      [train_test_split] are parameters of the development. *)

From Stdlib Require Import ZArith QArith Qabs Qround Lqa Lia List Bool.
From Stdlib Require Import String Ascii.
From Stdlib Require Reals Qreals Lra.
From stdpp Require Import gmap strings list.

Open Scope Q_scope.

(** ** Exceptions *)

Inductive exn : Type :=
| ValueError (msg : string)
| KeyError (key : string)
| AttributeError (msg : string)
| NotFittedError (msg : string)
| TypeError (msg : string)
| IndexError (msg : string)
| FileNotFoundError (msg : string)
| FileExistsError (msg : string)
| NotADirectoryError (msg : string)
| IsADirectoryError (msg : string).

Inductive result (A : Type) : Type :=
| Ok (a : A)
| Raise (e : exn).
Arguments Ok {A} a.
Arguments Raise {A} e.

Definition rbind {A B} (m : result A) (k : A -> result B) : result B :=
  match m with
  | Ok a => k a
  | Raise e => Raise e
  end.

#[export] Instance result_ret : MRet result := fun _ a => Ok a.
#[export] Instance result_bind : MBind result := fun _ _ k m => rbind m k.

(** ** Rational helpers *)

Definition Qltb (x y : Q) : bool := negb (Qle_bool y x).

Definition Qsum (xs : list Q) : Q := fold_right Qplus 0 xs.

Definition Qlen {A} (xs : list A) : Q := inject_Z (Z.of_nat (List.length xs)).

Definition Qsq (x : Q) : Q := x * x.

(** [np.mean] of a column without NaN. *)
Definition mean (xs : list Q) : Q := Qsum xs / Qlen xs.

(** Sum of squared deviations from the mean. *)
Definition sq_dev (xs : list Q) : Q :=
  Qsum (map (fun x => Qsq (x - mean xs)) xs).

(** [np.var(ddof=0)]: the population variance; [std] is its square root. *)
Definition variance (xs : list Q) : Q := sq_dev xs / Qlen xs.

(** ** DataFrame *)

Definition cell := option Q.

(** A row of the frame, with the five columns the code reads.  [Type]
    is a string: the training code is modelled on frames whose types
    are given.  In a frame read from a file an empty [Type] cell is NaN;
    [process_csv_file] holds it as the empty string, which [read_csv]
    never returns. *)
Record Row := mkRow {
  Name : string;
  Type_ : string;
  Flowrate : cell;
  Pressure : cell;
  Temperature : cell
}.

Definition DataFrame := list Row.

Inductive numeric_col := ColFlowrate | ColPressure | ColTemperature.

(** [numeric_cols = ['Flowrate', 'Pressure', 'Temperature']] *)
Definition numeric_cols : list numeric_col :=
  ColFlowrate :: ColPressure :: ColTemperature :: nil.

Definition get_col (c : numeric_col) (r : Row) : cell :=
  match c with
  | ColFlowrate => Flowrate r
  | ColPressure => Pressure r
  | ColTemperature => Temperature r
  end.

Definition set_col (c : numeric_col) (v : cell) (r : Row) : Row :=
  match c with
  | ColFlowrate => mkRow (Name r) (Type_ r) v (Pressure r) (Temperature r)
  | ColPressure => mkRow (Name r) (Type_ r) (Flowrate r) v (Temperature r)
  | ColTemperature => mkRow (Name r) (Type_ r) (Flowrate r) (Pressure r) v
  end.

Definition column (c : numeric_col) (df : DataFrame) : list cell :=
  map (get_col c) df.

(** [Series.isnull()] on one cell. *)
Definition isnull (v : cell) : bool :=
  match v with
  | None => true
  | Some _ => false
  end.

(** The non-NaN values of a column, in order ([dropna]). *)
Fixpoint dropna (l : list cell) : list Q :=
  match l with
  | nil => nil
  | None :: l' => dropna l'
  | Some x :: l' => x :: dropna l'
  end.

(** Sorting, for the median. *)
Fixpoint Qinsert (x : Q) (l : list Q) : list Q :=
  match l with
  | nil => x :: nil
  | y :: l' => if Qle_bool x y then x :: l else y :: Qinsert x l'
  end.

Definition Qsort (l : list Q) : list Q := fold_right Qinsert nil l.

(** [Series.median()]: NaN are skipped; the median of no value is NaN;
    an even count averages the two middle values. *)
Definition median (l : list cell) : cell :=
  let s := Qsort (dropna l) in
  let n := List.length s in
  match n with
  | O => None
  | _ =>
    if Nat.even n
    then Some ((nth (n / 2 - 1) s 0 + nth (n / 2) s 0) / 2)
    else Some (nth (n / 2) s 0)
  end.

(** [Series.fillna(value, inplace=True)] on the column, taken as filling
    the DataFrame's own column (the code's intent, and what pandas does
    without copy-on-write); filling with NaN leaves the NaN in place. *)
Definition fillna_cell (value : cell) (v : cell) : cell :=
  match v with
  | None => value
  | Some x => Some x
  end.

Definition fillna (c : numeric_col) (value : cell) (df : DataFrame) : DataFrame :=
  map (fun r => set_col c (fillna_cell value (get_col c r)) r) df.

(** One iteration of the loop of [clean_data] over [numeric_cols]. *)
Definition fill_column (df : DataFrame) (c : numeric_col) : DataFrame :=
  if existsb isnull (column c df)
  then fillna c (median (column c df)) df
  else df.

(** The whole "handle missing values" loop. *)
Definition fill_missing (df : DataFrame) : DataFrame :=
  fold_left fill_column numeric_cols df.

(** ** Z-scores *)

(** What [stats.zscore] needs of one column: its mean and variance.  A
    column holding a NaN has a NaN mean ([nan_policy='propagate']), so
    every z-score of that column is NaN: no statistics. *)
Definition col_stats (l : list cell) : option (Q * Q) :=
  if existsb isnull l then None
  else let xs := dropna l in Some (mean xs, variance xs).

(** [np.abs((x - mean) / std) < 3].  With [std = sqrt var] and [var > 0]
    this is [(x - mean)^2 < 9 * var]; with [std = 0] the quotient is
    [0/0 = NaN] (or [inf]) and the comparison is false.  The test is
    decided on the rationals the cells denote.  The code decides it on
    their double-precision z-scores, which gives the same answer unless
    a z-score lies within rounding of 3 or a sum leaves the range of a
    double (then the z-score is NaN and the row is dropped). *)
Definition zscore_lt_3 (mu var x : Q) : bool :=
  Qltb 0 var && Qltb (Qsq (x - mu)) (9 * var).

(** [(z_scores < 3)] at one cell, given its column. *)
Definition cell_ok (l : list cell) (v : cell) : bool :=
  match col_stats l, v with
  | Some (mu, var), Some x => zscore_lt_3 mu var x
  | _, _ => false
  end.

(** [(z_scores < 3).all(axis=1)] at one row. *)
Definition row_ok (df : DataFrame) (r : Row) : bool :=
  forallb (fun c => cell_ok (column c df) (get_col c r)) numeric_cols.

(** [df_clean[(z_scores < 3).all(axis=1)]] *)
Definition remove_outliers (df : DataFrame) : DataFrame :=
  List.filter (row_ok df) df.

(** [EquipmentMLModel.clean_data] *)
Definition clean_data (df : DataFrame) : DataFrame :=
  let df_clean := fill_missing df in
  remove_outliers df_clean.

(** ** Floats that can be NaN or minus infinity *)

(** The value of [r2_score] and of the running [best_*_score]. *)
Inductive float :=
| NaN
| NegInf
| Fin (q : Q).

(** [a > b] on floats: false as soon as one side is NaN. *)
Definition float_gt (a b : float) : bool :=
  match a, b with
  | Fin x, Fin y => Qltb y x
  | Fin _, NegInf => true
  | _, _ => false
  end.

(** ** Label encoder *)

(** [np.unique] on strings: sorted, without duplicates. *)
Fixpoint str_insert (s : string) (l : list string) : list string :=
  match l with
  | nil => s :: nil
  | t :: l' =>
    if String.eqb s t then l
    else if String.leb s t then s :: l
    else t :: str_insert s l'
  end.

Definition np_unique (l : list string) : list string :=
  fold_right str_insert nil l.

Fixpoint index_of (s : string) (l : list string) : option nat :=
  match l with
  | nil => None
  | t :: l' => if String.eqb s t then Some O else option_map S (index_of s l')
  end.

(** A [LabelEncoder]; [classes_] exists only once fitted. *)
Record LabelEncoder := mkEncoder { classes_ : option (list string) }.

(** [LabelEncoder.transform]: an unfitted encoder raises [NotFittedError],
    an unseen label raises [ValueError]. *)
Definition encode_one (classes : list string) (s : string) : result nat :=
  match index_of s classes with
  | Some i => Ok i
  | None => Raise (ValueError "y contains previously unseen labels")
  end.

Fixpoint encode_all (classes : list string) (y : list string) : result (list nat) :=
  match y with
  | nil => Ok nil
  | s :: y' =>
    i ← encode_one classes s;
    codes ← encode_all classes y';
    Ok (i :: codes)
  end.

Definition encoder_transform (e : LabelEncoder) (y : list string) : result (list nat) :=
  match classes_ e with
  | None => Raise (NotFittedError "This LabelEncoder instance is not fitted yet")
  | Some cs => encode_all cs y
  end.

(** [LabelEncoder.fit_transform]: the fitted encoder and the codes. *)
Definition encoder_fit_transform (y : list string) : LabelEncoder * list nat :=
  let cs := np_unique y in
  (mkEncoder (Some cs),
   map (fun s => match index_of s cs with Some i => i | None => O end) y).

(** ** Standard scaler *)

Definition n_features (X : list (list Q)) : nat :=
  match X with
  | nil => O
  | x :: _ => List.length x
  end.

Definition nth_col (j : nat) (X : list (list Q)) : list Q :=
  map (fun x => nth j x 0) X.

(** A [StandardScaler]; [mean_] and [scale_] (one pair per feature) exist
    only once fitted. *)
Record StandardScaler := mkScaler { scaler_params : option (list (Q * Q)) }.

Definition scale_row (params : list (Q * Q)) (x : list Q) : list Q :=
  map (fun '(v, (mu, sc)) => (v - mu) / sc) (combine x params).

Definition scaler_transform (s : StandardScaler) (X : list (list Q))
  : result (list (list Q)) :=
  match scaler_params s with
  | None => Raise (NotFittedError "This StandardScaler instance is not fitted yet")
  | Some ps => Ok (map (scale_row ps) X)
  end.

(** ** Metrics of scikit-learn *)

Definition sq_err (y_true y_pred : list Q) : Q :=
  Qsum (map (fun '(y, p) => Qsq (y - p)) (combine y_true y_pred)).

Definition abs_err (y_true y_pred : list Q) : Q :=
  Qsum (map (fun '(y, p) => Qabs (y - p)) (combine y_true y_pred)).

(** [r2_score]: NaN below two samples; with a constant [y_true] the
    score is 1 for a perfect prediction and 0 otherwise. *)
Definition r2_score (y_true y_pred : list Q) : float :=
  if (List.length y_pred <? 2)%nat then NaN
  else
    let numerator := sq_err y_true y_pred in
    let denominator := sq_dev y_true in
    if negb (Qeq_bool denominator 0) then Fin (1 - numerator / denominator)
    else if negb (Qeq_bool numerator 0) then Fin 0
    else Fin 1.

Definition mean_squared_error (y_true y_pred : list Q) : Q :=
  sq_err y_true y_pred / Qlen y_true.

Definition mean_absolute_error (y_true y_pred : list Q) : Q :=
  abs_err y_true y_pred / Qlen y_true.

Definition count_eq (y_true y_pred : list nat) : nat :=
  List.length (List.filter (fun '(a, b) => Nat.eqb a b) (combine y_true y_pred)).

Definition accuracy_score (y_true y_pred : list nat) : Q :=
  inject_Z (Z.of_nat (count_eq y_true y_pred)) / Qlen y_true.

(** [np.unique] on integer codes. *)
Fixpoint nat_insert (n : nat) (l : list nat) : list nat :=
  match l with
  | nil => n :: nil
  | m :: l' =>
    if Nat.eqb n m then l
    else if Nat.leb n m then n :: l
    else m :: nat_insert n l'
  end.

Definition np_unique_nat (l : list nat) : list nat :=
  fold_right nat_insert nil l.

(** [np.unique(y, return_counts=True)]: the counts, in label order. *)
Definition unique_counts (y : list nat) : list nat :=
  map (fun c => count_occ Nat.eq_dec y c) (np_unique_nat y).

(** [confusion_matrix]: rows are true labels, columns predicted ones, over
    the sorted labels that occur in either list. *)
Definition confusion_matrix (y_true y_pred : list nat) : list (list nat) :=
  let labels := np_unique_nat (y_true ++ y_pred) in
  map (fun t =>
         map (fun p =>
                List.length
                  (List.filter (fun '(a, b) => Nat.eqb a t && Nat.eqb b p)
                               (combine y_true y_pred)))
             labels)
      labels.

(** ** Fitted estimators *)

Inductive algorithm :=
| RandomForestRegressor      (* n_estimators=100, random_state=42, max_depth=10 *)
| GradientBoostingRegressor  (* n_estimators=100, random_state=42 *)
| LinearRegression
| RandomForestClassifier.    (* n_estimators=100, random_state=42, max_depth=10 *)

(** A fitted regressor: which estimator it is and what it predicts for one
    (scaled) feature vector. *)
Record Regressor := mkRegressor {
  reg_algo : algorithm;
  reg_predict : list Q -> Q
}.

Record Classifier := mkClassifier {
  clf_predict : list Q -> nat
}.

(** ** Training metrics *)

Record ParamMetrics := mkParamMetrics {
  pm_r2_score : float;
  pm_mse : Q;
  pm_mae : Q;
  pm_rmse : Q
}.

Record RegressionMetrics := mkRegressionMetrics {
  rm_flowrate : ParamMetrics;
  rm_pressure : ParamMetrics;
  rm_temperature : ParamMetrics;
  rm_training_samples : nat;
  rm_test_samples : nat;
  rm_total_samples : nat;
  rm_equipment_types : list string
}.

Record ClassificationMetrics := mkClassificationMetrics {
  cm_accuracy : Q;
  cm_training_samples : nat;
  cm_test_samples : nat;
  cm_equipment_types : list string;
  cm_confusion_matrix : list (list nat)
}.

(** A value of [training_history]: [{}] or a metrics dict. *)
Inductive Metrics :=
| NoMetrics
| MReg (m : RegressionMetrics)
| MCls (m : ClassificationMetrics).

(** ** The object *)

(** Python values held by the attributes of [EquipmentMLModel] and by the
    pickled dict. *)
Inductive pyval :=
| PyNone
| PyBool (b : bool)
| PyRegressor (r : Regressor)
| PyClassifier (c : Classifier)
| PyScaler (s : StandardScaler)
| PyEncoder (e : LabelEncoder)
| PyList (l : list string)
| PyDict (d : gmap string Metrics).

(** Truth value of a Python object ([not self.is_trained]). *)
Definition truthy (v : pyval) : bool :=
  match v with
  | PyNone => false
  | PyBool b => b
  | PyList l => negb (Nat.eqb (List.length l) 0)
  | PyDict d => negb (Nat.eqb (size d) 0)
  | _ => true
  end.

Record EquipmentMLModel := mkModel {
  model_flowrate : pyval;
  model_pressure : pyval;
  model_temperature : pyval;
  classifier_model : pyval;
  label_encoder : pyval;
  scaler_regression : pyval;
  scaler_classification : pyval;
  feature_names : pyval;
  is_trained : pyval;
  training_history : pyval
}.

(** [EquipmentMLModel.__init__] *)
Definition init : EquipmentMLModel := {|
  model_flowrate := PyNone;
  model_pressure := PyNone;
  model_temperature := PyNone;
  classifier_model := PyNone;
  label_encoder := PyEncoder (mkEncoder None);
  scaler_regression := PyScaler (mkScaler None);
  scaler_classification := PyScaler (mkScaler None);
  feature_names := PyList nil;
  is_trained := PyBool false;
  training_history :=
    PyDict (<["regression" := NoMetrics]> (<["classification" := NoMetrics]> ∅))
|}.

Definition set_model_flowrate (v : pyval) (o : EquipmentMLModel) :=
  mkModel v (model_pressure o) (model_temperature o) (classifier_model o)
          (label_encoder o) (scaler_regression o) (scaler_classification o)
          (feature_names o) (is_trained o) (training_history o).

Definition set_model_pressure (v : pyval) (o : EquipmentMLModel) :=
  mkModel (model_flowrate o) v (model_temperature o) (classifier_model o)
          (label_encoder o) (scaler_regression o) (scaler_classification o)
          (feature_names o) (is_trained o) (training_history o).

Definition set_model_temperature (v : pyval) (o : EquipmentMLModel) :=
  mkModel (model_flowrate o) (model_pressure o) v (classifier_model o)
          (label_encoder o) (scaler_regression o) (scaler_classification o)
          (feature_names o) (is_trained o) (training_history o).

Definition set_classifier_model (v : pyval) (o : EquipmentMLModel) :=
  mkModel (model_flowrate o) (model_pressure o) (model_temperature o) v
          (label_encoder o) (scaler_regression o) (scaler_classification o)
          (feature_names o) (is_trained o) (training_history o).

Definition set_label_encoder (v : pyval) (o : EquipmentMLModel) :=
  mkModel (model_flowrate o) (model_pressure o) (model_temperature o)
          (classifier_model o) v (scaler_regression o)
          (scaler_classification o) (feature_names o) (is_trained o)
          (training_history o).

Definition set_scaler_regression (v : pyval) (o : EquipmentMLModel) :=
  mkModel (model_flowrate o) (model_pressure o) (model_temperature o)
          (classifier_model o) (label_encoder o) v (scaler_classification o)
          (feature_names o) (is_trained o) (training_history o).

Definition set_scaler_classification (v : pyval) (o : EquipmentMLModel) :=
  mkModel (model_flowrate o) (model_pressure o) (model_temperature o)
          (classifier_model o) (label_encoder o) (scaler_regression o) v
          (feature_names o) (is_trained o) (training_history o).

Definition set_feature_names (v : pyval) (o : EquipmentMLModel) :=
  mkModel (model_flowrate o) (model_pressure o) (model_temperature o)
          (classifier_model o) (label_encoder o) (scaler_regression o)
          (scaler_classification o) v (is_trained o) (training_history o).

Definition set_is_trained (v : pyval) (o : EquipmentMLModel) :=
  mkModel (model_flowrate o) (model_pressure o) (model_temperature o)
          (classifier_model o) (label_encoder o) (scaler_regression o)
          (scaler_classification o) (feature_names o) v (training_history o).

Definition set_training_history (v : pyval) (o : EquipmentMLModel) :=
  mkModel (model_flowrate o) (model_pressure o) (model_temperature o)
          (classifier_model o) (label_encoder o) (scaler_regression o)
          (scaler_classification o) (feature_names o) (is_trained o) v.

(** The three regression targets and the attribute each one's winner is
    stored in. *)
Inductive target := TFlowrate | TPressure | TTemperature.

Definition target_col (t : target) : numeric_col :=
  match t with
  | TFlowrate => ColFlowrate
  | TPressure => ColPressure
  | TTemperature => ColTemperature
  end.

Definition get_model (t : target) (o : EquipmentMLModel) : pyval :=
  match t with
  | TFlowrate => model_flowrate o
  | TPressure => model_pressure o
  | TTemperature => model_temperature o
  end.

Definition set_model (t : target) (v : pyval) (o : EquipmentMLModel) :=
  match t with
  | TFlowrate => set_model_flowrate v o
  | TPressure => set_model_pressure v o
  | TTemperature => set_model_temperature v o
  end.

(** ** The training monad: the object, the log of estimator fits, and
    exceptions *)

Record TrainState := mkState {
  obj : EquipmentMLModel;
  fits : list algorithm
}.

Definition M (A : Type) : Type := TrainState -> TrainState * result A.

#[export] Instance M_ret : MRet M := fun _ a s => (s, Ok a).
#[export] Instance M_bind : MBind M := fun _ _ k m s =>
  match m s with
  | (s', Ok a) => k a s'
  | (s', Raise e) => (s', Raise e)
  end.

Definition raise {A} (e : exn) : M A := fun s => (s, Raise e).
Definition lift {A} (r : result A) : M A := fun s => (s, r).
Definition get_attr (f : EquipmentMLModel -> pyval) : M pyval :=
  fun s => (s, Ok (f (obj s))).
Definition set_attr (f : pyval -> EquipmentMLModel -> EquipmentMLModel)
           (v : pyval) : M unit :=
  fun s => (mkState (f v (obj s)) (fits s), Ok tt).
Definition log_fit (a : algorithm) : M unit :=
  fun s => (mkState (obj s) (fits s ++ a :: nil), Ok tt).

(** ** Train/test split *)

(** [X[idx]]: the rows at the given positions, in that order. *)
Definition take_rows {A} (idx : list nat) (l : list A) : list A :=
  flat_map (fun i => match nth_error l i with
                     | Some x => x :: nil
                     | None => nil
                     end) idx.

(** [test_size=0.2] *)
Definition test_size : Q := 2 # 10.

(** [_validate_shuffle_split]: [n_test = ceil(test_size * n_samples)],
    [n_train = n_samples - n_test], and an empty train set is refused.
    The product is taken exactly here; below, [n_test_binary64] takes it
    in double precision, and [n_test_binary64_exact] shows that the two
    ceilings agree for every size below [2^52]. *)
Definition validate_shuffle_split (n_samples : nat) : result (nat * nat) :=
  let n_test := Z.to_nat (Qceiling (test_size * inject_Z (Z.of_nat n_samples))) in
  let n_train := (n_samples - n_test)%nat in
  if (n_train =? 0)%nat
  then Raise (ValueError "the resulting train set will be empty")
  else Ok (n_train, n_test).

(** The same test size with the product in binary64, as Python computes
    it.  [0.2] is the double [3602879701896397 / 2^54]; the exact product
    with the integer [n] is rounded to 53 significant bits, ties to even.
    [round53 m] returns the rounded significand and the number of bits
    dropped; [binary64_mul_02 n] is the rounded product in units of
    [2^-54]. *)
Section Binary64Product.
Local Open Scope Z_scope.

Definition double_02 : Z := 3602879701896397.

Definition round53 (m : Z) : Z * Z :=
  let L := Z.log2 m + 1 in
  if L <=? 53 then (m, 0)
  else
    let sh := L - 53 in
    let q := m / 2 ^ sh in
    let r := m mod 2 ^ sh in
    let half := 2 ^ (sh - 1) in
    if r <? half then (q, sh)
    else if half <? r then (q + 1, sh)
    else if Z.even q then (q, sh) else (q + 1, sh).

Definition binary64_mul_02 (n : Z) : Z :=
  let '(q, sh) := round53 (n * double_02) in q * 2 ^ sh.

Definition n_test_binary64 (n : Z) : Z := - ((- binary64_mul_02 n) / 2 ^ 54).

End Binary64Product.

Section Pipeline.

(** [RandomState(42).permutation(n)] *)
Variable permutation : nat -> list nat.

(** The train and test positions [StratifiedShuffleSplit] draws for the
    labels [y] and the sizes [n_train], [n_test]. *)
Variable stratified_indices : list nat -> nat -> nat -> list nat * list nat.

(** [np.sqrt] *)
Variable np_sqrt : Q -> Q.

(** [estimator.fit(X, y).predict]: what the estimator named by the
    algorithm predicts once fitted on [X], [y]. *)
Variable fit_regressor : algorithm -> list (list Q) -> list Q -> list Q -> Q.
Variable fit_classifier : list (list Q) -> list nat -> list Q -> nat.

(** [ShuffleSplit]: the first [n_test] positions of the permutation are
    the test set, the next [n_train] the train set. *)
Definition shuffle_split (n_samples n_train n_test : nat) : list nat * list nat :=
  let perm := permutation n_samples in
  (firstn n_train (skipn n_test perm), firstn n_test perm).

(** [StratifiedShuffleSplit]: refuses a class with one member and a
    split smaller than the number of classes. *)
Definition stratified_shuffle_split (y : list nat) (n_train n_test : nat)
  : result (list nat * list nat) :=
  let class_counts := unique_counts y in
  let n_classes := List.length class_counts in
  if existsb (fun c => (c <? 2)%nat) class_counts
  then Raise (ValueError "The least populated class in y has only 1 member")
  else if (n_train <? n_classes)%nat
  then Raise (ValueError "The train_size should be greater or equal to the number of classes")
  else if (n_test <? n_classes)%nat
  then Raise (ValueError "The test_size should be greater or equal to the number of classes")
  else Ok (stratified_indices y n_train n_test).

(** [train_test_split(X, y, test_size=0.2, random_state=42, stratify=...)],
    returning [(X_train, X_test, y_train, y_test)]. *)
Definition train_test_split {A B} (X : list A) (y : list B)
           (stratify : option (list nat))
  : result (list A * list A * list B * list B) :=
  if negb (List.length X =? List.length y)%nat
  then Raise (ValueError "Found input variables with inconsistent numbers of samples")
  else
    '(n_train, n_test) ← validate_shuffle_split (List.length X);
    '(train, test) ←
      match stratify with
      | None => Ok (shuffle_split (List.length X) n_train n_test)
      | Some labels => stratified_shuffle_split labels n_train n_test
      end;
    Ok (take_rows train X, take_rows test X, take_rows train y, take_rows test y).

(** ** Method calls on attributes *)

(** [StandardScaler.fit]: per feature the mean and the standard
    deviation, a zero deviation being replaced by 1. *)
Definition scaler_fit (X : list (list Q)) : result StandardScaler :=
  match X with
  | nil => Raise (ValueError "Found array with 0 sample(s)")
  | _ =>
    Ok (mkScaler (Some (map (fun j =>
                               let c := nth_col j X in
                               let var := variance c in
                               (mean c, if Qeq_bool var 0 then 1 else np_sqrt var))
                            (seq 0 (n_features X)))))
  end.

(** [self.<scaler>.fit_transform(X)] *)
Definition attr_scaler_fit_transform
           (get : EquipmentMLModel -> pyval)
           (set : pyval -> EquipmentMLModel -> EquipmentMLModel)
           (X : list (list Q)) : M (list (list Q)) :=
  v ← get_attr get;
  match v with
  | PyScaler _ =>
    s ← lift (scaler_fit X);
    _ ← set_attr set (PyScaler s);
    lift (scaler_transform s X)
  | _ => raise (AttributeError "object has no attribute 'fit_transform'")
  end.

(** [self.<scaler>.transform(X)] *)
Definition attr_scaler_transform (v : pyval) (X : list (list Q))
  : result (list (list Q)) :=
  match v with
  | PyScaler s => scaler_transform s X
  | _ => Raise (AttributeError "object has no attribute 'transform'")
  end.

(** [self.label_encoder.fit_transform(y)] *)
Definition attr_encoder_fit_transform (y : list string) : M (list nat) :=
  v ← get_attr label_encoder;
  match v with
  | PyEncoder _ =>
    let '(e, codes) := encoder_fit_transform y in
    _ ← set_attr set_label_encoder (PyEncoder e);
    mret codes
  | _ => raise (AttributeError "object has no attribute 'fit_transform'")
  end.

(** [self.label_encoder.classes_.tolist()] *)
Definition attr_encoder_classes : M (list string) :=
  v ← get_attr label_encoder;
  match v with
  | PyEncoder (mkEncoder (Some cs)) => mret cs
  | _ => raise (AttributeError "object has no attribute 'classes_'")
  end.

(** [self.<model>.predict(X)] for a regressor attribute. *)
Definition attr_predict (v : pyval) (X : list (list Q)) : result (list Q) :=
  match v with
  | PyRegressor r => Ok (map (reg_predict r) X)
  | _ => Raise (AttributeError "object has no attribute 'predict'")
  end.

(** [self.training_history[key] = metrics] *)
Definition history_store (key : string) (m : Metrics) : M unit :=
  v ← get_attr training_history;
  match v with
  | PyDict d => set_attr set_training_history (PyDict (<[key := m]> d))
  | _ => raise (TypeError "object does not support item assignment")
  end.

(** [model.fit(X, y)] on a fresh estimator: logged, then the fitted
    regressor. *)
Definition fit_model (a : algorithm) (X : list (list Q)) (y : list Q) : M Regressor :=
  _ ← log_fit a;
  mret (mkRegressor a (fit_regressor a X y)).

(** ** Regression training *)

(** [models_to_test], in the insertion order of the dict. *)
Definition models_to_test : list (string * algorithm) :=
  ("Random Forest", RandomForestRegressor)
    :: ("Gradient Boosting", GradientBoostingRegressor)
    :: ("Linear Regression", LinearRegression) :: nil.

(** [EquipmentMLModel.prepare_data] *)
Definition prepare_data (df : DataFrame)
  : M (list (list Q) * list Q * list Q * list Q) :=
  let data := clean_data df in
  codes ← attr_encoder_fit_transform (map Type_ data);
  let X := map (fun c => inject_Z (Z.of_nat c) :: nil) codes in
  let y_flowrate := dropna (column ColFlowrate data) in
  let y_pressure := dropna (column ColPressure data) in
  let y_temperature := dropna (column ColTemperature data) in
  _ ← set_attr set_feature_names (PyList ("Type_Encoded" :: nil));
  mret (X, y_flowrate, y_pressure, y_temperature).

(** The score the loop gives a candidate: [r2_score(y_test, pred)] of
    the estimator fitted on the train split. *)
Definition candidate_r2 (a : algorithm)
           (X_train : list (list Q)) (y_train : list Q)
           (X_test : list (list Q)) (y_test : list Q) : float :=
  r2_score y_test (map (fit_regressor a X_train y_train) X_test).

(** One of the three "train for ..." loops: every candidate is fitted
    and scored; a candidate replaces the retained model only when its
    score is strictly greater than the best so far.  (The pressure and
    temperature loops fit a fresh copy of each candidate, the flowrate
    loop the candidate itself: the same fitted estimator.) *)
Fixpoint select_best (t : target) (cands : list (string * algorithm))
         (X_train : list (list Q)) (y_train : list Q)
         (X_test : list (list Q)) (y_test : list Q)
         (best_score : float) : M float :=
  match cands with
  | nil => mret best_score
  | (name, a) :: cands' =>
    model ← fit_model a X_train y_train;
    let pred := map (reg_predict model) X_test in
    let r2 := r2_score y_test pred in
    if float_gt r2 best_score
    then
      _ ← set_attr (set_model t) (PyRegressor model);
      select_best t cands' X_train y_train X_test y_test r2
    else select_best t cands' X_train y_train X_test y_test best_score
  end.

(** The per-parameter entry of the metrics dict. *)
Definition param_metrics (y_test pred : list Q) : ParamMetrics :=
  {| pm_r2_score := r2_score y_test pred;
     pm_mse := mean_squared_error y_test pred;
     pm_mae := mean_absolute_error y_test pred;
     pm_rmse := np_sqrt (mean_squared_error y_test pred) |}.

(** [EquipmentMLModel.train_regression_models] *)
Definition train_regression_models (df : DataFrame) : M RegressionMetrics :=
  '(X, y_flowrate, y_pressure, y_temperature) ← prepare_data df;
  '(X_train, X_test, y_flow_train, y_flow_test) ←
    lift (train_test_split X y_flowrate None);
  '(_, _, y_pres_train, y_pres_test) ←
    lift (train_test_split X y_pressure None);
  '(_, _, y_temp_train, y_temp_test) ←
    lift (train_test_split X y_temperature None);
  X_train_scaled ←
    attr_scaler_fit_transform scaler_regression set_scaler_regression X_train;
  sc ← get_attr scaler_regression;
  X_test_scaled ← lift (attr_scaler_transform sc X_test);
  _ ← select_best TFlowrate models_to_test
        X_train_scaled y_flow_train X_test_scaled y_flow_test NegInf;
  _ ← select_best TPressure models_to_test
        X_train_scaled y_pres_train X_test_scaled y_pres_test NegInf;
  _ ← select_best TTemperature models_to_test
        X_train_scaled y_temp_train X_test_scaled y_temp_test NegInf;
  mf ← get_attr model_flowrate;
  flow_pred ← lift (attr_predict mf X_test_scaled);
  mp ← get_attr model_pressure;
  pres_pred ← lift (attr_predict mp X_test_scaled);
  mt ← get_attr model_temperature;
  temp_pred ← lift (attr_predict mt X_test_scaled);
  classes ← attr_encoder_classes;
  let metrics :=
    {| rm_flowrate := param_metrics y_flow_test flow_pred;
       rm_pressure := param_metrics y_pres_test pres_pred;
       rm_temperature := param_metrics y_temp_test temp_pred;
       rm_training_samples := List.length X_train;
       rm_test_samples := List.length X_test;
       rm_total_samples := List.length X;
       rm_equipment_types := classes |} in
  _ ← history_store "regression" (MReg metrics);
  mret metrics.

(** ** Classification training *)

(** A row of [data[['Flowrate', 'Pressure', 'Temperature']]]. *)
Definition features (r : Row) : option (list Q) :=
  match Flowrate r, Pressure r, Temperature r with
  | Some f, Some p, Some t => Some (f :: p :: t :: nil)
  | _, _, _ => None
  end.

(** [all(count >= 2 for count in counts)] *)
Definition can_stratify (y : list nat) : bool :=
  forallb (fun count => (2 <=? count)%nat) (unique_counts y).

(** [EquipmentMLModel.train_classification_model] *)
Definition train_classification_model (df : DataFrame) : M ClassificationMetrics :=
  let data := clean_data df in
  let X := omap features data in
  y ← attr_encoder_fit_transform (map Type_ data);
  '(X_train, X_test, y_train, y_test) ←
    lift (if can_stratify y
          then train_test_split X y (Some y)
          else train_test_split X y None);
  X_train_scaled ←
    attr_scaler_fit_transform scaler_classification set_scaler_classification X_train;
  sc ← get_attr scaler_classification;
  X_test_scaled ← lift (attr_scaler_transform sc X_test);
  _ ← log_fit RandomForestClassifier;
  let clf := mkClassifier (fit_classifier X_train_scaled y_train) in
  _ ← set_attr set_classifier_model (PyClassifier clf);
  let y_pred := map (clf_predict clf) X_test_scaled in
  let accuracy := accuracy_score y_test y_pred in
  classes ← attr_encoder_classes;
  let classification_metrics :=
    {| cm_accuracy := accuracy;
       cm_training_samples := List.length X_train;
       cm_test_samples := List.length X_test;
       cm_equipment_types := classes;
       cm_confusion_matrix := confusion_matrix y_test y_pred |} in
  _ ← history_store "classification" (MCls classification_metrics);
  mret classification_metrics.

(** [EquipmentMLModel.train] *)
Definition train (df : DataFrame) : M (RegressionMetrics * ClassificationMetrics) :=
  regression_metrics ← train_regression_models df;
  classification_metrics ← train_classification_model df;
  _ ← set_attr set_is_trained (PyBool true);
  mret (regression_metrics, classification_metrics).

End Pipeline.

(** ** Prediction *)

Record Prediction := mkPrediction {
  equipment_type : string;
  predicted_flowrate : Q;
  predicted_pressure : Q;
  predicted_temperature : Q
}.

(** [except ValueError]: [NotFittedError] is a subclass of [ValueError]. *)
Definition is_ValueError (e : exn) : bool :=
  match e with
  | ValueError _ | NotFittedError _ => true
  | _ => false
  end.

(** [xs[0]] *)
Definition item0 {A} (xs : list A) : result A :=
  match xs with
  | x :: _ => Ok x
  | nil => Raise (IndexError "index 0 is out of bounds")
  end.

(** [self.label_encoder.transform(y)] *)
Definition attr_encoder_transform (v : pyval) (y : list string) : result (list nat) :=
  match v with
  | PyEncoder e => encoder_transform e y
  | _ => Raise (AttributeError "object has no attribute 'transform'")
  end.

(** Rounding to the nearest integer, ties to even. *)
Definition round_half_even (x : Q) : Z :=
  let f := Qfloor x in
  let r := x - inject_Z f in
  if Qltb r (1 # 2) then f
  else if Qltb (1 # 2) r then (f + 1)%Z
  else if Z.even f then f else (f + 1)%Z.

(** [round(x, 2)] *)
Definition round2 (x : Q) : Q :=
  Qmake (round_half_even (x * 100)) 100.

(** [EquipmentMLModel.predict] *)
Definition predict (self : EquipmentMLModel) (equipment_type : string)
  : result Prediction :=
  if negb (truthy (is_trained self))
  then Raise (ValueError "Model not trained yet")
  else
    type_encoded ←
      match (codes ← attr_encoder_transform (label_encoder self)
                                            (equipment_type :: nil);
             item0 codes) with
      | Ok c => Ok c
      | Raise e => if is_ValueError e then Ok O else Raise e
      end;
    let X_pred := (inject_Z (Z.of_nat type_encoded) :: nil) :: nil in
    X_pred_scaled ← attr_scaler_transform (scaler_regression self) X_pred;
    flowrate ← (p ← attr_predict (model_flowrate self) X_pred_scaled; item0 p);
    pressure ← (p ← attr_predict (model_pressure self) X_pred_scaled; item0 p);
    temperature ← (p ← attr_predict (model_temperature self) X_pred_scaled; item0 p);
    Ok {| equipment_type := equipment_type;
          predicted_flowrate := round2 flowrate;
          predicted_pressure := round2 pressure;
          predicted_temperature := round2 temperature |}.

(** ** The file system *)

(** A path is the list of its components; the empty path is the root.  A
    file holds a pickled dict. *)
Record FS := mkFS {
  dirs : gset (list string);
  files : gmap (list string) (gmap string pyval)
}.

Definition is_dir (fs : FS) (p : list string) : bool :=
  bool_decide (p = nil) || bool_decide (p ∈ dirs fs).

Definition is_file (fs : FS) (p : list string) : bool :=
  bool_decide (is_Some (files fs !! p)).

(** [os.path.exists] *)
Definition path_exists (fs : FS) (p : list string) : bool :=
  is_dir fs p || is_file fs p.

(** [os.path.dirname] *)
Definition dirname (p : list string) : list string := removelast p.

(** [open(filepath, 'wb')] followed by [pickle.dump(model_data, f)]: the
    parent directory has to exist; the file is created or replaced. *)
Definition write_pickle (filepath : list string) (model_data : gmap string pyval)
           (fs : FS) : FS * result unit :=
  if is_dir fs filepath
  then (fs, Raise (IsADirectoryError "Is a directory"))
  else if is_file fs (dirname filepath)
  then (fs, Raise (NotADirectoryError "Not a directory"))
  else if negb (is_dir fs (dirname filepath))
  then (fs, Raise (FileNotFoundError "No such file or directory"))
  else (mkFS (dirs fs) (<[filepath := model_data]> (files fs)), Ok tt).

(** [open(filepath, 'rb')] followed by [pickle.load(f)] *)
Definition read_pickle (filepath : list string) (fs : FS)
  : result (gmap string pyval) :=
  match files fs !! filepath with
  | Some model_data => Ok model_data
  | None =>
    if is_dir fs filepath
    then Raise (IsADirectoryError "Is a directory")
    else Raise (FileNotFoundError "No such file or directory")
  end.

(** [os.mkdir] *)
Definition mkdir (name : list string) (fs : FS) : FS * result unit :=
  if path_exists fs name
  then (fs, Raise (FileExistsError "File exists"))
  else if is_file fs (dirname name)
  then (fs, Raise (NotADirectoryError "Not a directory"))
  else if negb (is_dir fs (dirname name))
  then (fs, Raise (FileNotFoundError "No such file or directory"))
  else (mkFS ({[ name ]} ∪ dirs fs) (files fs), Ok tt).

(** [os.makedirs(name, exist_ok=True)]: missing ancestors are made first
    (a [FileExistsError] from that recursion is ignored); an error of the
    final [mkdir] is ignored when the directory exists. *)
Fixpoint makedirs_rec (depth : nat) (name : list string) (fs : FS)
  : FS * result unit :=
  let head := dirname name in
  let '(fs1, r1) :=
    match depth with
    | O => (fs, Ok tt)
    | S depth' =>
      if negb (bool_decide (head = nil)) && negb (path_exists fs head)
      then
        match makedirs_rec depth' head fs with
        | (fs', Raise (FileExistsError _)) => (fs', Ok tt)
        | other => other
        end
      else (fs, Ok tt)
    end in
  match r1 with
  | Raise e => (fs1, Raise e)
  | Ok _ =>
    match mkdir name fs1 with
    | (fs2, Raise e) =>
      if is_dir fs2 name then (fs2, Ok tt) else (fs2, Raise e)
    | done => done
    end
  end.

Definition makedirs (name : list string) (fs : FS) : FS * result unit :=
  makedirs_rec (List.length name) name fs.

(** ** Persistence *)

(** [EquipmentMLModel.save_model] *)
Definition save_model (self : EquipmentMLModel) (filepath : list string) (fs : FS)
  : FS * result unit :=
  if negb (truthy (is_trained self))
  then (fs, Raise (ValueError "Model not trained yet"))
  else
    let model_data : gmap string pyval :=
      <["model_flowrate" := model_flowrate self]>
      (<["model_pressure" := model_pressure self]>
      (<["model_temperature" := model_temperature self]>
      (<["classifier_model" := classifier_model self]>
      (<["scaler_regression" := scaler_regression self]>
      (<["scaler_classification" := scaler_classification self]>
      (<["label_encoder" := label_encoder self]>
      (<["feature_names" := feature_names self]>
      (<["training_history" := training_history self]>
      (<["is_trained" := is_trained self]> ∅))))))))) in
    write_pickle filepath model_data fs.

(** [model_data[key]] *)
Definition dict_getitem (model_data : gmap string pyval) (key : string)
  : result pyval :=
  match model_data !! key with
  | Some v => Ok v
  | None => Raise (KeyError key)
  end.

(** [model_data.get(key, default)] *)
Definition dict_get (model_data : gmap string pyval) (key : string)
           (default : pyval) : pyval :=
  match model_data !! key with
  | Some v => v
  | None => default
  end.

(** [EquipmentMLModel.load_model]: the attributes are assigned one after
    the other, so an exception leaves the earlier ones assigned. *)
Definition load_model (filepath : list string) (fs : FS) : M unit :=
  if negb (path_exists fs filepath)
  then raise (FileNotFoundError "Model file not found")
  else
    model_data ← lift (read_pickle filepath fs);
    v ← lift (dict_getitem model_data "model_flowrate");
    _ ← set_attr set_model_flowrate v;
    v ← lift (dict_getitem model_data "model_pressure");
    _ ← set_attr set_model_pressure v;
    v ← lift (dict_getitem model_data "model_temperature");
    _ ← set_attr set_model_temperature v;
    _ ← set_attr set_classifier_model (dict_get model_data "classifier_model" PyNone);
    _ ← set_attr set_scaler_regression
          (dict_get model_data "scaler_regression" (PyScaler (mkScaler None)));
    _ ← set_attr set_scaler_classification
          (dict_get model_data "scaler_classification" (PyScaler (mkScaler None)));
    v ← lift (dict_getitem model_data "label_encoder");
    _ ← set_attr set_label_encoder v;
    v ← lift (dict_getitem model_data "feature_names");
    _ ← set_attr set_feature_names v;
    _ ← set_attr set_training_history
          (dict_get model_data "training_history" (PyDict ∅));
    v ← lift (dict_getitem model_data "is_trained");
    set_attr set_is_trained v.

(** The save sequence of the views ([upload_csv], [train_model]):
    [os.makedirs(model_dir, exist_ok=True)] and then [save_model]. *)
Definition model_dir (MEDIA_ROOT : list string) : list string :=
  MEDIA_ROOT ++ "ml_models" :: nil.

Definition save_user_model (MEDIA_ROOT : list string) (file_name : string)
           (ml_model : EquipmentMLModel) (fs : FS) : FS * result unit :=
  match makedirs (model_dir MEDIA_ROOT) fs with
  | (fs1, Raise e) => (fs1, Raise e)
  | (fs1, Ok _) => save_model ml_model (model_dir MEDIA_ROOT ++ file_name :: nil) fs1
  end.
(** * Type prediction and feature importance

    The remaining methods of [EquipmentMLModel]: [predict_type] and
    [get_feature_importance].  As for [predict], an attribute that holds
    another kind of object than the method expects is taken to lack the
    method ([AttributeError]). *)

(** ** [LabelEncoder.inverse_transform] *)

(** A code outside [0 .. len(classes_) - 1] is refused. *)
Definition decode_one (classes : list string) (code : nat) : result string :=
  match nth_error classes code with
  | Some s => Ok s
  | None => Raise (ValueError "y contains previously unseen labels")
  end.

Fixpoint decode_all (classes : list string) (y : list nat) : result (list string) :=
  match y with
  | nil => Ok nil
  | c :: y' =>
    s ← decode_one classes c;
    labels ← decode_all classes y';
    Ok (s :: labels)
  end.

Definition encoder_inverse_transform (e : LabelEncoder) (y : list nat)
  : result (list string) :=
  match classes_ e with
  | None => Raise (NotFittedError "This LabelEncoder instance is not fitted yet")
  | Some cs => decode_all cs y
  end.

(** [self.label_encoder.inverse_transform(y)] *)
Definition attr_encoder_inverse_transform (v : pyval) (y : list nat)
  : result (list string) :=
  match v with
  | PyEncoder e => encoder_inverse_transform e y
  | _ => Raise (AttributeError "object has no attribute 'inverse_transform'")
  end.

(** ** [predict_type] *)

Record TypePrediction := mkTypePrediction {
  predicted_type : string;
  confidence : Q;
  input_parameters : Q * Q * Q
}.

(** [x is None] *)
Definition is_None (v : pyval) : bool :=
  match v with
  | PyNone => true
  | _ => false
  end.

(** [max(xs)]: the first of the greatest elements; an empty sequence is
    refused. *)
Definition py_max (xs : list Q) : result Q :=
  match xs with
  | nil => Raise (ValueError "max() arg is an empty sequence")
  | x :: xs' => Ok (fold_left (fun m y => if Qltb m y then y else m) xs' x)
  end.

(** [self.classifier_model.predict(X)] *)
Definition attr_classifier_predict (v : pyval) (X : list (list Q))
  : result (list nat) :=
  match v with
  | PyClassifier c => Ok (map (clf_predict c) X)
  | _ => Raise (AttributeError "object has no attribute 'predict'")
  end.

Section TypePrediction.

(** [classifier.predict_proba]: the class probabilities the fitted
    classifier gives one (scaled) feature vector. *)
Variable predict_proba : Classifier -> list Q -> list Q.

(** [self.classifier_model.predict_proba(X)] *)
Definition attr_predict_proba (v : pyval) (X : list (list Q))
  : result (list (list Q)) :=
  match v with
  | PyClassifier c => Ok (map (predict_proba c) X)
  | _ => Raise (AttributeError "object has no attribute 'predict_proba'")
  end.

(** [EquipmentMLModel.predict_type] *)
Definition predict_type (self : EquipmentMLModel) (flowrate pressure temperature : Q)
  : result TypePrediction :=
  if negb (truthy (is_trained self)) || is_None (classifier_model self)
  then Raise (ValueError "Classification model not trained yet")
  else
    let X_pred := (flowrate :: pressure :: temperature :: nil) :: nil in
    X_pred_scaled ← attr_scaler_transform (scaler_classification self) X_pred;
    predicted_type_encoded ←
      (p ← attr_classifier_predict (classifier_model self) X_pred_scaled; item0 p);
    predicted_type ←
      (l ← attr_encoder_inverse_transform (label_encoder self)
                                          (predicted_type_encoded :: nil);
       item0 l);
    probabilities ←
      (p ← attr_predict_proba (classifier_model self) X_pred_scaled; item0 p);
    confidence ← py_max probabilities;
    Ok {| predicted_type := predicted_type;
          confidence := round2 (confidence * 100);
          input_parameters := (flowrate, pressure, temperature) |}.

End TypePrediction.

(** ** [get_feature_importance] *)

(** An entry of the importance dict: [{'features': ..., 'importance': ...}]. *)
Record Importance := mkImportance {
  imp_features : pyval;
  imp_importance : list Q
}.

(** [hasattr(model, 'feature_importances_')]: a fitted forest or boosting
    model has the attribute, a linear model and [None] do not. *)
Definition has_feature_importances (v : pyval) : bool :=
  match v with
  | PyRegressor r =>
    match reg_algo r with
    | LinearRegression => false
    | _ => true
    end
  | PyClassifier _ => true
  | _ => false
  end.

Section FeatureImportance.

(** [model.feature_importances_.tolist()] of a fitted estimator. *)
Variable regressor_importances : Regressor -> list Q.
Variable classifier_importances : Classifier -> list Q.

Definition feature_importances (v : pyval) : list Q :=
  match v with
  | PyRegressor r => regressor_importances r
  | PyClassifier c => classifier_importances c
  | _ => nil
  end.

(** One of the three [if hasattr(...)] blocks for the regression models. *)
Definition importance_entry (importance_data : gmap string Importance)
           (key : string) (model : pyval) (names : pyval)
  : gmap string Importance :=
  if has_feature_importances model
  then <[key := mkImportance names (feature_importances model)]> importance_data
  else importance_data.

(** [EquipmentMLModel.get_feature_importance] *)
Definition get_feature_importance (self : EquipmentMLModel)
  : result (gmap string Importance) :=
  if negb (truthy (is_trained self))
  then Raise (ValueError "Model not trained yet")
  else
    let importance_data : gmap string Importance := ∅ in
    let importance_data :=
        importance_entry importance_data "flowrate"
                         (model_flowrate self) (feature_names self) in
    let importance_data :=
        importance_entry importance_data "pressure"
                         (model_pressure self) (feature_names self) in
    let importance_data :=
        importance_entry importance_data "temperature"
                         (model_temperature self) (feature_names self) in
    let importance_data :=
        if truthy (classifier_model self)
           && has_feature_importances (classifier_model self)
        then <["classification" :=
                 mkImportance
                   (PyList ("Flowrate" :: "Pressure" :: "Temperature" :: nil))
                   (feature_importances (classifier_model self))]> importance_data
        else importance_data in
    Ok importance_data.

End FeatureImportance.
(** * Upload statistics: [process_csv_file] of [backend/api/utils.py]

    The function reads the uploaded file with [pd.read_csv]; the model
    starts from the frame that call returns, restricted to what the
    function looks at: the column names and, per row, the five required
    fields.  A numeric cell is what [pd.to_numeric(..., errors='coerce')]
    makes of it: a number, or NaN for anything else.  A [Type] cell that
    is empty in the file is NaN in the frame; [read_csv] returns no
    empty string, so the row holds the empty string for that NaN. *)

Record ParsedCsv := mkCsv {
  csv_columns : list string;
  csv_rows : DataFrame
}.

Definition required_columns : list string :=
  "Equipment Name" :: "Type" :: "Flowrate" :: "Pressure" :: "Temperature" :: nil.

Definition Qmin2 (a b : Q) : Q := if Qle_bool a b then a else b.
Definition Qmax2 (a b : Q) : Q := if Qle_bool a b then b else a.

(** [Series.min()] and [Series.max()] *)
Definition series_min (l : list cell) : cell :=
  match dropna l with
  | nil => None
  | x :: xs => Some (fold_left Qmin2 xs x)
  end.

Definition series_max (l : list cell) : cell :=
  match dropna l with
  | nil => None
  | x :: xs => Some (fold_left Qmax2 xs x)
  end.

(** [round(x, 2)] on a float that may be NaN. *)
Definition round2_cell (v : cell) : cell := option_map round2 v.

(** The labels of the [Type] column that are not NaN. *)
Definition present_types (df : DataFrame) : list string :=
  List.filter (fun t => negb (String.eqb t EmptyString)) (map Type_ df).

(** [Series.value_counts().to_dict()] on the labels that are not NaN
    ([dropna=True]): how often each label occurs. *)
Definition value_counts (labels : list string) : gmap string nat :=
  fold_right (fun t d => <[t := S (default O (d !! t))]> d) ∅ labels.

(** An entry of [ranges]. *)
Record Range := mkRange {
  range_min : cell;
  range_max : cell;
  range_std_dev : cell
}.

(** An entry of [type_wise_breakdown]. *)
Record TypeBreakdown := mkTypeBreakdown {
  tb_count : nat;
  tb_avg_flowrate : cell;
  tb_avg_pressure : cell;
  tb_avg_temperature : cell;
  tb_min_flowrate : cell;
  tb_max_flowrate : cell;
  tb_min_pressure : cell;
  tb_max_pressure : cell;
  tb_min_temperature : cell;
  tb_max_temperature : cell
}.

(** The dict [process_csv_file] returns. *)
Record ProcessedData := mkProcessedData {
  pd_count : nat;
  pd_equipment_types_count : nat;
  pd_avg_flowrate : cell;
  pd_avg_pressure : cell;
  pd_avg_temperature : cell;
  pd_type_distribution : gmap string nat;
  pd_ranges : numeric_col -> Range;
  pd_type_wise_breakdown : gmap string TypeBreakdown;
  pd_raw_data : DataFrame
}.

(** [df[df['Type'] == equipment_type]] *)
Definition rows_of_type (df : DataFrame) (equipment_type : string) : DataFrame :=
  List.filter (fun r => String.eqb (Type_ r) equipment_type) df.

Section ProcessCsv.

(** [Series.mean()] and [Series.std()] of the values that are not NaN, as
    pandas computes them in double precision: the mean of one value or
    more, the sample standard deviation ([ddof=1]) of two or more. *)
Variable float_mean : list Q -> Q.
Variable float_std : list Q -> Q.

(** [round(x, 2)] on a [numpy.float64], which is numpy's rounding. *)
Variable np_round2 : Q -> Q.

(** [Series.mean()]: NaN are skipped, and the mean of no value is NaN. *)
Definition series_mean (l : list cell) : cell :=
  match dropna l with
  | nil => None
  | xs => Some (float_mean xs)
  end.

(** [Series.std()]: NaN below two values. *)
Definition series_std (l : list cell) : cell :=
  let xs := dropna l in
  if (List.length xs <? 2)%nat then None
  else Some (float_std xs).

(** An entry of [type_wise_breakdown]; the averages go through
    [round(float(...), 2)], Python's rounding of a float. *)
Definition type_breakdown (df : DataFrame) (equipment_type : string) : TypeBreakdown :=
  let type_df := rows_of_type df equipment_type in
  {| tb_count := List.length type_df;
     tb_avg_flowrate := round2_cell (series_mean (column ColFlowrate type_df));
     tb_avg_pressure := round2_cell (series_mean (column ColPressure type_df));
     tb_avg_temperature := round2_cell (series_mean (column ColTemperature type_df));
     tb_min_flowrate := series_min (column ColFlowrate type_df);
     tb_max_flowrate := series_max (column ColFlowrate type_df);
     tb_min_pressure := series_min (column ColPressure type_df);
     tb_max_pressure := series_max (column ColPressure type_df);
     tb_min_temperature := series_min (column ColTemperature type_df);
     tb_max_temperature := series_max (column ColTemperature type_df) |}.

(** [process_csv_file], from the parsed frame on.  Every exception is
    re-raised as a [ValueError] whose message starts with
    ["Error processing CSV file: "]; on numeric columns the z-score
    computation does not raise, so the inner [except] is never taken. *)
Definition process_csv_file (csv : ParsedCsv) : result ProcessedData :=
  let missing_columns :=
      List.filter (fun col => negb (existsb (String.eqb col) (csv_columns csv)))
                  required_columns in
  if negb (Nat.eqb (List.length missing_columns) 0)
  then Raise (ValueError ("Error processing CSV file: "
                            ++ "Missing required columns: "
                            ++ String.concat ", " missing_columns))
  else
    let df := fill_missing (csv_rows csv) in
    let df := if (5 <? List.length df)%nat then remove_outliers df else df in
    let total_count := List.length df in
    let avg_flowrate := series_mean (column ColFlowrate df) in
    let avg_pressure := series_mean (column ColPressure df) in
    let avg_temperature := series_mean (column ColTemperature df) in
    let type_distribution := value_counts (present_types df) in
    let equipment_types_count := size type_distribution in
    let ranges c :=
        {| range_min := series_min (column c df);
           range_max := series_max (column c df);
           range_std_dev := series_std (column c df) |} in
    let type_wise_breakdown :=
        map_imap (fun equipment_type _ => Some (type_breakdown df equipment_type))
                 type_distribution in
    Ok {| pd_count := total_count;
          pd_equipment_types_count := equipment_types_count;
          pd_avg_flowrate := option_map np_round2 avg_flowrate;
          pd_avg_pressure := option_map np_round2 avg_pressure;
          pd_avg_temperature := option_map np_round2 avg_temperature;
          pd_type_distribution := type_distribution;
          pd_ranges := ranges;
          pd_type_wise_breakdown := type_wise_breakdown;
          pd_raw_data := df |}.

End ProcessCsv.
(** * Upload history and the views that use the model

    [DatasetHistory] of [backend/api/models.py] and the machine-learning
    views of [backend/api/views.py].  The table is the list of its rows;
    a request is given by the fields the view reads (the user's id and
    the JSON values, a number being a rational and an absent or null
    value [None]); a response is its status and its body. *)

From Stdlib Require DecimalString DecimalNat.

(** ** The metrics as the views flatten them *)

(** [ml_metrics_flat] of [upload_csv] *)
Record FlatMetrics := mkFlatMetrics {
  fm_training_samples : nat;
  fm_test_samples : nat;
  fm_total_samples : nat;
  fm_equipment_types : list string;
  fm_flowrate : ParamMetrics;
  fm_pressure : ParamMetrics;
  fm_temperature : ParamMetrics;
  fm_classification : ClassificationMetrics
}.

Definition flatten_metrics (ml_metrics : RegressionMetrics * ClassificationMetrics)
  : FlatMetrics :=
  let '(regression, classification) := ml_metrics in
  {| fm_training_samples := rm_training_samples regression;
     fm_test_samples := rm_test_samples regression;
     fm_total_samples := rm_total_samples regression;
     fm_equipment_types := rm_equipment_types regression;
     fm_flowrate := rm_flowrate regression;
     fm_pressure := rm_pressure regression;
     fm_temperature := rm_temperature regression;
     fm_classification := classification |}.

(** ** The table *)

(** A row of [DatasetHistory], with the fields this development reads or
    writes. *)
Record DatasetHistory := mkDataset {
  ds_id : nat;
  ds_filename : string;
  ds_uploaded_at : Z;
  ds_user : nat;
  ds_raw_data : DataFrame;
  ds_ml_metrics : option FlatMetrics
}.

(** [DatasetHistory.objects.filter(user=user)] *)
Definition objects_filter (table : list DatasetHistory) (user : nat)
  : list DatasetHistory :=
  List.filter (fun d => Nat.eqb (ds_user d) user) table.

(** [DatasetHistory.objects.get(id=dataset_id, user=user)]; [None] stands
    for [DoesNotExist]. *)
Definition objects_get (table : list DatasetHistory) (dataset_id user : nat)
  : option DatasetHistory :=
  List.find (fun d => Nat.eqb (ds_id d) dataset_id && Nat.eqb (ds_user d) user) table.

(** [dataset.delete()]: the row of that primary key goes. *)
Definition delete_row (dataset : DatasetHistory) (table : list DatasetHistory)
  : list DatasetHistory :=
  List.filter (fun r => negb (Nat.eqb (ds_id r) (ds_id dataset))) table.

(** ** Responses *)

(** What a view's [except Exception as e] can catch: an exception of the
    model, or Django's [FieldError]. *)
Inductive view_exn :=
| ModelError (e : exn)
| FieldError (msg : string).

(** [{'error': msg}] and [{'error': f'<prefix>{str(e)}'}] *)
Inductive ErrorBody :=
| ErrorMessage (msg : string)
| ErrorOf (prefix : string) (e : view_exn).

Record Response (A : Type) := mkResponse {
  status : nat;
  data : A
}.
Arguments mkResponse {A} status data.
Arguments status {A} r.
Arguments data {A} r.

Definition HTTP_200_OK : nat := 200.
Definition HTTP_400_BAD_REQUEST : nat := 400.
Definition HTTP_404_NOT_FOUND : nat := 404.
Definition HTTP_500_INTERNAL_SERVER_ERROR : nat := 500.

(** ** Model files *)

(** [f'model_user_{user_id}.pkl'] *)
Definition user_model_file (user_id : nat) : string :=
  "model_user_"
    ++ DecimalString.NilEmpty.string_of_uint (Nat.to_uint user_id)
    ++ ".pkl".

(** ** Reading the history back *)

(** [h and 'regression' in h], and [h['regression']] when that holds.
    The attribute is whatever the pickled dict held: a dict answers by
    its keys; a list by its elements, and then cannot be indexed by a
    string; a forest or boosting model iterates over its estimators,
    none of which equals the string; the other objects cannot be
    searched at all. *)
Definition history_regression (h : pyval) : result (option Metrics) :=
  match h with
  | PyNone => Ok None
  | PyBool b =>
    if b then Raise (TypeError "argument of type 'bool' is not iterable")
    else Ok None
  | PyDict d => Ok (d !! "regression")
  | PyList l =>
    if existsb (String.eqb "regression") l
    then Raise (TypeError "list indices must be integers or slices, not str")
    else Ok None
  | PyRegressor r =>
    match reg_algo r with
    | LinearRegression =>
      Raise (TypeError "argument of type 'LinearRegression' is not iterable")
    | _ => Ok None
    end
  | PyClassifier _ => Ok None
  | PyScaler _ =>
    Raise (TypeError "argument of type 'StandardScaler' is not iterable")
  | PyEncoder _ =>
    Raise (TypeError "argument of type 'LabelEncoder' is not iterable")
  end.

(** [metrics.get(<target>, {}).get('r2_score')] *)
Definition metrics_r2 (metrics : Metrics) (t : target) : option float :=
  match metrics with
  | MReg m =>
    Some (pm_r2_score match t with
                      | TFlowrate => rm_flowrate m
                      | TPressure => rm_pressure m
                      | TTemperature => rm_temperature m
                      end)
  | _ => None
  end.

(** [metrics.get('training_samples')] *)
Definition metrics_training_samples (metrics : Metrics) : option nat :=
  match metrics with
  | MReg m => Some (rm_training_samples m)
  | MCls m => Some (cm_training_samples m)
  | NoMetrics => None
  end.

(** [metrics.get('total_samples')] *)
Definition metrics_total_samples (metrics : Metrics) : option nat :=
  match metrics with
  | MReg m => Some (rm_total_samples m)
  | _ => None
  end.

(** [prediction['metrics']] of [predict_parameters] *)
Record PredictionMetrics := mkPredictionMetrics {
  pmx_flowrate_r2 : option float;
  pmx_pressure_r2 : option float;
  pmx_temperature_r2 : option float;
  pmx_training_samples : option nat
}.

(** [model_metrics] of [get_all_predictions] *)
Record ModelMetrics := mkModelMetrics {
  mm_flowrate_r2 : option float;
  mm_pressure_r2 : option float;
  mm_temperature_r2 : option float;
  mm_training_samples : option nat;
  mm_total_samples : option nat
}.

(** The body of [get_all_predictions]: [model_metrics] is [None] for
    [{}]. *)
Record AllPredictions := mkAllPredictions {
  ap_predictions : list Prediction;
  ap_model_metrics : option ModelMetrics;
  ap_total_types : nat
}.

(** The truth value of a JSON number ([if not all([...])]). *)
Definition number_given (x : option Q) : bool :=
  match x with
  | Some q => negb (Qeq_bool q 0)
  | None => false
  end.

Section Views.

(** The learners and the shuffle, as for [train]. *)
Variable permutation : nat -> list nat.
Variable stratified_indices : list nat -> nat -> nat -> list nat * list nat.
Variable np_sqrt : Q -> Q.
Variable fit_regressor : algorithm -> list (list Q) -> list Q -> list Q -> Q.
Variable fit_classifier : list (list Q) -> list nat -> list Q -> nat.
Variable predict_proba : Classifier -> list Q -> list Q.
Variable regressor_importances : Regressor -> list Q.
Variable classifier_importances : Classifier -> list Q.

(** [settings.MEDIA_ROOT] *)
Variable MEDIA_ROOT : list string.

(** [QuerySet.order_by('-uploaded_at')], also the default ordering of the
    model: the rows by decreasing upload time; the order among rows
    uploaded at the same time is the database's. *)
Variable order_by_uploaded_at_desc : list DatasetHistory -> list DatasetHistory.

(** [os.path.join(settings.MEDIA_ROOT, 'ml_models',
    f'model_user_{request.user.id}.pkl')] *)
Definition model_path (user_id : nat) : list string :=
  model_dir MEDIA_ROOT ++ user_model_file user_id :: nil.

(** [DatasetHistory.cleanup_old_records] *)
Definition cleanup_old_records (user : nat) (keep_last : nat)
           (table : list DatasetHistory) : list DatasetHistory :=
  let user_datasets := order_by_uploaded_at_desc (objects_filter table user) in
  if (keep_last <? List.length user_datasets)%nat
  then
    let datasets_to_delete := skipn keep_last user_datasets in
    fold_left (fun t dataset => delete_row dataset t) datasets_to_delete table
  else table.

(** The "auto-train" block of [upload_csv]: the rows of all the user's
    datasets are concatenated; with ten rows or more a new model is
    trained, its metrics flattened, the model saved and the metrics
    stored on the uploaded dataset.  Any exception ends the block
    silently; the response carries [ml_metrics] as soon as training
    returned.  Results: the file system, the [ml_metrics] of the
    response, and the metrics stored on the dataset. *)
Definition auto_train (user_id : nat) (table : list DatasetHistory) (fs : FS)
  : FS * option FlatMetrics * option FlatMetrics :=
  let all_datasets := order_by_uploaded_at_desc (objects_filter table user_id) in
  let raw_data := flat_map ds_raw_data all_datasets in
  if (10 <=? List.length raw_data)%nat
  then
    match train permutation stratified_indices np_sqrt fit_regressor fit_classifier
                raw_data (mkState init nil) with
    | (_, Raise _) => (fs, None, None)
    | (ml_model, Ok ml_metrics) =>
      let ml_metrics_flat := flatten_metrics ml_metrics in
      match save_user_model MEDIA_ROOT (user_model_file user_id) (obj ml_model) fs with
      | (fs', Raise _) => (fs', Some ml_metrics_flat, None)
      | (fs', Ok _) => (fs', Some ml_metrics_flat, Some ml_metrics_flat)
      end
    end
  else (fs, None, None).

(** [DatasetHistory.objects.filter(...).order_by('-timestamp')] of
    [train_model]: [DatasetHistory] has no field [timestamp] (the upload
    time is [uploaded_at]), and Django refuses to order by a name that
    is no field. *)
Definition order_by_timestamp_desc (rows : list DatasetHistory)
  : view_exn + list DatasetHistory :=
  inl (FieldError "Cannot resolve keyword 'timestamp' into field").

(** The body of a successful [train_model]. *)
Definition TrainData : Type := RegressionMetrics * ClassificationMetrics.

(** [train_model]; [dataset_id] is [request.data.get('dataset_id')]. *)
Definition train_model (user_id : nat) (dataset_id : option nat)
           (table : list DatasetHistory) (fs : FS)
  : FS * Response (ErrorBody + TrainData) :=
  let failure e :=
      mkResponse HTTP_500_INTERNAL_SERVER_ERROR
                 (inl (ErrorOf "Error training model: " e)) in
  let train_on (raw_data : DataFrame) :=
      if (List.length raw_data <? 10)%nat
      then (fs, mkResponse HTTP_400_BAD_REQUEST
                  (inl (ErrorMessage
                          "Insufficient data for training. Need at least 10 samples.")))
      else
        match train permutation stratified_indices np_sqrt fit_regressor
                    fit_classifier raw_data (mkState init nil) with
        | (_, Raise e) => (fs, failure (ModelError e))
        | (ml_model, Ok metrics) =>
          match save_user_model MEDIA_ROOT (user_model_file user_id)
                                (obj ml_model) fs with
          | (fs', Raise e) => (fs', failure (ModelError e))
          | (fs', Ok _) => (fs', mkResponse HTTP_200_OK (inr metrics))
          end
        end in
  match dataset_id with
  | Some (S _ as id) =>
    match objects_get table id user_id with
    | None => (fs, mkResponse HTTP_404_NOT_FOUND
                     (inl (ErrorMessage "Dataset not found")))
    | Some dataset => train_on (ds_raw_data dataset)
    end
  | _ =>
    match order_by_timestamp_desc (objects_filter table user_id) with
    | inl e => (fs, failure e)
    | inr datasets =>
      if Nat.eqb (List.length datasets) 0
      then (fs, mkResponse HTTP_400_BAD_REQUEST
                  (inl (ErrorMessage "No datasets available for training")))
      else train_on (flat_map ds_raw_data datasets)
    end
  end.

(** [predict_parameters]; [equipment_type] is
    [request.data.get('equipment_type')], a string or nothing. *)
Definition predict_parameters (user_id : nat) (equipment_type : option string)
           (fs : FS)
  : Response (ErrorBody + Prediction * option PredictionMetrics) :=
  let failure e :=
      mkResponse HTTP_500_INTERNAL_SERVER_ERROR
                 (inl (ErrorOf "Error making prediction: " (ModelError e))) in
  match equipment_type with
  | None | Some EmptyString =>
    mkResponse HTTP_400_BAD_REQUEST
               (inl (ErrorMessage "equipment_type field is required"))
  | Some equipment_type =>
    if negb (path_exists fs (model_path user_id))
    then mkResponse HTTP_400_BAD_REQUEST
                    (inl (ErrorMessage
                            "Model not trained yet. Please train the model first."))
    else
      match load_model (model_path user_id) fs (mkState init nil) with
      | (_, Raise e) => failure e
      | (ml_model, Ok _) =>
        match predict (obj ml_model) equipment_type with
        | Raise e => failure e
        | Ok prediction =>
          match history_regression (training_history (obj ml_model)) with
          | Raise e => failure e
          | Ok None => mkResponse HTTP_200_OK (inr (prediction, None))
          | Ok (Some metrics) =>
            mkResponse HTTP_200_OK
              (inr (prediction,
                    Some {| pmx_flowrate_r2 := metrics_r2 metrics TFlowrate;
                            pmx_pressure_r2 := metrics_r2 metrics TPressure;
                            pmx_temperature_r2 := metrics_r2 metrics TTemperature;
                            pmx_training_samples :=
                              metrics_training_samples metrics |}))
          end
        end
      end
  end.

(** [predict_equipment_type]; a parameter that is absent, null or zero
    counts as not given. *)
Definition predict_equipment_type (user_id : nat)
           (flowrate pressure temperature : option Q) (fs : FS)
  : Response (ErrorBody + TypePrediction) :=
  let failure e :=
      mkResponse HTTP_500_INTERNAL_SERVER_ERROR
                 (inl (ErrorOf "Error making prediction: " (ModelError e))) in
  match flowrate, pressure, temperature with
  | Some f, Some p, Some t =>
    if negb (number_given flowrate && number_given pressure
             && number_given temperature)
    then mkResponse HTTP_400_BAD_REQUEST
                    (inl (ErrorMessage
                            "All parameters (flowrate, pressure, temperature) are required"))
    else if negb (path_exists fs (model_path user_id))
    then mkResponse HTTP_400_BAD_REQUEST
                    (inl (ErrorMessage
                            "Model not trained yet. Please train the model first."))
    else
      match load_model (model_path user_id) fs (mkState init nil) with
      | (_, Raise e) => failure e
      | (ml_model, Ok _) =>
        match predict_type predict_proba (obj ml_model) f p t with
        | Raise e => failure e
        | Ok prediction => mkResponse HTTP_200_OK (inr prediction)
        end
      end
  | _, _, _ =>
    mkResponse HTTP_400_BAD_REQUEST
               (inl (ErrorMessage
                       "All parameters (flowrate, pressure, temperature) are required"))
  end.

(** The view [get_feature_importance] *)
Definition get_feature_importance_view (user_id : nat) (fs : FS)
  : Response (ErrorBody + gmap string Importance) :=
  let failure e :=
      mkResponse HTTP_500_INTERNAL_SERVER_ERROR
                 (inl (ErrorOf "Error getting feature importance: " (ModelError e))) in
  if negb (path_exists fs (model_path user_id))
  then mkResponse HTTP_400_BAD_REQUEST
                  (inl (ErrorMessage
                          "Model not trained yet. Please train the model first."))
  else
    match load_model (model_path user_id) fs (mkState init nil) with
    | (_, Raise e) => failure e
    | (ml_model, Ok _) =>
      match get_feature_importance regressor_importances classifier_importances
                                   (obj ml_model) with
      | Raise e => failure e
      | Ok importance => mkResponse HTTP_200_OK (inr importance)
      end
    end.

(** [get_all_predictions]: one prediction per equipment type of the
    user's datasets, in sorted order; a type whose prediction raises is
    left out.  Without a model file the answer is an empty list, with
    status 200. *)
Definition get_all_predictions (user_id : nat) (table : list DatasetHistory)
           (fs : FS) : Response (ErrorBody + AllPredictions) :=
  let failure e :=
      mkResponse HTTP_500_INTERNAL_SERVER_ERROR
                 (inl (ErrorOf "Error generating predictions: " (ModelError e))) in
  if negb (path_exists fs (model_path user_id))
  then mkResponse HTTP_200_OK
                  (inr {| ap_predictions := nil;
                          ap_model_metrics := None;
                          ap_total_types := 0 |})
  else
    match load_model (model_path user_id) fs (mkState init nil) with
    | (_, Raise e) => failure e
    | (ml_model, Ok _) =>
      let datasets := order_by_uploaded_at_desc (objects_filter table user_id) in
      let equipment_types :=
          np_unique (map Type_ (flat_map ds_raw_data datasets)) in
      let predictions :=
          omap (fun eq_type =>
                  match predict (obj ml_model) eq_type with
                  | Ok pred => Some pred
                  | Raise _ => None
                  end)
               equipment_types in
      match history_regression (training_history (obj ml_model)) with
      | Raise e => failure e
      | Ok model_metrics =>
        mkResponse HTTP_200_OK
          (inr {| ap_predictions := predictions;
                  ap_model_metrics :=
                    option_map
                      (fun metrics =>
                         {| mm_flowrate_r2 := metrics_r2 metrics TFlowrate;
                            mm_pressure_r2 := metrics_r2 metrics TPressure;
                            mm_temperature_r2 := metrics_r2 metrics TTemperature;
                            mm_training_samples := metrics_training_samples metrics;
                            mm_total_samples := metrics_total_samples metrics |})
                      model_metrics;
                  ap_total_types := List.length predictions |})
      end
    end.

End Views.

(** * Specification-side predicates and sample data *)

Section RealZscore.
Import Reals.
Local Open Scope R_scope.

(** The z-score as [stats.zscore] defines it, on real numbers. *)
Definition zscore (mu var x : R) : R := (x - mu) / sqrt var.

End RealZscore.

(** A value's z-score is defined and strictly below 3 in absolute value:
    the column [xs] has a positive variance and the squared deviation of
    [x] is below nine times it. *)
Definition zscore_below_3 (xs : list Q) (x : Q) : Prop :=
  0 < variance xs /\ Qsq (x - mean xs) < 9 * variance xs.

(** A value's z-score is defined and exceeds 3 in absolute value. *)
Definition zscore_exceeds_3 (xs : list Q) (x : Q) : Prop :=
  0 < variance xs /\ 9 * variance xs < Qsq (x - mean xs).

(** A column the z-score filter can work on: no NaN is left in it and its
    values are not all equal. *)
Definition nondegenerate (l : list cell) : Prop :=
  existsb isnull l = false /\ 0 < variance (dropna l).

Definition one_pump : DataFrame :=
  mkRow "P-101" "Pump" (Some 120) (Some 5) (Some 80) :: nil.

Definition two_rows : DataFrame :=
  mkRow "P-101" "Pump" (Some 120) (Some 5) (Some 80)
  :: mkRow "V-201" "Valve" (Some 60) (Some 4) (Some 105) :: nil.


(** Nine rows with flowrate 0 and one with flowrate 10: the flowrates
    have mean 1 and standard deviation 3. *)
Definition boundary_rows : DataFrame :=
  map (fun k => mkRow "E" "Pump" (Some 0) (Some (inject_Z k)) (Some (inject_Z (k * k))))
      (1 :: 2 :: 3 :: 4 :: 5 :: 6 :: 7 :: 8 :: 9 :: nil)%Z
  ++ mkRow "E" "Pump" (Some 10) (Some 5) (Some 30) :: nil.

(** The selection the three loops perform, on its own: the running best
    score and the candidate retained so far. *)
Fixpoint selectBest (score : algorithm -> float) (cands : list algorithm)
         (best : float) (winner : option algorithm) : float * option algorithm :=
  match cands with
  | nil => (best, winner)
  | a :: cands' =>
    if float_gt (score a) best
    then selectBest score cands' (score a) (Some a)
    else selectBest score cands' best winner
  end.

(** The object after a loop that retained [winner]. *)
Definition retain (fit_regressor : algorithm -> list (list Q) -> list Q -> list Q -> Q)
           (t : target) (X_train : list (list Q)) (y_train : list Q)
           (winner : option algorithm) (o : EquipmentMLModel) : EquipmentMLModel :=
  match winner with
  | Some a =>
    set_model t (PyRegressor (mkRegressor a (fit_regressor a X_train y_train))) o
  | None => o
  end.

(** The metrics entry of a regression target. *)
Definition target_metrics (t : target) (m : RegressionMetrics) : ParamMetrics :=
  match t with
  | TFlowrate => rm_flowrate m
  | TPressure => rm_pressure m
  | TTemperature => rm_temperature m
  end.

(** The feature column [prepare_data] builds: the code of each cleaned
    row's type. *)
Definition encoded_types (df : DataFrame) : list (list Q) :=
  map (fun c => inject_Z (Z.of_nat c) :: nil)
      (snd (encoder_fit_transform (map Type_ (clean_data df)))).

(** The target values [prepare_data] returns. *)
Definition target_values (t : target) (df : DataFrame) : list Q :=
  dropna (column (target_col t) (clean_data df)).

(** [a], with score [qa], is the first candidate no candidate beats: the
    candidates before it score strictly less, those after it at most as
    much. *)
Definition best_candidate (score : algorithm -> float) (cands : list algorithm)
           (a : algorithm) (qa : Q) : Prop :=
  score a = Fin qa
  /\ exists pre post,
      cands = pre ++ a :: post
      /\ (forall c, In c pre -> exists q, score c = Fin q /\ q < qa)
      /\ (forall c, In c post -> exists q, score c = Fin q /\ q <= qa).

(** *** Sample learners and data, to run the pipeline on *)

(** A shuffle that leaves the rows in place. *)
Definition sample_permutation (n : nat) : list nat := seq 0 n.

Definition sample_stratified_indices (y : list nat) (n_train n_test : nat)
  : list nat * list nat :=
  (seq n_test n_train, seq 0 n_test).

(** One Babylonian step from 1. *)
Definition sample_sqrt (x : Q) : Q := (1 + x) / 2.

(** The forest predicts the mean of its training targets, the boosting
    model 0, the linear model the mean shifted by the feature. *)
Definition sample_fit_regressor (a : algorithm) (X : list (list Q)) (y : list Q)
  : list Q -> Q :=
  match a with
  | RandomForestRegressor => fun _ => mean y
  | GradientBoostingRegressor => fun _ => 0
  | LinearRegression => fun x => mean y + hd 0 x
  | RandomForestClassifier => fun _ => 0
  end.

(** The classifier predicts the first label it was trained on. *)
Definition sample_fit_classifier (X : list (list Q)) (y : list nat)
  : list Q -> nat :=
  fun _ => hd O y.

Definition six_rows : DataFrame :=
  mkRow "P-101" "Pump" (Some 120) (Some 5) (Some 80)
  :: mkRow "V-201" "Valve" (Some 60) (Some 4) (Some 105)
  :: mkRow "P-102" "Pump" (Some 130) (Some 6) (Some 85)
  :: mkRow "V-202" "Valve" (Some 65) (Some 3) (Some 100)
  :: mkRow "P-103" "Pump" (Some 125) (Some 7) (Some 90)
  :: mkRow "R-301" "Reactor" (Some 90) (Some 9) (Some 150) :: nil.

(** Five pumps and five valves. *)
Definition ten_rows : DataFrame :=
  mkRow "P-101" "Pump" (Some 120) (Some 5) (Some 80)
  :: mkRow "V-201" "Valve" (Some 60) (Some 4) (Some 105)
  :: mkRow "P-102" "Pump" (Some 130) (Some 6) (Some 85)
  :: mkRow "V-202" "Valve" (Some 65) (Some 3) (Some 100)
  :: mkRow "P-103" "Pump" (Some 125) (Some 7) (Some 90)
  :: mkRow "V-203" "Valve" (Some 70) (Some 4) (Some 110)
  :: mkRow "P-104" "Pump" (Some 135) (Some 5) (Some 95)
  :: mkRow "V-204" "Valve" (Some 55) (Some 2) (Some 115)
  :: mkRow "P-105" "Pump" (Some 140) (Some 6) (Some 75)
  :: mkRow "V-205" "Valve" (Some 75) (Some 3) (Some 120) :: nil.

(** Two rows with the same pressure. *)
Definition same_pressure : DataFrame :=
  mkRow "P-101" "Pump" (Some 120) (Some 5) (Some 80)
  :: mkRow "V-201" "Valve" (Some 60) (Some 5) (Some 105) :: nil.

Definition fresh : TrainState := mkState init nil.

(** An object whose preprocessing attributes and history are what
    [__init__] creates and training keeps: an encoder, two scalers, a
    dict. *)
Definition constructed (o : EquipmentMLModel) : Prop :=
  (exists e, label_encoder o = PyEncoder e)
  /\ (exists sc, scaler_regression o = PyScaler sc)
  /\ (exists sc, scaler_classification o = PyScaler sc)
  /\ (exists h, training_history o = PyDict h).

(** The labels, features and codes [train_classification_model] works on. *)
Definition cleaned_types (df : DataFrame) : list string :=
  map Type_ (clean_data df).

Definition classification_X (df : DataFrame) : list (list Q) :=
  omap features (clean_data df).

Definition classification_y (df : DataFrame) : list nat :=
  snd (encoder_fit_transform (cleaned_types df)).

(** Number of rows of a class. *)
Definition class_count (types : list string) (label : string) : nat :=
  count_occ string_dec types label.

(** The code [fit_transform] gives a label. *)
Definition code_of (cs : list string) (s : string) : nat :=
  match index_of s cs with
  | Some i => i
  | None => O
  end.


(** *** A trained bundle and disks, to run persistence on *)

(** The dict [save_model] pickles. *)
Definition pickled (self : EquipmentMLModel) : gmap string pyval :=
  <["model_flowrate" := model_flowrate self]>
  (<["model_pressure" := model_pressure self]>
  (<["model_temperature" := model_temperature self]>
  (<["classifier_model" := classifier_model self]>
  (<["scaler_regression" := scaler_regression self]>
  (<["scaler_classification" := scaler_classification self]>
  (<["label_encoder" := label_encoder self]>
  (<["feature_names" := feature_names self]>
  (<["training_history" := training_history self]>
  (<["is_trained" := is_trained self]> ∅))))))))).

(** The ten keys of the pickled dict. *)
Definition bundle_keys : list string :=
  "model_flowrate" :: "model_pressure" :: "model_temperature"
  :: "classifier_model" :: "scaler_regression" :: "scaler_classification"
  :: "label_encoder" :: "feature_names" :: "training_history"
  :: "is_trained" :: nil.

(** The attribute stored under a key. *)
Definition attribute (key : string) (self : EquipmentMLModel) : option pyval :=
  if String.eqb key "model_flowrate" then Some (model_flowrate self)
  else if String.eqb key "model_pressure" then Some (model_pressure self)
  else if String.eqb key "model_temperature" then Some (model_temperature self)
  else if String.eqb key "classifier_model" then Some (classifier_model self)
  else if String.eqb key "scaler_regression" then Some (scaler_regression self)
  else if String.eqb key "scaler_classification" then Some (scaler_classification self)
  else if String.eqb key "label_encoder" then Some (label_encoder self)
  else if String.eqb key "feature_names" then Some (feature_names self)
  else if String.eqb key "training_history" then Some (training_history self)
  else if String.eqb key "is_trained" then Some (is_trained self)
  else None.

(** The object the sample training run leaves. *)
Definition trained_bundle : EquipmentMLModel :=
  obj (fst (train sample_permutation sample_stratified_indices sample_sqrt
                  sample_fit_regressor sample_fit_classifier six_rows fresh)).

Definition media_disk : FS := mkFS {[ "media" :: nil ]} ∅.

Definition user_model_path : list string :=
  "media" :: "ml_models" :: "model_user_1.pkl" :: nil.

(** No path is both a directory and a file. *)
Definition wf_fs (fs : FS) : Prop :=
  forall p, is_dir fs p = true -> is_file fs p = false.

Definition models_disk : FS :=
  mkFS ({[ "media" :: nil ]} ∪ {[ "media" :: "ml_models" :: nil ]}) ∅.

(** The keys [load_model] reads with [model_data[key]]. *)
Definition required_keys : list string :=
  "model_flowrate" :: "model_pressure" :: "model_temperature"
  :: "label_encoder" :: "feature_names" :: "is_trained" :: nil.

(** The object [load_model] builds from a dict that has the required
    keys. *)
Definition restored (model_data : gmap string pyval)
           (v_flowrate v_pressure v_temperature v_encoder v_names v_trained : pyval)
  : EquipmentMLModel :=
  {| model_flowrate := v_flowrate;
     model_pressure := v_pressure;
     model_temperature := v_temperature;
     classifier_model := dict_get model_data "classifier_model" PyNone;
     scaler_regression :=
       dict_get model_data "scaler_regression" (PyScaler (mkScaler None));
     scaler_classification :=
       dict_get model_data "scaler_classification" (PyScaler (mkScaler None));
     label_encoder := v_encoder;
     feature_names := v_names;
     is_trained := v_trained;
     training_history := dict_get model_data "training_history" (PyDict ∅) |}.

(** A dict as an older [save_model] wrote it: no classifier, no scalers,
    no history. *)
Definition old_format : gmap string pyval :=
  delete "classifier_model"
    (delete "scaler_regression"
       (delete "scaler_classification"
          (delete "training_history" (pickled trained_bundle)))).

(** A dict without its [feature_names]. *)
Definition no_feature_names : gmap string pyval :=
  delete "feature_names" (pickled trained_bundle).

Definition disk_with (model_data : gmap string pyval) : FS :=
  mkFS (dirs models_disk) (<[user_model_path := model_data]> ∅).

(** A trained bundle, as [train] leaves it: marked trained, with a fitted
    encoder, a fitted regression scaler and three fitted regressors. *)
Definition trained (o : EquipmentMLModel) : Prop :=
  is_trained o = PyBool true
  /\ (exists classes, label_encoder o = PyEncoder (mkEncoder (Some classes)))
  /\ (exists params, scaler_regression o = PyScaler (mkScaler (Some params)))
  /\ (forall t, exists r, get_model t o = PyRegressor r).

(** The labels seen during training. *)
Definition seen_types (o : EquipmentMLModel) : list string :=
  match label_encoder o with
  | PyEncoder (mkEncoder (Some classes)) => classes
  | _ => nil
  end.

(** The scaled feature vector of the fallback code 0. *)
Definition fallback_input (o : EquipmentMLModel) : list Q :=
  match scaler_regression o with
  | PyScaler (mkScaler (Some params)) => scale_row params (inject_Z 0 :: nil)
  | _ => nil
  end.

(** What the regressor of a target predicts on an input, before
    rounding. *)
Definition raw_prediction (t : target) (o : EquipmentMLModel) (x : list Q) : Q :=
  match get_model t o with
  | PyRegressor r => reg_predict r x
  | _ => 0
  end.

(** A number with two decimal places that lies within half a hundredth
    of [x]. *)
Definition rounded_to_2_places (x v : Q) : Prop :=
  Qden v = 100%positive /\ Qabs (v - x) <= 1 # 200.
(** * Definitions for the further properties *)

From Stdlib Require OrdersEx Sorted.

(** A row with each missing value replaced by the median of its column
    in [df]. *)
Definition impute (df : DataFrame) (r : Row) : Row :=
  {| Name := Name r;
     Type_ := Type_ r;
     Flowrate := fillna_cell (median (column ColFlowrate df)) (Flowrate r);
     Pressure := fillna_cell (median (column ColPressure df)) (Pressure r);
     Temperature := fillna_cell (median (column ColTemperature df)) (Temperature r) |}.

(** The three candidates fitted for one target. *)
Definition candidates : list algorithm := map snd models_to_test.

(** Strictly before, in the order [np.unique] sorts labels by. *)
Definition label_lt (a b : string) : Prop := String.ltb a b = true.

(** The train and test positions of a stratified split are in range and
    as many as asked for. *)
Definition stratified_sizes
           (stratified_indices : list nat -> nat -> nat -> list nat * list nat)
  : Prop :=
  forall (y : list nat) (n_train n_test : nat),
    (n_train + n_test = List.length y)%nat ->
    let idx := stratified_indices y n_train n_test in
    List.length (fst idx) = n_train
    /\ List.length (snd idx) = n_test
    /\ (forall i, In i (fst idx) \/ In i (snd idx) -> (i < List.length y)%nat).

(** Every label of the cleaned rows occurs twice or more. *)
Definition every_type_twice (df : DataFrame) : Prop :=
  forall label, In label (cleaned_types df) ->
                (2 <= class_count (cleaned_types df) label)%nat.

(** Number of distinct equipment types among the cleaned rows. *)
Definition n_types (df : DataFrame) : nat :=
  List.length (np_unique (cleaned_types df)).

(** [ceil(0.2 * n)] *)
Definition n_test_of (n : nat) : nat := ((n + 4) / 5)%nat.

Definition test_size_error : exn :=
  ValueError "The test_size should be greater or equal to the number of classes".

Definition empty_train_error : exn :=
  ValueError "the resulting train set will be empty".

(** The stratified split is attempted and refused: every type has two
    rows or more, and there are more types than test rows. *)
Definition too_many_types (df : DataFrame) : Prop :=
  every_type_twice df
  /\ (n_test_of (List.length (clean_data df)) < n_types df)%nat.

(** Two pumps, two valves, two reactors. *)
Definition three_pairs : DataFrame :=
  mkRow "P-101" "Pump" (Some 120) (Some 5) (Some 80)
  :: mkRow "V-201" "Valve" (Some 60) (Some 4) (Some 105)
  :: mkRow "R-301" "Reactor" (Some 90) (Some 9) (Some 150)
  :: mkRow "P-102" "Pump" (Some 130) (Some 6) (Some 85)
  :: mkRow "V-202" "Valve" (Some 65) (Some 3) (Some 100)
  :: mkRow "R-302" "Reactor" (Some 95) (Some 8) (Some 155) :: nil.

(** A computation that leaves the [is_trained] flag as it found it,
    whether it returns or raises. *)
Definition keeps_is_trained {A} (m : M A) : Prop :=
  forall s s' r, m s = (s', r) -> is_trained (obj s') = is_trained (obj s).

(** The scaled feature vector [predict] builds for a type: the type's
    code, or 0 for a type the encoder does not know. *)
Definition type_input (o : EquipmentMLModel) (equipment_type : string) : list Q :=
  match scaler_regression o with
  | PyScaler (mkScaler (Some params)) =>
    scale_row params
              (inject_Z (Z.of_nat (code_of (seen_types o) equipment_type)) :: nil)
  | _ => nil
  end.

(** What [predict] returns for a type on a trained bundle. *)
Definition prediction_for (o : EquipmentMLModel) (equipment_type : string)
  : Prediction :=
  {| equipment_type := equipment_type;
     predicted_flowrate :=
       round2 (raw_prediction TFlowrate o (type_input o equipment_type));
     predicted_pressure :=
       round2 (raw_prediction TPressure o (type_input o equipment_type));
     predicted_temperature :=
       round2 (raw_prediction TTemperature o (type_input o equipment_type)) |}.

(** A pickled dict that lacks its [label_encoder]. *)
Definition no_label_encoder : gmap string pyval :=
  delete "label_encoder" (pickled trained_bundle).

(** What a successful [train] leaves in the object, beyond [trained]: the
    feature names, a classifier, a fitted classification scaler and both
    metrics in the history. *)
Definition fully_trained (o : EquipmentMLModel)
           (m : RegressionMetrics * ClassificationMetrics) : Prop :=
  trained o
  /\ feature_names o = PyList ("Type_Encoded" :: nil)
  /\ (exists clf, classifier_model o = PyClassifier clf)
  /\ (exists params, scaler_classification o = PyScaler (mkScaler (Some params)))
  /\ (exists h, training_history o = PyDict h
                /\ h !! "regression" = Some (MReg (fst m))
                /\ h !! "classification" = Some (MCls (snd m))).

(** The key of a regression target in the importance dict. *)
Definition target_key (t : target) : string :=
  match t with
  | TFlowrate => "flowrate"
  | TPressure => "pressure"
  | TTemperature => "temperature"
  end.

(** The sample classifier is sure of its answer. *)
Definition sample_predict_proba (c : Classifier) (x : list Q) : list Q :=
  0 :: 1 :: 0 :: nil.

(** Sample importances: one feature for a regressor, three for the
    classifier. *)
Definition sample_regressor_importances (r : Regressor) : list Q := 1 :: nil.

Definition sample_classifier_importances (c : Classifier) : list Q :=
  (1 # 2) :: (1 # 4) :: (1 # 4) :: nil.

(** *** Uploads and views *)

(** All the required columns are there. *)
Definition has_required_columns (csv : ParsedCsv) : Prop :=
  forall col, In col required_columns -> In col (csv_columns csv).

(** A well-formed upload of the six sample rows. *)
Definition six_rows_csv : ParsedCsv :=
  mkCsv ("Equipment Name" :: "Type" :: "Flowrate" :: "Pressure" :: "Temperature" :: nil)
        six_rows.

(** An upload of two rows, one of them without its pressure. *)
Definition small_csv : ParsedCsv :=
  mkCsv ("Equipment Name" :: "Type" :: "Flowrate" :: "Pressure" :: "Temperature" :: nil)
        (mkRow "P-101" "Pump" (Some 120) (Some 5) (Some 80)
         :: mkRow "V-201" "Valve" (Some 60) None (Some 105) :: nil).

(** An upload without its temperature column. *)
Definition no_temperature_csv : ParsedCsv :=
  mkCsv ("Equipment Name" :: "Type" :: "Flowrate" :: "Pressure" :: nil) two_rows.

(** What the code relies on of [order_by('-uploaded_at')]: the same
    rows, the most recent first. *)
Definition newest_first (rows : list DatasetHistory) : Prop :=
  Sorted.StronglySorted
    (fun a b => (ds_uploaded_at b <= ds_uploaded_at a)%Z) rows.

Definition ordering_ok
           (order_by_uploaded_at_desc : list DatasetHistory -> list DatasetHistory)
  : Prop :=
  forall rows,
    Permutation (order_by_uploaded_at_desc rows) rows
    /\ newest_first (order_by_uploaded_at_desc rows).

(** Primary keys are unique. *)
Definition unique_ids (table : list DatasetHistory) : Prop :=
  List.NoDup (map ds_id table).

(** A sample ordering: insertion sort, ties in table order. *)
Fixpoint insert_newest (d : DatasetHistory) (rows : list DatasetHistory)
  : list DatasetHistory :=
  match rows with
  | nil => d :: nil
  | r :: rows' =>
    if (ds_uploaded_at r <=? ds_uploaded_at d)%Z
    then d :: rows
    else r :: insert_newest d rows'
  end.

Definition sample_order (rows : list DatasetHistory) : list DatasetHistory :=
  fold_right insert_newest nil rows.

(** Seven uploads of user 1 and one of user 2. *)
Definition sample_upload (id : nat) (user : nat) (rows : DataFrame) : DatasetHistory :=
  mkDataset id "equipment.csv" (Z.of_nat id) user rows None.

Definition sample_table : list DatasetHistory :=
  sample_upload 1 1 two_rows :: sample_upload 2 1 two_rows
  :: sample_upload 3 2 ten_rows :: sample_upload 4 1 two_rows
  :: sample_upload 5 1 two_rows :: sample_upload 6 1 six_rows
  :: sample_upload 7 1 two_rows :: sample_upload 8 1 ten_rows :: nil.

(** The counts of a distribution added up. *)
Definition distribution_total (d : gmap string nat) : nat :=
  map_fold (fun _ k acc => (k + acc)%nat) O d.

(** The metrics [predict_parameters] shows for a model trained with
    metrics [m]. *)
Definition shown_metrics (rm : RegressionMetrics) : PredictionMetrics :=
  {| pmx_flowrate_r2 := Some (pm_r2_score (rm_flowrate rm));
     pmx_pressure_r2 := Some (pm_r2_score (rm_pressure rm));
     pmx_temperature_r2 := Some (pm_r2_score (rm_temperature rm));
     pmx_training_samples := Some (rm_training_samples rm) |}.

(** The first upload of user 1: ten rows. *)
Definition first_upload : list DatasetHistory :=
  sample_upload 1 1 ten_rows :: nil.

(** Sample statistics for [process_csv_file]: the exact mean, and one
    Babylonian step for the deviation. *)
Definition sample_float_mean (xs : list Q) : Q := mean xs.
Definition sample_float_std (xs : list Q) : Q :=
  sample_sqrt (sq_dev xs / (Qlen xs - 1)).

(** An upload in which one row has no Type. *)
Definition missing_type_csv : ParsedCsv :=
  mkCsv ("Equipment Name" :: "Type" :: "Flowrate" :: "Pressure" :: "Temperature" :: nil)
        (mkRow "P-101" "Pump" (Some 120) (Some 5) (Some 80)
         :: mkRow "X-001" "" (Some 60) (Some 4) (Some 105)
         :: mkRow "P-102" "Pump" (Some 130) (Some 6) (Some 85) :: nil).



(** * Properties *)

(** ** Rational sums *)

Lemma Qltb_true (x y : Q) : Qltb x y = true <-> x < y.
Proof.
  unfold Qltb. rewrite negb_true_iff.
  split.
  - intros H. apply Qnot_le_lt. intros Hle.
    apply Qle_bool_iff in Hle. congruence.
  - intros H. destruct (Qle_bool y x) eqn:E; [|reflexivity].
    apply Qle_bool_iff in E. exfalso. apply (Qlt_not_le _ _ H E).
Qed.

Lemma Qlen_cons {A} (a : A) (l : list A) : Qlen (a :: l) == 1 + Qlen l.
Proof.
  unfold Qlen. cbn [List.length]. rewrite Nat2Z.inj_succ.
  unfold Z.succ. rewrite inject_Z_plus. ring.
Qed.

Lemma Qlen_nonneg {A} (l : list A) : 0 <= Qlen l.
Proof.
  unfold Qlen. change 0 with (inject_Z 0). rewrite <- Zle_Qle. lia.
Qed.

Lemma Qlen_app {A} (l1 l2 : list A) : Qlen (l1 ++ l2) == Qlen l1 + Qlen l2.
Proof.
  induction l1 as [|a l1 IH]; cbn [app].
  - unfold Qlen at 2. cbn. ring.
  - rewrite !Qlen_cons, IH. ring.
Qed.

Lemma Qsum_cons (a : Q) (l : list Q) : Qsum (a :: l) = a + Qsum l.
Proof. reflexivity. Qed.

Lemma Qsum_app (l1 l2 : list Q) : Qsum (l1 ++ l2) == Qsum l1 + Qsum l2.
Proof.
  induction l1 as [|a l1 IH]; cbn [app].
  - unfold Qsum at 2. cbn [fold_right]. ring.
  - rewrite !Qsum_cons, IH. ring.
Qed.

Lemma Qsq_nonneg (x : Q) : 0 <= Qsq x.
Proof. unfold Qsq. nra. Qed.

Lemma Qsum_sq_nonneg (l : list Q) : 0 <= Qsum (map Qsq l).
Proof.
  induction l as [|a l IH]; cbn [map].
  - apply Qle_refl.
  - rewrite Qsum_cons. pose proof (Qsq_nonneg a). lra.
Qed.

Lemma sq_bound_step (k a s q : Q) :
  1 <= k -> 0 <= q -> s * s <= k * q ->
  (a + s) * (a + s) <= (1 + k) * (a * a + q).
Proof.
  intros Hk Hq Hs.
  pose proof (Qsq_nonneg (k * a - s)) as Hsq. unfold Qsq in Hsq.
  assert (H1 : 2 * a * s * k <= k * (k * a * a + q)) by lra.
  assert (H2 : 2 * a * s <= k * a * a + q).
  { apply Qnot_lt_le. intros Hlt.
    assert (k * (k * a * a + q) < k * (2 * a * s))
      by (apply Qmult_lt_l; lra).
    lra. }
  lra.
Qed.

(** Cauchy-Schwarz against the all-ones vector. *)
Lemma Qsum_sq_bound (l : list Q) :
  Qsq (Qsum l) <= Qlen l * Qsum (map Qsq l).
Proof.
  induction l as [|a l IH].
  - change (Qsq 0 <= 0 * 0). unfold Qsq. lra.
  - cbn [map]. rewrite !Qsum_cons, Qlen_cons.
    pose proof (Qsum_sq_nonneg l) as Hq.
    destruct l as [|b l'].
    + clear IH Hq. change (Qsum nil) with 0.
      change (Qsum (map Qsq nil)) with 0.
      change (Qlen (@nil Q)) with 0. unfold Qsq. lra.
    + assert (Hk : 1 <= Qlen (b :: l')).
      { rewrite Qlen_cons. pose proof (Qlen_nonneg l'). lra. }
      unfold Qsq at 1 3. unfold Qsq at 1 in IH.
      apply sq_bound_step; assumption.
Qed.

(** The deviations from the mean sum to zero. *)
Lemma Qsum_shift (m : Q) (xs : list Q) :
  Qsum (map (fun x => x - m) xs) == Qsum xs - Qlen xs * m.
Proof.
  induction xs as [|a xs IH]; cbn [map].
  - change (0 == 0 - 0 * m). ring.
  - rewrite !Qsum_cons, Qlen_cons, IH. ring.
Qed.

Lemma Qlen_pos {A} (l : list A) : l <> nil -> 0 < Qlen l.
Proof.
  destruct l as [|a l]; [congruence|]. intros _.
  rewrite Qlen_cons. pose proof (Qlen_nonneg l). lra.
Qed.

Lemma mean_spec (xs : list Q) : xs <> nil -> Qlen xs * mean xs == Qsum xs.
Proof.
  intros H. unfold mean. pose proof (Qlen_pos xs H). field. lra.
Qed.

Lemma deviations_sum_zero (xs : list Q) :
  xs <> nil -> Qsum (map (fun x => x - mean xs) xs) == 0.
Proof.
  intros H. rewrite Qsum_shift, (mean_spec xs H). ring.
Qed.

Lemma sq_dev_map (xs : list Q) :
  sq_dev xs = Qsum (map Qsq (map (fun x => x - mean xs) xs)).
Proof. unfold sq_dev. now rewrite map_map. Qed.

(** Samuelson's inequality: no value lies further from the mean than
    [sqrt (n - 1)] standard deviations. *)
Lemma deviation_bound (xs : list Q) (x : Q) :
  In x xs ->
  Qlen xs * Qsq (x - mean xs) <= (Qlen xs - 1) * sq_dev xs.
Proof.
  intros Hin.
  assert (Hne : xs <> nil) by (destruct xs; [destruct Hin | congruence]).
  pose proof (deviations_sum_zero xs Hne) as Hz.
  rewrite sq_dev_map.
  set (m := mean xs) in *.
  apply in_split in Hin as (l1 & l2 & ->).
  rewrite !map_app in *. cbn [map] in *.
  rewrite !Qsum_app, !Qsum_cons in *. rewrite Qlen_app, Qlen_cons.
  set (d1 := map (fun y => y - m) l1) in *.
  set (d2 := map (fun y => y - m) l2) in *.
  pose proof (Qsum_sq_bound (d1 ++ d2)) as Hcs.
  unfold Qsq at 1 in Hcs.
  rewrite map_app, !Qsum_app, Qlen_app in Hcs.
  assert (Hl1 : Qlen d1 == Qlen l1) by (unfold d1, Qlen; now rewrite length_map).
  assert (Hl2 : Qlen d2 == Qlen l2) by (unfold d2, Qlen; now rewrite length_map).
  rewrite Hl1, Hl2 in Hcs.
  set (s1 := Qsum d1) in *. set (s2 := Qsum d2) in *.
  set (q1 := Qsum (map Qsq d1)) in *. set (q2 := Qsum (map Qsq d2)) in *.
  set (n1 := Qlen l1) in *. set (n2 := Qlen l2) in *.
  set (d := x - m) in *.
  assert (Hd : d == - (s1 + s2)) by lra.
  unfold Qsq in *.
  assert (Hdd : d * d == (s1 + s2) * (s1 + s2)) by (rewrite Hd; ring).
  lra.
Qed.

(** ** The z-score test on real numbers *)

Section RealZscoreFacts.
Import Reals Qreals Lra.
Local Open Scope R_scope.

Lemma zscore_abs_lt_3 (mu var x : R) :
  0 < var ->
  (Rabs (zscore mu var x) < 3 <-> (x - mu) * (x - mu) < 9 * var).
Proof.
  intros Hv. unfold zscore.
  pose proof (sqrt_lt_R0 var Hv) as Hs.
  pose proof (sqrt_sqrt var (Rlt_le _ _ Hv)) as Hss.
  set (sd := sqrt var) in *. set (d := x - mu).
  unfold Rdiv. rewrite Rabs_mult, (Rabs_right (/ sd)).
  2:{ apply Rle_ge, Rlt_le, Rinv_0_lt_compat, Hs. }
  rewrite <- Hss.
  assert (Hd : d * d = Rabs d * Rabs d).
  { unfold Rabs. destruct (Rcase_abs d); lra. }
  pose proof (Rabs_pos d) as Hpos.
  split.
  - intros H. apply (Rmult_lt_compat_r sd) in H; [|assumption].
    rewrite Rmult_assoc, Rinv_l, Rmult_1_r in H by lra.
    rewrite Hd. nra.
  - intros H. apply (Rmult_lt_reg_r sd); [assumption|].
    rewrite Rmult_assoc, Rinv_l, Rmult_1_r by lra.
    rewrite Hd in H. apply Rnot_le_lt. intros Hle. nra.
Qed.

(** [zscore_lt_3] decides [abs(z) < 3] for the real z-score of rational
    data with a positive variance. *)
Lemma zscore_lt_3_real (mu var x : Q) :
  zscore_lt_3 mu var x = true
  <-> 0 < Q2R var /\ Rabs (zscore (Q2R mu) (Q2R var) (Q2R x)) < 3.
Proof.
  unfold zscore_lt_3. rewrite andb_true_iff, !Qltb_true.
  assert (H0 : Q2R 0 = 0) by (unfold Q2R; cbn; lra).
  assert (H9 : Q2R 9 = 9) by (unfold Q2R; cbn; lra).
  split.
  - intros [Hv Hd]. apply Qlt_Rlt in Hv, Hd.
    unfold Qsq in Hd. rewrite !Q2R_mult, !Q2R_minus, H9 in Hd.
    rewrite H0 in Hv.
    split; [assumption|]. now apply zscore_abs_lt_3.
  - intros [Hv Hz]. apply zscore_abs_lt_3 in Hz; [|assumption].
    split; apply Rlt_Qlt.
    + now rewrite H0.
    + unfold Qsq. now rewrite !Q2R_mult, !Q2R_minus, H9.
Qed.

End RealZscoreFacts.

(** ** Cleaning *)

Lemma filter_all_true {A} (f : A -> bool) (l : list A) :
  (forall x, In x l -> f x = true) -> List.filter f l = l.
Proof.
  induction l as [|a l IH]; intros H; cbn; [reflexivity|].
  rewrite (H a (or_introl eq_refl)). f_equal. apply IH.
  intros x Hx. apply H. now right.
Qed.

Lemma dropna_no_null (l : list cell) :
  existsb isnull l = false -> map Some (dropna l) = l.
Proof.
  induction l as [|[x|] l IH]; cbn; intros H; try discriminate.
  - reflexivity.
  - now rewrite IH.
Qed.

Lemma dropna_In (l : list cell) (x : Q) :
  In (Some x) l -> In x (dropna l).
Proof.
  induction l as [|[y|] l IH]; cbn; intros H.
  - assumption.
  - destruct H as [H|H]; [left; congruence | right; auto].
  - destruct H as [H|H]; [discriminate | auto].
Qed.

Lemma dropna_length (l : list cell) :
  (List.length (dropna l) <= List.length l)%nat.
Proof.
  induction l as [|[y|] l IH]; cbn; lia.
Qed.

Lemma zscore_lt_3_spec (xs : list Q) (x : Q) :
  zscore_lt_3 (mean xs) (variance xs) x = true <-> zscore_below_3 xs x.
Proof.
  unfold zscore_lt_3, zscore_below_3.
  rewrite andb_true_iff, !Qltb_true. reflexivity.
Qed.

(** On a column of at most 9 values with a positive variance every
    z-score is below 3. *)
Lemma zscore_small_column (xs : list Q) (x : Q) :
  In x xs -> (List.length xs <= 9)%nat -> 0 < variance xs ->
  zscore_below_3 xs x.
Proof.
  intros Hin Hlen Hvar. split; [assumption|].
  assert (Hne : xs <> nil) by (destruct xs; [destruct Hin | congruence]).
  pose proof (Qlen_pos xs Hne) as Hn.
  pose proof (deviation_bound xs x Hin) as Hb.
  assert (Hn9 : Qlen xs <= 9).
  { unfold Qlen. change 9 with (inject_Z 9). rewrite <- Zle_Qle. lia. }
  assert (Hsd : sq_dev xs == Qlen xs * variance xs).
  { unfold variance. field. lra. }
  rewrite Hsd in Hb.
  set (n := Qlen xs) in *. set (v := variance xs) in *.
  set (d := Qsq (x - mean xs)) in *.
  assert (H1 : d <= (n - 1) * v).
  { apply Qnot_lt_le. intros Hlt.
    assert (n * ((n - 1) * v) < n * d) by (apply Qmult_lt_l; assumption).
    lra. }
  assert (H2 : (n - 1) * v <= 8 * v).
  { apply Qmult_le_compat_r; lra. }
  lra.
Qed.

Lemma cell_ok_small (l : list cell) (v : cell) :
  nondegenerate l -> (List.length l <= 9)%nat -> In v l -> cell_ok l v = true.
Proof.
  intros [Hnull Hvar] Hlen Hin. unfold cell_ok, col_stats. rewrite Hnull.
  destruct v as [x|].
  - apply zscore_lt_3_spec. apply zscore_small_column.
    + now apply dropna_In.
    + pose proof (dropna_length l). lia.
    + assumption.
  - exfalso. rewrite <- (dropna_no_null l Hnull) in Hin.
    apply in_map_iff in Hin as (y & Hy & _). discriminate.
Qed.

Lemma remove_outliers_small (df : DataFrame) :
  (List.length df <= 9)%nat ->
  (forall c, nondegenerate (column c df)) ->
  remove_outliers df = df.
Proof.
  intros Hlen Hnd. apply filter_all_true. intros r Hr.
  unfold row_ok. apply forallb_forall. intros c _.
  apply cell_ok_small.
  - apply Hnd.
  - unfold column. now rewrite length_map.
  - unfold column. now apply in_map.
Qed.

(** C1: [clean_data] has no row-count guard.  On a frame of one row the
    z-score filter runs (the z-score of a single value is 0/0) and the
    row is dropped, where the claim has the filter skipped and the row
    returned. *)
Theorem clean_data_one_row :
  List.length (fill_missing one_pump) = 1%nat /\ clean_data one_pump = nil.
Proof. split; vm_compute; reflexivity. Qed.

(** C1 (as stated) fails: a dataset of one row has at most 5 rows, and
    [clean_data] drops its only row (the z-score of a single value is
    0/0). *)
Lemma clean_data_small_not_skipped :
  ~ (forall df : DataFrame,
        (List.length (fill_missing df) <= 5)%nat ->
        clean_data df = fill_missing df).
Proof.
  intros H. specialize (H one_pump).
  assert (Hlen : (List.length (fill_missing one_pump) <= 5)%nat)
    by (vm_compute; lia).
  specialize (H Hlen). vm_compute in H. discriminate H.
Qed.


(** The filter is strict and not idempotent.  In [boundary_rows] the
    flowrate 10 lies exactly 3 standard deviations from the mean: it does
    not exceed 3, and its row is dropped.  The nine rows that are left
    share one flowrate, and cleaning them again drops them all. *)
Example clean_data_boundary :
  ~ zscore_exceeds_3 (dropna (column ColFlowrate boundary_rows)) 10
  /\ List.length (clean_data boundary_rows) = 9%nat
  /\ clean_data (clean_data boundary_rows) = nil.
Proof.
  split; [|split; vm_compute; reflexivity].
  intros [_ H]. vm_compute in H. discriminate.
Qed.


(** ** Best-of-three selection *)

Lemma float_gt_trans (a b c : float) :
  float_gt a b = true -> float_gt b c = true -> float_gt a c = true.
Proof.
  destruct a, b, c; cbn; try discriminate; try reflexivity.
  rewrite !Qltb_true. intros. lra.
Qed.

(** [c] did not beat [b], [a] did: [a] beats [c], unless [c] is NaN. *)
Lemma float_gt_pass (a b c : float) :
  float_gt a b = true -> float_gt c b = false ->
  float_gt a c = true \/ c = NaN.
Proof.
  destruct a, b, c; cbn; try discriminate; auto.
  intros H1 H2. left. apply Qltb_true. apply Qltb_true in H1.
  unfold Qltb in H2. apply negb_false_iff, Qle_bool_iff in H2. lra.
Qed.

(** What [selectBest] returns: either nothing beat the starting score, or
    the winner is the first candidate no candidate beats. *)
Lemma selectBest_spec (score : algorithm -> float) (cands : list algorithm) :
  forall best winner,
    (selectBest score cands best winner = (best, winner)
     /\ forall c, In c cands -> float_gt (score c) best = false)
    \/ exists pre a post,
        cands = pre ++ a :: post
        /\ selectBest score cands best winner = (score a, Some a)
        /\ float_gt (score a) best = true
        /\ (forall c, In c pre -> float_gt (score a) (score c) = true \/ score c = NaN)
        /\ (forall c, In c post -> float_gt (score c) (score a) = false).
Proof.
  induction cands as [|a cands IH]; intros best winner.
  - left. split; [reflexivity | intros c []].
  - cbn [selectBest]. destruct (float_gt (score a) best) eqn:Ha.
    + right. destruct (IH (score a) (Some a)) as [[Heq Hall] | (pre & w & post & -> & Heq & Hw & Hpre & Hpost)].
      * exists nil, a, cands. repeat split; auto; intros c [].
      * exists (a :: pre), w, post.
        split; [reflexivity|]. split; [assumption|].
        split; [eapply float_gt_trans; eauto|].
        split; [|assumption].
        intros c [<-|Hc]; auto.
    + destruct (IH best winner) as [[Heq Hall] | (pre & w & post & -> & Heq & Hw & Hpre & Hpost)].
      * left. split; [assumption|]. intros c [<-|Hc]; auto.
      * right. exists (a :: pre), w, post.
        split; [reflexivity|]. split; [assumption|].
        split; [assumption|]. split; [|assumption].
        intros c [<-|Hc]; auto. eapply float_gt_pass; eauto.
Qed.

Lemma r2_score_finite (y_true y_pred : list Q) :
  (2 <= List.length y_pred)%nat -> exists q, r2_score y_true y_pred = Fin q.
Proof.
  intros H. unfold r2_score.
  destruct (Nat.ltb_spec (List.length y_pred) 2); [lia|].
  destruct (negb (Qeq_bool (sq_dev y_true) 0)); [eauto|].
  destruct (negb (Qeq_bool (sq_err y_true y_pred) 0)); eauto.
Qed.

Lemma r2_score_nan (y_true y_pred : list Q) :
  (List.length y_pred < 2)%nat -> r2_score y_true y_pred = NaN.
Proof.
  intros H. unfold r2_score.
  destruct (Nat.ltb_spec (List.length y_pred) 2); [reflexivity|lia].
Qed.

Lemma set_model_twice (t : target) (v w : pyval) (o : EquipmentMLModel) :
  set_model t w (set_model t v o) = set_model t w o.
Proof. destruct t; reflexivity. Qed.

Section Selection.

Variable fit_regressor : algorithm -> list (list Q) -> list Q -> list Q -> Q.

(** A loop of [train_regression_models] is [selectBest] on the scores
    [candidate_r2]: it fits every candidate, in order, and stores the
    winner in the target's attribute. *)
Lemma select_best_run (t : target) (X_train : list (list Q)) (y_train : list Q)
      (X_test : list (list Q)) (y_test : list Q)
      (cands : list (string * algorithm)) :
  forall (best : float) (winner : option algorithm) (o : EquipmentMLModel)
         (log : list algorithm),
    let score a := candidate_r2 fit_regressor a X_train y_train X_test y_test in
    let res := selectBest score (map snd cands) best winner in
    select_best fit_regressor t cands X_train y_train X_test y_test best
                (mkState (retain fit_regressor t X_train y_train winner o) log)
    = (mkState (retain fit_regressor t X_train y_train (snd res) o) (log ++ map snd cands),
       Ok (fst res)).
Proof.
  induction cands as [|[name a] cands IH]; intros best winner o log score res.
  - cbn. now rewrite app_nil_r.
  - subst res. cbn [select_best map snd selectBest].
    unfold fit_model, log_fit, mbind, M_bind, mret, M_ret. cbn [obj fits reg_predict].
    fold (candidate_r2 fit_regressor a X_train y_train X_test y_test).
    fold (score a).
    destruct (float_gt (score a) best) eqn:Ha.
    + unfold set_attr. cbn [obj fits].
      replace (set_model t _ (retain fit_regressor t X_train y_train winner o))
        with (retain fit_regressor t X_train y_train (Some a) o)
        by (destruct winner; cbn [retain]; now rewrite ?set_model_twice).
      rewrite IH. now rewrite <- app_assoc.
    + rewrite IH. now rewrite <- app_assoc.
Qed.

(** The loop as the code starts it: [best = -inf], nothing retained. *)
Lemma select_best_start (t : target) (X_train : list (list Q)) (y_train : list Q)
      (X_test : list (list Q)) (y_test : list Q)
      (cands : list (string * algorithm)) (o : EquipmentMLModel)
      (log : list algorithm) :
  select_best fit_regressor t cands X_train y_train X_test y_test NegInf
              (mkState o log)
  = (mkState (retain fit_regressor t X_train y_train
                     (snd (selectBest
                             (fun a => candidate_r2 fit_regressor a X_train
                                                    y_train X_test y_test)
                             (map snd cands) NegInf None)) o)
             (log ++ map snd cands),
     Ok (fst (selectBest
                (fun a => candidate_r2 fit_regressor a X_train y_train
                                       X_test y_test)
                (map snd cands) NegInf None))).
Proof. exact (select_best_run t X_train y_train X_test y_test cands NegInf None o log). Qed.

End Selection.

(** ** Running the training monad *)

Lemma bind_Ok {A B} (m : M A) (k : A -> M B) (s s' : TrainState) (b : B) :
  (m ≫= k) s = (s', Ok b) ->
  exists s1 a, m s = (s1, Ok a) /\ k a s1 = (s', Ok b).
Proof.
  unfold mbind, M_bind. destruct (m s) as [s1 [a|e]]; [eauto | discriminate].
Qed.

(** Step through a bind that returned: name the intermediate state, the
    value and the equation of the first computation. *)
Tactic Notation "bind_inv" hyp(H) "giving" simple_intropattern(s)
       simple_intropattern(a) simple_intropattern(Ha) :=
  apply bind_Ok in H as (s & a & Ha & H).

Lemma bind_Raise {A B} (m : M A) (k : A -> M B) (s s1 : TrainState) (e : exn) :
  m s = (s1, Raise e) -> (m ≫= k) s = (s1, Raise e).
Proof. intros H. unfold mbind, M_bind. now rewrite H. Qed.

Lemma bind_step {A B} (m : M A) (k : A -> M B) (s s1 : TrainState) (a : A) :
  m s = (s1, Ok a) -> (m ≫= k) s = k a s1.
Proof. intros H. unfold mbind, M_bind. now rewrite H. Qed.

Lemma lift_Ok {A} (r : result A) (s s' : TrainState) (a : A) :
  lift r s = (s', Ok a) -> s' = s /\ r = Ok a.
Proof. unfold lift. intros [= <- ->]. auto. Qed.

Section Training.

Variable permutation : nat -> list nat.
Variable stratified_indices : list nat -> nat -> nat -> list nat * list nat.
Variable np_sqrt : Q -> Q.
Variable fit_regressor : algorithm -> list (list Q) -> list Q -> list Q -> Q.
Variable fit_classifier : list (list Q) -> list nat -> list Q -> nat.

(** A plain split: the sizes come from [validate_shuffle_split], the
    rows from the positions [shuffle_split] draws. *)
Lemma train_test_split_plain {A B} (X : list A) (y : list B)
      X_train X_test y_train y_test :
  train_test_split permutation stratified_indices X y None
  = Ok (X_train, X_test, y_train, y_test) ->
  exists n_train n_test,
    List.length X = List.length y
    /\ validate_shuffle_split (List.length X) = Ok (n_train, n_test)
    /\ let idx := shuffle_split permutation (List.length X) n_train n_test in
       X_train = take_rows (fst idx) X /\ X_test = take_rows (snd idx) X
       /\ y_train = take_rows (fst idx) y /\ y_test = take_rows (snd idx) y.
Proof.
  unfold train_test_split.
  destruct (Nat.eqb_spec (List.length X) (List.length y)) as [Hlen|]; cbn [negb];
    [|discriminate].
  destruct (validate_shuffle_split (List.length X)) as [[n_train n_test]|e];
    cbn; [|discriminate].
  intros [= <- <- <- <-]. exists n_train, n_test.
  repeat split; solve [assumption | reflexivity].
Qed.

Lemma train_test_split_same_X {A B C} (X : list A) (y : list B) (y' : list C)
      X_train X_test y_train y_test X_train' X_test' y_train' y_test' :
  train_test_split permutation stratified_indices X y None
  = Ok (X_train, X_test, y_train, y_test) ->
  train_test_split permutation stratified_indices X y' None
  = Ok (X_train', X_test', y_train', y_test') ->
  X_train' = X_train /\ X_test' = X_test.
Proof.
  intros H H'.
  apply train_test_split_plain in H as (n1 & n2 & _ & Hv & -> & -> & _).
  apply train_test_split_plain in H' as (n1' & n2' & _ & Hv' & -> & -> & _).
  rewrite Hv in Hv'. injection Hv' as <- <-. auto.
Qed.

Lemma prepare_data_Ok (df : DataFrame) (s s1 : TrainState) X yf yp yt :
  prepare_data df s = (s1, Ok (X, yf, yp, yt)) ->
  X = encoded_types df
  /\ yf = target_values TFlowrate df
  /\ yp = target_values TPressure df
  /\ yt = target_values TTemperature df
  /\ exists e,
      s1 = mkState (set_feature_names (PyList ("Type_Encoded" :: nil))
                      (set_label_encoder (PyEncoder e) (obj s)))
                   (fits s).
Proof.
  unfold prepare_data, attr_encoder_fit_transform, get_attr, set_attr.
  unfold mbind, M_bind, mret, M_ret, raise.
  destruct (label_encoder (obj s)); try discriminate.
  cbn. intros [= <- <- <- <- <-]. repeat split. eauto.
Qed.

Lemma attr_scaler_fit_transform_regression (X : list (list Q))
      (s s1 : TrainState) (Xs : list (list Q)) :
  attr_scaler_fit_transform np_sqrt scaler_regression set_scaler_regression X s
  = (s1, Ok Xs) ->
  exists sc,
    scaler_fit np_sqrt X = Ok sc
    /\ scaler_transform sc X = Ok Xs
    /\ s1 = mkState (set_scaler_regression (PyScaler sc) (obj s)) (fits s).
Proof.
  unfold attr_scaler_fit_transform, get_attr, set_attr, lift.
  unfold mbind, M_bind, raise.
  destruct (scaler_regression (obj s)); try discriminate.
  destruct (scaler_fit np_sqrt X) as [sc|]; [|discriminate].
  intros [= <- H]. eauto.
Qed.

Lemma train_regression_models_run (df : DataFrame) (s s' : TrainState)
      (metrics : RegressionMetrics) :
  train_regression_models permutation stratified_indices np_sqrt fit_regressor df s
  = (s', Ok metrics) ->
  exists X_train X_test sc X_train_scaled X_test_scaled,
    scaler_fit np_sqrt X_train = Ok sc
    /\ scaler_transform sc X_train = Ok X_train_scaled
    /\ scaler_transform sc X_test = Ok X_test_scaled
    /\ rm_training_samples metrics = List.length X_train
    /\ rm_test_samples metrics = List.length X_test
    /\ rm_total_samples metrics = List.length (encoded_types df)
    /\ scaler_regression (obj s') = PyScaler sc
    /\ (exists cs, label_encoder (obj s') = PyEncoder (mkEncoder (Some cs)))
    /\ scaler_classification (obj s') = scaler_classification (obj s)
    /\ (exists h, training_history (obj s') = PyDict h)
    /\ forall t, exists y_train y_test pred,
        train_test_split permutation stratified_indices
                         (encoded_types df) (target_values t df) None
        = Ok (X_train, X_test, y_train, y_test)
        /\ attr_predict (get_model t (obj s')) X_test_scaled = Ok pred
        /\ target_metrics t metrics = param_metrics np_sqrt y_test pred
        /\ match snd (selectBest
                        (fun a => candidate_r2 fit_regressor a X_train_scaled
                                               y_train X_test_scaled y_test)
                        (map snd models_to_test) NegInf None) with
           | Some a =>
             get_model t (obj s')
             = PyRegressor (mkRegressor a (fit_regressor a X_train_scaled y_train))
           | None => get_model t (obj s') = get_model t (obj s)
           end.
Proof.
  unfold train_regression_models. intros H.
  bind_inv H giving s1 [[[X yf] yp] yt] Hprep.
  apply prepare_data_Ok in Hprep as (-> & -> & -> & -> & e1 & Hs1).
  assert (Hmod1 : forall t, get_model t (obj s1) = get_model t (obj s))
    by (intros t; rewrite Hs1; destruct t; reflexivity).
  bind_inv H giving s2 [[[X_train X_test] yf_tr] yf_te] HF.
  apply lift_Ok in HF as [-> HF].
  bind_inv H giving s2 [[[X_train' X_test'] yp_tr] yp_te] HP.
  apply lift_Ok in HP as [-> HP].
  bind_inv H giving s2 [[[X_train'' X_test''] yt_tr] yt_te] HT.
  apply lift_Ok in HT as [-> HT].
  destruct (train_test_split_same_X _ _ _ _ _ _ _ _ _ _ _ HF HP) as [-> ->].
  destruct (train_test_split_same_X _ _ _ _ _ _ _ _ _ _ _ HF HT) as [-> ->].
  bind_inv H giving s2 X_train_scaled Hfit.
  apply attr_scaler_fit_transform_regression in Hfit as (sc & Hsc & Htr & ->).
  bind_inv H giving s2 scv Hget.
  unfold get_attr in Hget. cbn in Hget. injection Hget as <- <-.
  bind_inv H giving s2 X_test_scaled Hte.
  apply lift_Ok in Hte as [-> Hte]. cbn [attr_scaler_transform] in Hte.
  cbn [obj fits] in H.
  set (o2 := set_scaler_regression (PyScaler sc) (obj s1)) in *.
  bind_inv H giving s2 b1 HL.
  rewrite select_best_start in HL.
  apply pair_equal_spec in HL as [<- _].
  set (wF := snd (selectBest (fun a => candidate_r2 fit_regressor a X_train_scaled yf_tr X_test_scaled yf_te) (map snd models_to_test) NegInf None)) in *.
  bind_inv H giving s2 b2 HL.
  rewrite select_best_start in HL.
  apply pair_equal_spec in HL as [<- _].
  set (wP := snd (selectBest (fun a => candidate_r2 fit_regressor a X_train_scaled yp_tr X_test_scaled yp_te) (map snd models_to_test) NegInf None)) in *.
  bind_inv H giving s2 b3 HL.
  rewrite select_best_start in HL.
  apply pair_equal_spec in HL as [<- _].
  set (wT := snd (selectBest (fun a => candidate_r2 fit_regressor a X_train_scaled yt_tr X_test_scaled yt_te) (map snd models_to_test) NegInf None)) in *.
  set (o3 := retain fit_regressor TTemperature X_train_scaled yt_tr wT
                    (retain fit_regressor TPressure X_train_scaled yp_tr wP
                            (retain fit_regressor TFlowrate X_train_scaled yf_tr wF o2))) in *.
  bind_inv H giving s2 mf Hg.
  unfold get_attr in Hg. cbn [obj] in Hg. injection Hg as <- <-.
  bind_inv H giving s2 flow_pred Hp1.
  apply lift_Ok in Hp1 as [-> Hp1].
  bind_inv H giving s2 mp Hg.
  unfold get_attr in Hg. cbn [obj] in Hg. injection Hg as <- <-.
  bind_inv H giving s2 pres_pred Hp2.
  apply lift_Ok in Hp2 as [-> Hp2].
  bind_inv H giving s2 mt Hg.
  unfold get_attr in Hg. cbn [obj] in Hg. injection Hg as <- <-.
  bind_inv H giving s2 temp_pred Hp3.
  apply lift_Ok in Hp3 as [-> Hp3].
  bind_inv H giving s2 classes Hc.
  assert (Hs2 : s2 = mkState o3 (((fits s1 ++ map snd models_to_test)
                                    ++ map snd models_to_test)
                                   ++ map snd models_to_test)).
  { revert Hc. unfold attr_encoder_classes, get_attr, mbind, M_bind, mret, M_ret, raise.
    cbn [obj]. destruct (label_encoder o3) as [| | | | |[[cs|]]| |];
      intros [= <- _]; reflexivity. }
  subst s2.
  assert (Henc : exists cs, label_encoder o3 = PyEncoder (mkEncoder (Some cs))).
  { revert Hc. unfold attr_encoder_classes, get_attr, mbind, M_bind, mret, M_ret, raise.
    cbn [obj]. destruct (label_encoder o3) as [| | | | |[[cs|]]| |];
      intros [= _]; eauto. }
  clear Hc.
  bind_inv H giving s2 [] Hh.
  assert (Hs2 : exists h, obj s2 = set_training_history (PyDict h) o3).
  { revert Hh. unfold history_store, get_attr, set_attr, mbind, M_bind, raise.
    cbn [obj fits]. destruct (training_history o3); intros [= <-]; cbn [obj]; eauto. }
  destruct Hs2 as (h & Hs2). clear Hh.
  unfold mret, M_ret in H. injection H as <- <-.
  exists X_train, X_test, sc, X_train_scaled, X_test_scaled.
  repeat (split; [first [assumption | reflexivity]|]).
  rewrite Hs2.
  split; [subst o3 o2; destruct wT, wP, wF; reflexivity|].
  split; [destruct Henc as [cs Hcs]; exists cs; rewrite <- Hcs; reflexivity|].
  split; [subst o3 o2; rewrite Hs1; destruct wT, wP, wF; reflexivity|].
  split; [eauto|].
  intros t.
  destruct t.
  - exists yf_tr, yf_te, flow_pred. repeat split; try assumption.
    fold wF. rewrite <- (Hmod1 TFlowrate).
  subst o3 o2. destruct wT, wP, wF; reflexivity.
  - exists yp_tr, yp_te, pres_pred. repeat split; try assumption.
    fold wP. rewrite <- (Hmod1 TPressure).
    subst o3 o2. destruct wT, wP, wF; reflexivity.
  - exists yt_tr, yt_te, temp_pred. repeat split; try assumption.
    fold wT. rewrite <- (Hmod1 TTemperature).
    subst o3 o2. destruct wT, wP, wF; reflexivity.
Qed.

Lemma scaler_transform_length (sc : StandardScaler) (X Xs : list (list Q)) :
  scaler_transform sc X = Ok Xs -> List.length Xs = List.length X.
Proof.
  unfold scaler_transform. destruct (scaler_params sc); [|discriminate].
  intros [= <-]. apply length_map.
Qed.

(** C2 (as amended): for every regression target, the model
    [train_regression_models] retains scores, on the test split, at
    least as much as every candidate fitted for that target on the same
    split, and strictly more than the candidates tried before it (an
    equal score keeps the earlier candidate); the recorded [r2_score] is
    the retained model's.  This holds for every run that returns and
    whose test split has two samples or more, or that started without a
    regressor for the target (below two samples R² is NaN and nothing is
    compared). *)
Theorem retained_model_has_best_r2 (df : DataFrame) (s s' : TrainState)
        (metrics : RegressionMetrics) (t : target) :
  train_regression_models permutation stratified_indices np_sqrt fit_regressor df s
  = (s', Ok metrics) ->
  get_model t (obj s) = PyNone \/ (2 <= rm_test_samples metrics)%nat ->
  exists X_train X_test y_train y_test sc X_train_scaled X_test_scaled a qa,
    train_test_split permutation stratified_indices
                     (encoded_types df) (target_values t df) None
    = Ok (X_train, X_test, y_train, y_test)
    /\ scaler_fit np_sqrt X_train = Ok sc
    /\ scaler_transform sc X_train = Ok X_train_scaled
    /\ scaler_transform sc X_test = Ok X_test_scaled
    /\ get_model t (obj s')
       = PyRegressor (mkRegressor a (fit_regressor a X_train_scaled y_train))
    /\ best_candidate
         (fun c => candidate_r2 fit_regressor c X_train_scaled y_train
                                X_test_scaled y_test)
         (map snd models_to_test) a qa
    /\ pm_r2_score (target_metrics t metrics) = Fin qa.
Proof.
  intros Hrun Hn.
  apply train_regression_models_run in Hrun
    as (X_train & X_test & sc & Xtr & Xte & Hsc & Htr & Hte & _ & Hnte & _
        & _ & _ & _ & _ & Ht).
  destruct (Ht t) as (y_train & y_test & pred & Hsplit & Hpred & Hm & Hw).
  clear Ht. rewrite Hnte in Hn.
  apply scaler_transform_length in Hte as Hlen.
  set (score := fun c => candidate_r2 fit_regressor c Xtr y_train Xte y_test) in *.
  assert (Hn2 : (2 <= List.length X_test)%nat).
  { destruct Hn as [Hnone|Hn]; [|exact Hn].
    destruct (Nat.le_gt_cases 2 (List.length X_test)) as [|Hlt]; [assumption|].
    exfalso.
    assert (Hnan : forall c, score c = NaN).
    { intros c. unfold score, candidate_r2. apply r2_score_nan.
      rewrite length_map. lia. }
    destruct (selectBest_spec score (map snd models_to_test) NegInf None)
      as [[Heq _] | (pre & a & post & _ & _ & Hgt & _)].
    - rewrite Heq in Hw. cbn [snd] in Hw. rewrite Hw, Hnone in Hpred.
      discriminate Hpred.
    - rewrite Hnan in Hgt. discriminate Hgt. }
  clear Hn. rename Hn2 into Hn.
  assert (Hfin : forall c, exists q, score c = Fin q).
  { intros c. unfold score, candidate_r2. apply r2_score_finite.
    rewrite length_map. lia. }
  destruct (selectBest_spec score (map snd models_to_test) NegInf None)
    as [[_ Hall] | (pre & a & post & Hcands & Heq & _ & Hpre & Hpost)].
  - exfalso. specialize (Hall RandomForestRegressor (or_introl eq_refl)).
    destruct (Hfin RandomForestRegressor) as [q Hq]. rewrite Hq in Hall.
    discriminate.
  - rewrite Heq in Hw. cbn [snd] in Hw.
    destruct (Hfin a) as [qa Hqa].
    exists X_train, X_test, y_train, y_test, sc, Xtr, Xte, a, qa.
    repeat (split; [assumption|]). split.
    + split; [assumption|]. exists pre, post. split; [assumption|]. split.
      * intros c Hc. destruct (Hfin c) as [q Hq]. exists q. split; [assumption|].
        destruct (Hpre c Hc) as [Hgt|Hnan]; [|congruence].
        rewrite Hqa, Hq in Hgt. now apply Qltb_true in Hgt.
      * intros c Hc. destruct (Hfin c) as [q Hq]. exists q. split; [assumption|].
        specialize (Hpost c Hc). rewrite Hqa, Hq in Hpost. cbn in Hpost.
        unfold Qltb in Hpost. now apply negb_false_iff, Qle_bool_iff in Hpost.
    + rewrite Hm. rewrite Hw in Hpred. cbn in Hpred. injection Hpred as <-.
      exact Hqa.
Qed.

End Training.

Lemma retained_model_has_best_r2_witness :
  exists s' metrics,
    train_regression_models sample_permutation sample_stratified_indices
                            sample_sqrt sample_fit_regressor six_rows fresh
    = (s', Ok metrics)
    /\ exists X_train X_test y_train y_test sc X_train_scaled X_test_scaled a qa,
      train_test_split sample_permutation sample_stratified_indices
                       (encoded_types six_rows) (target_values TFlowrate six_rows) None
      = Ok (X_train, X_test, y_train, y_test)
      /\ scaler_fit sample_sqrt X_train = Ok sc
      /\ scaler_transform sc X_train = Ok X_train_scaled
      /\ scaler_transform sc X_test = Ok X_test_scaled
      /\ get_model TFlowrate (obj s')
         = PyRegressor (mkRegressor a (sample_fit_regressor a X_train_scaled y_train))
      /\ best_candidate
           (fun c => candidate_r2 sample_fit_regressor c X_train_scaled y_train
                                  X_test_scaled y_test)
           (map snd models_to_test) a qa
      /\ pm_r2_score (target_metrics TFlowrate metrics) = Fin qa.
Proof.
  destruct (train_regression_models sample_permutation sample_stratified_indices
              sample_sqrt sample_fit_regressor six_rows fresh)
    as [s' [metrics|e]] eqn:Hrun.
  - exists s', metrics. split; [reflexivity|].
    apply (retained_model_has_best_r2 sample_permutation sample_stratified_indices
             sample_sqrt sample_fit_regressor six_rows fresh s' metrics
             TFlowrate Hrun).
    left. reflexivity.
  - vm_compute in Hrun. discriminate Hrun.
Defined.

(** C2 (as stated) fails on an object that was trained before: on
    [two_rows] the test split has one row, every R² is NaN, no candidate
    passes [r2 > best_flow_score], and the run returns with the
    regressor of the earlier training still in place and NaN as its
    recorded score. *)
Lemma stale_model_retained :
  ~ (forall (df : DataFrame) (s s' : TrainState) (metrics : RegressionMetrics)
            (t : target),
        train_regression_models sample_permutation sample_stratified_indices
                                sample_sqrt sample_fit_regressor df s
        = (s', Ok metrics) ->
        exists X_train X_test y_train y_test sc X_train_scaled X_test_scaled a qa,
          train_test_split sample_permutation sample_stratified_indices
                           (encoded_types df) (target_values t df) None
          = Ok (X_train, X_test, y_train, y_test)
          /\ scaler_fit sample_sqrt X_train = Ok sc
          /\ scaler_transform sc X_train = Ok X_train_scaled
          /\ scaler_transform sc X_test = Ok X_test_scaled
          /\ get_model t (obj s')
             = PyRegressor (mkRegressor a (sample_fit_regressor a X_train_scaled y_train))
          /\ best_candidate
               (fun c => candidate_r2 sample_fit_regressor c X_train_scaled y_train
                                      X_test_scaled y_test)
               (map snd models_to_test) a qa
          /\ pm_r2_score (target_metrics t metrics) = Fin qa).
Proof.
  intros H.
  destruct (train_regression_models sample_permutation sample_stratified_indices
              sample_sqrt sample_fit_regressor two_rows (mkState trained_bundle nil))
    as [s' [metrics|e]] eqn:Hrun.
  - destruct (H two_rows (mkState trained_bundle nil) s' metrics TFlowrate Hrun)
      as (X_train & X_test & y_train & y_test & sc & Xtr & Xte & a & qa
          & _ & _ & _ & _ & _ & _ & Hr2).
    vm_compute in Hrun. injection Hrun as _ <-.
    vm_compute in Hr2. discriminate Hr2.
  - vm_compute in Hrun. discriminate Hrun.
Qed.

(** ** Split sizes *)

Lemma n_test_formula (n : nat) :
  Z.to_nat (Qceiling (test_size * inject_Z (Z.of_nat n))) = ((n + 4) / 5)%nat.
Proof.
  unfold test_size, Qceiling, Qfloor, Qmult, Qopp, inject_Z. cbn [Qnum Qden].
  change (Z.pos (10 * 1)) with 10%Z.
  apply Nat2Z.inj. rewrite Nat2Z.inj_div, Nat2Z.inj_add, Z2Nat.id.
  - change (Z.of_nat 4) with 4%Z. change (Z.of_nat 5) with 5%Z.
    Z.div_mod_to_equations. lia.
  - Z.div_mod_to_equations. lia.
Qed.

(** ** The test size in double precision *)

Section Binary64.
Local Open Scope Z_scope.

Lemma round53_small m : 0 <= m < 2 ^ 53 -> round53 m = (m, 0).
Proof.
  intros H. unfold round53.
  destruct (Z.eq_dec m 0) as [->|Hm]; [reflexivity|].
  assert (Z.log2 m < 53) by (apply Z.log2_lt_pow2; lia).
  destruct (Z.leb_spec (Z.log2 m + 1) 53); [reflexivity|lia].
Qed.

(** The rounded product is a multiple of the unit in the last place that
    lies within half a unit of the exact product. *)
Lemma round53_spec m :
  2 ^ 53 <= m ->
  exists sh q,
    round53 m = (q, sh) /\ 1 <= sh
    /\ 2 ^ sh * 2 ^ 52 <= m < 2 ^ sh * 2 ^ 53
    /\ 2 * Z.abs (q * 2 ^ sh - m) <= 2 ^ sh
    /\ (forall a, 2 * Z.abs (a * 2 ^ sh - m) < 2 ^ sh -> q = a).
Proof.
  intros Hm. unfold round53.
  assert (Hpos : 0 < m) by (pose proof (Z.pow_pos_nonneg 2 53); lia).
  pose proof (Z.log2_spec m Hpos) as [Hlo Hhi].
  assert (HL : 53 <= Z.log2 m) by (apply Z.log2_le_pow2; lia).
  destruct (Z.leb_spec (Z.log2 m + 1) 53); [lia|].
  set (sh := Z.log2 m + 1 - 53).
  assert (Hsh : 1 <= sh) by (unfold sh; lia).
  assert (Hu : 0 < 2 ^ sh) by (apply Z.pow_pos_nonneg; lia).
  assert (Hhalf : 2 ^ sh = 2 * 2 ^ (sh - 1)).
  { replace sh with (Z.succ (sh - 1)) at 1 by lia. apply Z.pow_succ_r. lia. }
  assert (E52 : 2 ^ sh * 2 ^ 52 = 2 ^ Z.log2 m).
  { rewrite <- Z.pow_add_r by lia. f_equal. unfold sh. lia. }
  assert (E53 : 2 ^ sh * 2 ^ 53 = 2 ^ Z.succ (Z.log2 m)).
  { rewrite <- Z.pow_add_r by lia. f_equal. unfold sh. lia. }
  pose proof (Z.div_mod m (2 ^ sh) ltac:(lia)) as Hdm.
  pose proof (Z.mod_pos_bound m (2 ^ sh) Hu) as Hr.
  set (q := m / 2 ^ sh) in *. set (r := m mod 2 ^ sh) in *.
  set (h := 2 ^ (sh - 1)) in *. set (u := 2 ^ sh) in *.
  assert (Huniq : forall q' a, 2 * Z.abs (q' * u - m) <= u ->
                               2 * Z.abs (a * u - m) < u -> q' = a).
  { intros q' a H1 H2. nia. }
  destruct (Z.ltb_spec r h).
  - exists sh, q. repeat split; try lia.
    intros a Ha. apply Huniq; [lia|exact Ha].
  - destruct (Z.ltb_spec h r).
    + exists sh, (q + 1). repeat split; try lia.
      intros a Ha. apply Huniq; [lia|exact Ha].
    + destruct (Z.even q).
      * exists sh, q. repeat split; try lia.
        intros a Ha. apply Huniq; [lia|exact Ha].
      * exists sh, (q + 1). repeat split; try lia.
        intros a Ha. apply Huniq; [lia|exact Ha].
Qed.

Lemma ceil_div_unique (a k b : Z) :
  0 < b -> (k - 1) * b < a <= k * b -> - ((- a) / b) = k.
Proof.
  intros Hb H. assert (E : (- a) / b = - k); [|lia].
  symmetry. apply (Z.div_unique (- a) b (- k) (k * b - a)); lia.
Qed.

(** For every size below [2^52] the ceiling of the binary64 product is
    [ceil(n / 5)]. *)
Lemma n_test_binary64_exact (n : Z) :
  0 <= n < 2 ^ 52 -> n_test_binary64 n = (n + 4) / 5.
Proof.
  intros Hn. unfold n_test_binary64, binary64_mul_02.
  change (2 ^ 52) with 4503599627370496 in Hn.
  destruct (Z_lt_le_dec (n * double_02) (2 ^ 53)) as [Hsmall|Hbig].
  - rewrite round53_small
      by (unfold double_02 in *; split; [lia | exact Hsmall]).
    change (2 ^ 53) with 9007199254740992 in Hsmall. unfold double_02 in Hsmall.
    assert (Hc : n = 0 \/ n = 1 \/ n = 2) by lia.
    destruct Hc as [->|[->| ->]]; vm_compute; reflexivity.
  - destruct (round53_spec _ Hbig) as (sh & q & -> & Hsh & [Hlo Hhi] & Hnear & Huniq).
    assert (Hu : 0 < 2 ^ sh) by (apply Z.pow_pos_nonneg; lia).
    assert (Hsh52 : sh < 52).
    { apply (Z.pow_lt_mono_r_iff 2); [lia | lia |].
      change (2 ^ 52) with 4503599627370496.
      change (2 ^ 52) with 4503599627370496 in Hlo.
      unfold double_02 in Hlo. nia. }
    assert (E54 : 2 ^ (54 - sh) * 2 ^ sh = 2 ^ 54).
    { rewrite <- Z.pow_add_r by lia. f_equal. lia. }
    change (2 ^ 52) with 4503599627370496 in Hlo.
    change (2 ^ 53) with 9007199254740992 in Hhi, Hbig.
    change (2 ^ 54) with 18014398509481984 in *.
    unfold double_02 in *.
    set (u := 2 ^ sh) in *. set (m := n * 3602879701896397) in *.
    assert (H5 : 5 * m = n * 18014398509481985) by (unfold m; lia).
    pose proof (Z.div_mod n 5 ltac:(lia)) as Hdm.
    pose proof (Z.mod_pos_bound n 5 ltac:(lia)) as Hj.
    set (k := n / 5) in *. set (j := n mod 5) in *.
    assert (Hk4 : (n + 4) / 5 = if j =? 0 then k else k + 1).
    { destruct (Z.eqb_spec j 0).
      - symmetry. apply (Z.div_unique (n + 4) 5 k 4); lia.
      - symmetry. apply (Z.div_unique (n + 4) 5 (k + 1) (j - 1)); lia. }
    rewrite Hk4. destruct (Z.eqb_spec j 0) as [Hj0|Hj0].
    + assert (Hq : q = k * 2 ^ (54 - sh)).
      { apply Huniq.
        replace (k * 2 ^ (54 - sh) * u) with (k * 18014398509481984)
          by (rewrite <- E54; ring).
        assert (2 * k < u) by nia. lia. }
      rewrite Hq.
      replace (k * 2 ^ (54 - sh) * u) with (k * 18014398509481984)
        by (rewrite <- E54; ring).
      apply ceil_div_unique; lia.
    + apply ceil_div_unique; [lia|]. lia.
Qed.

End Binary64.

(** The test size [validate_shuffle_split] takes is the one Python
    computes in double precision. *)
Lemma n_test_binary64_agrees (n : nat) :
  (Z.of_nat n < 2 ^ 52)%Z ->
  Z.to_nat (Qceiling (test_size * inject_Z (Z.of_nat n)))
  = Z.to_nat (n_test_binary64 (Z.of_nat n)).
Proof.
  intros Hn. rewrite n_test_formula, n_test_binary64_exact by lia.
  rewrite <- (Nat2Z.id ((n + 4) / 5)). f_equal.
  rewrite Nat2Z.inj_div, Nat2Z.inj_add. reflexivity.
Qed.

Lemma validate_shuffle_split_Ok (n : nat) :
  (2 <= n)%nat ->
  validate_shuffle_split n = Ok ((n - (n + 4) / 5)%nat, ((n + 4) / 5)%nat).
Proof.
  intros Hn. unfold validate_shuffle_split. rewrite n_test_formula.
  assert (H : ((n + 4) / 5 < n)%nat).
  { apply Nat.Div0.div_lt_upper_bound. lia. }
  destruct (Nat.eqb_spec (n - (n + 4) / 5) 0); [lia | reflexivity].
Qed.

Lemma validate_shuffle_split_empty (n : nat) :
  (n <= 1)%nat ->
  validate_shuffle_split n = Raise (ValueError "the resulting train set will be empty").
Proof.
  intros Hn. unfold validate_shuffle_split. rewrite n_test_formula.
  destruct n as [|[|n]]; [reflexivity | reflexivity | lia].
Qed.

Lemma round_half_even_floor (x : Q) :
  round_half_even x = Qfloor x \/ round_half_even x = (Qfloor x + 1)%Z.
Proof.
  unfold round_half_even.
  destruct (Qltb _ _); auto. destruct (Qltb _ _); auto.
  destruct (Z.even _); auto.
Qed.

Lemma Qceiling_floor (x : Q) :
  (Qfloor x <= Qceiling x <= Qfloor x + 1)%Z.
Proof.
  pose proof (Qfloor_le x) as H1. pose proof (Qlt_floor x) as H2.
  pose proof (Qle_ceiling x) as H3. pose proof (Qceiling_lt x) as H4.
  split.
  - rewrite Zle_Qle. lra.
  - assert (H : inject_Z (Qceiling x - 1) < inject_Z (Qfloor x + 1)) by lra.
    rewrite <- Zlt_Qlt in H. lia.
Qed.

(** The ceiling [train_test_split] takes is the rounded value or next to
    it. *)
Lemma ceil_near_round (x : Q) :
  (Z.abs (Qceiling x - round_half_even x) <= 1)%Z.
Proof.
  pose proof (Qceiling_floor x). destruct (round_half_even_floor x); lia.
Qed.

Lemma take_rows_length {A} (idx : list nat) (l : list A) :
  (forall i, In i idx -> (i < List.length l)%nat) ->
  List.length (take_rows idx l) = List.length idx.
Proof.
  induction idx as [|i idx IH]; intros H; cbn [take_rows flat_map List.length];
    [reflexivity|].
  rewrite length_app. fold (take_rows idx l). rewrite IH.
  - destruct (nth_error l i) eqn:E; [reflexivity|].
    apply nth_error_None in E. specialize (H i (or_introl eq_refl)). lia.
  - intros j Hj. apply H. now right.
Qed.

Lemma In_firstn {A} (k : nat) (l : list A) (x : A) : In x (firstn k l) -> In x l.
Proof.
  intros H. rewrite <- (firstn_skipn k l). apply in_or_app. now left.
Qed.

Lemma In_skipn {A} (k : nat) (l : list A) (x : A) : In x (skipn k l) -> In x l.
Proof.
  intros H. rewrite <- (firstn_skipn k l). apply in_or_app. now right.
Qed.

(** ** What [clean_data] leaves *)

Lemma cell_ok_Some (l : list cell) (v : cell) :
  cell_ok l v = true -> exists x, v = Some x.
Proof.
  unfold cell_ok. destruct (col_stats l) as [[mu var]|]; [|discriminate].
  destruct v; [eauto | discriminate].
Qed.

Lemma clean_data_no_nan (df : DataFrame) (c : numeric_col) :
  existsb isnull (column c (clean_data df)) = false.
Proof.
  apply not_true_is_false. intros H.
  apply existsb_exists in H as (v & Hv & Hnull).
  unfold column in Hv. apply in_map_iff in Hv as (r & <- & Hr).
  unfold clean_data, remove_outliers in Hr. apply filter_In in Hr as [_ Hok].
  unfold row_ok in Hok. rewrite forallb_forall in Hok.
  assert (Hc : In c numeric_cols) by (destruct c; cbn; auto).
  destruct (cell_ok_Some _ _ (Hok c Hc)) as [x Hx].
  rewrite Hx in Hnull. discriminate.
Qed.

Lemma dropna_length_full (l : list cell) :
  existsb isnull l = false -> List.length (dropna l) = List.length l.
Proof.
  intros H. rewrite <- (dropna_no_null l H) at 2. now rewrite length_map.
Qed.

Lemma target_values_length (t : target) (df : DataFrame) :
  List.length (target_values t df) = List.length (clean_data df).
Proof.
  unfold target_values. rewrite dropna_length_full by apply clean_data_no_nan.
  unfold column. apply length_map.
Qed.

Lemma encoded_types_length (df : DataFrame) :
  List.length (encoded_types df) = List.length (clean_data df).
Proof.
  unfold encoded_types, encoder_fit_transform. cbn [snd].
  now rewrite !length_map.
Qed.

(** ** How many rows the z-score filter can drop *)

Lemma Qsum_ge_const {A} (f : A -> Q) (c : Q) (l : list A) :
  (forall x, In x l -> c <= f x) -> Qlen l * c <= Qsum (map f l).
Proof.
  induction l as [|a l IH]; intros H.
  - change (0 * c <= 0). lra.
  - cbn [map]. rewrite Qsum_cons, Qlen_cons.
    pose proof (H a (or_introl eq_refl)).
    assert (Qlen l * c <= Qsum (map f l)) by (apply IH; intros x Hx; apply H; now right).
    lra.
Qed.

Lemma Qsum_filter_le {A} (f : A -> Q) (p : A -> bool) (l : list A) :
  (forall x, 0 <= f x) ->
  Qsum (map f (List.filter p l)) <= Qsum (map f l).
Proof.
  intros Hf. induction l as [|a l IH]; cbn [List.filter map].
  - apply Qle_refl.
  - pose proof (Hf a). destruct (p a); cbn [map]; rewrite ?Qsum_cons; lra.
Qed.

Lemma Qlen_le {A B} (l : list A) (l' : list B) (k : Z) :
  inject_Z k * Qlen l <= Qlen l' ->
  (Z.to_nat k * List.length l <= List.length l')%nat.
Proof.
  unfold Qlen. rewrite <- inject_Z_mult, <- Zle_Qle. lia.
Qed.

(** At most one value in nine lies 3 standard deviations or more from
    the mean. *)
Lemma outliers_bound (xs : list Q) :
  0 < variance xs ->
  (9 * List.length
         (List.filter
            (fun x => negb (zscore_lt_3 (mean xs) (variance xs) x)) xs)
   <= List.length xs)%nat.
Proof.
  intros Hv.
  set (bad := List.filter _ xs).
  assert (Hne : xs <> nil).
  { intros ->. vm_compute in Hv. discriminate Hv. }
  pose proof (Qlen_pos xs Hne) as Hn.
  assert (Hsd : sq_dev xs == Qlen xs * variance xs).
  { unfold variance. field. lra. }
  assert (H1 : Qlen bad * (9 * variance xs)
               <= Qsum (map (fun x => Qsq (x - mean xs)) bad)).
  { apply Qsum_ge_const. intros x Hx. unfold bad in Hx.
    apply filter_In in Hx as [_ Hx]. apply negb_true_iff in Hx.
    unfold zscore_lt_3 in Hx. apply andb_false_iff in Hx as [Hx|Hx].
    - apply Qltb_true in Hv. congruence.
    - unfold Qltb in Hx. now apply negb_false_iff, Qle_bool_iff in Hx. }
  assert (H2 : Qsum (map (fun x => Qsq (x - mean xs)) bad) <= sq_dev xs).
  { unfold bad, sq_dev. apply Qsum_filter_le. intros x. apply Qsq_nonneg. }
  rewrite Hsd in H2.
  assert (H3 : inject_Z 9 * Qlen bad <= Qlen xs).
  { change (inject_Z 9) with 9. apply Qnot_lt_le. intros Hlt.
    assert (Qlen xs * variance xs < (9 * Qlen bad) * variance xs)
      by (apply Qmult_lt_compat_r; assumption).
    lra. }
  apply Qlen_le in H3. exact H3.
Qed.

Lemma cell_ok_nondegenerate (l : list cell) (x : Q) :
  nondegenerate l ->
  cell_ok l (Some x) = zscore_lt_3 (mean (dropna l)) (variance (dropna l)) x.
Proof.
  intros [Hnull _]. unfold cell_ok, col_stats. now rewrite Hnull.
Qed.

(** In a column without NaN and with a positive variance, at most one
    cell in nine fails the test [z < 3]. *)
Lemma column_outliers_bound (l : list cell) :
  nondegenerate l ->
  (9 * List.length (List.filter (fun v => negb (cell_ok l v)) l)
   <= List.length l)%nat.
Proof.
  intros Hnd. pose proof Hnd as [Hnull Hvar].
  pose proof (outliers_bound (dropna l) Hvar) as H.
  set (g := fun v => negb (cell_ok l v)).
  replace (List.filter g l) with (List.filter g (map Some (dropna l)))
    by (now rewrite dropna_no_null).
  replace (List.length l) with (List.length (dropna l))
    by (now apply dropna_length_full).
  rewrite filter_map_swap, length_map.
  erewrite filter_ext; [exact H|].
  intros x. unfold g. now rewrite cell_ok_nondegenerate.
Qed.

Lemma filter_orb_length {A} (f g : A -> bool) (l : list A) :
  (List.length (List.filter (fun x => f x || g x) l)
   <= List.length (List.filter f l) + List.length (List.filter g l))%nat.
Proof.
  induction l as [|a l IH]; cbn [List.filter]; [cbn; lia|].
  destruct (f a), (g a); cbn [orb List.length]; lia.
Qed.

(** The filter drops at most a third of the rows of a DataFrame whose
    three columns are nondegenerate. *)
Lemma remove_outliers_keeps (df : DataFrame) :
  (forall c, nondegenerate (column c df)) ->
  (3 * (List.length df - List.length (remove_outliers df)) <= List.length df)%nat.
Proof.
  intros Hnd. unfold remove_outliers.
  pose proof (List.filter_length (row_ok df) df) as Hsplit.
  set (bad c := List.filter (fun r => negb (cell_ok (column c df) (get_col c r))) df).
  assert (Hc : forall c, (9 * List.length (bad c) <= List.length df)%nat).
  { intros c. pose proof (column_outliers_bound (column c df) (Hnd c)) as H.
    unfold bad. set (col := column c df) in *.
    unfold col in H at 2 3. unfold column in H at 1 2.
    rewrite filter_map_swap, !length_map in H. exact H. }
  assert (Hu : (List.length (List.filter (fun r => negb (row_ok df r)) df)
                <= List.length (bad ColFlowrate) + List.length (bad ColPressure)
                   + List.length (bad ColTemperature))%nat).
  { erewrite filter_ext.
    - etransitivity; [apply filter_orb_length|].
      apply Nat.add_le_mono_r. apply filter_orb_length.
    - intros r. unfold row_ok, numeric_cols. cbn [forallb].
      rewrite andb_true_r, !negb_andb. now rewrite orb_assoc. }
  pose proof (Hc ColFlowrate). pose proof (Hc ColPressure).
  pose proof (Hc ColTemperature). lia.
Qed.

Lemma not_nondegenerate_cell (l : list cell) (v : cell) :
  ~ nondegenerate l -> cell_ok l v = false.
Proof.
  intros Hnd. unfold cell_ok, col_stats.
  destruct (existsb isnull l) eqn:Hnull; [reflexivity|].
  destruct v as [x|]; [|reflexivity].
  unfold zscore_lt_3.
  destruct (Qltb 0 (variance (dropna l))) eqn:Hv; [|reflexivity].
  exfalso. apply Hnd. split; [assumption|]. now apply Qltb_true.
Qed.

Lemma nondegenerate_dec (l : list cell) : nondegenerate l \/ ~ nondegenerate l.
Proof.
  unfold nondegenerate.
  destruct (existsb isnull l); [right; intros [H _]; discriminate|].
  destruct (Qlt_le_dec 0 (variance (dropna l))) as [H|H].
  - left. auto.
  - right. intros [_ H']. apply (Qlt_not_le _ _ H' H).
Qed.

(** A degenerate column (a NaN left in it, or all values equal) makes the
    filter drop every row. *)
Lemma remove_outliers_degenerate (df : DataFrame) (c : numeric_col) :
  ~ nondegenerate (column c df) -> remove_outliers df = nil.
Proof.
  intros Hnd. unfold remove_outliers.
  erewrite filter_ext; [apply filter_false|].
  intros r. unfold row_ok.
  apply not_true_is_false. rewrite forallb_forall. intros H.
  assert (Hc : In c numeric_cols) by (destruct c; cbn; auto).
  specialize (H c Hc). rewrite not_nondegenerate_cell in H by assumption.
  discriminate H.
Qed.

(** [clean_data] is all or nearly all: it returns no row, or at least two
    thirds of them. *)
Lemma clean_data_keeps (df : DataFrame) :
  clean_data df = nil
  \/ (3 * (List.length (fill_missing df) - List.length (clean_data df))
      <= List.length (fill_missing df))%nat.
Proof.
  unfold clean_data. set (D := fill_missing df).
  destruct (nondegenerate_dec (column ColFlowrate D)) as [H1|H1];
    [|left; eapply remove_outliers_degenerate; eauto].
  destruct (nondegenerate_dec (column ColPressure D)) as [H2|H2];
    [|left; eapply remove_outliers_degenerate; eauto].
  destruct (nondegenerate_dec (column ColTemperature D)) as [H3|H3];
    [|left; eapply remove_outliers_degenerate; eauto].
  right. apply remove_outliers_keeps. intros c; destruct c; assumption.
Qed.

Lemma variance_single (x : Q) : variance (x :: nil) == 0.
Proof.
  unfold variance, sq_dev, mean, Qlen. cbn [List.length map].
  rewrite !Qsum_cons. change (Qsum nil) with 0.
  change (inject_Z (Z.of_nat 1)) with 1. unfold Qsq. field.
Qed.

(** [clean_data] never returns exactly one row. *)
Lemma clean_data_not_single (df : DataFrame) :
  List.length (clean_data df) <> 1%nat.
Proof.
  intros Hone.
  destruct (clean_data_keeps df) as [Hnil|Hk].
  - rewrite Hnil in Hone. discriminate.
  - rewrite Hone in Hk.
    assert (Hle : (List.length (clean_data df) <= List.length (fill_missing df))%nat)
      by (unfold clean_data, remove_outliers; apply filter_length_le).
    assert (Hn : List.length (fill_missing df) = 1%nat) by lia.
    destruct (fill_missing df) as [|r [|r' D]] eqn:E; try discriminate.
    assert (Hnil : clean_data df = nil).
    { unfold clean_data. rewrite E.
      apply (remove_outliers_degenerate _ ColFlowrate).
      intros [Hnull Hv]. cbn in Hnull, Hv.
      destruct (Flowrate r) as [x|]; [|discriminate].
      cbn [dropna] in Hv. rewrite variance_single in Hv. lra. }
    rewrite Hnil in Hone. discriminate.
Qed.

Section SplitSizes.

Variable permutation : nat -> list nat.
Variable stratified_indices : list nat -> nat -> nat -> list nat * list nat.
Variable np_sqrt : Q -> Q.
Variable fit_regressor : algorithm -> list (list Q) -> list Q -> list Q -> Q.
Variable fit_classifier : list (list Q) -> list nat -> list Q -> nat.

(** With a shuffle that is a permutation of the positions, a plain
    split of two rows or more succeeds, with [ceil(0.2 n)] test rows
    and the rest for training. *)
Lemma train_test_split_sizes {A B} (X : list A) (y : list B) :
  (forall n, Permutation (permutation n) (seq 0 n)) ->
  List.length X = List.length y ->
  (2 <= List.length X)%nat ->
  exists X_train X_test y_train y_test,
    train_test_split permutation stratified_indices X y None
    = Ok (X_train, X_test, y_train, y_test)
    /\ List.length X_test = ((List.length X + 4) / 5)%nat
    /\ (List.length X_train + List.length X_test = List.length X)%nat
    /\ List.length y_test = List.length X_test
    /\ List.length y_train = List.length X_train.
Proof.
  intros Hperm Hlen Hn. unfold train_test_split.
  rewrite Hlen, Nat.eqb_refl. cbn [negb]. rewrite <- Hlen.
  rewrite (validate_shuffle_split_Ok _ Hn).
  set (n := List.length X) in *. set (d := ((n + 4) / 5)%nat).
  cbn [mbind result_bind rbind]. unfold shuffle_split.
  fold n. set (perm := permutation n).
  assert (Hd : (d < n)%nat) by (apply Nat.Div0.div_lt_upper_bound; lia).
  assert (Hpl : List.length perm = n).
  { unfold perm. rewrite (Permutation_length (Hperm n)). apply length_seq. }
  assert (Hin : forall i, In i perm -> (i < n)%nat).
  { intros i Hi. apply (Permutation_in _ (Hperm n)) in Hi.
    apply in_seq in Hi. lia. }
  do 4 eexists. split; [reflexivity|].
  rewrite !take_rows_length.
  - rewrite !length_firstn, length_skipn, Hpl. repeat split; lia.
  - intros i Hi. rewrite <- ?Hlen. fold n. apply Hin.
    first [eapply In_firstn, Hi | eapply In_skipn, In_firstn, Hi].
  - intros i Hi. rewrite <- ?Hlen. fold n. apply Hin.
    first [eapply In_firstn, Hi | eapply In_skipn, In_firstn, Hi].
  - intros i Hi. rewrite <- ?Hlen. fold n. apply Hin.
    first [eapply In_firstn, Hi | eapply In_skipn, In_firstn, Hi].
  - intros i Hi. rewrite <- ?Hlen. fold n. apply Hin.
    first [eapply In_firstn, Hi | eapply In_skipn, In_firstn, Hi].
Qed.

(** A cleaned dataset of [N >= 2] rows is split into train and test
    sets whose sizes add up to [N], the test size being [round(0.2 N)]
    or next to it; these are the counts a run of
    [train_regression_models] records when it returns. *)
Lemma split_counts_of_run (df : DataFrame) :
  (forall n, Permutation (permutation n) (seq 0 n)) ->
  (2 <= List.length (clean_data df))%nat ->
  exists X_train X_test y_train y_test,
    train_test_split permutation stratified_indices
                     (encoded_types df) (target_values TFlowrate df) None
    = Ok (X_train, X_test, y_train, y_test)
    /\ (List.length X_train + List.length X_test
        = List.length (clean_data df))%nat
    /\ (Z.abs (Z.of_nat (List.length X_test)
               - round_half_even
                   (test_size * inject_Z (Z.of_nat (List.length (clean_data df)))))
        <= 1)%Z
    /\ forall s s' metrics,
        train_regression_models permutation stratified_indices np_sqrt
                                fit_regressor df s = (s', Ok metrics) ->
        rm_training_samples metrics = List.length X_train
        /\ rm_test_samples metrics = List.length X_test
        /\ rm_total_samples metrics = List.length (clean_data df).
Proof.
  intros Hperm Hn.
  destruct (train_test_split_sizes (encoded_types df) (target_values TFlowrate df) Hperm)
    as (X_train & X_test & y_train & y_test & Hsplit & Hte & Hsum & _).
  { now rewrite encoded_types_length, target_values_length. }
  { now rewrite encoded_types_length. }
  rewrite encoded_types_length in Hte, Hsum.
  exists X_train, X_test, y_train, y_test.
  split; [assumption|]. split; [assumption|]. split.
  - rewrite Hte, <- n_test_formula, Z2Nat.id.
    + apply ceil_near_round.
    + pose proof (Qle_ceiling (test_size * inject_Z (Z.of_nat (List.length (clean_data df))))) as Hc.
      rewrite Zle_Qle. eapply Qle_trans; [|exact Hc].
      apply Qmult_le_0_compat; [unfold test_size; lra|].
      change 0 with (inject_Z 0). rewrite <- Zle_Qle. lia.
  - intros s s' metrics Hrun.
    apply train_regression_models_run in Hrun
      as (X_train' & X_test' & sc & Xs1 & Xs2 & _ & _ & _ & Htr' & Hte' & Htot
      & _ & _ & _ & _ & Ht).
    destruct (Ht TFlowrate) as (y1 & y2 & _ & Hsplit' & _).
    rewrite Hsplit in Hsplit'. injection Hsplit' as <- <- _ _.
    now rewrite <- encoded_types_length.
Qed.

Lemma prepare_data_empty (df : DataFrame) (s : TrainState) (e : LabelEncoder) :
  clean_data df = nil ->
  label_encoder (obj s) = PyEncoder e ->
  prepare_data df s
  = (mkState (set_feature_names (PyList ("Type_Encoded" :: nil))
                (set_label_encoder (PyEncoder (mkEncoder (Some nil))) (obj s)))
             (fits s),
     Ok (nil, nil, nil, nil)).
Proof.
  intros Hclean He. unfold prepare_data. rewrite Hclean.
  unfold attr_encoder_fit_transform, get_attr, set_attr, mbind, M_bind, mret, M_ret.
  rewrite He. reflexivity.
Qed.

Lemma prepare_data_no_encoder (df : DataFrame) (s : TrainState) :
  (forall e, label_encoder (obj s) <> PyEncoder e) ->
  prepare_data df s
  = (s, Raise (AttributeError "object has no attribute 'fit_transform'")).
Proof.
  intros He. unfold prepare_data, attr_encoder_fit_transform, get_attr.
  unfold mbind, M_bind, raise.
  destruct (label_encoder (obj s)) eqn:E; try reflexivity.
  now destruct (He e).
Qed.

(** C4: when cleaning leaves no row, training raises before any model
    is fitted: the log of fits and the model attributes are as they were
    and the object is not marked trained.  On an object that holds its
    label encoder the exception is the split's refusal of an empty train
    set. *)
Theorem train_on_no_rows_raises (df : DataFrame) (s : TrainState) :
  clean_data df = nil ->
  exists s1 e,
    train permutation stratified_indices np_sqrt fit_regressor fit_classifier df s
    = (s1, Raise e)
    /\ fits s1 = fits s
    /\ (forall t, get_model t (obj s1) = get_model t (obj s))
    /\ classifier_model (obj s1) = classifier_model (obj s)
    /\ is_trained (obj s1) = is_trained (obj s)
    /\ ((exists enc, label_encoder (obj s) = PyEncoder enc) ->
        e = ValueError "the resulting train set will be empty").
Proof.
  intros Hclean.
  destruct (label_encoder (obj s)) as [| | | | |enc| |] eqn:He.
  all: try (exists s; eexists; split;
            [unfold train; apply bind_Raise;
             unfold train_regression_models; apply bind_Raise;
             apply prepare_data_no_encoder; intros e'; rewrite He; discriminate
            |repeat split; intros [enc Henc]; discriminate Henc]).
  eexists. eexists. split.
  - unfold train. apply bind_Raise.
    unfold train_regression_models.
    rewrite (bind_step _ _ _ _ _ (prepare_data_empty df s enc Hclean He)).
    apply bind_Raise. reflexivity.
  - cbn [obj fits]. repeat split.
Qed.

End SplitSizes.

Lemma train_on_no_rows_raises_witness :
  exists s1 e,
    train sample_permutation sample_stratified_indices sample_sqrt
          sample_fit_regressor sample_fit_classifier same_pressure fresh
    = (s1, Raise e)
    /\ fits s1 = fits fresh
    /\ (forall t, get_model t (obj s1) = get_model t (obj fresh))
    /\ classifier_model (obj s1) = classifier_model (obj fresh)
    /\ is_trained (obj s1) = is_trained (obj fresh)
    /\ ((exists enc, label_encoder (obj fresh) = PyEncoder enc) ->
        e = ValueError "the resulting train set will be empty").
Proof.
  apply (train_on_no_rows_raises sample_permutation sample_stratified_indices
           sample_sqrt sample_fit_regressor sample_fit_classifier
           same_pressure fresh).
  vm_compute. reflexivity.
Defined.

(** ** Classification training *)

Section Classification.

Variable permutation : nat -> list nat.
Variable stratified_indices : list nat -> nat -> nat -> list nat * list nat.
Variable np_sqrt : Q -> Q.
Variable fit_classifier : list (list Q) -> list nat -> list Q -> nat.

(** What [train_classification_model] does on a constructed object: it
    fits the encoder, splits (stratified exactly when [can_stratify]),
    fits the scaler and the classifier, and records the metrics; an
    exception of the split or of the scaler is the method's. *)
Lemma train_classification_model_run (df : DataFrame) (s : TrainState) :
  constructed (obj s) ->
  exists h,
    training_history (obj s) = PyDict h
    /\ let X := classification_X df in
       let y := classification_y df in
       let o1 := set_label_encoder
                   (PyEncoder (fst (encoder_fit_transform (cleaned_types df))))
                   (obj s) in
       train_classification_model permutation stratified_indices np_sqrt
                                  fit_classifier df s
       = match (if can_stratify y
                then train_test_split permutation stratified_indices X y (Some y)
                else train_test_split permutation stratified_indices X y None) with
         | Raise e => (mkState o1 (fits s), Raise e)
         | Ok (X_train, X_test, y_train, y_test) =>
           match scaler_fit np_sqrt X_train with
           | Raise e => (mkState o1 (fits s), Raise e)
           | Ok sc =>
             let X_train_scaled := map (scale_row (default nil (scaler_params sc))) X_train in
             let X_test_scaled := map (scale_row (default nil (scaler_params sc))) X_test in
             let clf := mkClassifier (fit_classifier X_train_scaled y_train) in
             let y_pred := map (clf_predict clf) X_test_scaled in
             let metrics :=
               {| cm_accuracy := accuracy_score y_test y_pred;
                  cm_training_samples := List.length X_train;
                  cm_test_samples := List.length X_test;
                  cm_equipment_types := np_unique (cleaned_types df);
                  cm_confusion_matrix := confusion_matrix y_test y_pred |} in
             (mkState
                (set_training_history
                   (PyDict (<["classification" := MCls metrics]> h))
                   (set_classifier_model (PyClassifier clf)
                      (set_scaler_classification (PyScaler sc) o1)))
                (fits s ++ RandomForestClassifier :: nil),
              Ok metrics)
           end
         end.
Proof.
  intros ([e He] & _ & [sc0 Hsc0] & [h Hh]). exists h. split; [assumption|].
  cbv zeta. unfold train_classification_model.
  unfold attr_encoder_fit_transform, attr_scaler_fit_transform,
    attr_encoder_classes, history_store, log_fit, get_attr, set_attr, lift, raise.
  unfold mbind, M_bind, mret, M_ret. rewrite He.
  fold (cleaned_types df). fold (classification_X df).
  destruct (encoder_fit_transform (cleaned_types df)) as [enc y] eqn:Henc.
  unfold classification_y. rewrite Henc. cbn [fst snd obj fits].
  assert (Hcl : enc = mkEncoder (Some (np_unique (cleaned_types df))))
    by (unfold encoder_fit_transform in Henc; now injection Henc as <- _).
  destruct (if can_stratify y then _ else _) as [[[[X_train X_test] y_train] y_test]|err];
    [|reflexivity].
  cbn [obj fits scaler_classification set_label_encoder]. rewrite Hsc0.
  destruct (scaler_fit np_sqrt X_train) as [sc|err] eqn:Hfit; [|reflexivity].
  assert (Hp : exists ps, scaler_params sc = Some ps).
  { unfold scaler_fit in Hfit. destruct X_train; [discriminate|].
    injection Hfit as <-. eauto. }
  destruct Hp as [ps Hps].
  cbn [obj fits scaler_classification set_scaler_classification].
  unfold scaler_transform. rewrite Hps. cbn [default].
  cbn [obj fits attr_scaler_transform label_encoder set_classifier_model
       set_scaler_classification set_label_encoder training_history].
  unfold scaler_transform. rewrite Hps, Hcl.
  cbn [obj fits training_history set_classifier_model
       set_scaler_classification set_label_encoder].
  rewrite Hh. reflexivity.
Qed.

End Classification.

(** ** Labels and their codes *)

Lemma In_str_insert (s t : string) (l : list string) :
  In s (str_insert t l) <-> s = t \/ In s l.
Proof.
  induction l as [|u l IH]; cbn [str_insert].
  - cbn. intuition.
  - destruct (String.eqb_spec t u) as [->|Hne].
    + cbn. intuition.
    + destruct (String.leb t u); cbn [In]; [intuition|].
      rewrite IH. intuition.
Qed.

Lemma In_np_unique (s : string) (l : list string) :
  In s (np_unique l) <-> In s l.
Proof.
  induction l as [|t l IH]; cbn [np_unique fold_right]; [reflexivity|].
  fold (np_unique l). rewrite In_str_insert, IH. cbn. intuition.
Qed.

Lemma index_of_In (s : string) (cs : list string) :
  In s cs -> exists i, index_of s cs = Some i.
Proof.
  induction cs as [|t cs IH]; [intros []|]. intros H. cbn [index_of].
  destruct (String.eqb_spec s t) as [->|Hne]; [eauto|].
  destruct H as [->|H]; [congruence|].
  destruct (IH H) as [i ->]. cbn. eauto.
Qed.

Lemma index_of_inj (s s' : string) (cs : list string) (i : nat) :
  index_of s cs = Some i -> index_of s' cs = Some i -> s = s'.
Proof.
  revert i. induction cs as [|t cs IH]; intros i; [discriminate|].
  cbn [index_of].
  destruct (String.eqb_spec s t) as [->|Hs], (String.eqb_spec s' t) as [->|Hs'].
  - reflexivity.
  - intros [= <-]. destruct (index_of s' cs); discriminate.
  - destruct (index_of s cs); [|discriminate]. intros [= <-]. discriminate.
  - destruct (index_of s cs) as [j|] eqn:E; [|discriminate].
    destruct (index_of s' cs) as [j'|] eqn:E'; [|discriminate].
    cbn. intros [= <-] [= ->]. eapply IH; eauto.
Qed.

Lemma code_of_inj (cs : list string) (s s' : string) :
  In s cs -> In s' cs -> code_of cs s = code_of cs s' -> s = s'.
Proof.
  intros Hs Hs'. unfold code_of.
  destruct (index_of_In s cs Hs) as [i Hi].
  destruct (index_of_In s' cs Hs') as [i' Hi'].
  rewrite Hi, Hi'. intros <-. eapply index_of_inj; eauto.
Qed.

Lemma count_occ_map_inj {A B} (eqA : forall x y : A, {x = y} + {x <> y})
      (eqB : forall x y : B, {x = y} + {x <> y}) (f : A -> B) (l : list A) (a : A) :
  (forall x, In x l -> f x = f a -> x = a) ->
  count_occ eqB (map f l) (f a) = count_occ eqA l a.
Proof.
  induction l as [|x l IH]; intros H; cbn [map count_occ]; [reflexivity|].
  rewrite IH by (intros y Hy; apply H; now right).
  destruct (eqB (f x) (f a)) as [E|E], (eqA x a) as [E'|E']; try reflexivity.
  - exfalso. apply E'. apply H; [now left | assumption].
  - exfalso. apply E. now rewrite E'.
Qed.

(** A label's rows are exactly the rows that carry its code. *)
Lemma class_count_code (types : list string) (label : string) :
  In label types ->
  count_occ Nat.eq_dec (snd (encoder_fit_transform types))
            (code_of (np_unique types) label)
  = class_count types label.
Proof.
  intros Hin. unfold encoder_fit_transform, class_count. cbn [snd].
  change (fun s => match index_of s (np_unique types) with
                   | Some i => i
                   | None => O
                   end) with (code_of (np_unique types)).
  apply count_occ_map_inj. intros x Hx.
  apply code_of_inj; now apply In_np_unique.
Qed.

Lemma In_nat_insert (n m : nat) (l : list nat) :
  In n (nat_insert m l) <-> n = m \/ In n l.
Proof.
  induction l as [|u l IH]; cbn [nat_insert].
  - cbn. intuition.
  - destruct (Nat.eqb_spec m u) as [->|Hne].
    + cbn. intuition.
    + destruct (Nat.leb m u); cbn [In]; [intuition|].
      rewrite IH. intuition.
Qed.

Lemma In_np_unique_nat (n : nat) (l : list nat) :
  In n (np_unique_nat l) <-> In n l.
Proof.
  induction l as [|t l IH]; cbn [np_unique_nat fold_right]; [reflexivity|].
  fold (np_unique_nat l). rewrite In_nat_insert, IH. cbn. intuition.
Qed.

Lemma can_stratify_spec (y : list nat) :
  can_stratify y = true
  <-> forall c, In c y -> (2 <= count_occ Nat.eq_dec y c)%nat.
Proof.
  unfold can_stratify, unique_counts. rewrite forallb_forall. split.
  - intros H c Hc. apply Nat.leb_le. apply H.
    apply in_map. now apply In_np_unique_nat.
  - intros H n Hn. apply in_map_iff in Hn as (c & <- & Hc).
    apply Nat.leb_le. apply H. now apply In_np_unique_nat.
Qed.

(** Stratification is possible exactly when every class of the cleaned
    rows has two rows or more. *)
Lemma can_stratify_classes (df : DataFrame) :
  can_stratify (classification_y df) = true
  <-> forall label, In label (cleaned_types df) ->
                    (2 <= class_count (cleaned_types df) label)%nat.
Proof.
  rewrite can_stratify_spec. unfold classification_y. split.
  - intros H label Hl. rewrite <- class_count_code by assumption.
    apply H. unfold encoder_fit_transform. cbn [snd].
    apply in_map_iff. exists label. split; [reflexivity|assumption].
  - intros H c Hc. unfold encoder_fit_transform in Hc. cbn [snd] in Hc.
    apply in_map_iff in Hc as (label & <- & Hl).
    fold (code_of (np_unique (cleaned_types df)) label).
    rewrite class_count_code by assumption. now apply H.
Qed.

Lemma clean_data_features (df : DataFrame) (r : Row) :
  In r (clean_data df) -> exists x, features r = Some x.
Proof.
  intros Hr. unfold features.
  assert (H : forall c, exists x, get_col c r = Some x).
  { intros c. pose proof (clean_data_no_nan df c) as Hc.
    destruct (get_col c r) as [x|] eqn:E; [eauto|]. exfalso.
    assert (Hex : existsb isnull (column c (clean_data df)) = true).
    { apply existsb_exists. exists None. split; [|reflexivity].
      rewrite <- E. unfold column. now apply in_map. }
    congruence. }
  destruct (H ColFlowrate) as [f Hf], (H ColPressure) as [p Hp],
           (H ColTemperature) as [t Ht].
  cbn in Hf, Hp, Ht. rewrite Hf, Hp, Ht. eauto.
Qed.

Lemma omap_length_full {A B} (f : A -> option B) (l : list A) :
  (forall x, In x l -> exists y, f x = Some y) ->
  List.length (omap f l) = List.length l.
Proof.
  induction l as [|a l IH]; intros H; cbn; [reflexivity|].
  destruct (H a (or_introl eq_refl)) as [y ->]. cbn. f_equal.
  apply IH. intros x Hx. apply H. now right.
Qed.

Lemma classification_X_length (df : DataFrame) :
  List.length (classification_X df) = List.length (clean_data df).
Proof.
  unfold classification_X. apply omap_length_full.
  intros r Hr. now apply (clean_data_features df).
Qed.

Lemma classification_y_length (df : DataFrame) :
  List.length (classification_y df) = List.length (clean_data df).
Proof.
  unfold classification_y, encoder_fit_transform, cleaned_types. cbn [snd].
  now rewrite !length_map.
Qed.

Section ClassificationSplit.

Variable permutation : nat -> list nat.
Variable stratified_indices : list nat -> nat -> nat -> list nat * list nat.
Variable np_sqrt : Q -> Q.
Variable fit_classifier : list (list Q) -> list nat -> list Q -> nat.

(** C6 (as amended): on a constructed object, a class with exactly
    one row among the rows [clean_data] keeps makes
    [train_classification_model] take the plain (non-stratified) 80/20
    split and return a fitted classifier and its metrics; when every
    class of the kept rows has two rows or more the split it attempts is
    the one stratified by label. *)
Theorem singleton_class_plain_split (df : DataFrame) (s : TrainState) :
  (forall n, Permutation (permutation n) (seq 0 n)) ->
  constructed (obj s) ->
  let X := classification_X df in
  let y := classification_y df in
  let n := List.length (clean_data df) in
  ((exists label, class_count (cleaned_types df) label = 1%nat) ->
   exists s' metrics X_train X_test y_train y_test sc,
     train_classification_model permutation stratified_indices np_sqrt
                                fit_classifier df s = (s', Ok metrics)
     /\ train_test_split permutation stratified_indices X y None
        = Ok (X_train, X_test, y_train, y_test)
     /\ List.length X_test = ((n + 4) / 5)%nat
     /\ (List.length X_train + List.length X_test = n)%nat
     /\ cm_training_samples metrics = List.length X_train
     /\ cm_test_samples metrics = List.length X_test
     /\ scaler_fit np_sqrt X_train = Ok sc
     /\ classifier_model (obj s')
        = PyClassifier
            (mkClassifier
               (fit_classifier
                  (map (scale_row (default nil (scaler_params sc))) X_train)
                  y_train))
     /\ fits s' = fits s ++ RandomForestClassifier :: nil)
  /\ ((forall label, In label (cleaned_types df) ->
                     (2 <= class_count (cleaned_types df) label)%nat) ->
      (forall e, train_test_split permutation stratified_indices X y (Some y)
                 = Raise e ->
                 exists s1,
                   train_classification_model permutation stratified_indices
                                              np_sqrt fit_classifier df s
                   = (s1, Raise e))
      /\ (forall s' metrics,
             train_classification_model permutation stratified_indices np_sqrt
                                        fit_classifier df s = (s', Ok metrics) ->
             exists X_train X_test y_train y_test,
               train_test_split permutation stratified_indices X y (Some y)
               = Ok (X_train, X_test, y_train, y_test)
               /\ cm_training_samples metrics = List.length X_train
               /\ cm_test_samples metrics = List.length X_test)).
Proof.
  intros Hperm Hcons X y n.
  destruct (train_classification_model_run permutation stratified_indices
              np_sqrt fit_classifier df s Hcons) as (h & Hh & Hrun).
  cbv zeta in Hrun. fold X y in Hrun. split.
  - intros [label Hone].
    assert (Hn : (2 <= n)%nat).
    { assert (Hin : In label (cleaned_types df)).
      { apply (count_occ_In string_dec). unfold class_count in Hone. lia. }
      unfold cleaned_types in Hin. apply in_map_iff in Hin as (r & _ & Hr).
      pose proof (clean_data_not_single df). unfold n.
      destruct (clean_data df) as [|r1 [|r2 l]]; cbn [List.length] in *;
        [destruct Hr | congruence | lia]. }
    assert (Hcs : can_stratify y = false).
    { apply not_true_is_false. intros Hc.
      pose proof (proj1 (can_stratify_classes df) Hc label) as Hc'.
      assert (Hin : In label (cleaned_types df)).
      { apply (count_occ_In string_dec). unfold class_count in Hone. lia. }
      specialize (Hc' Hin). lia. }
    rewrite Hcs in Hrun.
    destruct (train_test_split_sizes permutation stratified_indices X y Hperm)
      as (X_train & X_test & y_train & y_test & Hsplit & Hte & Hsum & _).
    { unfold X, y. now rewrite classification_X_length, classification_y_length. }
    { unfold X. now rewrite classification_X_length. }
    unfold X in Hte, Hsum. rewrite classification_X_length in Hte, Hsum.
    fold X n in Hte, Hsum.
    rewrite Hsplit in Hrun.
    destruct (scaler_fit np_sqrt X_train) as [sc|e] eqn:Hfit.
    + do 7 eexists. split; [exact Hrun|].
      split; [exact Hsplit|]. repeat split; try assumption.
    + exfalso. unfold scaler_fit in Hfit.
      destruct X_train; [|discriminate].
      assert (((n + 4) / 5 < n)%nat)
        by (apply Nat.Div0.div_lt_upper_bound; lia).
      cbn [List.length] in Hsum. lia.
  - intros Hall.
    assert (Hcs : can_stratify y = true)
      by exact (proj2 (can_stratify_classes df) Hall).
    rewrite Hcs in Hrun. split.
    + intros e He. rewrite He in Hrun. eauto.
    + intros s' metrics Hok. rewrite Hrun in Hok.
      destruct (train_test_split _ _ X y (Some y))
        as [[[[X_train X_test] y_train] y_test]|e]; [|discriminate].
      destruct (scaler_fit np_sqrt X_train) as [sc|e]; [|discriminate].
      injection Hok as _ <-. do 4 eexists. repeat split.
Qed.

End ClassificationSplit.

Lemma fresh_constructed : constructed (obj fresh).
Proof. repeat split; eexists; reflexivity. Qed.

Lemma singleton_class_plain_split_witness :
  (exists s' metrics,
      train_classification_model sample_permutation sample_stratified_indices
                                 sample_sqrt sample_fit_classifier six_rows fresh
      = (s', Ok metrics)
      /\ cm_training_samples metrics = 4%nat
      /\ cm_test_samples metrics = 2%nat)
  /\ (exists s' metrics X_train X_test y_train y_test,
         train_classification_model sample_permutation sample_stratified_indices
                                    sample_sqrt sample_fit_classifier ten_rows fresh
         = (s', Ok metrics)
         /\ train_test_split sample_permutation sample_stratified_indices
                             (classification_X ten_rows) (classification_y ten_rows)
                             (Some (classification_y ten_rows))
            = Ok (X_train, X_test, y_train, y_test)
         /\ cm_training_samples metrics = List.length X_train
         /\ cm_test_samples metrics = List.length X_test).
Proof.
  split.
  - destruct (singleton_class_plain_split sample_permutation
                sample_stratified_indices sample_sqrt sample_fit_classifier
                six_rows fresh (fun n => Permutation_refl _) fresh_constructed)
      as [HA _].
    destruct HA as (s' & metrics & X_train & X_test & y_train & y_test & sc
                    & Hrun & _ & Hte & Hsum & Htr' & Hte' & _).
    + exists "Reactor". vm_compute. reflexivity.
    + exists s', metrics. split; [exact Hrun|].
      rewrite Htr', Hte'.
      change (List.length (clean_data six_rows)) with 6%nat in Hte, Hsum.
      change ((6 + 4) / 5)%nat with 2%nat in Hte. rewrite Hte in *.
      split; [lia|reflexivity].
  - destruct (singleton_class_plain_split sample_permutation
                sample_stratified_indices sample_sqrt sample_fit_classifier
                ten_rows fresh (fun n => Permutation_refl _) fresh_constructed)
      as [_ HB].
    destruct HB as [_ HB].
    + intros label Hl. vm_compute in Hl.
      destruct Hl as [<-|[<-|[<-|[<-|[<-|[<-|[<-|[<-|[<-|[<-|[]]]]]]]]]]];
        vm_compute; lia.
    + destruct (train_classification_model sample_permutation
                  sample_stratified_indices sample_sqrt sample_fit_classifier
                  ten_rows fresh) as [s' [metrics|e]] eqn:Hrun.
      * destruct (HB s' metrics eq_refl)
          as (X_train & X_test & y_train & y_test & Hsplit & H1 & H2).
        exists s', metrics, X_train, X_test, y_train, y_test. auto.
      * vm_compute in Hrun. discriminate Hrun.
Defined.

(** A split of a single row is refused, stratified or not: its one row
    would be the test set. *)
Lemma single_row_split_raises {A B} (permutation : nat -> list nat)
      (stratified_indices : list nat -> nat -> nat -> list nat * list nat)
      (x : A) (y : B) (stratify : option (list nat)) :
  train_test_split permutation stratified_indices (x :: nil) (y :: nil) stratify
  = Raise (ValueError "the resulting train set will be empty").
Proof. reflexivity. Qed.

(** C6 (as stated) fails: in a dataset of one row a class has exactly one
    sample, and [train_classification_model] raises: cleaning drops the
    row (and a single row could not be split, [single_row_split_raises]). *)
Lemma singleton_class_raises :
  ~ (forall (permutation : nat -> list nat)
            (stratified_indices : list nat -> nat -> nat -> list nat * list nat)
            (np_sqrt : Q -> Q)
            (fit_classifier : list (list Q) -> list nat -> list Q -> nat)
            (df : DataFrame) (s : TrainState),
        (forall n, Permutation (permutation n) (seq 0 n)) ->
        constructed (obj s) ->
        (exists label, class_count (map Type_ df) label = 1%nat) ->
        exists s' metrics,
          train_classification_model permutation stratified_indices np_sqrt
                                     fit_classifier df s = (s', Ok metrics)).
Proof.
  intros H.
  destruct (H sample_permutation sample_stratified_indices sample_sqrt
              sample_fit_classifier one_pump fresh
              (fun n => Permutation_refl _) fresh_constructed)
    as (s' & metrics & Hrun).
  - exists "Pump". reflexivity.
  - vm_compute in Hrun. discriminate Hrun.
Qed.

(** ** Persistence *)

Lemma pickled_lookup (self : EquipmentMLModel) (key : string) :
  pickled self !! key = attribute key self.
Proof.
  unfold pickled, attribute.
  repeat match goal with
         | |- <[?k := _]> _ !! key = _ =>
           destruct (String.eqb_spec key k) as [->|?];
             [now rewrite lookup_insert_eq
             |rewrite lookup_insert_ne by congruence]
         end.
  apply lookup_empty.
Qed.

Lemma pickled_keys (self : EquipmentMLModel) (key : string) :
  is_Some (pickled self !! key) <-> In key bundle_keys.
Proof.
  rewrite pickled_lookup. unfold attribute, bundle_keys. cbn [In]. split.
  - intros [v Hv].
    repeat match type of Hv with
           | (if String.eqb key ?k then _ else _) = _ =>
             destruct (String.eqb_spec key k) as [->|?]; [tauto|]
           end.
    discriminate Hv.
  - intros H.
    repeat (destruct H as [<-|H]; [cbn; eauto|]). destruct H.
Qed.

(** C10: an object whose [is_trained] is false cannot be saved:
    [save_model] raises and the file system is left as it was. *)
Theorem save_untrained_raises (self : EquipmentMLModel) (filepath : list string)
        (fs : FS) :
  truthy (is_trained self) = false ->
  save_model self filepath fs = (fs, Raise (ValueError "Model not trained yet")).
Proof.
  intros H. unfold save_model. now rewrite H.
Qed.

Lemma save_untrained_raises_witness :
  save_model init user_model_path media_disk
  = (media_disk, Raise (ValueError "Model not trained yet")).
Proof.
  apply (save_untrained_raises init user_model_path media_disk).
  reflexivity.
Defined.

Lemma is_dir_spec (fs : FS) (p : list string) :
  is_dir fs p = true <-> p = nil \/ p ∈ dirs fs.
Proof.
  unfold is_dir. rewrite orb_true_iff, !bool_decide_eq_true. reflexivity.
Qed.

Lemma dirname_snoc (l : list string) (a : string) : dirname (l ++ a :: nil) = l.
Proof. unfold dirname. apply removelast_last. Qed.

Lemma dirname_firstn (name : list string) :
  dirname name = firstn (List.length name - 1) name.
Proof.
  unfold dirname. induction name as [|a l _] using rev_ind.
  - reflexivity.
  - rewrite removelast_last, length_app. cbn [List.length].
    replace (List.length l + 1 - 1)%nat with (List.length l) by lia.
    now rewrite firstn_app, Nat.sub_diag, firstn_all, firstn_O, app_nil_r.
Qed.

Lemma write_pickle_Ok (filepath : list string) (d : gmap string pyval) (fs : FS) :
  wf_fs fs ->
  is_dir fs (dirname filepath) = true ->
  is_dir fs filepath = false ->
  write_pickle filepath d fs
  = (mkFS (dirs fs) (<[filepath := d]> (files fs)), Ok tt).
Proof.
  intros Hwf Hparent Hnd. unfold write_pickle.
  now rewrite Hnd, (Hwf _ Hparent), Hparent.
Qed.

Lemma write_pickle_no_parent (filepath : list string) (d : gmap string pyval)
      (fs : FS) :
  is_dir fs (dirname filepath) = false ->
  exists e, write_pickle filepath d fs = (fs, Raise e).
Proof.
  intros Hparent. unfold write_pickle. rewrite Hparent.
  destruct (is_dir fs filepath); [eauto|].
  destruct (is_file fs (dirname filepath)); eauto.
Qed.

(** The last step of [makedirs]: [mkdir], an existing directory being
    fine. *)
Lemma mkdir_exist_ok (name : list string) (fs : FS) :
  is_file fs name = false ->
  is_file fs (dirname name) = false ->
  is_dir fs (dirname name) = true ->
  exists fs',
    match mkdir name fs with
    | (fs2, Raise e) => if is_dir fs2 name then (fs2, Ok tt) else (fs2, Raise e)
    | done => done
    end = (fs', Ok tt)
    /\ files fs' = files fs
    /\ is_dir fs' name = true
    /\ (forall p, is_dir fs p = true -> is_dir fs' p = true)
    /\ (forall p, is_dir fs' p = true -> is_dir fs p = true \/ p = name).
Proof.
  intros Hname Hpf Hpd. unfold mkdir, path_exists. rewrite Hname, orb_false_r.
  destruct (is_dir fs name) eqn:Hdn.
  - rewrite Hdn. exists fs. repeat split; auto.
  - rewrite Hpf, Hpd. cbn [negb].
    eexists. split; [reflexivity|]. cbn [files]. repeat split.
    + apply is_dir_spec. right. cbn. set_solver.
    + intros p Hp. apply is_dir_spec in Hp. apply is_dir_spec. cbn.
      destruct Hp; [auto | right; set_solver].
    + intros p Hp. apply is_dir_spec in Hp. cbn in Hp.
      destruct Hp as [->|Hp]; [left; reflexivity|].
      apply elem_of_union in Hp as [Hp|Hp].
      * apply elem_of_singleton in Hp as ->. now right.
      * left. apply is_dir_spec. now right.
Qed.

(** [makedirs] on a path none of whose prefixes is a file: it succeeds,
    the path is a directory afterwards, no file is touched, and the only
    directories added are prefixes of the path. *)
Lemma makedirs_rec_Ok (depth : nat) :
  forall (name : list string) (fs : FS),
    List.length name = depth ->
    (forall k, is_file fs (firstn k name) = false) ->
    exists fs',
      makedirs_rec depth name fs = (fs', Ok tt)
      /\ files fs' = files fs
      /\ is_dir fs' name = true
      /\ (forall p, is_dir fs p = true -> is_dir fs' p = true)
      /\ (forall p, is_dir fs' p = true ->
                    is_dir fs p = true \/ exists k, p = firstn k name).
Proof.
  induction depth as [|depth IH]; intros name fs Hlen Hfiles.
  - destruct name; [|discriminate]. exists fs.
    cbn. repeat split; auto.
  - assert (Hname : is_file fs name = false).
    { rewrite <- (firstn_all name). apply Hfiles. }
    assert (Hpf : is_file fs (dirname name) = false).
    { rewrite dirname_firstn. apply Hfiles. }
    assert (Hdl : List.length (dirname name) = depth).
    { rewrite dirname_firstn, length_firstn. lia. }
    cbn [makedirs_rec]. cbv zeta.
    destruct (negb (bool_decide (dirname name = nil))
              && negb (path_exists fs (dirname name))) eqn:E.
    + destruct (IH (dirname name) fs Hdl) as (fs1 & Hrun & Hf & Hd & Hmono & Honly).
      { intros k. rewrite dirname_firstn, firstn_firstn. apply Hfiles. }
      rewrite Hrun.
      destruct (mkdir_exist_ok name fs1) as (fs2 & Hrun2 & Hf2 & Hd2 & Hmono2 & Honly2).
      { unfold is_file. now rewrite Hf. }
      { unfold is_file. now rewrite Hf. }
      { assumption. }
      exists fs2. split; [exact Hrun2|]. split; [congruence|].
      split; [assumption|]. split; [auto|].
      intros p Hp. destruct (Honly2 p Hp) as [Hp1| ->].
      * destruct (Honly p Hp1) as [|[k ->]]; auto.
        right. rewrite dirname_firstn, firstn_firstn. eauto.
      * right. exists (List.length name). symmetry. apply firstn_all.
    + assert (Hpd : is_dir fs (dirname name) = true).
      { apply andb_false_iff in E as [E|E].
        - apply negb_false_iff, bool_decide_eq_true in E. rewrite E. reflexivity.
        - apply negb_false_iff in E. unfold path_exists in E.
          now rewrite Hpf, orb_false_r in E. }
      destruct (mkdir_exist_ok name fs Hname Hpf Hpd)
        as (fs2 & Hrun2 & Hf2 & Hd2 & Hmono2 & Honly2).
      exists fs2. split; [exact Hrun2|]. repeat split; auto.
      intros p Hp. destruct (Honly2 p Hp) as [Hp1| ->]; auto.
      right. exists (List.length name). symmetry. apply firstn_all.
Qed.

Lemma makedirs_Ok (name : list string) (fs : FS) :
  (forall k, is_file fs (firstn k name) = false) ->
  exists fs',
    makedirs name fs = (fs', Ok tt)
    /\ files fs' = files fs
    /\ is_dir fs' name = true
    /\ (forall p, is_dir fs p = true -> is_dir fs' p = true)
    /\ (forall p, is_dir fs' p = true ->
                  is_dir fs p = true \/ exists k, p = firstn k name).
Proof. intros H. now apply makedirs_rec_Ok. Qed.

Lemma save_model_no_parent (self : EquipmentMLModel) (filepath : list string)
      (fs : FS) :
  is_dir fs (dirname filepath) = false ->
  exists e, save_model self filepath fs = (fs, Raise e).
Proof.
  intros Hparent. unfold save_model.
  destruct (negb (truthy (is_trained self))); [eauto|].
  now apply write_pickle_no_parent.
Qed.

(** C9 (as amended): for a trained object [save_model] pickles one dict
    holding the ten attributes and writes it to the path when the parent
    directory exists; it creates no directory, and without the parent
    directory it raises and leaves the file system as it was.  The views
    call [os.makedirs] first: their save sequence creates the missing
    directories and then writes the dict. *)
Theorem save_model_writes_bundle (self : EquipmentMLModel)
        (filepath : list string) (fs : FS) :
  truthy (is_trained self) = true ->
  wf_fs fs ->
  (forall key, pickled self !! key = attribute key self)
  /\ (forall key, is_Some (pickled self !! key) <-> In key bundle_keys)
  /\ (is_dir fs (dirname filepath) = true ->
      is_dir fs filepath = false ->
      save_model self filepath fs
      = (mkFS (dirs fs) (<[filepath := pickled self]> (files fs)), Ok tt))
  /\ (is_dir fs (dirname filepath) = false ->
      exists e, save_model self filepath fs = (fs, Raise e))
  /\ (forall (MEDIA_ROOT : list string) (file_name : string),
         (forall k, is_file fs (firstn k (model_dir MEDIA_ROOT)) = false) ->
         is_dir fs (model_dir MEDIA_ROOT ++ file_name :: nil) = false ->
         exists fs',
           save_user_model MEDIA_ROOT file_name self fs = (fs', Ok tt)
           /\ files fs'
              = <[model_dir MEDIA_ROOT ++ file_name :: nil := pickled self]> (files fs)
           /\ is_dir fs' (model_dir MEDIA_ROOT) = true
           /\ (forall p, is_dir fs p = true -> is_dir fs' p = true)).
Proof.
  intros Htrained Hwf. split; [apply pickled_lookup|].
  split; [apply pickled_keys|].
  split; [|split].
  - intros Hparent Hnd. unfold save_model. rewrite Htrained. cbn [negb].
    now apply write_pickle_Ok.
  - apply save_model_no_parent.
  - intros MEDIA_ROOT file_name Hfiles Hnd. unfold save_user_model.
    destruct (makedirs_Ok (model_dir MEDIA_ROOT) fs Hfiles)
      as (fs1 & -> & Hf & Hd & Hmono & Honly).
    unfold save_model. rewrite Htrained. cbn [negb].
    fold (pickled self). unfold write_pickle.
    assert (Hnd1 : is_dir fs1 (model_dir MEDIA_ROOT ++ file_name :: nil) = false).
    { apply not_true_is_false. intros Hp.
      destruct (Honly _ Hp) as [Hp'|[k Hk]]; [congruence|].
      apply (f_equal (@List.length string)) in Hk.
      rewrite length_firstn, length_app in Hk. cbn [List.length] in Hk. lia. }
    rewrite Hnd1, dirname_snoc, Hd.
    assert (Hpf : is_file fs1 (model_dir MEDIA_ROOT) = false).
    { unfold is_file. rewrite Hf.
      rewrite <- (firstn_all (model_dir MEDIA_ROOT)). apply Hfiles. }
    rewrite Hpf. cbn [negb].
    eexists. split; [reflexivity|]. cbn [files dirs].
    split; [now rewrite Hf|]. split.
    + apply is_dir_spec. apply is_dir_spec in Hd. exact Hd.
    + intros p Hp. apply Hmono in Hp. apply is_dir_spec.
      apply is_dir_spec in Hp. exact Hp.
Qed.

Lemma trained_bundle_is_trained : truthy (is_trained trained_bundle) = true.
Proof. vm_compute. reflexivity. Qed.

Lemma no_files_wf (d : gset (list string)) : wf_fs (mkFS d ∅).
Proof. intros p _. unfold is_file. cbn. now rewrite lookup_empty. Qed.

Lemma save_model_writes_bundle_witness :
  save_model trained_bundle user_model_path models_disk
  = (mkFS (dirs models_disk) (<[user_model_path := pickled trained_bundle]> ∅), Ok tt)
  /\ (exists e, save_model trained_bundle user_model_path media_disk
                = (media_disk, Raise e))
  /\ (exists fs',
         save_user_model ("media" :: nil) "model_user_1.pkl" trained_bundle media_disk
         = (fs', Ok tt)
         /\ files fs' = <[user_model_path := pickled trained_bundle]> ∅
         /\ is_dir fs' ("media" :: "ml_models" :: nil) = true).
Proof.
  split; [|split].
  - apply (save_model_writes_bundle trained_bundle user_model_path models_disk
             trained_bundle_is_trained (no_files_wf _)).
    + vm_compute. reflexivity.
    + vm_compute. reflexivity.
  - apply (save_model_writes_bundle trained_bundle user_model_path media_disk
             trained_bundle_is_trained (no_files_wf _)).
    vm_compute. reflexivity.
  - destruct (save_model_writes_bundle trained_bundle user_model_path media_disk
                trained_bundle_is_trained (no_files_wf _)) as (_ & _ & _ & _ & H).
    destruct (H ("media" :: nil) "model_user_1.pkl") as (fs' & Hrun & Hf & Hd & _).
    + intros k. unfold is_file. cbn. now rewrite lookup_empty.
    + vm_compute. reflexivity.
    + exists fs'. auto.
Defined.

(** C9 (as stated) fails: [save_model] does not create the parent
    directory.  With [media/] but no [media/ml_models/] on the disk the
    trained object is not written. *)
Lemma save_model_needs_parent :
  ~ (forall (self : EquipmentMLModel) (filepath : list string) (fs : FS),
        truthy (is_trained self) = true ->
        wf_fs fs ->
        is_dir fs filepath = false ->
        exists fs',
          save_model self filepath fs = (fs', Ok tt)
          /\ files fs' !! filepath = Some (pickled self)
          /\ is_dir fs' (dirname filepath) = true).
Proof.
  intros H.
  destruct (H trained_bundle user_model_path media_disk
              trained_bundle_is_trained (no_files_wf _))
    as (fs' & Hrun & _).
  - vm_compute. reflexivity.
  - destruct (save_model_no_parent trained_bundle user_model_path media_disk)
      as [e He]; [vm_compute; reflexivity|].
    rewrite He in Hrun. discriminate Hrun.
Qed.

Lemma load_model_missing_file (filepath : list string) (fs : FS) (s : TrainState) :
  path_exists fs filepath = false ->
  load_model filepath fs s = (s, Raise (FileNotFoundError "Model file not found")).
Proof. intros H. unfold load_model. now rewrite H. Qed.

Lemma path_exists_file (filepath : list string) (fs : FS)
      (model_data : gmap string pyval) :
  files fs !! filepath = Some model_data -> path_exists fs filepath = true.
Proof.
  intros H. unfold path_exists, is_file. rewrite H.
  rewrite bool_decide_eq_true_2 by eauto. apply orb_true_r.
Qed.

Lemma load_model_Ok (filepath : list string) (fs : FS) (s : TrainState)
      (model_data : gmap string pyval) (v1 v2 v3 v4 v5 v6 : pyval) :
  files fs !! filepath = Some model_data ->
  model_data !! "model_flowrate" = Some v1 ->
  model_data !! "model_pressure" = Some v2 ->
  model_data !! "model_temperature" = Some v3 ->
  model_data !! "label_encoder" = Some v4 ->
  model_data !! "feature_names" = Some v5 ->
  model_data !! "is_trained" = Some v6 ->
  load_model filepath fs s
  = (mkState (restored model_data v1 v2 v3 v4 v5 v6) (fits s), Ok tt).
Proof.
  intros Hfile H1 H2 H3 H4 H5 H6. unfold load_model.
  rewrite (path_exists_file _ _ _ Hfile). cbn [negb].
  unfold mbind, M_bind, lift, set_attr, read_pickle, dict_getitem.
  rewrite Hfile, H1, H2, H3, H4, H5, H6. reflexivity.
Qed.

Lemma load_model_KeyError (filepath : list string) (fs : FS) (s : TrainState)
      (model_data : gmap string pyval) (key : string) :
  files fs !! filepath = Some model_data ->
  In key required_keys ->
  model_data !! key = None ->
  exists s1 key', load_model filepath fs s = (s1, Raise (KeyError key')).
Proof.
  intros Hfile Hin Hnone. unfold load_model.
  rewrite (path_exists_file _ _ _ Hfile). cbn [negb].
  unfold mbind, M_bind, lift, set_attr, read_pickle, dict_getitem.
  rewrite Hfile.
  destruct (model_data !! "model_flowrate") eqn:E1; [|eauto].
  destruct (model_data !! "model_pressure") eqn:E2; [|eauto].
  destruct (model_data !! "model_temperature") eqn:E3; [|eauto].
  destruct (model_data !! "label_encoder") eqn:E4; [|eauto].
  destruct (model_data !! "feature_names") eqn:E5; [|eauto].
  destruct (model_data !! "is_trained") eqn:E6; [|eauto].
  exfalso. cbn in Hin.
  destruct Hin as [<-|[<-|[<-|[<-|[<-|[<-|[]]]]]]]; congruence.
Qed.

(** C5 (as amended): [load_model] raises [FileNotFoundError] when the path
    does not exist.  On a pickled dict it restores every attribute, with a
    default for each of the four optional keys that is absent
    ([classifier_model], [scaler_regression], [scaler_classification],
    [training_history]); a dict that lacks one of the six other keys makes
    it raise [KeyError].  What [save_model] wrote is loaded back as it
    was. *)
Theorem load_model_restores (filepath : list string) (fs : FS) (s : TrainState) :
  (path_exists fs filepath = false ->
   load_model filepath fs s
   = (s, Raise (FileNotFoundError "Model file not found")))
  /\ (forall model_data v1 v2 v3 v4 v5 v6,
         files fs !! filepath = Some model_data ->
         model_data !! "model_flowrate" = Some v1 ->
         model_data !! "model_pressure" = Some v2 ->
         model_data !! "model_temperature" = Some v3 ->
         model_data !! "label_encoder" = Some v4 ->
         model_data !! "feature_names" = Some v5 ->
         model_data !! "is_trained" = Some v6 ->
         load_model filepath fs s
         = (mkState (restored model_data v1 v2 v3 v4 v5 v6) (fits s), Ok tt))
  /\ (forall model_data key,
         files fs !! filepath = Some model_data ->
         In key required_keys ->
         model_data !! key = None ->
         exists s1 key', load_model filepath fs s = (s1, Raise (KeyError key')))
  /\ (forall self,
         files fs !! filepath = Some (pickled self) ->
         load_model filepath fs s = (mkState self (fits s), Ok tt)).
Proof.
  split; [apply load_model_missing_file|].
  split; [intros; now apply load_model_Ok|].
  split; [intros model_data key Hf Hin Hn;
          exact (load_model_KeyError _ _ _ _ _ Hf Hin Hn)|].
  intros self Hfile.
  rewrite (load_model_Ok filepath fs s (pickled self)
             (model_flowrate self) (model_pressure self) (model_temperature self)
             (label_encoder self) (feature_names self) (is_trained self) Hfile);
    try (rewrite pickled_lookup; reflexivity).
  f_equal. f_equal. unfold restored, dict_get. rewrite !pickled_lookup.
  destruct self. reflexivity.
Qed.

Lemma disk_with_lookup (model_data : gmap string pyval) :
  files (disk_with model_data) !! user_model_path = Some model_data.
Proof. unfold disk_with. cbn [files]. apply lookup_insert_eq. Qed.

Lemma old_format_lookup (key : string) :
  In key required_keys ->
  old_format !! key = attribute key trained_bundle.
Proof.
  intros Hin. unfold old_format.
  cbn in Hin.
  destruct Hin as [<-|[<-|[<-|[<-|[<-|[<-|[]]]]]]];
    rewrite !lookup_delete_ne by discriminate; apply pickled_lookup.
Qed.

Lemma load_model_restores_witness :
  load_model user_model_path media_disk fresh
  = (fresh, Raise (FileNotFoundError "Model file not found"))
  /\ (exists o,
         load_model user_model_path (disk_with old_format) fresh
         = (mkState o nil, Ok tt)
         /\ model_flowrate o = model_flowrate trained_bundle
         /\ classifier_model o = PyNone
         /\ scaler_regression o = PyScaler (mkScaler None)
         /\ scaler_classification o = PyScaler (mkScaler None)
         /\ training_history o = PyDict ∅
         /\ is_trained o = PyBool true)
  /\ (exists s1 key',
         load_model user_model_path (disk_with no_feature_names) fresh
         = (s1, Raise (KeyError key')))
  /\ load_model user_model_path (disk_with (pickled trained_bundle)) fresh
     = (mkState trained_bundle nil, Ok tt).
Proof.
  split; [|split; [|split]].
  - apply (load_model_restores user_model_path media_disk fresh).
    vm_compute. reflexivity.
  - destruct (load_model_restores user_model_path (disk_with old_format) fresh)
      as (_ & H & _).
    eexists. split.
    + apply (H old_format (model_flowrate trained_bundle)
               (model_pressure trained_bundle) (model_temperature trained_bundle)
               (label_encoder trained_bundle) (feature_names trained_bundle)
               (is_trained trained_bundle) (disk_with_lookup _));
        (rewrite old_format_lookup; [reflexivity | cbn; tauto]).
    + cbn [restored model_flowrate classifier_model scaler_regression
                    scaler_classification training_history is_trained].
      unfold dict_get, old_format.
      rewrite lookup_delete_eq.
      rewrite (lookup_delete_ne _ "classifier_model" "scaler_regression") by discriminate.
      rewrite lookup_delete_eq.
      rewrite !(lookup_delete_ne _ _ "scaler_classification") by discriminate.
      rewrite lookup_delete_eq.
      rewrite !(lookup_delete_ne _ _ "training_history") by discriminate.
      rewrite lookup_delete_eq.
      repeat split.
  - destruct (load_model_restores user_model_path (disk_with no_feature_names) fresh)
      as (_ & _ & H & _).
    apply (H no_feature_names "feature_names" (disk_with_lookup _)).
    + cbn. tauto.
    + apply lookup_delete_eq.
  - apply (load_model_restores user_model_path
             (disk_with (pickled trained_bundle)) fresh).
    apply disk_with_lookup.
Defined.

(** C5 (as stated) fails: a dict without [feature_names] is not loaded
    with a default in its place; [load_model] raises [KeyError]. *)
Lemma load_model_missing_key_fails :
  ~ (forall (filepath : list string) (fs : FS) (s : TrainState)
            (model_data : gmap string pyval),
        files fs !! filepath = Some model_data ->
        exists s', load_model filepath fs s = (s', Ok tt)).
Proof.
  intros H.
  destruct (H user_model_path (disk_with no_feature_names) fresh
              no_feature_names (disk_with_lookup _)) as [s' Hrun].
  destruct (load_model_KeyError user_model_path (disk_with no_feature_names)
              fresh no_feature_names "feature_names" (disk_with_lookup _))
    as (s1 & key' & He).
  - cbn. tauto.
  - apply lookup_delete_eq.
  - rewrite He in Hrun. discriminate Hrun.
Qed.

(** ** Prediction *)

Lemma round_half_even_close (x : Q) :
  Qabs (inject_Z (round_half_even x) - x) <= 1 # 2.
Proof.
  pose proof (Qfloor_le x) as H1. pose proof (Qlt_floor x) as H2.
  rewrite inject_Z_plus in H2. change (inject_Z 1) with 1 in H2.
  unfold round_half_even.
  destruct (Qltb (x - inject_Z (Qfloor x)) (1 # 2)) eqn:E1.
  - apply Qltb_true in E1. apply Qabs_Qle_condition. split; lra.
  - destruct (Qltb (1 # 2) (x - inject_Z (Qfloor x))) eqn:E2.
    + apply Qltb_true in E2. rewrite inject_Z_plus.
      change (inject_Z 1) with 1. apply Qabs_Qle_condition. split; lra.
    + assert (E : x - inject_Z (Qfloor x) == 1 # 2).
      { unfold Qltb in E1, E2.
        apply negb_false_iff, Qle_bool_iff in E1.
        apply negb_false_iff, Qle_bool_iff in E2. lra. }
      destruct (Z.even (Qfloor x)).
      * apply Qabs_Qle_condition. split; lra.
      * rewrite inject_Z_plus. change (inject_Z 1) with 1.
        apply Qabs_Qle_condition. split; lra.
Qed.

Lemma round2_spec (x : Q) : rounded_to_2_places x (round2 x).
Proof.
  split; [reflexivity|].
  pose proof (round_half_even_close (x * 100)) as H.
  apply Qabs_Qle_condition in H as [Hl Hu].
  assert (E : round2 x == inject_Z (round_half_even (x * 100)) / 100).
  { unfold round2. rewrite (Qmake_Qdiv _ 100). reflexivity. }
  apply Qabs_Qle_condition. rewrite E.
  set (k := inject_Z (round_half_even (x * 100))) in *.
  assert (Ek : k / 100 == k * (1 # 100)) by (unfold Qdiv; reflexivity).
  rewrite Ek. split; lra.
Qed.

Lemma index_of_not_In (s : string) (cs : list string) :
  ~ In s cs -> index_of s cs = None.
Proof.
  induction cs as [|t cs IH]; intros H; cbn [index_of]; [reflexivity|].
  destruct (String.eqb_spec s t) as [->|Hne].
  - exfalso. apply H. now left.
  - rewrite IH; [reflexivity|]. intros Hin. apply H. now right.
Qed.

Lemma scaler_fit_params (np_sqrt : Q -> Q) (X : list (list Q)) (sc : StandardScaler) :
  scaler_fit np_sqrt X = Ok sc -> exists params, sc = mkScaler (Some params).
Proof.
  unfold scaler_fit. destruct X; [discriminate|]. intros [= <-]. eauto.
Qed.

Lemma attr_predict_regressor (v : pyval) (X pred : list (list Q)) (p : list Q) :
  attr_predict v X = Ok p -> exists r, v = PyRegressor r.
Proof. destruct v; cbn; try discriminate. eauto. Qed.

Section Trained.

Variable permutation : nat -> list nat.
Variable stratified_indices : list nat -> nat -> nat -> list nat * list nat.
Variable np_sqrt : Q -> Q.
Variable fit_regressor : algorithm -> list (list Q) -> list Q -> list Q -> Q.
Variable fit_classifier : list (list Q) -> list nat -> list Q -> nat.

(** A successful [train] on a constructed object leaves a trained bundle
    whose encoder knows exactly the types of the cleaned rows. *)
Lemma train_trained (df : DataFrame) (s s' : TrainState)
      (m : RegressionMetrics * ClassificationMetrics) :
  constructed (obj s) ->
  train permutation stratified_indices np_sqrt fit_regressor fit_classifier df s
  = (s', Ok m) ->
  trained (obj s') /\ seen_types (obj s') = np_unique (cleaned_types df).
Proof.
  intros (_ & _ & [sc0 Hsc0] & _) H. unfold train in H.
  bind_inv H giving s1 rm Hreg.
  bind_inv H giving s2 cm Hcls.
  bind_inv H giving s3 [] Hset.
  unfold mret, M_ret in H. injection H as <- _.
  unfold set_attr in Hset. injection Hset as <-.
  apply train_regression_models_run in Hreg
    as (X_train & X_test & sc & Xtr & Xte & Hfit & _ & _ & _ & _ & _
        & Hsr & [cs Hcs] & Hsc & [h Hh] & Ht).
  apply scaler_fit_params in Hfit as [params ->].
  assert (Hmodels : forall t, exists r, get_model t (obj s1) = PyRegressor r).
  { intros t. destruct (Ht t) as (y1 & y2 & pred & _ & Hp & _).
    eapply attr_predict_regressor; [exact X_test | exact Hp]. }
  assert (Hcons : constructed (obj s1)).
  { repeat split; eauto. rewrite Hsc. eauto. }
  destruct (train_classification_model_run permutation stratified_indices
              np_sqrt fit_classifier df s1 Hcons) as (h' & _ & Hrun).
  cbv zeta in Hrun. rewrite Hrun in Hcls. clear Hrun.
  destruct (if can_stratify _ then _ else _)
    as [[[[X_train' X_test'] y_train'] y_test']|e]; [|discriminate].
  destruct (scaler_fit np_sqrt X_train') as [sc'|e]; [|discriminate].
  injection Hcls as <- _. cbn [obj].
  split; [split; [reflexivity|split; [|split]]|].
  - eexists. reflexivity.
  - exists params. cbn. exact Hsr.
  - intros t. destruct (Hmodels t) as [r Hr]. exists r. rewrite <- Hr.
    destruct t; reflexivity.
  - reflexivity.
Qed.

End Trained.

(** C3 (as amended): on a bundle as a successful [train] leaves it
    (marked trained, with a fitted encoder, a fitted regression scaler
    and three regressors), a type that was not seen during training
    does not make [predict] raise: the code falls back to 0, and the
    result holds the three regressors' predictions for that code, each
    rounded to two decimal places. *)
Theorem predict_unseen_type (self : EquipmentMLModel) (equipment_type : string) :
  trained self ->
  ~ In equipment_type (seen_types self) ->
  predict self equipment_type
  = Ok {| equipment_type := equipment_type;
          predicted_flowrate :=
            round2 (raw_prediction TFlowrate self (fallback_input self));
          predicted_pressure :=
            round2 (raw_prediction TPressure self (fallback_input self));
          predicted_temperature :=
            round2 (raw_prediction TTemperature self (fallback_input self)) |}
  /\ forall t,
      rounded_to_2_places
        (raw_prediction t self (fallback_input self))
        (round2 (raw_prediction t self (fallback_input self))).
Proof.
  intros (Htr & [classes Henc] & [params Hsc] & Hmodels) Hunseen.
  split; [|intros t; apply round2_spec].
  destruct (Hmodels TFlowrate) as [rf Hf].
  destruct (Hmodels TPressure) as [rp Hp].
  destruct (Hmodels TTemperature) as [rt Ht].
  cbn [get_model] in Hf, Hp, Ht.
  unfold seen_types in Hunseen. rewrite Henc in Hunseen.
  unfold predict, raw_prediction, fallback_input. cbn [get_model].
  rewrite Htr, Henc, Hsc, Hf, Hp, Ht. cbn [truthy negb].
  cbn [attr_encoder_transform encoder_transform classes_ encode_all encode_one
       mbind result_bind rbind].
  unfold encode_one. rewrite (index_of_not_In _ _ Hunseen). reflexivity.
Qed.

Lemma trained_bundle_trained :
  trained trained_bundle /\ seen_types trained_bundle = np_unique (cleaned_types six_rows).
Proof.
  unfold trained_bundle.
  destruct (train sample_permutation sample_stratified_indices sample_sqrt
                  sample_fit_regressor sample_fit_classifier six_rows fresh)
    as [s' [m|e]] eqn:Hrun.
  - cbn [fst]. eapply train_trained; [|exact Hrun].
    repeat split; eexists; reflexivity.
  - vm_compute in Hrun. discriminate Hrun.
Qed.

Lemma predict_unseen_type_witness :
  exists p,
    predict trained_bundle "Compressor" = Ok p
    /\ rounded_to_2_places
         (raw_prediction TFlowrate trained_bundle (fallback_input trained_bundle))
         (predicted_flowrate p).
Proof.
  destruct (predict_unseen_type trained_bundle "Compressor") as [Hrun Hround].
  - apply trained_bundle_trained.
  - rewrite (proj2 trained_bundle_trained). vm_compute.
    intros [H|[H|[H|[]]]]; discriminate H.
  - eexists. split; [exact Hrun|]. apply Hround.
Defined.

(** C3 (as stated) fails: the flag alone does not make [predict]
    return.  The bundle [load_model] restores from a file of the older
    format is marked trained, its encoder was never shown "Compressor",
    and [predict] raises [NotFittedError]: the regression scaler is the
    default, an unfitted [StandardScaler()]. *)
Lemma predict_needs_more_than_the_flag :
  ~ (forall (self : EquipmentMLModel) (equipment_type : string),
        truthy (is_trained self) = true ->
        ~ In equipment_type (seen_types self) ->
        exists p, predict self equipment_type = Ok p).
Proof.
  intros H.
  set (self := obj (fst (load_model user_model_path (disk_with old_format) fresh))).
  destruct (H self "Compressor") as [p Hp].
  - vm_compute. reflexivity.
  - vm_compute. intros [E|[E|[E|[]]]]; discriminate E.
  - vm_compute in Hp. discriminate Hp.
Qed.
(** * Further properties of cleaning *)


(** ** Cleaning, row by row *)

Lemma set_get_col (c : numeric_col) (r : Row) : set_col c (get_col c r) r = r.
Proof. destruct r, c; reflexivity. Qed.

Lemma fillna_cell_Some (value v : cell) : isnull v = false -> fillna_cell value v = v.
Proof. destruct v; [reflexivity | discriminate]. Qed.

(** The test [isnull().any()] only saves work: filling a column without
    NaN changes nothing. *)
Lemma fill_column_fillna (df : DataFrame) (c : numeric_col) :
  fill_column df c = fillna c (median (column c df)) df.
Proof.
  unfold fill_column. destruct (existsb isnull (column c df)) eqn:E; [reflexivity|].
  unfold fillna. symmetry. rewrite <- (map_id df) at 2.
  apply map_ext_in. intros r Hr.
  rewrite fillna_cell_Some; [apply set_get_col|].
  destruct (isnull (get_col c r)) eqn:Hn; [|reflexivity].
  assert (existsb isnull (column c df) = true); [|congruence].
  apply existsb_exists. exists (get_col c r). split; [|assumption].
  unfold column. now apply in_map.
Qed.

Lemma column_fillna_other (c c' : numeric_col) (value : cell) (df : DataFrame) :
  c <> c' -> column c' (fillna c value df) = column c' df.
Proof.
  intros Hne. unfold column, fillna. rewrite map_map. apply map_ext.
  intros r. destruct c, c'; try reflexivity; congruence.
Qed.

Lemma fill_missing_impute (df : DataFrame) : fill_missing df = map (impute df) df.
Proof.
  unfold fill_missing, numeric_cols. cbn [fold_left].
  rewrite !fill_column_fillna.
  rewrite column_fillna_other by discriminate.
  rewrite (column_fillna_other ColFlowrate ColTemperature) by discriminate.
  rewrite (column_fillna_other ColFlowrate ColPressure) by discriminate.
  unfold fillna. rewrite !map_map. apply map_ext. intros [n t f p te]. reflexivity.
Qed.

Lemma fill_missing_length (df : DataFrame) :
  List.length (fill_missing df) = List.length df.
Proof. rewrite fill_missing_impute. apply length_map. Qed.

(** X1: [clean_data] returns, in their original order, rows of the input
    whose missing values are replaced by the median of the input column,
    and every row it returns holds its three values. *)
Theorem clean_data_imputes_and_filters (df : DataFrame) :
  clean_data df = List.filter (row_ok (map (impute df) df)) (map (impute df) df)
  /\ forall r, In r (clean_data df) ->
       exists r0 f p t,
         In r0 df /\ r = impute df r0
         /\ Flowrate r = Some f /\ Pressure r = Some p /\ Temperature r = Some t.
Proof.
  split.
  - unfold clean_data, remove_outliers. now rewrite fill_missing_impute.
  - intros r Hr.
    destruct (clean_data_features df r Hr) as (x & Hx).
    unfold clean_data, remove_outliers in Hr. apply filter_In in Hr as [Hr _].
    rewrite fill_missing_impute in Hr. apply in_map_iff in Hr as (r0 & <- & Hr0).
    unfold features in Hx.
    destruct (Flowrate (impute df r0)) as [f|] eqn:Hf; [|discriminate].
    destruct (Pressure (impute df r0)) as [p|] eqn:Hp; [|discriminate].
    destruct (Temperature (impute df r0)) as [t|] eqn:Ht; [|discriminate].
    exists r0, f, p, t. auto.
Qed.

(** X2: [clean_data] returns either no row at all, or at least two rows
    and at least two thirds of its input: the z-score filter never
    leaves a single row and never drops more than a third of the
    rows. *)
Theorem clean_data_drops_all_or_a_third (df : DataFrame) :
  List.length (clean_data df) = 0%nat
  \/ ((2 <= List.length (clean_data df))%nat
      /\ (3 * (List.length df - List.length (clean_data df)) <= List.length df)%nat).
Proof.
  pose proof (clean_data_not_single df) as H1.
  destruct (clean_data_keeps df) as [H|H].
  - left. now rewrite H.
  - rewrite fill_missing_length in H.
    destruct (List.length (clean_data df)) as [|[|k]] eqn:E; [now left| congruence|].
    right. split; lia.
Qed.

(** X3: on a frame of at most 9 rows [clean_data] keeps all the rows or
    none: it returns either the empty frame or every row, imputed.  On
    so few rows no z-score reaches 3, so a row is dropped only when a
    column has no defined z-score, and then every row is. *)
Theorem clean_data_up_to_nine_rows (df : DataFrame) :
  (List.length df <= 9)%nat ->
  clean_data df = nil \/ clean_data df = map (impute df) df.
Proof.
  intros Hlen. unfold clean_data.
  destruct (nondegenerate_dec (column ColFlowrate (fill_missing df))) as [HF|HF];
    [|left; eapply remove_outliers_degenerate; eassumption].
  destruct (nondegenerate_dec (column ColPressure (fill_missing df))) as [HP|HP];
    [|left; eapply remove_outliers_degenerate; eassumption].
  destruct (nondegenerate_dec (column ColTemperature (fill_missing df))) as [HT|HT];
    [|left; eapply remove_outliers_degenerate; eassumption].
  right. rewrite remove_outliers_small.
  - apply fill_missing_impute.
  - now rewrite fill_missing_length.
  - intros []; assumption.
Qed.

Lemma clean_data_up_to_nine_rows_witness :
  clean_data two_rows = nil \/ clean_data two_rows = map (impute two_rows) two_rows.
Proof. apply (clean_data_up_to_nine_rows two_rows). cbn. lia. Defined.

Lemma In_Qinsert (x a : Q) (l : list Q) : In x (Qinsert a l) <-> x = a \/ In x l.
Proof.
  induction l as [|b l IH]; cbn [Qinsert].
  - cbn. intuition congruence.
  - destruct (Qle_bool a b); cbn [In]; [intuition congruence|].
    rewrite IH. intuition congruence.
Qed.

Lemma In_Qsort (x : Q) (l : list Q) : In x (Qsort l) <-> In x l.
Proof.
  unfold Qsort. induction l as [|a l IH]; cbn [fold_right In]; [tauto|].
  rewrite In_Qinsert, IH. intuition congruence.
Qed.

Lemma In_dropna (l : list cell) (x : Q) : In x (dropna l) <-> In (Some x) l.
Proof.
  split; [|apply dropna_In].
  induction l as [|[y|] l IH]; cbn [dropna In]; [tauto| |].
  - intros [->|H]; [now left | right; auto].
  - intros H. right. auto.
Qed.

(** The median of values that are all equal is that value. *)
Lemma median_const (l : list cell) (v m : Q) :
  (forall x, In (Some x) l -> x == v) -> median l = Some m -> m == v.
Proof.
  intros Hall. unfold median.
  set (s := Qsort (dropna l)).
  assert (Hs : forall k, (k < List.length s)%nat -> nth k s 0 == v).
  { intros k Hk. apply Hall, In_dropna, In_Qsort. now apply nth_In. }
  destruct (List.length s) as [|n'] eqn:En; [discriminate|].
  set (n := S n') in *.
  assert (Hhalf : (n / 2 < n)%nat) by (apply Nat.div_lt; lia).
  destruct (Nat.even n); intros H; apply (inj Some) in H; rewrite <- H.
  - assert (H1 : nth (n / 2 - 1) s 0 == v) by (apply Hs; lia).
    assert (H2 : nth (n / 2) s 0 == v) by (apply Hs; lia).
    rewrite H1, H2. field.
  - apply Hs. lia.
Qed.

Lemma median_nil (l : list cell) : dropna l = nil -> median l = None.
Proof. intros H. unfold median. now rewrite H. Qed.

Lemma Qsum_zero {A} (f : A -> Q) (l : list A) :
  (forall x, In x l -> f x == 0) -> Qsum (map f l) == 0.
Proof.
  induction l as [|a l IH]; intros H; cbn [map].
  - reflexivity.
  - rewrite Qsum_cons, (H a (or_introl eq_refl)), IH; [reflexivity|].
    intros x Hx. apply H. now right.
Qed.

Lemma mean_const (xs : list Q) (v : Q) :
  xs <> nil -> (forall x, In x xs -> x == v) -> mean xs == v.
Proof.
  intros Hne Hall. pose proof (Qlen_pos xs Hne) as Hn.
  assert (Hsum : Qsum xs == Qlen xs * v).
  { clear Hne Hn. induction xs as [|a xs IH].
    - change (0 == 0 * v). ring.
    - rewrite Qsum_cons, Qlen_cons, IH, (Hall a (or_introl eq_refl)); [ring|].
      intros x Hx. apply Hall. now right. }
  unfold mean. rewrite Hsum. field. lra.
Qed.

(** A column whose values are all equal has no spread. *)
Lemma variance_const (xs : list Q) (v : Q) :
  (forall x, In x xs -> x == v) -> variance xs == 0.
Proof.
  intros Hall. destruct xs as [|a xs'] eqn:E; [reflexivity|]. rewrite <- E in *.
  assert (Hne : xs <> nil) by (rewrite E; discriminate).
  pose proof (Qlen_pos xs Hne) as Hn.
  pose proof (mean_const xs v Hne Hall) as Hm.
  unfold variance, sq_dev. rewrite Qsum_zero.
  - field. lra.
  - intros x Hx. unfold Qsq. rewrite Hm, (Hall x Hx). ring.
Qed.

Lemma column_fill_missing (c : numeric_col) (df : DataFrame) :
  column c (fill_missing df)
  = map (fillna_cell (median (column c df))) (column c df).
Proof.
  rewrite fill_missing_impute. unfold column. rewrite !map_map.
  apply map_ext. intros r. destruct c; reflexivity.
Qed.

Lemma fillna_cell_None (v : cell) : fillna_cell None v = v.
Proof. now destruct v. Qed.

(** X4: a numeric column whose present values are all equal (or that
    has no value at all) makes [clean_data] return the empty frame: the
    column has no defined z-score, so no row passes the filter. *)
Theorem clean_data_constant_column (df : DataFrame) (c : numeric_col) :
  (forall x y, In (Some x) (column c df) -> In (Some y) (column c df) -> x == y) ->
  clean_data df = nil.
Proof.
  intros Hconst. unfold clean_data.
  apply (remove_outliers_degenerate _ c). intros [_ Hvar].
  rewrite column_fill_missing in Hvar.
  destruct (dropna (column c df)) as [|x0 rest] eqn:Ed.
  - rewrite (median_nil _ Ed) in Hvar.
    rewrite (map_ext _ id fillna_cell_None), map_id, Ed in Hvar.
    vm_compute in Hvar. discriminate.
  - assert (H0 : In (Some x0) (column c df)).
    { apply In_dropna. rewrite Ed. now left. }
    rewrite (variance_const _ x0) in Hvar; [lra|].
    intros y Hy. apply In_dropna, in_map_iff in Hy as (v & Hv & Hin).
    destruct v as [x|]; cbn [fillna_cell] in Hv.
    + injection Hv as ->. now apply Hconst.
    + apply (median_const (column c df)); [|assumption].
      intros x Hx. now apply Hconst.
Qed.

Lemma clean_data_constant_column_witness : clean_data same_pressure = nil.
Proof.
  apply (clean_data_constant_column same_pressure ColPressure).
  cbn. intros x y [[= <-]|[[= <-]|[]]] [[= <-]|[[= <-]|[]]]; reflexivity.
Defined.


(** * Further properties of training *)


Section TrainingForward.

Variable permutation : nat -> list nat.
Variable stratified_indices : list nat -> nat -> nat -> list nat * list nat.
Variable np_sqrt : Q -> Q.
Variable fit_regressor : algorithm -> list (list Q) -> list Q -> list Q -> Q.
Variable fit_classifier : list (list Q) -> list nat -> list Q -> nat.

Lemma prepare_data_run (df : DataFrame) (s : TrainState) (e : LabelEncoder) :
  label_encoder (obj s) = PyEncoder e ->
  prepare_data df s
  = (mkState (set_feature_names (PyList ("Type_Encoded" :: nil))
                (set_label_encoder
                   (PyEncoder (mkEncoder (Some (np_unique (cleaned_types df)))))
                   (obj s)))
             (fits s),
     Ok (encoded_types df, target_values TFlowrate df,
         target_values TPressure df, target_values TTemperature df)).
Proof.
  intros He. unfold prepare_data, attr_encoder_fit_transform, get_attr, set_attr.
  unfold mbind, M_bind, mret, M_ret. rewrite He. reflexivity.
Qed.

(** [train_regression_models] once the split and the scaler went
    through: the three loops run, and the outcome is decided by what the
    three attributes hold afterwards. *)
Lemma train_regression_models_forward (df : DataFrame) (s : TrainState)
      (e0 : LabelEncoder) (sc0 : StandardScaler) (h : gmap string Metrics)
      (X_train X_test : list (list Q))
      (yF_tr yF_te yP_tr yP_te yT_tr yT_te : list Q) (ps : list (Q * Q)) :
  label_encoder (obj s) = PyEncoder e0 ->
  scaler_regression (obj s) = PyScaler sc0 ->
  training_history (obj s) = PyDict h ->
  train_test_split permutation stratified_indices
                   (encoded_types df) (target_values TFlowrate df) None
  = Ok (X_train, X_test, yF_tr, yF_te) ->
  train_test_split permutation stratified_indices
                   (encoded_types df) (target_values TPressure df) None
  = Ok (X_train, X_test, yP_tr, yP_te) ->
  train_test_split permutation stratified_indices
                   (encoded_types df) (target_values TTemperature df) None
  = Ok (X_train, X_test, yT_tr, yT_te) ->
  scaler_fit np_sqrt X_train = Ok (mkScaler (Some ps)) ->
  let Xtr := map (scale_row ps) X_train in
  let Xte := map (scale_row ps) X_test in
  let w ytr yte :=
      snd (selectBest (fun a => candidate_r2 fit_regressor a Xtr ytr Xte yte)
                      candidates NegInf None) in
  let o2 := set_scaler_regression (PyScaler (mkScaler (Some ps)))
              (set_feature_names (PyList ("Type_Encoded" :: nil))
                 (set_label_encoder
                    (PyEncoder (mkEncoder (Some (np_unique (cleaned_types df)))))
                    (obj s))) in
  let o3 := retain fit_regressor TTemperature Xtr yT_tr (w yT_tr yT_te)
              (retain fit_regressor TPressure Xtr yP_tr (w yP_tr yP_te)
                 (retain fit_regressor TFlowrate Xtr yF_tr (w yF_tr yF_te) o2)) in
  let log := ((fits s ++ candidates) ++ candidates) ++ candidates in
  train_regression_models permutation stratified_indices np_sqrt fit_regressor df s
  = match attr_predict (model_flowrate o3) Xte with
    | Raise e => (mkState o3 log, Raise e)
    | Ok flow_pred =>
      match attr_predict (model_pressure o3) Xte with
      | Raise e => (mkState o3 log, Raise e)
      | Ok pres_pred =>
        match attr_predict (model_temperature o3) Xte with
        | Raise e => (mkState o3 log, Raise e)
        | Ok temp_pred =>
          let metrics :=
              {| rm_flowrate := param_metrics np_sqrt yF_te flow_pred;
                 rm_pressure := param_metrics np_sqrt yP_te pres_pred;
                 rm_temperature := param_metrics np_sqrt yT_te temp_pred;
                 rm_training_samples := List.length X_train;
                 rm_test_samples := List.length X_test;
                 rm_total_samples := List.length (encoded_types df);
                 rm_equipment_types := np_unique (cleaned_types df) |} in
          (mkState (set_training_history
                      (PyDict (<["regression" := MReg metrics]> h)) o3) log,
           Ok metrics)
        end
      end
    end.
Proof.
  intros He Hsc Hh HF HP HT Hfit Xtr Xte w o2 o3 log.
  unfold train_regression_models.
  rewrite (bind_step _ _ _ _ _ (prepare_data_run df s e0 He)). cbv beta iota.
  unfold lift at 1. unfold mbind at 1, M_bind at 1. rewrite HF. cbv beta iota.
  unfold lift at 1. unfold mbind at 1, M_bind at 1. rewrite HP. cbv beta iota.
  unfold lift at 1. unfold mbind at 1, M_bind at 1. rewrite HT. cbv beta iota.
  unfold attr_scaler_fit_transform, get_attr, set_attr, lift.
  unfold mbind at 1, M_bind at 1. unfold mbind at 1, M_bind at 1.
  cbn [obj fits scaler_regression set_feature_names set_label_encoder].
  rewrite Hsc, Hfit.
  unfold mbind at 1, M_bind at 1. cbn [obj fits].
  unfold mbind at 1, M_bind at 1. unfold mbind at 1, M_bind at 1.
  cbn [obj fits scaler_regression set_scaler_regression attr_scaler_transform
       scaler_transform scaler_params].
  fold Xtr Xte. fold o2.
  unfold mbind at 1, M_bind at 1.
  rewrite (bind_step _ _ _ _ _
             (select_best_start fit_regressor TFlowrate Xtr yF_tr Xte yF_te
                                models_to_test o2 (fits s))).
  rewrite (bind_step _ _ _ _ _
             (select_best_start fit_regressor TPressure Xtr yP_tr Xte yP_te
                                models_to_test _ _)).
  rewrite (bind_step _ _ _ _ _
             (select_best_start fit_regressor TTemperature Xtr yT_tr Xte yT_te
                                models_to_test _ _)).
  fold candidates. fold (w yF_tr yF_te) (w yP_tr yP_te) (w yT_tr yT_te).
  fold o3 log.
  assert (Henc : label_encoder o3
                 = PyEncoder (mkEncoder (Some (np_unique (cleaned_types df)))))
    by (subst o3 o2; destruct (w yT_tr yT_te), (w yP_tr yP_te), (w yF_tr yF_te);
        reflexivity).
  assert (Hhist : training_history o3 = PyDict h)
    by (subst o3 o2; destruct (w yT_tr yT_te), (w yP_tr yP_te), (w yF_tr yF_te);
        exact Hh).
  unfold mbind at 1, M_bind at 1. cbn [obj].
  unfold mbind at 1, M_bind at 1.
  destruct (attr_predict (model_flowrate o3) Xte) as [flow_pred|e]; [|reflexivity].
  unfold mbind at 1, M_bind at 1. cbn [obj].
  unfold mbind at 1, M_bind at 1.
  destruct (attr_predict (model_pressure o3) Xte) as [pres_pred|e]; [|reflexivity].
  unfold mbind at 1, M_bind at 1. cbn [obj].
  unfold mbind at 1, M_bind at 1.
  destruct (attr_predict (model_temperature o3) Xte) as [temp_pred|e]; [|reflexivity].
  unfold attr_encoder_classes, history_store, get_attr, set_attr.
  unfold mbind, M_bind, mret, M_ret. cbn [obj fits].
  rewrite Henc. cbn [obj fits]. rewrite Hhist. reflexivity.
Qed.

End TrainingForward.

(** ** The order of labels *)

Lemma string_compare_OT (a b : string) :
  String.compare a b = OrdersEx.String_as_OT.compare a b.
Proof. reflexivity. Qed.

Lemma label_lt_compare (a b : string) : label_lt a b <-> String.compare a b = Lt.
Proof. unfold label_lt, String.ltb. destruct (String.compare a b); intuition congruence. Qed.

Lemma label_lt_trans (a b c : string) : label_lt a b -> label_lt b c -> label_lt a c.
Proof.
  rewrite !label_lt_compare, !string_compare_OT.
  apply (@StrictOrder_Transitive _ _ OrdersEx.String_as_OT.lt_strorder).
Qed.

Lemma label_lt_irrefl (a : string) : ~ label_lt a a.
Proof.
  rewrite label_lt_compare, string_compare_OT.
  apply (@StrictOrder_Irreflexive _ _ OrdersEx.String_as_OT.lt_strorder).
Qed.

Lemma leb_neq_lt (a b : string) : String.leb a b = true -> a <> b -> label_lt a b.
Proof.
  unfold String.leb. rewrite label_lt_compare. intros H Hne.
  destruct (String.compare a b) eqn:E; [|reflexivity|discriminate].
  apply String.compare_eq_iff in E. contradiction.
Qed.

Lemma not_leb_lt (a b : string) : String.leb a b = false -> label_lt b a.
Proof.
  unfold String.leb. rewrite label_lt_compare. intros H.
  rewrite String.compare_antisym. destruct (String.compare a b); try discriminate.
  reflexivity.
Qed.

Lemma str_insert_sorted (s : string) (l : list string) :
  Sorted.StronglySorted label_lt l -> Sorted.StronglySorted label_lt (str_insert s l).
Proof.
  induction 1 as [|t l Hl IH Ht]; cbn [str_insert].
  - repeat constructor.
  - destruct (String.eqb_spec s t) as [->|Hne]; [now constructor|].
    destruct (String.leb s t) eqn:Hle.
    + pose proof (leb_neq_lt s t Hle Hne) as Hlt.
      constructor; [now constructor|]. constructor; [assumption|].
      rewrite List.Forall_forall in Ht. apply List.Forall_forall. intros u Hu.
      eapply label_lt_trans; [eassumption|]. now apply Ht.
    + constructor; [assumption|]. apply List.Forall_forall. intros u Hu.
      apply In_str_insert in Hu as [->|Hu].
      * now apply not_leb_lt.
      * rewrite List.Forall_forall in Ht. now apply Ht.
Qed.

(** [np.unique] returns the labels in strictly increasing order. *)
Lemma np_unique_sorted (l : list string) : Sorted.StronglySorted label_lt (np_unique l).
Proof.
  induction l as [|s l IH]; cbn [np_unique fold_right]; [constructor|].
  now apply str_insert_sorted.
Qed.

Lemma sorted_NoDup (l : list string) : Sorted.StronglySorted label_lt l -> List.NoDup l.
Proof.
  induction 1 as [|t l Hl IH Ht]; constructor; [|assumption].
  intros Hin. rewrite List.Forall_forall in Ht. apply (label_lt_irrefl t). now apply Ht.
Qed.

Lemma np_unique_NoDup (l : list string) : List.NoDup (np_unique l).
Proof. apply sorted_NoDup, np_unique_sorted. Qed.

Lemma nat_insert_sorted (n : nat) (l : list nat) :
  Sorted.StronglySorted lt l -> Sorted.StronglySorted lt (nat_insert n l).
Proof.
  induction 1 as [|m l Hl IH Hm]; cbn [nat_insert].
  - repeat constructor.
  - destruct (Nat.eqb_spec n m) as [->|Hne]; [now constructor|].
    destruct (Nat.leb_spec n m) as [Hle|Hgt].
    + constructor; [now constructor|]. constructor; [lia|].
      rewrite List.Forall_forall in Hm. apply List.Forall_forall. intros u Hu.
      specialize (Hm u Hu). lia.
    + constructor; [assumption|]. apply List.Forall_forall. intros u Hu.
      apply In_nat_insert in Hu as [->|Hu]; [lia|].
      rewrite List.Forall_forall in Hm. now apply Hm.
Qed.

Lemma np_unique_nat_NoDup (l : list nat) : List.NoDup (np_unique_nat l).
Proof.
  assert (H : Sorted.StronglySorted lt (np_unique_nat l)).
  { induction l as [|n l IH]; cbn [np_unique_nat fold_right]; [constructor|].
    now apply nat_insert_sorted. }
  induction H as [|m l' Hl IH Hm]; constructor; [|assumption].
  intros Hin. rewrite List.Forall_forall in Hm. specialize (Hm m Hin). lia.
Qed.

(** As many codes as labels. *)
Lemma n_classes_labels (types : list string) :
  List.length (unique_counts (snd (encoder_fit_transform types)))
  = List.length (np_unique types).
Proof.
  unfold unique_counts. rewrite length_map. cbn [encoder_fit_transform snd].
  set (cs := np_unique types).
  change (map _ types) with (map (code_of cs) types).
  rewrite <- (length_map (code_of cs) cs).
  apply Permutation_length, Permutation.NoDup_Permutation.
  - apply np_unique_nat_NoDup.
  - apply Finite.Injective_map_NoDup_in; [|apply np_unique_NoDup].
    intros a b Ha Hb. now apply code_of_inj.
  - intros c. rewrite In_np_unique_nat, !in_map_iff.
    split; intros (x & Hx & Hin); exists x; (split; [assumption|]);
      now apply In_np_unique.
Qed.

Lemma winner_none (score : algorithm -> float) (cands : list algorithm) :
  (forall a, score a = NaN) -> snd (selectBest score cands NegInf None) = None.
Proof.
  intros Hnan.
  destruct (selectBest_spec score cands NegInf None)
    as [[Heq _] | (pre & a & post & _ & _ & Hgt & _)].
  - now rewrite Heq.
  - rewrite Hnan in Hgt. discriminate.
Qed.

Lemma winner_some (score : algorithm -> float) (c : algorithm) (cands : list algorithm) :
  (forall a, exists q, score a = Fin q) ->
  exists a, In a (c :: cands)
            /\ snd (selectBest score (c :: cands) NegInf None) = Some a.
Proof.
  intros Hfin.
  destruct (selectBest_spec score (c :: cands) NegInf None)
    as [[_ Hall] | (pre & a & post & Hc & Heq & _)].
  - specialize (Hall c (or_introl eq_refl)). destruct (Hfin c) as [q Hq].
    rewrite Hq in Hall. discriminate.
  - exists a. split; [rewrite Hc; apply in_elt|]. now rewrite Heq.
Qed.

Lemma get_model_retained (f : algorithm -> list (list Q) -> list Q -> list Q -> Q)
      (t : target) (X : list (list Q)) (y : list Q) (a : algorithm)
      (o : EquipmentMLModel) :
  get_model t (retain f t X y (Some a) o) = PyRegressor (mkRegressor a (f a X y)).
Proof. destruct t; reflexivity. Qed.

Lemma get_model_retain_other (f : algorithm -> list (list Q) -> list Q -> list Q -> Q)
      (t t' : target) (X : list (list Q)) (y : list Q) (w : option algorithm)
      (o : EquipmentMLModel) :
  t <> t' -> get_model t (retain f t' X y w o) = get_model t o.
Proof. destruct w, t, t'; try reflexivity; congruence. Qed.

Lemma scaler_fit_Ok (np_sqrt : Q -> Q) (X : list (list Q)) :
  X <> nil -> exists ps, scaler_fit np_sqrt X = Ok (mkScaler (Some ps)).
Proof. destruct X; [congruence|]. intros _. eexists. reflexivity. Qed.

Lemma n_test_of_small (n : nat) : (2 <= n <= 5)%nat -> n_test_of n = 1%nat.
Proof.
  intros H. unfold n_test_of.
  destruct n as [|[|[|[|[|[|n]]]]]]; try lia; reflexivity.
Qed.

Lemma n_test_of_large (n : nat) : (6 <= n)%nat -> (2 <= n_test_of n < n)%nat.
Proof.
  intros H. unfold n_test_of. split.
  - apply (Nat.div_le_lower_bound (n + 4) 5 2); lia.
  - apply Nat.Div0.div_lt_upper_bound; lia.
Qed.

Section TrainingOutcome.

Variable permutation : nat -> list nat.
Variable stratified_indices : list nat -> nat -> nat -> list nat * list nat.
Variable np_sqrt : Q -> Q.
Variable fit_regressor : algorithm -> list (list Q) -> list Q -> list Q -> Q.
Variable fit_classifier : list (list Q) -> list nat -> list Q -> nat.

Hypothesis permutation_ok : forall n, Permutation (permutation n) (seq 0 n).

(** The three splits of [train_regression_models] are the same split. *)
Lemma regression_splits (df : DataFrame) :
  (2 <= List.length (clean_data df))%nat ->
  exists X_train X_test yF_tr yF_te yP_tr yP_te yT_tr yT_te,
    train_test_split permutation stratified_indices
                     (encoded_types df) (target_values TFlowrate df) None
    = Ok (X_train, X_test, yF_tr, yF_te)
    /\ train_test_split permutation stratified_indices
                        (encoded_types df) (target_values TPressure df) None
       = Ok (X_train, X_test, yP_tr, yP_te)
    /\ train_test_split permutation stratified_indices
                        (encoded_types df) (target_values TTemperature df) None
       = Ok (X_train, X_test, yT_tr, yT_te)
    /\ List.length X_test = n_test_of (List.length (clean_data df))
    /\ (List.length X_train + List.length X_test
        = List.length (clean_data df))%nat.
Proof.
  intros Hn.
  assert (HX : List.length (encoded_types df) = List.length (clean_data df))
    by apply encoded_types_length.
  assert (Hy : forall t, List.length (encoded_types df)
                         = List.length (target_values t df))
    by (intros t; now rewrite HX, target_values_length).
  destruct (train_test_split_sizes permutation stratified_indices
              (encoded_types df) (target_values TFlowrate df)
              permutation_ok (Hy _))
    as (X_train & X_test & yF_tr & yF_te & HF & Hte & Hsum & _); [lia|].
  destruct (train_test_split_sizes permutation stratified_indices
              (encoded_types df) (target_values TPressure df)
              permutation_ok (Hy _))
    as (X_train' & X_test' & yP_tr & yP_te & HP & _); [lia|].
  destruct (train_test_split_sizes permutation stratified_indices
              (encoded_types df) (target_values TTemperature df)
              permutation_ok (Hy _))
    as (X_train'' & X_test'' & yT_tr & yT_te & HT & _); [lia|].
  destruct (train_test_split_same_X _ _ _ _ _ _ _ _ _ _ _ _ _ HF HP) as [-> ->].
  destruct (train_test_split_same_X _ _ _ _ _ _ _ _ _ _ _ _ _ HF HT) as [-> ->].
  exists X_train, X_test, yF_tr, yF_te, yP_tr, yP_te, yT_tr, yT_te.
  rewrite HX in Hte, Hsum. auto.
Qed.

Lemma score_nan (X_train X_test : list (list Q)) (y_train y_test : list Q)
      (a : algorithm) :
  (List.length X_test < 2)%nat ->
  candidate_r2 fit_regressor a X_train y_train X_test y_test = NaN.
Proof. intros H. unfold candidate_r2. apply r2_score_nan. now rewrite length_map. Qed.

Lemma score_finite (X_train X_test : list (list Q)) (y_train y_test : list Q)
      (a : algorithm) :
  (2 <= List.length X_test)%nat ->
  exists q, candidate_r2 fit_regressor a X_train y_train X_test y_test = Fin q.
Proof. intros H. unfold candidate_r2. apply r2_score_finite. now rewrite length_map. Qed.

(** X10: on a new object, a frame of which [clean_data] keeps 2 to 5
    rows makes [train] raise [AttributeError]: the test set has a single
    row, every R2 score is NaN, so none of the nine fitted candidates is
    retained and [predict] is called on [None]; the object stays
    untrained. *)
Theorem train_few_rows_raises (df : DataFrame) (s : TrainState) :
  obj s = init ->
  (2 <= List.length (clean_data df) <= 5)%nat ->
  exists s',
    train permutation stratified_indices np_sqrt fit_regressor fit_classifier df s
    = (s', Raise (AttributeError "object has no attribute 'predict'"))
    /\ fits s' = ((fits s ++ candidates) ++ candidates) ++ candidates
    /\ (forall t, get_model t (obj s') = PyNone)
    /\ is_trained (obj s') = PyBool false.
Proof.
  intros Hobj Hn.
  destruct (regression_splits df)
    as (X_train & X_test & yF_tr & yF_te & yP_tr & yP_te & yT_tr & yT_te
        & HF & HP & HT & Hte & Hsum); [lia|].
  rewrite (n_test_of_small _ Hn) in Hte.
  destruct (scaler_fit_Ok np_sqrt X_train) as [ps Hfit].
  { intros ->. cbn [List.length] in Hsum. lia. }
  pose proof (train_regression_models_forward permutation stratified_indices
                np_sqrt fit_regressor df s (mkEncoder None) (mkScaler None)
                (<["regression" := NoMetrics]> (<["classification" := NoMetrics]> ∅))
                X_train X_test yF_tr yF_te yP_tr yP_te yT_tr yT_te ps) as Hrun.
  rewrite Hobj in Hrun. specialize (Hrun eq_refl eq_refl eq_refl HF HP HT Hfit).
  cbv beta zeta in Hrun.
  rewrite !winner_none in Hrun
    by (intros a; apply score_nan; rewrite length_map; lia).
  cbn [retain] in Hrun. cbn in Hrun.
  eexists. split.
  - unfold train. apply bind_Raise. exact Hrun.
  - cbn [fits obj]. split; [reflexivity|]. split; [|reflexivity].
    intros []; reflexivity.
Qed.

(** [train_regression_models] on a new object, six cleaned rows or more:
    every loop retains a model and the method returns its metrics. *)
Lemma train_regression_models_succeeds (df : DataFrame) (s : TrainState) :
  obj s = init ->
  (6 <= List.length (clean_data df))%nat ->
  exists rm o3,
    train_regression_models permutation stratified_indices np_sqrt fit_regressor df s
    = (mkState o3 (((fits s ++ candidates) ++ candidates) ++ candidates), Ok rm)
    /\ constructed o3
    /\ (forall t, exists r, get_model t o3 = PyRegressor r)
    /\ classifier_model o3 = PyNone
    /\ is_trained o3 = PyBool false
    /\ rm_total_samples rm = List.length (clean_data df)
    /\ rm_test_samples rm = n_test_of (List.length (clean_data df))
    /\ (rm_training_samples rm + rm_test_samples rm
        = List.length (clean_data df))%nat
    /\ rm_equipment_types rm = np_unique (cleaned_types df).
Proof.
  intros Hobj Hn.
  destruct (regression_splits df)
    as (X_train & X_test & yF_tr & yF_te & yP_tr & yP_te & yT_tr & yT_te
        & HF & HP & HT & Hte & Hsum); [lia|].
  pose proof (n_test_of_large _ Hn) as Hnt.
  destruct (scaler_fit_Ok np_sqrt X_train) as [ps Hfit].
  { intros ->. cbn [List.length] in Hsum. lia. }
  pose proof (train_regression_models_forward permutation stratified_indices
                np_sqrt fit_regressor df s (mkEncoder None) (mkScaler None)
                (<["regression" := NoMetrics]> (<["classification" := NoMetrics]> ∅))
                X_train X_test yF_tr yF_te yP_tr yP_te yT_tr yT_te ps) as Hrun.
  rewrite Hobj in Hrun. specialize (Hrun eq_refl eq_refl eq_refl HF HP HT Hfit).
  cbv beta zeta in Hrun.
  assert (Hw : forall y_tr y_te,
             exists a, snd (selectBest
                              (fun a => candidate_r2 fit_regressor a
                                          (map (scale_row ps) X_train) y_tr
                                          (map (scale_row ps) X_test) y_te)
                              candidates NegInf None) = Some a).
  { intros y_tr y_te.
    destruct (winner_some
                (fun a => candidate_r2 fit_regressor a
                            (map (scale_row ps) X_train) y_tr
                            (map (scale_row ps) X_test) y_te)
                RandomForestRegressor
                (GradientBoostingRegressor :: LinearRegression :: nil))
      as (a & _ & Ha).
    - intros a. apply score_finite. rewrite length_map. lia.
    - exists a. exact Ha. }
  destruct (Hw yF_tr yF_te) as [aF HwF].
  destruct (Hw yP_tr yP_te) as [aP HwP].
  destruct (Hw yT_tr yT_te) as [aT HwT].
  rewrite HwF, HwP, HwT in Hrun.
  cbn [retain set_model set_model_flowrate set_model_pressure set_model_temperature
       model_flowrate model_pressure model_temperature attr_predict] in Hrun.
  do 2 eexists. split; [exact Hrun|].
  split; [repeat split; eexists; reflexivity|].
  split; [intros []; eexists; reflexivity|].
  split; [reflexivity|]. split; [reflexivity|].
  cbn [rm_total_samples rm_test_samples rm_training_samples rm_equipment_types].
  rewrite encoded_types_length. repeat split; assumption.
Qed.

(** C7 (as amended): for a cleaned dataset of size [N >= 2], every run
    of [train_regression_models] that returns has recorded
    [total_samples = N], a training and a test count that add up to
    [N], and [ceil(0.2 N)] test samples, which is [round(0.2 N)] or next
    to it; and on a new object the run returns for every [N >= 6]. *)
Theorem split_sizes (df : DataFrame) :
  let N := List.length (clean_data df) in
  (2 <= N)%nat ->
  (forall s s' metrics,
      train_regression_models permutation stratified_indices np_sqrt
                              fit_regressor df s = (s', Ok metrics) ->
      rm_total_samples metrics = N
      /\ (rm_training_samples metrics + rm_test_samples metrics = N)%nat
      /\ rm_test_samples metrics = n_test_of N
      /\ (Z.abs (Z.of_nat (rm_test_samples metrics)
                 - round_half_even (test_size * inject_Z (Z.of_nat N)))
          <= 1)%Z)
  /\ ((6 <= N)%nat ->
      forall s, obj s = init ->
                exists s' metrics,
                  train_regression_models permutation stratified_indices np_sqrt
                                          fit_regressor df s = (s', Ok metrics)).
Proof.
  intros N Hn. subst N. split.
  - intros s s' metrics Hrun.
    destruct (split_counts_of_run permutation stratified_indices np_sqrt
                                  fit_regressor df permutation_ok Hn)
      as (X_train & X_test & y_train & y_test & Hsplit & Hsum & Hround & Hrec).
    destruct (Hrec s s' metrics Hrun) as (Htr & Hte & Htot).
    destruct (regression_splits df Hn)
      as (X_train' & X_test' & yF_tr & yF_te & _ & _ & _ & _ & HF & _ & _ & Hnt & _).
    rewrite Hsplit in HF. injection HF as <- <- _ _.
    rewrite Htr, Hte, Htot. auto.
  - intros H6 s Hobj.
    destruct (train_regression_models_succeeds df s Hobj H6)
      as (rm & o3 & Hrun & _). eauto.
Qed.

End TrainingOutcome.

(** ** Class counts *)

Lemma list_sum_cons (x : nat) (l : list nat) : list_sum (x :: l) = (x + list_sum l)%nat.
Proof. reflexivity. Qed.

Lemma count_sum_cons (a : nat) (y l : list nat) :
  list_sum (map (count_occ Nat.eq_dec (a :: y)) l)
  = (count_occ Nat.eq_dec l a + list_sum (map (count_occ Nat.eq_dec y) l))%nat.
Proof.
  induction l as [|b l IH]; [reflexivity|].
  change (map (count_occ Nat.eq_dec (a :: y)) (b :: l))
    with (count_occ Nat.eq_dec (a :: y) b :: map (count_occ Nat.eq_dec (a :: y)) l).
  change (map (count_occ Nat.eq_dec y) (b :: l))
    with (count_occ Nat.eq_dec y b :: map (count_occ Nat.eq_dec y) l).
  rewrite !list_sum_cons, IH. cbn [count_occ].
  destruct (Nat.eq_dec a b) as [->|Hne].
  - destruct (Nat.eq_dec b b); [lia|congruence].
  - destruct (Nat.eq_dec b a); [congruence|lia].
Qed.

(** The counts of a duplicate-free list of labels that covers [y] add up
    to the length of [y]. *)
Lemma count_sum_cover (y l : list nat) :
  List.NoDup l -> (forall c, In c y -> In c l) ->
  list_sum (map (count_occ Nat.eq_dec y) l) = List.length y.
Proof.
  intros Hnd. induction y as [|a y IH]; intros Hcov.
  - clear Hnd Hcov. induction l as [|b l IHl]; [reflexivity|exact IHl].
  - rewrite count_sum_cons, IH by (intros c Hc; apply Hcov; now right).
    rewrite (proj1 (NoDup_count_occ' Nat.eq_dec l) Hnd a) by (apply Hcov; now left).
    reflexivity.
Qed.

Lemma unique_counts_sum (y : list nat) : list_sum (unique_counts y) = List.length y.
Proof.
  unfold unique_counts. apply count_sum_cover.
  - apply np_unique_nat_NoDup.
  - intros c Hc. now apply In_np_unique_nat.
Qed.

Lemma list_sum_ge (k : nat) (l : list nat) :
  (forall c, In c l -> (k <= c)%nat) -> (k * List.length l <= list_sum l)%nat.
Proof.
  induction l as [|a l IH]; intros H; rewrite ?list_sum_cons; cbn [List.length];
    [cbn; lia|].
  pose proof (H a (or_introl eq_refl)).
  assert (k * List.length l <= list_sum l)%nat by (apply IH; intros c Hc; apply H; now right).
  lia.
Qed.

(** Stratification needs two rows per class: at most half as many
    classes as rows. *)
Lemma can_stratify_classes_bound (y : list nat) :
  can_stratify y = true -> (2 * List.length (unique_counts y) <= List.length y)%nat.
Proof.
  intros H. pose proof (unique_counts_sum y) as Hs.
  assert (2 * List.length (unique_counts y) <= list_sum (unique_counts y))%nat; [|lia].
  apply list_sum_ge.
  unfold can_stratify in H. rewrite forallb_forall in H.
  intros c Hc. specialize (H c Hc). now apply Nat.leb_le in H.
Qed.

Lemma can_stratify_no_singleton (y : list nat) :
  can_stratify y = true ->
  existsb (fun c => (c <? 2)%nat) (unique_counts y) = false.
Proof.
  intros H. apply not_true_is_false. intros He.
  apply existsb_exists in He as (c & Hc & Hlt).
  unfold can_stratify in H. rewrite forallb_forall in H. specialize (H c Hc).
  apply Nat.leb_le in H. apply Nat.ltb_lt in Hlt. lia.
Qed.

Lemma n_test_of_half (n : nat) : (2 <= n)%nat -> (2 * n_test_of n <= n)%nat.
Proof.
  intros H. unfold n_test_of.
  pose proof (Nat.div_mod_eq (n + 4) 5). pose proof (Nat.mod_upper_bound (n + 4) 5).
  lia.
Qed.

Section StratifiedSplit.

Variable permutation : nat -> list nat.
Variable stratified_indices : list nat -> nat -> nat -> list nat * list nat.

(** The stratified split of [train_classification_model]: refused when
    the test set has fewer rows than there are classes. *)
Lemma train_test_split_stratified {A} (X : list A) (y : list nat) :
  List.length X = List.length y ->
  (2 <= List.length X)%nat ->
  can_stratify y = true ->
  let n := List.length X in
  train_test_split permutation stratified_indices X y (Some y)
  = if (n_test_of n <? List.length (unique_counts y))%nat
    then Raise (ValueError "The test_size should be greater or equal to the number of classes")
    else
      let idx := stratified_indices y (n - n_test_of n) (n_test_of n) in
      Ok (take_rows (fst idx) X, take_rows (snd idx) X,
          take_rows (fst idx) y, take_rows (snd idx) y).
Proof.
  intros Hlen Hn Hcs n. unfold train_test_split.
  rewrite Hlen, Nat.eqb_refl. cbn [negb]. rewrite <- Hlen.
  rewrite (validate_shuffle_split_Ok _ Hn). fold (n_test_of n). fold n.
  cbn [mbind result_bind rbind]. unfold stratified_shuffle_split.
  rewrite (can_stratify_no_singleton y Hcs).
  pose proof (can_stratify_classes_bound y Hcs) as Hb. rewrite <- Hlen in Hb. fold n in Hb.
  pose proof (n_test_of_half n Hn) as Hnt. unfold n_test_of in *.
  destruct (Nat.ltb_spec (n - (n + 4) / 5) (List.length (unique_counts y))); [lia|].
  destruct (Nat.ltb_spec ((n + 4) / 5) (List.length (unique_counts y)));
    [reflexivity|].
  cbn [mbind result_bind rbind].
  destruct (stratified_indices y (n - (n + 4) / 5) ((n + 4) / 5)). reflexivity.
Qed.

End StratifiedSplit.

Lemma n_types_codes (df : DataFrame) :
  List.length (unique_counts (classification_y df)) = n_types df.
Proof. apply n_classes_labels. Qed.

Section ClassificationOutcome.

Variable permutation : nat -> list nat.
Variable stratified_indices : list nat -> nat -> nat -> list nat * list nat.
Variable np_sqrt : Q -> Q.
Variable fit_regressor : algorithm -> list (list Q) -> list Q -> list Q -> Q.
Variable fit_classifier : list (list Q) -> list nat -> list Q -> nat.

Hypothesis permutation_ok : forall n, Permutation (permutation n) (seq 0 n).
Hypothesis stratified_ok : stratified_sizes stratified_indices.

(** The split of [train_classification_model] on two rows or more: it
    is refused exactly when there are too many types, and otherwise
    yields a test set of [ceil(0.2 n)] rows and a train set of the
    rest. *)
Lemma classification_split (df : DataFrame) :
  (2 <= List.length (clean_data df))%nat ->
  let X := classification_X df in
  let y := classification_y df in
  let n := List.length (clean_data df) in
  let split := if can_stratify y
               then train_test_split permutation stratified_indices X y (Some y)
               else train_test_split permutation stratified_indices X y None in
  (too_many_types df /\ split = Raise test_size_error)
  \/ (~ too_many_types df
      /\ exists X_train X_test y_train y_test,
          split = Ok (X_train, X_test, y_train, y_test)
          /\ List.length X_test = n_test_of n
          /\ (List.length X_train + List.length X_test = n)%nat).
Proof.
  intros Hn X y n split.
  assert (HX : List.length X = n) by apply classification_X_length.
  assert (Hy : List.length y = n) by apply classification_y_length.
  subst split. destruct (can_stratify y) eqn:Hcs.
  - pose proof (proj1 (can_stratify_classes df) Hcs) as Htwice.
    rewrite (train_test_split_stratified permutation stratified_indices X y)
      by (rewrite ?HX, ?Hy; auto).
    cbv zeta. rewrite HX.
    pose proof (n_types_codes df) as Hc. fold y in Hc. rewrite Hc. clear Hc.
    destruct (Nat.ltb_spec (n_test_of n) (n_types df)) as [Hlt|Hge].
    + left. split; [split; assumption|reflexivity].
    + right. split; [intros [_ Hlt]; fold n in Hlt; lia|].
      pose proof (n_test_of_half n Hn) as Hhalf.
      destruct (stratified_ok y (n - n_test_of n)%nat (n_test_of n)) as (Htr & Hte & Hin);
        [rewrite Hy; lia|].
      do 4 eexists. split; [reflexivity|].
      rewrite !take_rows_length
        by (intros i Hi; rewrite HX, <- Hy; apply Hin; auto).
      rewrite Htr, Hte. split; [reflexivity|lia].
  - right. split.
    + intros [Htwice _]. apply (proj2 (can_stratify_classes df)) in Htwice.
      fold y in Htwice. congruence.
    + destruct (train_test_split_sizes permutation stratified_indices X y
                  permutation_ok)
        as (X_train & X_test & y_train & y_test & Hsplit & Hte & Hsum & _);
        [congruence | rewrite HX; exact Hn|].
      rewrite HX in Hte, Hsum. exists X_train, X_test, y_train, y_test. auto.
Qed.

(** [train_classification_model] on a constructed object and two cleaned
    rows or more: it raises exactly when there are too many types. *)
Lemma train_classification_model_outcome (df : DataFrame) (s : TrainState) :
  constructed (obj s) ->
  (2 <= List.length (clean_data df))%nat ->
  let n := List.length (clean_data df) in
  let o1 := set_label_encoder
              (PyEncoder (mkEncoder (Some (np_unique (cleaned_types df)))))
              (obj s) in
  (too_many_types df
   /\ train_classification_model permutation stratified_indices np_sqrt
                                 fit_classifier df s
      = (mkState o1 (fits s), Raise test_size_error))
  \/ (~ too_many_types df
      /\ exists cm sc clf h,
          train_classification_model permutation stratified_indices np_sqrt
                                     fit_classifier df s
          = (mkState (set_training_history (PyDict h)
                        (set_classifier_model (PyClassifier clf)
                           (set_scaler_classification (PyScaler sc) o1)))
                     (fits s ++ RandomForestClassifier :: nil),
             Ok cm)
          /\ cm_test_samples cm = n_test_of n
          /\ (cm_training_samples cm + cm_test_samples cm = n)%nat
          /\ cm_equipment_types cm = np_unique (cleaned_types df)).
Proof.
  intros Hcons Hn n o1.
  destruct (train_classification_model_run permutation stratified_indices
              np_sqrt fit_classifier df s Hcons) as (h & Hh & Hrun).
  cbv zeta in Hrun.
  change (fst (encoder_fit_transform (cleaned_types df)))
    with (mkEncoder (Some (np_unique (cleaned_types df)))) in Hrun.
  fold o1 in Hrun.
  destruct (classification_split df Hn)
    as [[Hmany Hsplit] | [Hfew (X_train & X_test & y_train & y_test
                                & Hsplit & Hte & Hsum)]];
    cbv zeta in Hsplit; rewrite Hsplit in Hrun.
  - left. split; [assumption|exact Hrun].
  - right. split; [assumption|].
    destruct (scaler_fit_Ok np_sqrt X_train) as [ps Hfit].
    { intros ->. cbn [List.length] in Hsum.
      pose proof (n_test_of_half _ Hn). lia. }
    rewrite Hfit in Hrun. cbn [scaler_params default] in Hrun.
    do 4 eexists. split; [exact Hrun|].
    cbn [cm_test_samples cm_training_samples cm_equipment_types].
    fold n in Hte, Hsum. auto.
Qed.

(** [train] on a new object when cleaning leaves no row. *)
Lemma train_no_rows (df : DataFrame) (s : TrainState) :
  obj s = init ->
  clean_data df = nil ->
  exists s',
    train permutation stratified_indices np_sqrt fit_regressor fit_classifier df s
    = (s', Raise empty_train_error)
    /\ fits s' = fits s
    /\ (forall t, get_model t (obj s') = PyNone)
    /\ is_trained (obj s') = PyBool false.
Proof.
  intros Hobj Hnil. eexists. split.
  - unfold train. apply bind_Raise. unfold train_regression_models.
    rewrite (bind_step _ _ _ _ _
               (prepare_data_empty df s (mkEncoder None) Hnil
                                   ltac:(rewrite Hobj; reflexivity))).
    cbv beta iota. reflexivity.
  - cbn [fits obj]. rewrite Hobj. split; [reflexivity|].
    split; [intros []; reflexivity|reflexivity].
Qed.

(** [train] on a new object, six cleaned rows or more. *)
Lemma train_six_rows (df : DataFrame) (s : TrainState) :
  obj s = init ->
  (6 <= List.length (clean_data df))%nat ->
  let n := List.length (clean_data df) in
  let log := ((fits s ++ candidates) ++ candidates) ++ candidates in
  (too_many_types df
   /\ exists s',
       train permutation stratified_indices np_sqrt fit_regressor fit_classifier df s
       = (s', Raise test_size_error)
       /\ fits s' = log
       /\ (forall t, exists r, get_model t (obj s') = PyRegressor r)
       /\ classifier_model (obj s') = PyNone
       /\ is_trained (obj s') = PyBool false)
  \/ (~ too_many_types df
      /\ exists s' rm cm,
          train permutation stratified_indices np_sqrt fit_regressor fit_classifier df s
          = (s', Ok (rm, cm))
          /\ fits s' = log ++ RandomForestClassifier :: nil
          /\ trained (obj s')
          /\ (exists clf, classifier_model (obj s') = PyClassifier clf)
          /\ rm_total_samples rm = n
          /\ rm_test_samples rm = n_test_of n
          /\ (rm_training_samples rm + rm_test_samples rm = n)%nat
          /\ cm_test_samples cm = n_test_of n
          /\ (cm_training_samples cm + cm_test_samples cm = n)%nat).
Proof.
  intros Hobj Hn n log.
  destruct (train_regression_models_succeeds permutation stratified_indices
              np_sqrt fit_regressor permutation_ok df s Hobj Hn)
    as (rm & o3 & Hreg & Hcons & Hmodels & Hclf & Htrained
        & Htot & Htest & Hsum & _).
  fold log in Hreg.
  destruct (train_classification_model_outcome df (mkState o3 log) Hcons)
    as [[Hmany Hcls] | [Hfew (cm & sc & clf & h & Hcls & Hcte & Hcsum & _)]];
    [lia | |].
  - left. split; [assumption|]. eexists. split.
    + unfold train. rewrite (bind_step _ _ _ _ _ Hreg).
      apply bind_Raise. exact Hcls.
    + cbn [obj fits]. split; [reflexivity|]. split; [|split; assumption].
      intros t. destruct (Hmodels t) as [r Hr]. exists r. rewrite <- Hr.
      destruct t; reflexivity.
  - right. split; [assumption|].
    assert (Hrun : train permutation stratified_indices np_sqrt fit_regressor
                         fit_classifier df s
                   = (mkState
                        (set_is_trained (PyBool true)
                           (set_training_history (PyDict h)
                              (set_classifier_model (PyClassifier clf)
                                 (set_scaler_classification (PyScaler sc)
                                    (set_label_encoder
                                       (PyEncoder
                                          (mkEncoder
                                             (Some (np_unique (cleaned_types df)))))
                                       o3)))))
                        (log ++ RandomForestClassifier :: nil),
                      Ok (rm, cm))).
    { unfold train. rewrite (bind_step _ _ _ _ _ Hreg).
      rewrite (bind_step _ _ _ _ _ Hcls). reflexivity. }
    eexists _, rm, cm. split; [exact Hrun|].
    split; [reflexivity|].
    split.
    { eapply train_trained; [|exact Hrun].
      rewrite Hobj. repeat split; eexists; reflexivity. }
    split; [eexists; reflexivity|].
    fold n in Htot, Htest, Hsum, Hcte, Hcsum. auto 10.
Qed.

End ClassificationOutcome.

Lemma sample_stratified_sizes : stratified_sizes sample_stratified_indices.
Proof.
  intros y n_train n_test Hsum. cbn [sample_stratified_indices fst snd].
  rewrite !length_seq. repeat split.
  intros i [Hi|Hi]; apply in_seq in Hi; lia.
Qed.

Lemma sample_permutation_ok (n : nat) : Permutation (sample_permutation n) (seq 0 n).
Proof. apply Permutation_refl. Qed.

Section TrainOutcomes.

Variable permutation : nat -> list nat.
Variable stratified_indices : list nat -> nat -> nat -> list nat * list nat.
Variable np_sqrt : Q -> Q.
Variable fit_regressor : algorithm -> list (list Q) -> list Q -> list Q -> Q.
Variable fit_classifier : list (list Q) -> list nat -> list Q -> nat.

Hypothesis permutation_ok : forall n, Permutation (permutation n) (seq 0 n).
Hypothesis stratified_ok : stratified_sizes stratified_indices.

(** X11: on a new object, with a shuffle that is a permutation and a
    stratified split of the requested sizes, [train] succeeds on every
    frame of which [clean_data] keeps 6 rows or more, unless the
    stratified split is refused.  Nine regressors and one classifier
    have been fitted, the object is trained, and both metrics report
    [ceil(0.2 n)] test rows and the remaining rows as training rows. *)
Theorem train_succeeds (df : DataFrame) (s : TrainState) :
  obj s = init ->
  (6 <= List.length (clean_data df))%nat ->
  ~ too_many_types df ->
  let n := List.length (clean_data df) in
  exists s' rm cm,
    train permutation stratified_indices np_sqrt fit_regressor fit_classifier df s
    = (s', Ok (rm, cm))
    /\ fits s' = (((fits s ++ candidates) ++ candidates) ++ candidates)
                   ++ RandomForestClassifier :: nil
    /\ trained (obj s')
    /\ (exists clf, classifier_model (obj s') = PyClassifier clf)
    /\ rm_total_samples rm = n
    /\ rm_test_samples rm = n_test_of n
    /\ (rm_training_samples rm + rm_test_samples rm = n)%nat
    /\ cm_test_samples cm = n_test_of n
    /\ (cm_training_samples cm + cm_test_samples cm = n)%nat.
Proof.
  intros Hobj Hn Hfew n.
  destruct (train_six_rows permutation stratified_indices np_sqrt fit_regressor
              fit_classifier permutation_ok stratified_ok df s Hobj Hn)
    as [[Hmany _] | [_ H]]; [contradiction | exact H].
Qed.

(** X12: when every type of the cleaned rows has two rows or more and
    there are more types than test rows, [train] raises the
    [ValueError] of the stratified split, after the regression models
    have been trained and retained: the object has its three
    regressors, no classifier, and is not marked trained. *)
Theorem train_too_many_types_raises (df : DataFrame) (s : TrainState) :
  obj s = init ->
  (6 <= List.length (clean_data df))%nat ->
  too_many_types df ->
  exists s',
    train permutation stratified_indices np_sqrt fit_regressor fit_classifier df s
    = (s', Raise test_size_error)
    /\ fits s' = ((fits s ++ candidates) ++ candidates) ++ candidates
    /\ (forall t, exists r, get_model t (obj s') = PyRegressor r)
    /\ classifier_model (obj s') = PyNone
    /\ is_trained (obj s') = PyBool false.
Proof.
  intros Hobj Hn Hmany.
  destruct (train_six_rows permutation stratified_indices np_sqrt fit_regressor
              fit_classifier permutation_ok stratified_ok df s Hobj Hn)
    as [[_ H] | [Hfew _]]; [exact H | contradiction].
Qed.

(** X13: the callers of [train] pass frames of 10 rows or more.  On
    such a frame [train] on a new object has three outcomes only: every
    row is cleaned away and the split raises [ValueError]; 7 rows or
    more are kept and the stratified split is refused with
    [ValueError]; or it succeeds.  The [AttributeError] of frames of 2
    to 5 cleaned rows cannot occur. *)
Theorem train_behind_the_gate (df : DataFrame) (s : TrainState) :
  obj s = init ->
  (10 <= List.length df)%nat ->
  (clean_data df = nil
   /\ exists s',
       train permutation stratified_indices np_sqrt fit_regressor fit_classifier df s
       = (s', Raise empty_train_error))
  \/ ((7 <= List.length (clean_data df))%nat
      /\ too_many_types df
      /\ exists s',
          train permutation stratified_indices np_sqrt fit_regressor fit_classifier
                df s
          = (s', Raise test_size_error))
  \/ ((7 <= List.length (clean_data df))%nat
      /\ ~ too_many_types df
      /\ exists s' m,
          train permutation stratified_indices np_sqrt fit_regressor fit_classifier
                df s
          = (s', Ok m)).
Proof.
  intros Hobj Hlen.
  destruct (clean_data_keeps df) as [Hnil|Hkeep].
  - left. split; [assumption|].
    destruct (train_no_rows permutation stratified_indices np_sqrt fit_regressor
                fit_classifier df s Hobj Hnil) as (s' & Hrun & _).
    eauto.
  - rewrite fill_missing_length in Hkeep.
    assert (Hn : (7 <= List.length (clean_data df))%nat) by lia.
    right.
    destruct (train_six_rows permutation stratified_indices np_sqrt fit_regressor
                fit_classifier permutation_ok stratified_ok df s Hobj)
      as [[Hmany (s' & Hrun & _)] | [Hfew (s' & rm & cm & Hrun & _)]]; [lia | |].
    + left. eauto.
    + right. eauto 6.
Qed.

End TrainOutcomes.

Lemma train_few_rows_raises_witness :
  exists s',
    train sample_permutation sample_stratified_indices sample_sqrt
          sample_fit_regressor sample_fit_classifier two_rows fresh
    = (s', Raise (AttributeError "object has no attribute 'predict'"))
    /\ fits s' = ((fits fresh ++ candidates) ++ candidates) ++ candidates
    /\ (forall t, get_model t (obj s') = PyNone)
    /\ is_trained (obj s') = PyBool false.
Proof.
  apply (train_few_rows_raises sample_permutation sample_stratified_indices
           sample_sqrt sample_fit_regressor sample_fit_classifier
           sample_permutation_ok two_rows fresh eq_refl).
  change (clean_data two_rows) with two_rows. cbn [List.length two_rows]. lia.
Defined.

Lemma six_rows_six : List.length (clean_data six_rows) = 6%nat.
Proof. vm_compute. reflexivity. Qed.

Lemma six_rows_types : ~ too_many_types six_rows.
Proof.
  intros [H _]. specialize (H "Reactor"). vm_compute in H.
  assert (2 <= 1)%nat; [|lia]. apply H. auto 10.
Qed.

Lemma train_succeeds_witness :
  exists s' rm cm,
    train sample_permutation sample_stratified_indices sample_sqrt
          sample_fit_regressor sample_fit_classifier six_rows fresh
    = (s', Ok (rm, cm))
    /\ fits s' = (((fits fresh ++ candidates) ++ candidates) ++ candidates)
                   ++ RandomForestClassifier :: nil
    /\ trained (obj s')
    /\ (exists clf, classifier_model (obj s') = PyClassifier clf)
    /\ rm_total_samples rm = List.length (clean_data six_rows)
    /\ rm_test_samples rm = n_test_of (List.length (clean_data six_rows))
    /\ (rm_training_samples rm + rm_test_samples rm
        = List.length (clean_data six_rows))%nat
    /\ cm_test_samples cm = n_test_of (List.length (clean_data six_rows))
    /\ (cm_training_samples cm + cm_test_samples cm
        = List.length (clean_data six_rows))%nat.
Proof.
  apply (train_succeeds sample_permutation sample_stratified_indices
           sample_sqrt sample_fit_regressor sample_fit_classifier
           sample_permutation_ok sample_stratified_sizes six_rows fresh eq_refl).
  - rewrite six_rows_six. lia.
  - exact six_rows_types.
Defined.

Lemma train_behind_the_gate_witness :
  (clean_data ten_rows = nil
   /\ exists s',
       train sample_permutation sample_stratified_indices sample_sqrt
             sample_fit_regressor sample_fit_classifier ten_rows fresh
       = (s', Raise empty_train_error))
  \/ ((7 <= List.length (clean_data ten_rows))%nat
      /\ too_many_types ten_rows
      /\ exists s',
          train sample_permutation sample_stratified_indices sample_sqrt
                sample_fit_regressor sample_fit_classifier ten_rows fresh
          = (s', Raise test_size_error))
  \/ ((7 <= List.length (clean_data ten_rows))%nat
      /\ ~ too_many_types ten_rows
      /\ exists s' m,
          train sample_permutation sample_stratified_indices sample_sqrt
                sample_fit_regressor sample_fit_classifier ten_rows fresh
          = (s', Ok m)).
Proof.
  apply (train_behind_the_gate sample_permutation sample_stratified_indices
           sample_sqrt sample_fit_regressor sample_fit_classifier
           sample_permutation_ok sample_stratified_sizes ten_rows fresh eq_refl).
  cbn. lia.
Defined.

Lemma split_sizes_witness :
  exists s' metrics,
    train_regression_models sample_permutation sample_stratified_indices
                            sample_sqrt sample_fit_regressor six_rows fresh
    = (s', Ok metrics)
    /\ rm_total_samples metrics = 6%nat
    /\ rm_training_samples metrics = 4%nat
    /\ rm_test_samples metrics = 2%nat.
Proof.
  destruct (split_sizes sample_permutation sample_stratified_indices sample_sqrt
                        sample_fit_regressor sample_permutation_ok six_rows)
    as [Hcounts Hreturns].
  - rewrite six_rows_six. lia.
  - rewrite six_rows_six in Hcounts, Hreturns.
    destruct (Hreturns (Nat.le_refl 6) fresh eq_refl) as (s' & metrics & Hrun).
    destruct (Hcounts fresh s' metrics Hrun) as (Htot & Hsum & Hte & _).
    exists s', metrics. split; [exact Hrun|]. split; [exact Htot|].
    change (n_test_of 6) with 2%nat in Hte. split; [lia|exact Hte].
Defined.

(** C7 (as stated) fails for a cleaned dataset of two rows on a new
    object: the split is made, but the single test row gives no R², no
    model is retained, and the run raises before it records a count. *)
Lemma split_sizes_not_recorded :
  ~ (forall df : DataFrame,
        (2 <= List.length (clean_data df))%nat ->
        exists s' metrics,
          train_regression_models sample_permutation sample_stratified_indices
                                  sample_sqrt sample_fit_regressor df fresh
          = (s', Ok metrics)
          /\ (rm_training_samples metrics + rm_test_samples metrics
              = List.length (clean_data df))%nat).
Proof.
  intros H. destruct (H two_rows) as (s' & metrics & Hrun & _).
  - vm_compute. lia.
  - vm_compute in Hrun. discriminate Hrun.
Qed.

Lemma three_pairs_six : List.length (clean_data three_pairs) = 6%nat.
Proof. vm_compute. reflexivity. Qed.

Lemma three_pairs_types : too_many_types three_pairs.
Proof.
  split.
  - intros label Hl. vm_compute in Hl.
    destruct Hl as [<-|[<-|[<-|[<-|[<-|[<-|[]]]]]]]; vm_compute; lia.
  - rewrite three_pairs_six. vm_compute. lia.
Qed.

Lemma train_too_many_types_raises_witness :
  exists s',
    train sample_permutation sample_stratified_indices sample_sqrt
          sample_fit_regressor sample_fit_classifier three_pairs fresh
    = (s', Raise test_size_error)
    /\ fits s' = ((fits fresh ++ candidates) ++ candidates) ++ candidates
    /\ (forall t, exists r, get_model t (obj s') = PyRegressor r)
    /\ classifier_model (obj s') = PyNone
    /\ is_trained (obj s') = PyBool false.
Proof.
  apply (train_too_many_types_raises sample_permutation sample_stratified_indices
           sample_sqrt sample_fit_regressor sample_fit_classifier
           sample_permutation_ok sample_stratified_sizes three_pairs fresh eq_refl).
  - rewrite three_pairs_six. lia.
  - exact three_pairs_types.
Defined.

(** ** The trained flag *)

Lemma keeps_bind {A B} (m : M A) (k : A -> M B) :
  keeps_is_trained m -> (forall a, keeps_is_trained (k a)) ->
  keeps_is_trained (m ≫= k).
Proof.
  intros Hm Hk s s' r. unfold mbind, M_bind.
  destruct (m s) as [s1 [a|e]] eqn:E.
  - intros H. rewrite (Hk a _ _ _ H). exact (Hm _ _ _ E).
  - intros [= <- <-]. exact (Hm _ _ _ E).
Qed.

Lemma keeps_ret {A} (a : A) : keeps_is_trained (@mret M M_ret A a).
Proof. intros s s' r [= <- <-]. reflexivity. Qed.

Lemma keeps_raise {A} (e : exn) : keeps_is_trained (@raise A e).
Proof. intros s s' r [= <- <-]. reflexivity. Qed.

Lemma keeps_lift {A} (x : result A) : keeps_is_trained (lift x).
Proof. intros s s' r [= <- <-]. reflexivity. Qed.

Lemma keeps_get_attr (f : EquipmentMLModel -> pyval) : keeps_is_trained (get_attr f).
Proof. intros s s' r [= <- <-]. reflexivity. Qed.

Lemma keeps_log_fit (a : algorithm) : keeps_is_trained (log_fit a).
Proof. intros s s' r [= <- <-]. reflexivity. Qed.

Lemma keeps_set_attr (f : pyval -> EquipmentMLModel -> EquipmentMLModel) (v : pyval) :
  (forall o, is_trained (f v o) = is_trained o) -> keeps_is_trained (set_attr f v).
Proof. intros Hf s s' r [= <- <-]. apply Hf. Qed.

Ltac keeps_step :=
  first
    [ apply keeps_ret | apply keeps_raise | apply keeps_lift
    | apply keeps_get_attr | apply keeps_log_fit
    | apply keeps_set_attr; intros o; solve [reflexivity | destruct o; reflexivity]
    | apply keeps_bind; [|intros ?] ].

Section TrainedFlag.

Variable permutation : nat -> list nat.
Variable stratified_indices : list nat -> nat -> nat -> list nat * list nat.
Variable np_sqrt : Q -> Q.
Variable fit_regressor : algorithm -> list (list Q) -> list Q -> list Q -> Q.
Variable fit_classifier : list (list Q) -> list nat -> list Q -> nat.

Lemma keeps_attr_encoder_fit_transform (y : list string) :
  keeps_is_trained (attr_encoder_fit_transform y).
Proof.
  unfold attr_encoder_fit_transform. keeps_step; [keeps_step|].
  destruct a; repeat keeps_step.
Qed.

Lemma keeps_attr_scaler_fit_transform get set (X : list (list Q)) :
  (forall v o, is_trained (set v o) = is_trained o) ->
  keeps_is_trained (attr_scaler_fit_transform np_sqrt get set X).
Proof.
  intros Hset. unfold attr_scaler_fit_transform. keeps_step; [keeps_step|].
  destruct a; repeat keeps_step.
  apply keeps_set_attr. intros o. apply Hset.
Qed.

Lemma keeps_attr_encoder_classes : keeps_is_trained attr_encoder_classes.
Proof.
  unfold attr_encoder_classes. keeps_step; [keeps_step|].
  destruct a as [| | | | |[[cs|]]| |]; keeps_step.
Qed.

Lemma keeps_history_store (key : string) (m : Metrics) :
  keeps_is_trained (history_store key m).
Proof.
  unfold history_store. keeps_step; [keeps_step|].
  destruct a; keeps_step.
Qed.

Lemma keeps_select_best (t : target) (cands : list (string * algorithm))
      (X_train : list (list Q)) (y_train : list Q)
      (X_test : list (list Q)) (y_test : list Q) (best : float) :
  keeps_is_trained
    (select_best fit_regressor t cands X_train y_train X_test y_test best).
Proof.
  revert best. induction cands as [|[name a] cands IH]; intros best;
    cbn [select_best]; [keeps_step|].
  keeps_step.
  - unfold fit_model. repeat keeps_step.
  - cbv zeta. destruct (float_gt _ best); [|apply IH].
    keeps_step; [|apply IH].
    apply keeps_set_attr. intros o. destruct t; reflexivity.
Qed.

Lemma keeps_prepare_data (df : DataFrame) : keeps_is_trained (prepare_data df).
Proof.
  unfold prepare_data. cbv zeta.
  keeps_step; [apply keeps_attr_encoder_fit_transform|].
  repeat keeps_step.
Qed.

Lemma keeps_train_regression_models (df : DataFrame) :
  keeps_is_trained
    (train_regression_models permutation stratified_indices np_sqrt
                             fit_regressor df).
Proof.
  unfold train_regression_models.
  keeps_step; [apply keeps_prepare_data|]. destruct a as [[[X yF] yP] yT].
  keeps_step; [keeps_step|]. destruct a as [[[X_train X_test] yF_tr] yF_te].
  keeps_step; [keeps_step|]. destruct a as [[[? ?] yP_tr] yP_te].
  keeps_step; [keeps_step|]. destruct a as [[[? ?] yT_tr] yT_te].
  keeps_step; [apply keeps_attr_scaler_fit_transform; reflexivity|].
  keeps_step; [keeps_step|]. keeps_step; [keeps_step|].
  keeps_step; [apply keeps_select_best|].
  keeps_step; [apply keeps_select_best|].
  keeps_step; [apply keeps_select_best|].
  do 6 (keeps_step; [keeps_step|]).
  keeps_step; [apply keeps_attr_encoder_classes|].
  cbv zeta. keeps_step; [apply keeps_history_store|]. keeps_step.
Qed.

Lemma keeps_train_classification_model (df : DataFrame) :
  keeps_is_trained
    (train_classification_model permutation stratified_indices np_sqrt
                                fit_classifier df).
Proof.
  unfold train_classification_model. cbv zeta.
  keeps_step; [apply keeps_attr_encoder_fit_transform|].
  keeps_step; [keeps_step|]. destruct a0 as [[[X_train X_test] y_train] y_test].
  keeps_step; [apply keeps_attr_scaler_fit_transform; reflexivity|].
  keeps_step; [keeps_step|]. keeps_step; [keeps_step|].
  keeps_step; [keeps_step|]. keeps_step; [keeps_step|].
  keeps_step; [apply keeps_attr_encoder_classes|].
  keeps_step; [apply keeps_history_store|]. keeps_step.
Qed.

(** [train] sets the flag last: a run that raises has not touched it. *)
Lemma train_raises_keeps_flag (df : DataFrame) (s s' : TrainState) (e : exn) :
  train permutation stratified_indices np_sqrt fit_regressor fit_classifier df s
  = (s', Raise e) ->
  is_trained (obj s') = is_trained (obj s).
Proof.
  unfold train, mbind, M_bind.
  destruct (train_regression_models _ _ _ _ df s) as [s1 [rm|e1]] eqn:Hreg.
  - destruct (train_classification_model _ _ _ _ df s1) as [s2 [cm|e2]] eqn:Hcls.
    + discriminate.
    + intros [= <- _].
      rewrite (keeps_train_classification_model df _ _ _ Hcls).
      exact (keeps_train_regression_models df _ _ _ Hreg).
  - intros [= <- _]. exact (keeps_train_regression_models df _ _ _ Hreg).
Qed.

(** X14: a [train] that raises leaves an untrained object untrained:
    afterwards [save_model] still raises [ValueError] without touching
    the disk, and [predict] raises [ValueError]. *)
Theorem failed_train_stays_untrained (df : DataFrame) (s s' : TrainState) (e : exn)
        (filepath : list string) (fs : FS) (equipment_type : string) :
  truthy (is_trained (obj s)) = false ->
  train permutation stratified_indices np_sqrt fit_regressor fit_classifier df s
  = (s', Raise e) ->
  save_model (obj s') filepath fs = (fs, Raise (ValueError "Model not trained yet"))
  /\ predict (obj s') equipment_type = Raise (ValueError "Model not trained yet").
Proof.
  intros Hflag Hrun. apply train_raises_keeps_flag in Hrun.
  unfold save_model, predict. rewrite Hrun, Hflag. split; reflexivity.
Qed.

End TrainedFlag.

Lemma failed_train_stays_untrained_witness :
  let s' := fst (train sample_permutation sample_stratified_indices sample_sqrt
                       sample_fit_regressor sample_fit_classifier three_pairs fresh) in
  save_model (obj s') user_model_path models_disk
  = (models_disk, Raise (ValueError "Model not trained yet"))
  /\ predict (obj s') "Pump" = Raise (ValueError "Model not trained yet").
Proof.
  intros s'.
  apply (failed_train_stays_untrained sample_permutation sample_stratified_indices
           sample_sqrt sample_fit_regressor sample_fit_classifier three_pairs
           fresh s' test_size_error user_model_path models_disk "Pump" eq_refl).
  vm_compute. reflexivity.
Defined.

Section EquipmentTypes.

Variable permutation : nat -> list nat.
Variable stratified_indices : list nat -> nat -> nat -> list nat * list nat.
Variable np_sqrt : Q -> Q.
Variable fit_regressor : algorithm -> list (list Q) -> list Q -> list Q -> Q.
Variable fit_classifier : list (list Q) -> list nat -> list Q -> nat.

Lemma train_regression_models_types (df : DataFrame) (s s' : TrainState)
      (rm : RegressionMetrics) :
  constructed (obj s) ->
  train_regression_models permutation stratified_indices np_sqrt fit_regressor df s
  = (s', Ok rm) ->
  rm_equipment_types rm = np_unique (cleaned_types df) /\ constructed (obj s').
Proof.
  intros ([e0 He] & [sc0 Hsc] & [sc1 Hsc1] & [h Hh]) Hrun.
  pose proof Hrun as Hinv.
  apply train_regression_models_run in Hinv
    as (X_train & X_test & sc & Xtr & Xte & Hfit & _ & _ & _ & _ & _
        & Hsr & Henc & Hsc' & Hh' & Ht).
  split.
  2:{ split; [destruct Henc as [cs Hcs]; eauto|].
      split; [eauto|]. split; [rewrite Hsc'; eauto|assumption]. }
  apply scaler_fit_params in Hfit as Hps. destruct Hps as [ps ->].
  destruct (Ht TFlowrate) as (yF_tr & yF_te & _ & HF & _).
  destruct (Ht TPressure) as (yP_tr & yP_te & _ & HP & _).
  destruct (Ht TTemperature) as (yT_tr & yT_te & _ & HT & _).
  cbn [target_values target_col] in HF, HP, HT.
  pose proof (train_regression_models_forward permutation stratified_indices
                np_sqrt fit_regressor df s e0 sc0 h X_train X_test
                yF_tr yF_te yP_tr yP_te yT_tr yT_te ps He Hsc Hh HF HP HT Hfit)
    as Hfw.
  cbv beta zeta in Hfw. rewrite Hfw in Hrun. clear Hfw.
  destruct (attr_predict _ _) as [fp|]; [|discriminate].
  destruct (attr_predict _ _) as [pp|]; [|discriminate].
  destruct (attr_predict _ _) as [tp|]; [|discriminate].
  injection Hrun as _ <-. reflexivity.
Qed.

(** X15: after a successful [train], the [equipment_types] of the
    regression and of the classification metrics are the same list:
    the distinct types of the cleaned rows, in strictly ascending
    order. *)
Theorem equipment_types_sorted (df : DataFrame) (s s' : TrainState)
        (rm : RegressionMetrics) (cm : ClassificationMetrics) :
  constructed (obj s) ->
  train permutation stratified_indices np_sqrt fit_regressor fit_classifier df s
  = (s', Ok (rm, cm)) ->
  rm_equipment_types rm = cm_equipment_types cm
  /\ Sorted.StronglySorted label_lt (rm_equipment_types rm)
  /\ List.NoDup (rm_equipment_types rm)
  /\ forall label,
      In label (rm_equipment_types rm)
      <-> exists r, In r (clean_data df) /\ Type_ r = label.
Proof.
  intros Hcons H. unfold train in H.
  bind_inv H giving s1 rm' Hreg.
  bind_inv H giving s2 cm' Hcls.
  bind_inv H giving s3 [] Hset.
  unfold mret, M_ret in H. injection H as _ <- <-.
  apply train_regression_models_types in Hreg as [Hrm Hcons1]; [|assumption].
  destruct (train_classification_model_run permutation stratified_indices
              np_sqrt fit_classifier df s1 Hcons1) as (h' & _ & Hrun).
  cbv zeta in Hrun. rewrite Hrun in Hcls. clear Hrun.
  destruct (if can_stratify _ then _ else _)
    as [[[[X_train' X_test'] y_train'] y_test']|e]; [|discriminate].
  destruct (scaler_fit np_sqrt X_train') as [sc'|e]; [|discriminate].
  injection Hcls as _ <-. cbn [cm_equipment_types]. rewrite Hrm.
  split; [reflexivity|]. split; [apply np_unique_sorted|].
  split; [apply np_unique_NoDup|].
  intros label. rewrite In_np_unique. unfold cleaned_types. rewrite in_map_iff.
  split; intros (r & H1 & H2); exists r; auto.
Qed.

End EquipmentTypes.

Lemma equipment_types_sorted_witness :
  exists s' rm cm,
    train sample_permutation sample_stratified_indices sample_sqrt
          sample_fit_regressor sample_fit_classifier six_rows fresh
    = (s', Ok (rm, cm))
    /\ rm_equipment_types rm = cm_equipment_types cm
    /\ rm_equipment_types rm = "Pump" :: "Reactor" :: "Valve" :: nil
    /\ Sorted.StronglySorted label_lt (rm_equipment_types rm).
Proof.
  destruct (train sample_permutation sample_stratified_indices sample_sqrt
                  sample_fit_regressor sample_fit_classifier six_rows fresh)
    as [s' [[rm cm]|e]] eqn:Hrun.
  - exists s', rm, cm. split; [reflexivity|].
    destruct (equipment_types_sorted sample_permutation sample_stratified_indices
                sample_sqrt sample_fit_regressor sample_fit_classifier
                six_rows fresh s' rm cm fresh_constructed Hrun)
      as (Heq & Hsorted & _ & _).
    split; [assumption|]. split; [|assumption].
    vm_compute in Hrun. injection Hrun as _ <- _. reflexivity.
  - vm_compute in Hrun. discriminate Hrun.
Defined.

(** ** The object after a successful run *)

Lemma retain_frame (f : algorithm -> list (list Q) -> list Q -> list Q -> Q)
      (t : target) (X : list (list Q)) (y : list Q) (w : option algorithm)
      (o : EquipmentMLModel) :
  feature_names (retain f t X y w o) = feature_names o
  /\ training_history (retain f t X y w o) = training_history o
  /\ classifier_model (retain f t X y w o) = classifier_model o
  /\ scaler_classification (retain f t X y w o) = scaler_classification o.
Proof. destruct w, t; repeat split. Qed.

Section AfterTrain.

Variable permutation : nat -> list nat.
Variable stratified_indices : list nat -> nat -> nat -> list nat * list nat.
Variable np_sqrt : Q -> Q.
Variable fit_regressor : algorithm -> list (list Q) -> list Q -> list Q -> Q.
Variable fit_classifier : list (list Q) -> list nat -> list Q -> nat.

Lemma train_regression_models_history (df : DataFrame) (s s' : TrainState)
      (rm : RegressionMetrics) :
  constructed (obj s) ->
  train_regression_models permutation stratified_indices np_sqrt fit_regressor df s
  = (s', Ok rm) ->
  feature_names (obj s') = PyList ("Type_Encoded" :: nil)
  /\ exists h, training_history (obj s') = PyDict (<["regression" := MReg rm]> h).
Proof.
  intros ([e0 He] & [sc0 Hsc] & [sc1 Hsc1] & [h Hh]) Hrun.
  pose proof Hrun as Hinv.
  apply train_regression_models_run in Hinv
    as (X_train & X_test & sc & Xtr & Xte & Hfit & _ & _ & _ & _ & _
        & _ & _ & _ & _ & Ht).
  apply scaler_fit_params in Hfit as Hps. destruct Hps as [ps ->].
  destruct (Ht TFlowrate) as (yF_tr & yF_te & _ & HF & _).
  destruct (Ht TPressure) as (yP_tr & yP_te & _ & HP & _).
  destruct (Ht TTemperature) as (yT_tr & yT_te & _ & HT & _).
  cbn [target_values target_col] in HF, HP, HT.
  pose proof (train_regression_models_forward permutation stratified_indices
                np_sqrt fit_regressor df s e0 sc0 h X_train X_test
                yF_tr yF_te yP_tr yP_te yT_tr yT_te ps He Hsc Hh HF HP HT Hfit)
    as Hfw.
  cbv beta zeta in Hfw. rewrite Hfw in Hrun. clear Hfw.
  destruct (attr_predict _ _) as [fp|]; [|discriminate].
  destruct (attr_predict _ _) as [pp|]; [|discriminate].
  destruct (attr_predict _ _) as [tp|]; [|discriminate].
  injection Hrun as <- <-. cbn [obj]. split.
  - cbn [feature_names set_training_history].
    rewrite !(proj1 (retain_frame _ _ _ _ _ _)). reflexivity.
  - exists h. reflexivity.
Qed.

(** A successful [train] on a constructed object leaves every attribute
    the other methods read. *)
Lemma train_fully_trained (df : DataFrame) (s s' : TrainState)
      (m : RegressionMetrics * ClassificationMetrics) :
  constructed (obj s) ->
  train permutation stratified_indices np_sqrt fit_regressor fit_classifier df s
  = (s', Ok m) ->
  fully_trained (obj s') m.
Proof.
  intros Hcons Hrun.
  destruct (train_trained permutation stratified_indices np_sqrt fit_regressor
              fit_classifier df s s' m Hcons Hrun) as [Htr _].
  split; [assumption|]. clear Htr.
  unfold train in Hrun.
  bind_inv Hrun giving s1 rm Hreg.
  bind_inv Hrun giving s2 cm Hcls.
  bind_inv Hrun giving s3 [] Hset.
  unfold mret, M_ret in Hrun. injection Hrun as <- <-.
  unfold set_attr in Hset. injection Hset as <-.
  destruct (train_regression_models_types permutation stratified_indices np_sqrt
              fit_regressor df s s1 rm Hcons Hreg) as [_ Hcons1].
  destruct (train_regression_models_history df s s1 rm Hcons Hreg)
    as [Hnames [h Hh]].
  destruct (train_classification_model_run permutation stratified_indices
              np_sqrt fit_classifier df s1 Hcons1) as (h' & Hh' & Hcrun).
  cbv zeta in Hcrun. rewrite Hcrun in Hcls. clear Hcrun.
  rewrite Hh in Hh'. injection Hh' as <-.
  destruct (if can_stratify _ then _ else _)
    as [[[[X_train' X_test'] y_train'] y_test']|e]; [|discriminate].
  destruct (scaler_fit np_sqrt X_train') as [sc'|e] eqn:Hfit; [|discriminate].
  apply scaler_fit_params in Hfit as [ps' ->].
  injection Hcls as <- <-. cbn [obj fst snd].
  split; [exact Hnames|]. split; [eexists; reflexivity|].
  split; [eexists; reflexivity|].
  eexists. split; [reflexivity|]. split.
  - rewrite lookup_insert_ne by discriminate. apply lookup_insert_eq.
  - apply lookup_insert_eq.
Qed.

End AfterTrain.
(** * Further properties of prediction *)

(** [predict] on a trained bundle never raises: a known type is looked
    up, an unknown one gets code 0. *)
Lemma predict_trained (self : EquipmentMLModel) (equipment_type : string) :
  trained self ->
  predict self equipment_type = Ok (prediction_for self equipment_type).
Proof.
  intros (Htr & [classes Henc] & [params Hsc] & Hmodels).
  destruct (Hmodels TFlowrate) as [rf Hf].
  destruct (Hmodels TPressure) as [rp Hp].
  destruct (Hmodels TTemperature) as [rt Ht].
  cbn [get_model] in Hf, Hp, Ht.
  unfold predict, prediction_for, raw_prediction, type_input, seen_types.
  cbn [get_model].
  rewrite Htr, Henc, Hsc, Hf, Hp, Ht. cbn [truthy negb].
  cbn [attr_encoder_transform encoder_transform classes_ encode_all encode_one
       mbind result_bind rbind].
  unfold encode_one, code_of.
  destruct (index_of equipment_type classes) as [i|]; reflexivity.
Qed.

Lemma index_of_nth (s : string) (cs : list string) (i : nat) :
  index_of s cs = Some i -> nth_error cs i = Some s.
Proof.
  revert i. induction cs as [|t cs IH]; intros i; cbn [index_of]; [discriminate|].
  destruct (String.eqb_spec s t) as [->|Hne].
  - intros [= <-]. reflexivity.
  - destruct (index_of s cs) as [j|]; [|discriminate].
    intros [= <-]. cbn [nth_error]. now apply IH.
Qed.

Lemma code_of_nth (s : string) (cs : list string) :
  In s cs -> nth_error cs (code_of cs s) = Some s.
Proof.
  intros Hin. unfold code_of. destruct (index_of_In s cs Hin) as [i Hi].
  rewrite Hi. now apply index_of_nth.
Qed.

Section PredictAfterTrain.

Variable permutation : nat -> list nat.
Variable stratified_indices : list nat -> nat -> nat -> list nat * list nat.
Variable np_sqrt : Q -> Q.
Variable fit_regressor : algorithm -> list (list Q) -> list Q -> list Q -> Q.
Variable fit_classifier : list (list Q) -> list nat -> list Q -> nat.

(** X16: after a successful [train], [predict] returns a result for every
    equipment type, known or not: the three regressors' predictions,
    rounded to two places, at the scaled code of the type; the code of a
    type of the cleaned rows is its rank among the sorted types. *)
Theorem predict_after_train (df : DataFrame) (s s' : TrainState)
        (m : RegressionMetrics * ClassificationMetrics) (equipment_type : string) :
  constructed (obj s) ->
  train permutation stratified_indices np_sqrt fit_regressor fit_classifier df s
  = (s', Ok m) ->
  predict (obj s') equipment_type = Ok (prediction_for (obj s') equipment_type)
  /\ (In equipment_type (cleaned_types df) ->
      nth_error (np_unique (cleaned_types df))
                (code_of (seen_types (obj s')) equipment_type)
      = Some equipment_type).
Proof.
  intros Hcons Hrun.
  destruct (train_trained permutation stratified_indices np_sqrt fit_regressor
              fit_classifier df s s' m Hcons Hrun) as [Htr Hseen].
  split; [now apply predict_trained|].
  intros Hin. rewrite Hseen. apply code_of_nth. now apply In_np_unique.
Qed.

End PredictAfterTrain.

Lemma predict_after_train_witness :
  predict trained_bundle "Valve" = Ok (prediction_for trained_bundle "Valve")
  /\ (In "Valve" (cleaned_types six_rows) ->
      nth_error (np_unique (cleaned_types six_rows))
                (code_of (seen_types trained_bundle) "Valve")
      = Some "Valve").
Proof.
  unfold trained_bundle.
  destruct (train sample_permutation sample_stratified_indices sample_sqrt
                  sample_fit_regressor sample_fit_classifier six_rows fresh)
    as [s' [m|e]] eqn:Hrun.
  - exact (predict_after_train sample_permutation sample_stratified_indices
             sample_sqrt sample_fit_regressor sample_fit_classifier
             six_rows fresh s' m "Valve" fresh_constructed Hrun).
  - vm_compute in Hrun. discriminate Hrun.
Defined.

(** X17: on a trained bundle, a type the encoder does not know gets
    exactly the predictions of the first of the known types (the
    alphabetically smallest): both are predicted from code 0. *)
Theorem predict_unseen_as_first_type (self : EquipmentMLModel)
        (first_type equipment_type : string) (others : list string) :
  trained self ->
  seen_types self = first_type :: others ->
  ~ In equipment_type (seen_types self) ->
  exists p p0,
    predict self equipment_type = Ok p
    /\ predict self first_type = Ok p0
    /\ predicted_flowrate p = predicted_flowrate p0
    /\ predicted_pressure p = predicted_pressure p0
    /\ predicted_temperature p = predicted_temperature p0.
Proof.
  intros Htr Hseen Hunseen.
  exists (prediction_for self equipment_type), (prediction_for self first_type).
  split; [now apply predict_trained|]. split; [now apply predict_trained|].
  assert (Hin : type_input self equipment_type = type_input self first_type).
  { unfold type_input, code_of.
    rewrite (index_of_not_In _ _ Hunseen), Hseen.
    cbn [index_of]. now rewrite String.eqb_refl. }
  unfold prediction_for. cbn [predicted_flowrate predicted_pressure predicted_temperature].
  rewrite Hin. auto.
Qed.

Lemma predict_unseen_as_first_type_witness :
  exists p p0,
    predict trained_bundle "Compressor" = Ok p
    /\ predict trained_bundle "Pump" = Ok p0
    /\ predicted_flowrate p = predicted_flowrate p0
    /\ predicted_pressure p = predicted_pressure p0
    /\ predicted_temperature p = predicted_temperature p0.
Proof.
  apply (predict_unseen_as_first_type trained_bundle "Pump" "Compressor"
           ("Reactor" :: "Valve" :: nil)).
  - apply trained_bundle_trained.
  - rewrite (proj2 trained_bundle_trained). vm_compute. reflexivity.
  - rewrite (proj2 trained_bundle_trained). vm_compute.
    intros [H|[H|[H|[]]]]; discriminate H.
Defined.
(** * Further properties of persistence *)

Lemma mkdir_files (name : list string) (fs : FS) :
  files (fst (mkdir name fs)) = files fs.
Proof.
  unfold mkdir. destruct (path_exists fs name); [reflexivity|].
  destruct (is_file fs (dirname name)); [reflexivity|].
  destruct (negb (is_dir fs (dirname name))); reflexivity.
Qed.

(** [os.makedirs] creates directories only. *)
Lemma makedirs_rec_files (depth : nat) :
  forall (name : list string) (fs : FS),
    files (fst (makedirs_rec depth name fs)) = files fs.
Proof.
  induction depth as [|depth IH]; intros name fs; cbn [makedirs_rec].
  - pose proof (mkdir_files name fs) as Hm.
    destruct (mkdir name fs) as [fs2 [[]|e]]; cbn [fst] in *; [assumption|].
    destruct (is_dir fs2 name); assumption.
  - destruct (negb (bool_decide (dirname name = nil))
              && negb (path_exists fs (dirname name))).
    + pose proof (IH (dirname name) fs) as Hrec.
      destruct (makedirs_rec depth (dirname name) fs) as [fs1 [[]|e]];
        cbn [fst] in Hrec.
      * pose proof (mkdir_files name fs1) as Hm.
        destruct (mkdir name fs1) as [fs2 [[]|e]]; cbn [fst] in *; [congruence|].
        destruct (is_dir fs2 name); cbn [fst]; congruence.
      * destruct e; try exact Hrec.
        pose proof (mkdir_files name fs1) as Hm.
        destruct (mkdir name fs1) as [fs2 [[]|e]]; cbn [fst] in *; [congruence|].
        destruct (is_dir fs2 name); cbn [fst]; congruence.
    + pose proof (mkdir_files name fs) as Hm.
      destruct (mkdir name fs) as [fs2 [[]|e]]; cbn [fst] in *; [assumption|].
      destruct (is_dir fs2 name); assumption.
Qed.

Lemma save_model_Ok (self : EquipmentMLModel) (filepath : list string)
      (fs fs' : FS) :
  save_model self filepath fs = (fs', Ok tt) ->
  truthy (is_trained self) = true
  /\ fs' = mkFS (dirs fs) (<[filepath := pickled self]> (files fs)).
Proof.
  unfold save_model. destruct (truthy (is_trained self)); cbn [negb]; [|discriminate].
  fold (pickled self). unfold write_pickle.
  destruct (is_dir fs filepath); [discriminate|].
  destruct (is_file fs (dirname filepath)); [discriminate|].
  destruct (negb (is_dir fs (dirname filepath))); [discriminate|].
  intros [= <-]. auto.
Qed.

Lemma load_pickled (self : EquipmentMLModel) (filepath : list string) (fs : FS)
      (s : TrainState) :
  files fs !! filepath = Some (pickled self) ->
  load_model filepath fs s = (mkState self (fits s), Ok tt).
Proof.
  intros Hfile.
  rewrite (load_model_Ok filepath fs s (pickled self)
             (model_flowrate self) (model_pressure self) (model_temperature self)
             (label_encoder self) (feature_names self) (is_trained self) Hfile);
    try (rewrite pickled_lookup; reflexivity).
  f_equal. f_equal. unfold restored, dict_get. rewrite !pickled_lookup.
  destruct self. reflexivity.
Qed.

(** X21: when the save sequence of the views ([os.makedirs], then
    [save_model]) succeeds, [load_model] on the same path gives back the
    saved object, attribute by attribute, whatever the loading object
    held before; every other file is left as it was. *)
Theorem save_user_model_then_load (MEDIA_ROOT : list string) (file_name : string)
        (self : EquipmentMLModel) (fs fs' : FS) (s : TrainState) :
  save_user_model MEDIA_ROOT file_name self fs = (fs', Ok tt) ->
  let filepath := model_dir MEDIA_ROOT ++ file_name :: nil in
  load_model filepath fs' s = (mkState self (fits s), Ok tt)
  /\ files fs' !! filepath = Some (pickled self)
  /\ forall other, other <> filepath -> files fs' !! other = files fs !! other.
Proof.
  intros Hsave filepath. unfold save_user_model in Hsave.
  pose proof (makedirs_rec_files (List.length (model_dir MEDIA_ROOT))
                                 (model_dir MEDIA_ROOT) fs) as Hfiles.
  fold (makedirs (model_dir MEDIA_ROOT) fs) in Hfiles.
  destruct (makedirs (model_dir MEDIA_ROOT) fs) as [fs1 [[]|e]]; [|discriminate].
  cbn [fst] in Hfiles. fold filepath in Hsave.
  apply save_model_Ok in Hsave as [_ ->]. cbn [files]. rewrite Hfiles.
  assert (Hlook : <[filepath := pickled self]> (files fs) !! filepath
                  = Some (pickled self)) by apply lookup_insert_eq.
  split; [apply load_pickled; exact Hlook|]. split; [exact Hlook|].
  intros other Hne. now apply lookup_insert_ne.
Qed.

(** The save sequence of the views goes through on a disk where no file
    stands in the way of the model directory. *)
Lemma save_user_model_Ok (MEDIA_ROOT : list string) (file_name : string)
      (self : EquipmentMLModel) (fs : FS) :
  truthy (is_trained self) = true ->
  (forall k, is_file fs (firstn k (model_dir MEDIA_ROOT)) = false) ->
  is_dir fs (model_dir MEDIA_ROOT ++ file_name :: nil) = false ->
  exists fs', save_user_model MEDIA_ROOT file_name self fs = (fs', Ok tt).
Proof.
  intros Htrained Hfiles Hnd. unfold save_user_model.
  destruct (makedirs_Ok (model_dir MEDIA_ROOT) fs Hfiles)
    as (fs1 & -> & Hf & Hd & Hmono & Honly).
  unfold save_model. rewrite Htrained. cbn [negb].
  fold (pickled self). unfold write_pickle.
  assert (Hnd1 : is_dir fs1 (model_dir MEDIA_ROOT ++ file_name :: nil) = false).
  { apply not_true_is_false. intros Hp.
    destruct (Honly _ Hp) as [Hp'|[k Hk]]; [congruence|].
    apply (f_equal (@List.length string)) in Hk.
    rewrite length_firstn, length_app in Hk. cbn [List.length] in Hk. lia. }
  rewrite Hnd1, dirname_snoc, Hd.
  assert (Hpf : is_file fs1 (model_dir MEDIA_ROOT) = false).
  { unfold is_file. rewrite Hf.
    rewrite <- (firstn_all (model_dir MEDIA_ROOT)). apply Hfiles. }
  rewrite Hpf. cbn [negb]. eauto.
Qed.

Lemma save_user_model_then_load_witness :
  let fs' := fst (save_user_model ("media" :: nil) "model_user_1.pkl"
                                  trained_bundle media_disk) in
  load_model user_model_path fs' fresh = (mkState trained_bundle nil, Ok tt)
  /\ files fs' !! user_model_path = Some (pickled trained_bundle)
  /\ forall other, other <> user_model_path ->
                   files fs' !! other = files media_disk !! other.
Proof.
  intros fs'.
  apply (save_user_model_then_load ("media" :: nil) "model_user_1.pkl"
           trained_bundle media_disk fs' fresh).
  subst fs'.
  destruct (save_user_model_Ok ("media" :: nil) "model_user_1.pkl" trained_bundle
                               media_disk trained_bundle_is_trained)
    as [fs1 ->]; reflexivity.
Defined.

(** X22: [load_model] assigns the attributes one after the other.  A
    pickled dict that has the three regressors but no [label_encoder]
    makes it raise [KeyError] after the regressors, the classifier and
    the two scalers have been replaced: the object is left half loaded,
    with its former encoder, feature names, history and trained flag. *)
Theorem load_model_partial (filepath : list string) (fs : FS) (s : TrainState)
        (model_data : gmap string pyval) (v1 v2 v3 : pyval) :
  files fs !! filepath = Some model_data ->
  model_data !! "model_flowrate" = Some v1 ->
  model_data !! "model_pressure" = Some v2 ->
  model_data !! "model_temperature" = Some v3 ->
  model_data !! "label_encoder" = None ->
  exists s1,
    load_model filepath fs s = (s1, Raise (KeyError "label_encoder"))
    /\ model_flowrate (obj s1) = v1
    /\ model_pressure (obj s1) = v2
    /\ model_temperature (obj s1) = v3
    /\ classifier_model (obj s1) = dict_get model_data "classifier_model" PyNone
    /\ scaler_regression (obj s1)
       = dict_get model_data "scaler_regression" (PyScaler (mkScaler None))
    /\ scaler_classification (obj s1)
       = dict_get model_data "scaler_classification" (PyScaler (mkScaler None))
    /\ label_encoder (obj s1) = label_encoder (obj s)
    /\ feature_names (obj s1) = feature_names (obj s)
    /\ training_history (obj s1) = training_history (obj s)
    /\ is_trained (obj s1) = is_trained (obj s).
Proof.
  intros Hfile H1 H2 H3 H4. unfold load_model.
  rewrite (path_exists_file _ _ _ Hfile). cbn [negb].
  unfold mbind, M_bind, lift, set_attr, read_pickle, dict_getitem.
  rewrite Hfile, H1, H2, H3, H4. cbn [obj fits].
  eexists. split; [reflexivity|]. cbn [obj]. repeat split.
Qed.

Lemma load_model_partial_witness :
  exists s1,
    load_model user_model_path (disk_with no_label_encoder) fresh
    = (s1, Raise (KeyError "label_encoder"))
    /\ model_flowrate (obj s1) = model_flowrate trained_bundle
    /\ label_encoder (obj s1) = PyEncoder (mkEncoder None)
    /\ is_trained (obj s1) = PyBool false.
Proof.
  destruct (load_model_partial user_model_path (disk_with no_label_encoder) fresh
              no_label_encoder (model_flowrate trained_bundle)
              (model_pressure trained_bundle) (model_temperature trained_bundle))
    as (s1 & Hrun & Hf & _ & _ & _ & _ & _ & He & _ & _ & Ht).
  - apply disk_with_lookup.
  - unfold no_label_encoder. rewrite lookup_delete_ne by discriminate.
    apply pickled_lookup.
  - unfold no_label_encoder. rewrite lookup_delete_ne by discriminate.
    apply pickled_lookup.
  - unfold no_label_encoder. rewrite lookup_delete_ne by discriminate.
    apply pickled_lookup.
  - apply lookup_delete_eq.
  - exists s1. auto.
Defined.

(** X23: the defaults of [load_model] let a pickled dict of an older
    format load, but the loaded object cannot do what the missing
    entries were for: without [scaler_regression] the default is an
    unfitted [StandardScaler()] and [predict] raises [NotFittedError]
    for every equipment type (only the encoder's error is caught);
    without [classifier_model] the default is [None] and [predict_type]
    raises [ValueError]. *)
Theorem load_defaults_cannot_predict
        (predict_proba : Classifier -> list Q -> list Q)
        (filepath : list string) (fs : FS)
        (s : TrainState) (model_data : gmap string pyval)
        (v1 v2 v3 v5 v6 : pyval) (e : LabelEncoder) :
  files fs !! filepath = Some model_data ->
  model_data !! "model_flowrate" = Some v1 ->
  model_data !! "model_pressure" = Some v2 ->
  model_data !! "model_temperature" = Some v3 ->
  model_data !! "label_encoder" = Some (PyEncoder e) ->
  model_data !! "feature_names" = Some v5 ->
  model_data !! "is_trained" = Some v6 ->
  truthy v6 = true ->
  exists s',
    load_model filepath fs s = (s', Ok tt)
    /\ (model_data !! "scaler_regression" = None ->
        forall equipment_type,
          predict (obj s') equipment_type
          = Raise (NotFittedError "This StandardScaler instance is not fitted yet"))
    /\ (model_data !! "classifier_model" = None ->
        forall flowrate pressure temperature,
          predict_type predict_proba (obj s') flowrate pressure temperature
          = Raise (ValueError "Classification model not trained yet")).
Proof.
  intros Hfile H1 H2 H3 H4 H5 H6 Htr.
  eexists. split; [eapply load_model_Ok; eassumption|]. cbn [obj]. split.
  - intros Hsc equipment_type. unfold predict, restored.
    cbn [is_trained label_encoder scaler_regression]. rewrite Htr. cbn [negb].
    unfold dict_get. rewrite Hsc.
    destruct e as [[cs|]];
      cbn [attr_encoder_transform encoder_transform classes_ encode_all
           mbind result_bind rbind]; [|reflexivity].
    unfold encode_one. destruct (index_of equipment_type cs); reflexivity.
  - intros Hclf flowrate pressure temperature. unfold predict_type, restored.
    cbn [is_trained classifier_model]. unfold dict_get at 1. rewrite Hclf.
    cbn [is_None]. now rewrite orb_true_r.
Qed.

Lemma load_defaults_cannot_predict_witness :
  exists s',
    load_model user_model_path (disk_with old_format) fresh = (s', Ok tt)
    /\ (forall equipment_type,
          predict (obj s') equipment_type
          = Raise (NotFittedError "This StandardScaler instance is not fitted yet"))
    /\ (forall flowrate pressure temperature,
          predict_type sample_predict_proba (obj s') flowrate pressure temperature
          = Raise (ValueError "Classification model not trained yet")).
Proof.
  destruct trained_bundle_trained as [(Htr & [classes Henc] & _) _].
  destruct (load_defaults_cannot_predict sample_predict_proba user_model_path
              (disk_with old_format)
              fresh old_format (model_flowrate trained_bundle)
              (model_pressure trained_bundle) (model_temperature trained_bundle)
              (feature_names trained_bundle) (is_trained trained_bundle)
              (mkEncoder (Some classes)))
    as (s' & Hload & Hp & Ht).
  - apply disk_with_lookup.
  - apply old_format_lookup. cbn. auto.
  - apply old_format_lookup. cbn. auto.
  - apply old_format_lookup. cbn. auto.
  - rewrite <- Henc. apply old_format_lookup. cbn. auto 10.
  - apply old_format_lookup. cbn. auto 10.
  - apply old_format_lookup. cbn. auto 10.
  - apply trained_bundle_is_trained.
  - exists s'. split; [exact Hload|]. split.
    + apply Hp. unfold old_format. rewrite lookup_delete_ne by discriminate.
      apply lookup_delete_eq.
    + apply Ht. unfold old_format. apply lookup_delete_eq.
Defined.
(** * Properties of type prediction and feature importance *)

(** ** The label encoder, both ways *)

Lemma encode_all_codes (cs : list string) (y : list string) :
  (forall s, In s y -> In s cs) ->
  encode_all cs y = Ok (map (code_of cs) y).
Proof.
  induction y as [|s y IH]; intros Hin; cbn [encode_all map]; [reflexivity|].
  unfold encode_one, code_of at 1.
  destruct (index_of_In s cs (Hin s (or_introl eq_refl))) as [i Hi]. rewrite Hi.
  cbn [mbind result_bind rbind]. rewrite IH by (intros t Ht; apply Hin; now right).
  reflexivity.
Qed.

Lemma decode_all_codes (cs : list string) (y : list string) :
  (forall s, In s y -> In s cs) ->
  decode_all cs (map (code_of cs) y) = Ok y.
Proof.
  induction y as [|s y IH]; intros Hin; cbn [decode_all map]; [reflexivity|].
  unfold decode_one. rewrite (code_of_nth s cs (Hin s (or_introl eq_refl))).
  cbn [mbind result_bind rbind]. rewrite IH by (intros t Ht; apply Hin; now right).
  reflexivity.
Qed.

Lemma code_of_bound (cs : list string) (s : string) :
  In s cs -> (code_of cs s < List.length cs)%nat.
Proof.
  intros Hin. apply nth_error_Some. rewrite (code_of_nth s cs Hin). discriminate.
Qed.

(** X7: the encoder [fit_transform] fits gives every label of its input a
    code below the number of classes; [transform] on the same labels
    returns the same codes, and [inverse_transform] on the codes returns
    the labels. *)
Theorem label_encoder_round_trip (y : list string) :
  let e := fst (encoder_fit_transform y) in
  let codes := snd (encoder_fit_transform y) in
  encoder_transform e y = Ok codes
  /\ encoder_inverse_transform e codes = Ok y
  /\ forall c, In c codes -> (c < List.length (np_unique y))%nat.
Proof.
  cbn [encoder_fit_transform fst snd].
  change (map _ y) with (map (code_of (np_unique y)) y).
  unfold encoder_transform, encoder_inverse_transform. cbn [classes_].
  assert (Hin : forall s, In s y -> In s (np_unique y))
    by (intros s Hs; now apply In_np_unique).
  split; [now apply encode_all_codes|]. split; [now apply decode_all_codes|].
  intros c Hc. apply in_map_iff in Hc as (s & <- & Hs).
  apply code_of_bound. auto.
Qed.

(** ** [predict_type] *)

Lemma round_half_even_range (x : Q) (lo hi : Z) :
  inject_Z lo <= x -> x <= inject_Z hi ->
  (lo <= round_half_even x <= hi)%Z.
Proof.
  intros Hlo Hhi.
  pose proof (Qfloor_le x) as H1. pose proof (Qlt_floor x) as H2.
  rewrite inject_Z_plus in H2. change (inject_Z 1) with 1 in H2.
  assert (Hfl : (lo <= Qfloor x)%Z).
  { apply Z.lt_succ_r. rewrite Zlt_Qlt. unfold Z.succ.
    rewrite inject_Z_plus. change (inject_Z 1) with 1. lra. }
  assert (Hfh : (Qfloor x <= hi)%Z) by (rewrite Zle_Qle; lra).
  unfold round_half_even.
  destruct (Qltb (x - inject_Z (Qfloor x)) (1 # 2)) eqn:E1; [lia|].
  assert (Hlt : (Qfloor x < hi)%Z).
  { rewrite Zlt_Qlt. unfold Qltb in E1.
    apply negb_false_iff, Qle_bool_iff in E1. lra. }
  destruct (Qltb (1 # 2) (x - inject_Z (Qfloor x))); [lia|].
  destruct (Z.even (Qfloor x)); lia.
Qed.

(** Rounding to two places keeps a percentage a percentage. *)
Lemma round2_percent (x : Q) : 0 <= x -> x <= 100 -> 0 <= round2 x /\ round2 x <= 100.
Proof.
  intros H0 H100.
  destruct (round_half_even_range (x * 100) 0 10000) as [Hl Hh].
  - change (inject_Z 0) with 0. lra.
  - change (inject_Z 10000) with 10000. lra.
  - unfold round2. rewrite (Qmake_Qdiv _ 100).
    rewrite Zle_Qle in Hl, Hh.
    change (inject_Z 0) with 0 in Hl. change (inject_Z 10000) with 10000 in Hh.
    change (inject_Z (Z.pos 100)) with 100.
    set (k := inject_Z (round_half_even (x * 100))) in *.
    assert (Ek : k / 100 == k * (1 # 100)) by (unfold Qdiv; reflexivity).
    rewrite Ek. split; lra.
Qed.

Lemma py_max_In (xs : list Q) (m : Q) : py_max xs = Ok m -> In m xs.
Proof.
  destruct xs as [|x xs]; [discriminate|]. cbn [py_max]. intros [= <-].
  revert x. induction xs as [|y xs IH]; intros x; cbn [fold_left]; [now left|].
  destruct (Qltb x y).
  - right. apply IH.
  - destruct (IH x) as [H|H]; [left; exact H | right; right; exact H].
Qed.

Section TypePredictionProps.

Variable permutation : nat -> list nat.
Variable stratified_indices : list nat -> nat -> nat -> list nat * list nat.
Variable np_sqrt : Q -> Q.
Variable fit_regressor : algorithm -> list (list Q) -> list Q -> list Q -> Q.
Variable fit_classifier : list (list Q) -> list nat -> list Q -> nat.
Variable predict_proba : Classifier -> list Q -> list Q.

(** X18: after a successful [train], [predict_type] scales the three
    parameters, asks the classifier for a code and decodes it: a code
    below the number of trained types yields that type (one of the types
    of the cleaned rows) with the rounded percentage of the greatest
    class probability; a code out of range raises [ValueError]. *)
Theorem predict_type_after_train (df : DataFrame) (s s' : TrainState)
        (m : RegressionMetrics * ClassificationMetrics)
        (flowrate pressure temperature : Q) :
  constructed (obj s) ->
  train permutation stratified_indices np_sqrt fit_regressor fit_classifier df s
  = (s', Ok m) ->
  exists clf params,
    classifier_model (obj s') = PyClassifier clf
    /\ scaler_classification (obj s') = PyScaler (mkScaler (Some params))
    /\ let x := scale_row params (flowrate :: pressure :: temperature :: nil) in
       match nth_error (np_unique (cleaned_types df)) (clf_predict clf x),
             py_max (predict_proba clf x) with
       | Some label, Ok c =>
         predict_type predict_proba (obj s') flowrate pressure temperature
         = Ok {| predicted_type := label;
                 confidence := round2 (c * 100);
                 input_parameters := (flowrate, pressure, temperature) |}
         /\ In label (cleaned_types df)
       | Some label, Raise e =>
         predict_type predict_proba (obj s') flowrate pressure temperature = Raise e
       | None, _ =>
         predict_type predict_proba (obj s') flowrate pressure temperature
         = Raise (ValueError "y contains previously unseen labels")
       end.
Proof.
  intros Hcons Hrun.
  destruct (train_trained permutation stratified_indices np_sqrt fit_regressor
              fit_classifier df s s' m Hcons Hrun) as [_ Hseen].
  destruct (train_fully_trained permutation stratified_indices np_sqrt
              fit_regressor fit_classifier df s s' m Hcons Hrun)
    as ((Htr & [classes Henc] & _) & _ & [clf Hclf] & [params Hsc] & _).
  unfold seen_types in Hseen. rewrite Henc in Hseen. subst classes.
  exists clf, params. split; [assumption|]. split; [assumption|].
  cbv zeta. unfold predict_type. rewrite Htr, Hclf, Hsc, Henc.
  cbn [truthy negb is_None orb attr_scaler_transform scaler_transform scaler_params
       map mbind result_bind rbind attr_classifier_predict item0
       attr_encoder_inverse_transform encoder_inverse_transform classes_
       decode_all attr_predict_proba].
  unfold decode_one.
  destruct (nth_error _ _) as [label|] eqn:Hnth;
    destruct (py_max _) as [c|e];
    cbn [mbind result_bind rbind item0]; try reflexivity.
  split; [reflexivity|].
  apply (proj1 (In_np_unique label (cleaned_types df))).
  eapply nth_error_In. exact Hnth.
Qed.

(** X19: whenever [predict_type] returns, it echoes the three parameters
    and, the classifier's probabilities lying between 0 and 1, reports a
    confidence between 0 and 100. *)
Theorem predict_type_confidence_range (self : EquipmentMLModel)
        (flowrate pressure temperature : Q) (r : TypePrediction) :
  (forall clf x q, In q (predict_proba clf x) -> 0 <= q /\ q <= 1) ->
  predict_type predict_proba self flowrate pressure temperature = Ok r ->
  input_parameters r = (flowrate, pressure, temperature)
  /\ 0 <= confidence r /\ confidence r <= 100.
Proof.
  intros Hp. unfold predict_type.
  destruct (negb (truthy (is_trained self)) || is_None (classifier_model self));
    [discriminate|].
  destruct (attr_scaler_transform _ _) as [Xs|]; [|discriminate].
  cbn [mbind result_bind rbind].
  destruct (attr_classifier_predict _ _) as [codes|]; [|discriminate].
  cbn [mbind result_bind rbind].
  destruct (item0 codes) as [code|]; [|discriminate].
  cbn [mbind result_bind rbind].
  destruct (attr_encoder_inverse_transform _ _) as [labels|]; [|discriminate].
  cbn [mbind result_bind rbind].
  destruct (item0 labels) as [label|]; [|discriminate].
  cbn [mbind result_bind rbind].
  destruct (attr_predict_proba _ _ _) as [probs|] eqn:Hprobs; [|discriminate].
  cbn [mbind result_bind rbind].
  destruct (item0 probs) as [ps|] eqn:Hitem; [|discriminate].
  cbn [mbind result_bind rbind].
  destruct (py_max ps) as [c|] eqn:Hmax; [|discriminate].
  cbn [mbind result_bind rbind]. intros [= <-].
  cbn [input_parameters confidence]. split; [reflexivity|].
  assert (Hc : 0 <= c /\ c <= 1).
  { apply py_max_In in Hmax.
    unfold attr_predict_proba in Hprobs.
    destruct (classifier_model self) as [| | |clf| | | |]; try discriminate.
    injection Hprobs as <-.
    destruct Xs as [|x Xs]; [discriminate|]. cbn in Hitem. injection Hitem as <-.
    exact (Hp clf x c Hmax). }
  apply round2_percent; lra.
Qed.

End TypePredictionProps.

Lemma predict_type_after_train_witness :
  exists r,
    predict_type sample_predict_proba trained_bundle 100 5 90 = Ok r
    /\ In (predicted_type r) (cleaned_types six_rows).
Proof.
  unfold trained_bundle.
  destruct (train sample_permutation sample_stratified_indices sample_sqrt
                  sample_fit_regressor sample_fit_classifier six_rows fresh)
    as [s' [m|e]] eqn:Hrun; [|vm_compute in Hrun; discriminate Hrun].
  destruct (predict_type_after_train sample_permutation sample_stratified_indices
              sample_sqrt sample_fit_regressor sample_fit_classifier
              sample_predict_proba six_rows fresh s' m 100 5 90
              fresh_constructed Hrun)
    as (clf & params & _ & _ & H).
  cbv zeta in H. cbn [fst].
  destruct (nth_error _ _) as [label|];
    [destruct (py_max _) as [c|e]|].
  - destruct H as [H Hin]. eexists. split; [exact H|exact Hin].
  - exfalso. vm_compute in Hrun. injection Hrun as <- _.
    vm_compute in H. discriminate H.
  - exfalso. vm_compute in Hrun. injection Hrun as <- _.
    vm_compute in H. discriminate H.
Defined.

Lemma predict_type_confidence_range_witness :
  match predict_type sample_predict_proba trained_bundle 100 5 90 with
  | Ok r =>
    input_parameters r = (100, 5, 90) /\ 0 <= confidence r /\ confidence r <= 100
  | Raise _ => False
  end.
Proof.
  destruct (predict_type sample_predict_proba trained_bundle 100 5 90)
    as [r|e] eqn:H.
  - apply (predict_type_confidence_range sample_predict_proba trained_bundle
             100 5 90 r); [|exact H].
    intros clf x q [<-|[<-|[<-|[]]]]; split; lra.
  - vm_compute in H. discriminate H.
Defined.

(** ** [get_feature_importance] *)

Section FeatureImportanceProps.

Variable permutation : nat -> list nat.
Variable stratified_indices : list nat -> nat -> nat -> list nat * list nat.
Variable np_sqrt : Q -> Q.
Variable fit_regressor : algorithm -> list (list Q) -> list Q -> list Q -> Q.
Variable fit_classifier : list (list Q) -> list nat -> list Q -> nat.
Variable regressor_importances : Regressor -> list Q.
Variable classifier_importances : Classifier -> list Q.

(** X20: after a successful [train], [get_feature_importance] returns a
    dict with an entry for the classifier, over the three parameters,
    and, for each regression target, an entry over [Type_Encoded]
    unless the model retained for the target is the linear regression,
    which has no importances; it has no other key. *)
Theorem feature_importance_after_train (df : DataFrame) (s s' : TrainState)
        (m : RegressionMetrics * ClassificationMetrics) :
  constructed (obj s) ->
  train permutation stratified_indices np_sqrt fit_regressor fit_classifier df s
  = (s', Ok m) ->
  exists d clf,
    get_feature_importance regressor_importances classifier_importances (obj s')
    = Ok d
    /\ classifier_model (obj s') = PyClassifier clf
    /\ d !! "classification"
       = Some (mkImportance
                 (PyList ("Flowrate" :: "Pressure" :: "Temperature" :: nil))
                 (classifier_importances clf))
    /\ (forall t, exists r,
           get_model t (obj s') = PyRegressor r
           /\ d !! target_key t
              = match reg_algo r with
                | LinearRegression => None
                | _ => Some (mkImportance (PyList ("Type_Encoded" :: nil))
                                          (regressor_importances r))
                end)
    /\ forall key,
        is_Some (d !! key) ->
        In key ("flowrate" :: "pressure" :: "temperature"
                           :: "classification" :: nil).
Proof.
  intros Hcons Hrun.
  destruct (train_fully_trained permutation stratified_indices np_sqrt
              fit_regressor fit_classifier df s s' m Hcons Hrun)
    as ((Htr & _ & _ & Hmodels) & Hnames & [clf Hclf] & _).
  destruct (Hmodels TFlowrate) as [rf Hf].
  destruct (Hmodels TPressure) as [rp Hp].
  destruct (Hmodels TTemperature) as [rt Ht].
  cbn [get_model] in Hf, Hp, Ht.
  unfold get_feature_importance, importance_entry.
  rewrite Htr, Hnames, Hclf, Hf, Hp, Ht.
  cbn [truthy negb andb has_feature_importances feature_importances].
  eexists. exists clf. split; [reflexivity|]. split; [reflexivity|].
  split; [apply lookup_insert_eq|]. split.
  - intros []; cbn [get_model target_key]; eexists; (split; [eassumption|]);
      rewrite lookup_insert_ne by discriminate;
      destruct (reg_algo rf), (reg_algo rp), (reg_algo rt);
      rewrite ?lookup_insert_eq, ?lookup_insert_ne, ?lookup_empty by discriminate;
      rewrite ?lookup_insert_eq, ?lookup_insert_ne, ?lookup_empty by discriminate;
      rewrite ?lookup_insert_eq, ?lookup_insert_ne, ?lookup_empty by discriminate;
      reflexivity.
  - intros key Hkey.
    destruct (String.eqb_spec key "classification") as [->|H4]; [cbn; auto 10|].
    destruct (String.eqb_spec key "temperature") as [->|H3]; [cbn; auto 10|].
    destruct (String.eqb_spec key "pressure") as [->|H2]; [cbn; auto 10|].
    destruct (String.eqb_spec key "flowrate") as [->|H1]; [cbn; auto 10|].
    exfalso. rewrite lookup_insert_ne in Hkey by congruence.
    destruct (reg_algo rf), (reg_algo rp), (reg_algo rt);
      rewrite ?lookup_insert_ne, ?lookup_empty in Hkey by congruence;
      destruct Hkey as [x Hx]; discriminate Hx.
Qed.

End FeatureImportanceProps.

Lemma feature_importance_after_train_witness :
  exists d,
    get_feature_importance sample_regressor_importances
                           sample_classifier_importances trained_bundle
    = Ok d
    /\ d !! "classification"
       = Some (mkImportance
                 (PyList ("Flowrate" :: "Pressure" :: "Temperature" :: nil))
                 ((1 # 2) :: (1 # 4) :: (1 # 4) :: nil))
    /\ forall key,
        is_Some (d !! key) ->
        In key ("flowrate" :: "pressure" :: "temperature"
                           :: "classification" :: nil).
Proof.
  unfold trained_bundle.
  destruct (train sample_permutation sample_stratified_indices sample_sqrt
                  sample_fit_regressor sample_fit_classifier six_rows fresh)
    as [s' [m|e]] eqn:Hrun; [|vm_compute in Hrun; discriminate Hrun].
  destruct (feature_importance_after_train sample_permutation
              sample_stratified_indices sample_sqrt sample_fit_regressor
              sample_fit_classifier sample_regressor_importances
              sample_classifier_importances six_rows fresh s' m
              fresh_constructed Hrun)
    as (d & clf & Hd & _ & Hc & _ & Hkeys).
  exists d. cbn [fst]. auto.
Defined.
(** * Further properties of the train/test split *)

Lemma take_rows_app {A} (idx1 idx2 : list nat) (l : list A) :
  take_rows (idx1 ++ idx2) l = take_rows idx1 l ++ take_rows idx2 l.
Proof. unfold take_rows. apply flat_map_app. Qed.

Lemma take_rows_Permutation {A} (idx idx' : list nat) (l : list A) :
  Permutation idx idx' -> Permutation (take_rows idx l) (take_rows idx' l).
Proof. intros H. unfold take_rows. now apply Permutation_flat_map. Qed.

Lemma take_rows_shift {A} (idx : list nat) (a : A) (l : list A) :
  take_rows (map S idx) (a :: l) = take_rows idx l.
Proof.
  unfold take_rows. induction idx as [|i idx IH]; [reflexivity|].
  cbn [map flat_map nth_error]. now rewrite IH.
Qed.

(** Taking every position in order gives the list back. *)
Lemma take_rows_all {A} (l : list A) : take_rows (seq 0 (List.length l)) l = l.
Proof.
  induction l as [|a l IH]; [reflexivity|].
  cbn [List.length seq]. rewrite <- seq_shift.
  change (take_rows (0%nat :: map S (seq 0 (List.length l))) (a :: l))
    with (a :: take_rows (map S (seq 0 (List.length l))) (a :: l)).
  now rewrite take_rows_shift, IH.
Qed.

Lemma nth_error_combine {A B} (X : list A) (y : list B) (i : nat) :
  nth_error (combine X y) i
  = match nth_error X i, nth_error y i with
    | Some a, Some b => Some (a, b)
    | _, _ => None
    end.
Proof.
  revert y i. induction X as [|a X IH]; intros y i.
  - destruct i; reflexivity.
  - destruct y as [|b y]; destruct i as [|i]; cbn [combine nth_error];
      try reflexivity.
    + now destruct (nth_error X i).
    + apply IH.
Qed.

(** Rows and targets taken at the same positions stay paired. *)
Lemma combine_take_rows {A B} (idx : list nat) (X : list A) (y : list B) :
  List.length X = List.length y ->
  combine (take_rows idx X) (take_rows idx y) = take_rows idx (combine X y).
Proof.
  intros Hlen. unfold take_rows.
  induction idx as [|i idx IH]; [reflexivity|].
  cbn [flat_map]. rewrite nth_error_combine.
  destruct (nth_error X i) as [a|] eqn:Ea; destruct (nth_error y i) as [b|] eqn:Eb.
  - cbn. now rewrite IH.
  - exfalso. apply nth_error_None in Eb.
    assert (i < List.length X)%nat by (apply nth_error_Some; congruence). lia.
  - exfalso. apply nth_error_None in Ea.
    assert (i < List.length y)%nat by (apply nth_error_Some; congruence). lia.
  - cbn. exact IH.
Qed.

Section SplitPartition.

Variable permutation : nat -> list nat.
Variable stratified_indices : list nat -> nat -> nat -> list nat * list nat.

Hypothesis permutation_ok : forall n, Permutation (permutation n) (seq 0 n).

(** The positions of a plain split: the test positions followed by the
    train positions are the whole shuffle. *)
Lemma shuffle_split_covers (n n_train n_test : nat) :
  validate_shuffle_split n = Ok (n_train, n_test) ->
  let idx := shuffle_split permutation n n_train n_test in
  Permutation (snd idx ++ fst idx) (seq 0 n).
Proof.
  intros Hv. cbv zeta. unfold shuffle_split. cbn [fst snd].
  assert (Hlen : List.length (permutation n) = n).
  { rewrite (Permutation_length (permutation_ok n)). apply length_seq. }
  assert (Htr : n_train = (n - n_test)%nat).
  { unfold validate_shuffle_split in Hv.
    destruct (_ =? 0)%nat; [discriminate|]. now injection Hv as <- <-. }
  rewrite (firstn_all2 (n := n_train)) by (rewrite length_skipn; lia).
  rewrite firstn_skipn. apply permutation_ok.
Qed.

(** X8: [train_regression_models] calls [train_test_split] once per
    target and keeps the features of the first call only.  With the same
    seed the calls draw the same positions: the features of one call
    paired with the targets of another are the original rows, each one
    exactly once in the train or the test part, with its own target. *)
Theorem split_keeps_rows_aligned {A B C} (X : list A) (y : list B) (y' : list C)
        X_train X_test y_train y_test X_train' X_test' y_train' y_test' :
  train_test_split permutation stratified_indices X y None
  = Ok (X_train, X_test, y_train, y_test) ->
  train_test_split permutation stratified_indices X y' None
  = Ok (X_train', X_test', y_train', y_test') ->
  Permutation (combine X_test y_test' ++ combine X_train y_train') (combine X y').
Proof.
  intros H H'.
  apply train_test_split_plain in H as (n1 & n2 & _ & Hv & -> & -> & _).
  apply train_test_split_plain in H' as (n1' & n2' & Hlen & Hv' & _ & _ & -> & ->).
  rewrite Hv in Hv'. injection Hv' as <- <-.
  rewrite !combine_take_rows by assumption.
  rewrite <- take_rows_app.
  rewrite (take_rows_Permutation _ _ _ (shuffle_split_covers _ _ _ Hv)).
  assert (Hc : List.length (combine X y') = List.length X).
  { rewrite length_combine. lia. }
  rewrite <- Hc. now rewrite take_rows_all.
Qed.

End SplitPartition.

Lemma split_keeps_rows_aligned_witness :
  exists X_train X_test yF_train yF_test X_train' X_test' yP_train yP_test,
    train_test_split sample_permutation sample_stratified_indices
                     (encoded_types six_rows) (target_values TFlowrate six_rows) None
    = Ok (X_train, X_test, yF_train, yF_test)
    /\ train_test_split sample_permutation sample_stratified_indices
                        (encoded_types six_rows) (target_values TPressure six_rows)
                        None
       = Ok (X_train', X_test', yP_train, yP_test)
    /\ Permutation (combine X_test yP_test ++ combine X_train yP_train)
                   (combine (encoded_types six_rows)
                            (target_values TPressure six_rows)).
Proof.
  destruct (regression_splits sample_permutation sample_stratified_indices
              sample_permutation_ok six_rows)
    as (X_train & X_test & yF_tr & yF_te & yP_tr & yP_te & _ & _ & HF & HP & _).
  { rewrite six_rows_six. lia. }
  exists X_train, X_test, yF_tr, yF_te, X_train, X_test, yP_tr, yP_te.
  split; [exact HF|]. split; [exact HP|].
  exact (split_keeps_rows_aligned sample_permutation sample_stratified_indices
           sample_permutation_ok _ _ _ _ _ _ _ _ _ _ _ HF HP).
Defined.

(** X9: the number of test rows is taken in double precision,
    [ceil(0.2 * n)] with the binary64 product; for every size below
    [2^52] the split sizes are those of the exact product. *)
Theorem test_size_in_double_precision (n : nat) :
  (Z.of_nat n < 2 ^ 52)%Z ->
  (2 <= n)%nat ->
  let n_test := Z.to_nat (n_test_binary64 (Z.of_nat n)) in
  validate_shuffle_split n = Ok ((n - n_test)%nat, n_test)
  /\ n_test = ((n + 4) / 5)%nat.
Proof.
  intros Hn H2 n_test.
  assert (E : n_test = ((n + 4) / 5)%nat).
  { unfold n_test. rewrite <- n_test_binary64_agrees by assumption.
    apply n_test_formula. }
  split; [|exact E]. rewrite E. now apply validate_shuffle_split_Ok.
Qed.

Lemma test_size_in_double_precision_witness :
  validate_shuffle_split 12 = Ok (9%nat, 3%nat)
  /\ Z.to_nat (n_test_binary64 12) = 3%nat.
Proof.
  destruct (test_size_in_double_precision 12) as [H1 H2].
  - vm_compute. reflexivity.
  - lia.
  - cbv zeta in H1, H2. change (Z.of_nat 12) with 12%Z in H1, H2.
    rewrite H2 in H1. split; [exact H1 | exact H2].
Defined.
(** * Properties of the upload statistics and of the upload history *)

(** ** [process_csv_file] *)

Lemma filter_absent_nil (present cols : list string) :
  (forall col, In col cols -> In col present) <->
  List.filter (fun col => negb (existsb (String.eqb col) present)) cols = nil.
Proof.
  set (f := fun col => negb (existsb (String.eqb col) present)).
  assert (Hf : forall col, f col = false <-> In col present).
  { intros col. unfold f. rewrite negb_false_iff, existsb_exists. split.
    - intros (x & Hx & Heq). apply String.eqb_eq in Heq. now subst.
    - intros H. exists col. split; [assumption|apply String.eqb_refl]. }
  split.
  - intros H. induction cols as [|c cs IH]; [reflexivity|].
    cbn [List.filter]. rewrite (proj2 (Hf c) (H c (or_introl eq_refl))).
    apply IH. intros col Hc. apply H. now right.
  - intros H col Hc. apply Hf. apply not_true_is_false. intros Ht.
    assert (Hin : In col (List.filter f cols))
      by (apply filter_In; auto).
    rewrite H in Hin. destruct Hin.
Qed.

Lemma missing_columns_nil (csv : ParsedCsv) :
  has_required_columns csv <->
  List.filter (fun col => negb (existsb (String.eqb col) (csv_columns csv)))
              required_columns = nil.
Proof. apply filter_absent_nil. Qed.

Section ProcessCsvProps.

Variable float_mean : list Q -> Q.
Variable float_std : list Q -> Q.
Variable np_round2 : Q -> Q.

Lemma process_csv_file_returns (csv : ParsedCsv) :
  has_required_columns csv ->
  exists r,
    process_csv_file float_mean float_std np_round2 csv = Ok r
    /\ pd_count r = List.length (pd_raw_data r)
    /\ pd_raw_data r
       = if (5 <? List.length (csv_rows csv))%nat
         then clean_data (csv_rows csv)
         else map (impute (csv_rows csv)) (csv_rows csv).
Proof.
  intros Hcols. unfold process_csv_file.
  rewrite (proj1 (missing_columns_nil csv) Hcols).
  cbn [List.length Nat.eqb negb].
  eexists. split; [reflexivity|]. cbn [pd_count pd_raw_data].
  split; [reflexivity|].
  rewrite fill_missing_length.
  destruct (5 <? List.length (csv_rows csv))%nat; [reflexivity|].
  apply fill_missing_impute.
Qed.

(** X5: [process_csv_file] returns exactly when the five required
    columns are present, and otherwise raises [ValueError].  When it
    returns, the rows it reports and counts are the uploaded rows with
    missing values imputed by the column medians, all of them for a
    frame of at most 5 rows (here the z-score filter is skipped), and
    what [clean_data] keeps of them for a larger frame. *)
Theorem process_csv_file_cleaning (csv : ParsedCsv) :
  (has_required_columns csv ->
   exists r,
     process_csv_file float_mean float_std np_round2 csv = Ok r
     /\ pd_count r = List.length (pd_raw_data r)
     /\ ((List.length (csv_rows csv) <= 5)%nat ->
         pd_raw_data r = map (impute (csv_rows csv)) (csv_rows csv)
         /\ pd_count r = List.length (csv_rows csv))
     /\ ((5 < List.length (csv_rows csv))%nat ->
         pd_raw_data r = clean_data (csv_rows csv)))
  /\ (~ has_required_columns csv ->
      exists msg, process_csv_file float_mean float_std np_round2 csv = Raise (ValueError msg)).
Proof.
  split.
  - intros Hcols.
    destruct (process_csv_file_returns csv Hcols) as (r & Hrun & Hcount & Hraw).
    exists r. split; [exact Hrun|]. split; [exact Hcount|].
    split.
    + intros Hle. destruct (Nat.ltb_spec 5 (List.length (csv_rows csv))); [lia|].
      split; [exact Hraw|]. rewrite Hcount, Hraw. apply length_map.
    + intros Hgt. destruct (Nat.ltb_spec 5 (List.length (csv_rows csv))); [|lia].
      exact Hraw.
  - intros Hcols. unfold process_csv_file.
    destruct (List.filter _ required_columns) as [|c cs] eqn:E.
    + exfalso. apply Hcols. now apply missing_columns_nil.
    + cbn [List.length Nat.eqb negb]. eauto.
Qed.

End ProcessCsvProps.

Lemma process_csv_file_cleaning_witness :
  (exists r,
      process_csv_file sample_float_mean sample_float_std round2 small_csv = Ok r
      /\ pd_count r = 2%nat
      /\ pd_raw_data r
         = mkRow "P-101" "Pump" (Some 120) (Some 5) (Some 80)
           :: mkRow "V-201" "Valve" (Some 60) (Some 5) (Some 105) :: nil)
  /\ (exists msg,
         process_csv_file sample_float_mean sample_float_std round2 no_temperature_csv = Raise (ValueError msg)).
Proof.
  destruct (process_csv_file_cleaning sample_float_mean sample_float_std round2 small_csv) as [H _].
  destruct (process_csv_file_cleaning sample_float_mean sample_float_std round2 no_temperature_csv) as [_ H'].
  split.
  - destruct H as (r & Hrun & _ & Hsmall & _).
    { intros col Hc. exact Hc. }
    destruct Hsmall as [Hraw Hcount]; [cbn; lia|].
    exists r. split; [exact Hrun|]. split; [exact Hcount|].
    rewrite Hraw. vm_compute. reflexivity.
  - apply H'. intros Hall.
    specialize (Hall "Temperature"). cbn in Hall.
    assert (Hin : "Equipment Name" = "Temperature" \/ "Type" = "Temperature"
                  \/ "Flowrate" = "Temperature" \/ "Pressure" = "Temperature"
                  \/ False) by (apply Hall; auto 10).
    destruct Hin as [H1|[H1|[H1|[H1|[]]]]]; discriminate H1.
Defined.

(** *** The type distribution *)

Lemma value_counts_lookup (labels : list string) (t : string) :
  value_counts labels !! t
  = match class_count labels t with
    | O => None
    | S k => Some (S k)
    end.
Proof.
  unfold class_count. induction labels as [|a l IH]; [apply lookup_empty|].
  change (value_counts (a :: l))
    with (<[a := S (default O (value_counts l !! a))]> (value_counts l)).
  cbn [count_occ]. destruct (string_dec a t) as [->|Hne].
  - rewrite lookup_insert_eq, IH.
    destruct (count_occ string_dec l t); reflexivity.
  - rewrite lookup_insert_ne by assumption. exact IH.
Qed.

Lemma present_types_In (df : DataFrame) (t : string) :
  In t (present_types df) <-> In t (map Type_ df) /\ t <> EmptyString.
Proof.
  unfold present_types. rewrite filter_In, negb_true_iff, String.eqb_neq. tauto.
Qed.

Lemma rows_of_type_length (df : DataFrame) (t : string) :
  t <> EmptyString ->
  List.length (rows_of_type df t) = class_count (present_types df) t.
Proof.
  intros Ht. unfold rows_of_type, present_types, class_count.
  induction df as [|r df IH]; [reflexivity|].
  cbn [List.filter map]. destruct (String.eqb_spec (Type_ r) t) as [E|E].
  - rewrite E. apply String.eqb_neq in Ht. rewrite Ht. cbn [negb count_occ List.length].
    destruct (string_dec t t); [|contradiction]. now rewrite IH.
  - destruct (negb (String.eqb (Type_ r) EmptyString)); [|exact IH].
    cbn [count_occ]. destruct (string_dec (Type_ r) t); [contradiction|exact IH].
Qed.

Lemma present_types_length (df : DataFrame) :
  (List.length (present_types df)
   + List.length (List.filter (fun r => String.eqb (Type_ r) EmptyString) df)
   = List.length df)%nat.
Proof.
  unfold present_types. induction df as [|r df IH]; [reflexivity|].
  cbn [List.filter map]. destruct (String.eqb (Type_ r) EmptyString);
    cbn [negb List.length]; lia.
Qed.

Lemma str_insert_In (s : string) (l : list string) :
  Sorted.StronglySorted label_lt l -> In s l -> str_insert s l = l.
Proof.
  induction 1 as [|a l Hs IH Hall]; intros Hin; [destruct Hin|].
  cbn [str_insert]. destruct (String.eqb_spec s a) as [->|Hne]; [reflexivity|].
  destruct Hin as [->|Hin]; [congruence|].
  assert (Hlt : label_lt a s)
    by (rewrite List.Forall_forall in Hall; now apply Hall).
  destruct (String.leb s a) eqn:Hle.
  - exfalso. pose proof (leb_neq_lt s a Hle Hne) as Hsa.
    eapply label_lt_irrefl. eapply label_lt_trans; eassumption.
  - now rewrite IH.
Qed.

Lemma str_insert_fresh (s : string) (l : list string) :
  ~ In s l -> List.length (str_insert s l) = S (List.length l).
Proof.
  induction l as [|a l IH]; intros Hin; [reflexivity|].
  cbn [str_insert]. destruct (String.eqb_spec s a) as [->|Hne].
  - exfalso. apply Hin. now left.
  - destruct (String.leb s a); [reflexivity|].
    cbn [List.length]. rewrite IH; [reflexivity|].
    intros H. apply Hin. now right.
Qed.

Lemma value_counts_size (labels : list string) :
  size (value_counts labels) = List.length (np_unique labels).
Proof.
  induction labels as [|a l IH]; [apply map_size_empty|].
  change (value_counts (a :: l))
    with (<[a := S (default O (value_counts l !! a))]> (value_counts l)).
  change (np_unique (a :: l)) with (str_insert a (np_unique l)).
  destruct (value_counts l !! a) as [k|] eqn:E.
  - rewrite map_size_insert_Some by eauto.
    rewrite str_insert_In; [exact IH|apply np_unique_sorted|].
    apply In_np_unique. rewrite value_counts_lookup in E.
    unfold class_count in E.
    destruct (count_occ string_dec l a) eqn:Ec; [discriminate|].
    apply (count_occ_In string_dec). rewrite Ec. apply Nat.lt_0_succ.
  - rewrite map_size_insert_None by assumption.
    rewrite str_insert_fresh; [now rewrite IH|].
    intros Hin. apply (proj1 (In_np_unique a l)) in Hin.
    apply (count_occ_In string_dec) in Hin.
    rewrite value_counts_lookup in E. unfold class_count in E.
    destruct (count_occ string_dec l a) eqn:Ec; [|discriminate].
    inversion Hin.
Qed.

Lemma distribution_total_insert (d : gmap string nat) (t : string) (k : nat) :
  (distribution_total (<[t := k]> d) + default O (d !! t)
   = k + distribution_total d)%nat.
Proof.
  unfold distribution_total.
  assert (Hcomm : forall (j1 j2 : string) (z1 z2 y : nat),
             (z1 + (z2 + y) = z2 + (z1 + y))%nat) by (intros; lia).
  destruct (d !! t) as [k'|] eqn:E.
  - rewrite <- (insert_delete_id d t k' E) at 2.
    rewrite <- (insert_delete_eq d t k).
    rewrite !map_fold_insert_L; cbn [default];
      try apply lookup_delete_eq; try (intros; apply Hcomm; assumption).
    change (id k') with k'. lia.
  - rewrite map_fold_insert_L; cbn [default];
      try assumption; try (intros; apply Hcomm; assumption).
    lia.
Qed.

Lemma value_counts_total (labels : list string) :
  distribution_total (value_counts labels) = List.length labels.
Proof.
  induction labels as [|a l IH]; [reflexivity|].
  change (value_counts (a :: l))
    with (<[a := S (default O (value_counts l !! a))]> (value_counts l)).
  pose proof (distribution_total_insert (value_counts l) a
                (S (default O (value_counts l !! a)))) as H.
  cbn [List.length]. lia.
Qed.

Section DistributionProps.

Variable float_mean : list Q -> Q.
Variable float_std : list Q -> Q.
Variable np_round2 : Q -> Q.

(** X6: in what [process_csv_file] returns, the type distribution counts
    the reported rows that have a Type: a type is a key exactly when
    such a row has it, its count is the number of the reported rows of
    that type, and the type-wise breakdown has the same keys with the
    same counts; [equipment_types_count] is the number of distinct
    types.  The counts add up to [count] less the rows whose Type is
    missing, which [value_counts] leaves out and [count] includes. *)
Theorem process_csv_file_distribution (csv : ParsedCsv) (r : ProcessedData) :
  process_csv_file float_mean float_std np_round2 csv = Ok r ->
  let types := present_types (pd_raw_data r) in
  (forall t, In t types <-> is_Some (pd_type_distribution r !! t))
  /\ (forall t k, pd_type_distribution r !! t = Some k ->
                  k = List.length (rows_of_type (pd_raw_data r) t)
                  /\ exists b, pd_type_wise_breakdown r !! t = Some b
                               /\ tb_count b = k)
  /\ (forall t, pd_type_distribution r !! t = None ->
                pd_type_wise_breakdown r !! t = None)
  /\ (distribution_total (pd_type_distribution r)
       + List.length (List.filter (fun row => String.eqb (Type_ row) EmptyString)
                                  (pd_raw_data r))
       = pd_count r)%nat
  /\ pd_equipment_types_count r = List.length (np_unique types).
Proof.
  unfold process_csv_file.
  destruct (negb _); [discriminate|].
  intros H. injection H as H. subst r.
  cbn [pd_raw_data pd_type_distribution pd_type_wise_breakdown pd_count
       pd_equipment_types_count].
  set (df := if (5 <? _)%nat then _ else _).
  cbv zeta.
  assert (Hkey : forall t k,
             value_counts (present_types df) !! t = Some k ->
             k = List.length (rows_of_type df t)).
  { intros t k H. rewrite value_counts_lookup in H.
    assert (Ht : t <> EmptyString).
    { intros ->. unfold class_count in H.
      destruct (count_occ string_dec (present_types df) EmptyString) eqn:Ec;
        [discriminate|].
      assert (Hin : In EmptyString (present_types df))
        by (apply (count_occ_In string_dec); rewrite Ec; apply Nat.lt_0_succ).
      apply present_types_In in Hin as [_ Hne]. now apply Hne. }
    rewrite (rows_of_type_length df t Ht).
    destruct (class_count (present_types df) t); congruence. }
  repeat split.
  - intros Hin. rewrite value_counts_lookup.
    apply (count_occ_In string_dec) in Hin. unfold class_count.
    destruct (count_occ string_dec (present_types df) t) eqn:Ec; [|eauto].
    inversion Hin.
  - intros [k Hk]. rewrite value_counts_lookup in Hk. unfold class_count in Hk.
    apply (count_occ_In string_dec).
    destruct (count_occ string_dec (present_types df) t) eqn:Ec; [discriminate|].
    apply Nat.lt_0_succ.
  - now apply Hkey.
  - rewrite map_lookup_imap, H. cbn. eexists. split; [reflexivity|].
    unfold type_breakdown. cbn [tb_count]. symmetry. now apply Hkey.
  - intros t H. now rewrite map_lookup_imap, H.
  - rewrite value_counts_total. apply present_types_length.
  - apply value_counts_size.
Qed.

End DistributionProps.

Lemma process_csv_file_distribution_witness :
  exists r,
    process_csv_file sample_float_mean sample_float_std round2 missing_type_csv
    = Ok r
    /\ pd_count r = 3%nat
    /\ distribution_total (pd_type_distribution r) = 2%nat
    /\ pd_equipment_types_count r = 1%nat.
Proof.
  destruct (process_csv_file_returns sample_float_mean sample_float_std round2
                                     missing_type_csv)
    as (r & Hrun & Hcount & Hraw); [intros col Hc; exact Hc|].
  exists r. split; [exact Hrun|].
  destruct (process_csv_file_distribution sample_float_mean sample_float_std round2
                                          missing_type_csv r Hrun)
    as (_ & _ & _ & Htotal & Htypes).
  cbv zeta in Htypes. rewrite Hraw in Htotal, Htypes, Hcount.
  change (5 <? List.length (csv_rows missing_type_csv))%nat with false
    in Htotal, Htypes, Hcount.
  cbv iota in Htotal, Htypes, Hcount.
  assert (Himp : map (impute (csv_rows missing_type_csv)) (csv_rows missing_type_csv)
                 = csv_rows missing_type_csv) by (vm_compute; reflexivity).
  rewrite Himp in Htotal, Htypes, Hcount.
  split; [exact Hcount|]. split.
  - rewrite Hcount in Htotal.
    change (List.length (List.filter (fun row => String.eqb (Type_ row) EmptyString)
                                     (csv_rows missing_type_csv))) with 1%nat in Htotal.
    change (List.length (csv_rows missing_type_csv)) with 3%nat in Htotal. lia.
  - rewrite Htypes. vm_compute. reflexivity.
Defined.
(** * Properties of the upload history *)

(** ** [cleanup_old_records] *)

Lemma filter_twice {A : Type} (p q : A -> bool) (l : list A) :
  List.filter p (List.filter q l) = List.filter (fun x => q x && p x) l.
Proof.
  induction l as [|a l IH]; [reflexivity|]. cbn [List.filter].
  destruct (q a); cbn [List.filter andb]; [destruct (p a)|]; now rewrite IH.
Qed.

Lemma fold_delete_rows (D table : list DatasetHistory) :
  fold_left (fun t dataset => delete_row dataset t) D table
  = List.filter
      (fun r => negb (existsb (fun d => Nat.eqb (ds_id r) (ds_id d)) D)) table.
Proof.
  revert table. induction D as [|d D IH]; intros table; cbn [fold_left existsb].
  - cbn [negb]. symmetry. apply List.filter_true.
  - rewrite IH. unfold delete_row. rewrite filter_twice.
    apply List.filter_ext. intros r. now rewrite negb_orb.
Qed.

Lemma unique_ids_eq (table : list DatasetHistory) (a b : DatasetHistory) :
  unique_ids table -> In a table -> In b table -> ds_id a = ds_id b -> a = b.
Proof.
  unfold unique_ids. induction table as [|r table IH]; intros Hnd Ha Hb Heq;
    [destruct Ha|].
  cbn [map] in Hnd. inversion Hnd as [|? ? Hnotin Hnd']; subst.
  destruct Ha as [->|Ha], Hb as [->|Hb]; auto.
  - exfalso. apply Hnotin. rewrite Heq. now apply in_map.
  - exfalso. apply Hnotin. rewrite <- Heq. now apply in_map.
Qed.

Lemma deleted_iff (table D : list DatasetHistory) (r : DatasetHistory) :
  unique_ids table -> incl D table -> In r table ->
  existsb (fun d => Nat.eqb (ds_id r) (ds_id d)) D = true <-> In r D.
Proof.
  intros Hids HD Hr. rewrite existsb_exists. split.
  - intros (d & Hd & Heq). apply Nat.eqb_eq in Heq.
    now rewrite (unique_ids_eq table r d Hids Hr (HD d Hd) Heq).
  - intros Hin. exists r. split; [assumption|apply Nat.eqb_refl].
Qed.

Lemma newest_first_app (K D : list DatasetHistory) :
  newest_first (K ++ D) ->
  forall k d, In k K -> In d D -> (ds_uploaded_at d <= ds_uploaded_at k)%Z.
Proof.
  unfold newest_first. induction K as [|a K IH]; intros Hs k d Hk Hd; [destruct Hk|].
  cbn [app] in Hs. inversion Hs as [|? ? Hs' Hall]; subst.
  destruct Hk as [->|Hk].
  - rewrite List.Forall_forall in Hall. apply Hall. apply in_or_app. now right.
  - now apply IH.
Qed.

Lemma Permutation_filter_length {A : Type} (p : A -> bool) (l l' : list A) :
  Permutation l l' ->
  List.length (List.filter p l) = List.length (List.filter p l').
Proof.
  induction 1 as [|x l l' _ IH|x y l|l l' l'' _ IH1 _ IH2]; cbn [List.filter].
  - reflexivity.
  - destruct (p x); cbn [List.length]; now rewrite IH.
  - destruct (p x), (p y); reflexivity.
  - congruence.
Qed.

Lemma NoDup_app_disjoint {A : Type} (K D : list A) (x : A) :
  List.NoDup (K ++ D) -> In x K -> In x D -> False.
Proof.
  induction K as [|a K IH]; intros Hnd Hk Hd; [destruct Hk|].
  cbn [app] in Hnd. inversion Hnd as [|? ? Hnotin Hnd']; subst.
  destruct Hk as [->|Hk].
  - apply Hnotin. apply in_or_app. now right.
  - now apply IH.
Qed.

Section CleanupProps.

Variable order_by_uploaded_at_desc : list DatasetHistory -> list DatasetHistory.
Hypothesis order_ok : ordering_ok order_by_uploaded_at_desc.

(** X24: [cleanup_old_records] leaves the user the [keep_last] most
    recent uploads (all of them if there are fewer): the number of the
    user's records afterwards is the smaller of [keep_last] and their
    number before, no record is added, no record of another user is
    deleted, and no deleted record is more recent than a record the
    user keeps. *)
Theorem cleanup_keeps_newest (user keep_last : nat) (table : list DatasetHistory) :
  unique_ids table ->
  let table' := cleanup_old_records order_by_uploaded_at_desc user keep_last table in
  List.length (objects_filter table' user)
  = Nat.min keep_last (List.length (objects_filter table user))
  /\ (forall d, In d table' -> In d table)
  /\ (forall d, In d table -> ds_user d <> user -> In d table')
  /\ (forall kept gone,
         In kept table' -> ds_user kept = user ->
         In gone table -> ~ In gone table' ->
         (ds_uploaded_at gone <= ds_uploaded_at kept)%Z).
Proof.
  intros Hids table'. subst table'. unfold cleanup_old_records.
  set (U := objects_filter table user).
  destruct (order_ok U) as [Hperm Hsorted].
  set (O := order_by_uploaded_at_desc U) in *.
  assert (HlenO : List.length O = List.length U) by now apply Permutation_length.
  cbv zeta. destruct (Nat.ltb_spec keep_last (List.length O)) as [Hlt|Hge].
  - rewrite fold_delete_rows.
    set (D := skipn keep_last O). set (K := firstn keep_last O).
    assert (HO : O = K ++ D) by (symmetry; apply firstn_skipn).
    assert (HOt : forall d, In d O -> In d table /\ ds_user d = user).
    { intros d Hd. apply (Permutation_in _ Hperm) in Hd.
      apply filter_In in Hd as [Hd Hu]. apply Nat.eqb_eq in Hu. auto. }
    assert (HDO : forall d, In d D -> In d O).
    { intros d Hd. rewrite HO. apply in_or_app. now right. }
    assert (HKO : forall d, In d K -> In d O).
    { intros d Hd. rewrite HO. apply in_or_app. now left. }
    assert (HDt : incl D table).
    { intros d Hd. now apply HOt, HDO. }
    assert (HndO : List.NoDup O).
    { apply (Permutation_NoDup (Permutation_sym Hperm)).
      apply List.NoDup_filter. now apply (NoDup_map_inv ds_id). }
    set (notD := fun r => negb (existsb (fun d => Nat.eqb (ds_id r) (ds_id d)) D)).
    assert (HnotD : forall r, In r table -> notD r = false <-> In r D).
    { intros r Hr. unfold notD. rewrite negb_false_iff.
      now apply deleted_iff with (table := table). }
    split; [|split; [|split]].
    + unfold objects_filter. rewrite filter_twice.
      rewrite (List.filter_ext _ (fun x => Nat.eqb (ds_user x) user && notD x))
        by (intros a; apply andb_comm).
      rewrite <- filter_twice. fold (objects_filter table user). fold U.
      rewrite (Permutation_filter_length notD U O (Permutation_sym Hperm)).
      rewrite HO, List.filter_app, length_app.
      rewrite (List.filter_ext_in notD (fun _ => false) D), List.filter_false.
      2:{ intros d Hd. apply HnotD; [now apply HDt|assumption]. }
      rewrite (List.filter_ext_in notD (fun _ => true) K), List.filter_true.
      2:{ intros k Hk. destruct (notD k) eqn:E; [reflexivity|]. exfalso.
          apply HnotD in E; [|now apply HOt, HKO].
          rewrite HO in HndO. exact (NoDup_app_disjoint K D k HndO Hk E). }
      subst K. rewrite length_firstn. cbn [List.length]. fold U. lia.
    + intros d Hd. now apply filter_In in Hd as [Hd _].
    + intros d Hd Hu. apply filter_In. split; [assumption|].
      destruct (notD d) eqn:E; [reflexivity|]. exfalso.
      apply HnotD in E; [|assumption]. apply Hu. now apply HOt, HDO.
    + intros kept gone Hkept Hu Hgone Hnot.
      apply filter_In in Hkept as [Hkept Hk].
      assert (HkO : In kept O).
      { apply (Permutation_in _ (Permutation_sym Hperm)). apply filter_In.
        split; [assumption|now apply Nat.eqb_eq]. }
      rewrite HO in HkO. apply in_app_or in HkO as [HkK|HkD].
      * assert (HgD : In gone D).
        { apply HnotD; [assumption|]. destruct (notD gone) eqn:E; [|reflexivity].
          exfalso. apply Hnot. apply filter_In. auto. }
        rewrite HO in Hsorted. exact (newest_first_app K D Hsorted kept gone HkK HgD).
      * exfalso. apply HnotD in HkD; [|assumption].
        fold (notD kept) in Hk. congruence.
  - fold U. split; [lia|]. split; [auto|]. split; [auto|].
    intros kept gone _ _ Hgone Hnot. contradiction.
Qed.

End CleanupProps.

(** The sample ordering is an ordering by decreasing upload time. *)
Lemma insert_newest_Permutation (d : DatasetHistory) (rows : list DatasetHistory) :
  Permutation (insert_newest d rows) (d :: rows).
Proof.
  induction rows as [|r rows IH]; cbn [insert_newest]; [reflexivity|].
  destruct (ds_uploaded_at r <=? ds_uploaded_at d)%Z; [reflexivity|].
  rewrite IH. apply perm_swap.
Qed.

Lemma insert_newest_sorted (d : DatasetHistory) (rows : list DatasetHistory) :
  newest_first rows -> newest_first (insert_newest d rows).
Proof.
  unfold newest_first. induction 1 as [|r rows Hs IH Hall]; cbn [insert_newest].
  - repeat constructor.
  - destruct (Z.leb_spec (ds_uploaded_at r) (ds_uploaded_at d)) as [Hle|Hgt].
    + constructor; [now constructor|]. constructor; [assumption|].
      rewrite List.Forall_forall in *. intros b Hb. specialize (Hall b Hb). lia.
    + constructor; [assumption|].
      rewrite List.Forall_forall in *. intros b Hb.
      apply (Permutation_in _ (insert_newest_Permutation d rows)) in Hb.
      destruct Hb as [<-|Hb]; [lia|now apply Hall].
Qed.

Lemma sample_order_ok : ordering_ok sample_order.
Proof.
  intros rows. unfold sample_order. induction rows as [|r rows [IHp IHs]].
  - split; [reflexivity|constructor].
  - cbn [fold_right]. split.
    + rewrite insert_newest_Permutation. now constructor.
    + now apply insert_newest_sorted.
Qed.

Lemma sample_table_unique_ids : unique_ids sample_table.
Proof.
  unfold unique_ids, sample_table, sample_upload. cbn [map ds_id].
  repeat (apply List.NoDup_cons; [cbn; intuition discriminate|]).
  apply List.NoDup_nil.
Qed.

Lemma cleanup_keeps_newest_witness :
  let table' := cleanup_old_records sample_order 1 5 sample_table in
  List.length (objects_filter table' 1) = 5%nat
  /\ (forall d, In d table' -> In d sample_table)
  /\ (forall d, In d sample_table -> ds_user d <> 1%nat -> In d table')
  /\ (forall kept gone,
         In kept table' -> ds_user kept = 1%nat ->
         In gone sample_table -> ~ In gone table' ->
         (ds_uploaded_at gone <= ds_uploaded_at kept)%Z).
Proof.
  exact (cleanup_keeps_newest sample_order sample_order_ok 1 5 sample_table
                              sample_table_unique_ids).
Defined.
(** * Properties of the views that train and predict *)

(** ** One model file per user *)

Lemma string_length_append (s t : string) :
  String.length (s ++ t) = (String.length s + String.length t)%nat.
Proof.
  induction s as [|c s IH]; [reflexivity|].
  change (S (String.length (s ++ t)) = S (String.length s + String.length t)).
  now rewrite IH.
Qed.

Lemma append_cancel_r (t s1 s2 : string) :
  (s1 ++ t)%string = (s2 ++ t)%string -> s1 = s2.
Proof.
  revert s2. induction s1 as [|c s1 IH]; intros [|c2 s2] H.
  - reflexivity.
  - apply (f_equal String.length) in H.
    rewrite !string_length_append in H. cbn [String.length] in H. lia.
  - apply (f_equal String.length) in H.
    rewrite !string_length_append in H. cbn [String.length] in H. lia.
  - cbn [String.append] in H. injection H as -> H. f_equal. now apply IH.
Qed.

Lemma user_model_file_inj (a b : nat) :
  user_model_file a = user_model_file b -> a = b.
Proof.
  unfold user_model_file. intros H. cbn [String.append] in H.
  repeat (injection H as H). change (EmptyString ++ ?x)%string with x in H.
  apply append_cancel_r in H.
  apply (f_equal DecimalString.NilEmpty.uint_of_string) in H.
  rewrite !DecimalString.NilEmpty.usu in H. injection H as H.
  apply (f_equal Nat.of_uint) in H.
  now rewrite !DecimalNat.Unsigned.of_to in H.
Qed.

Lemma model_path_inj (MEDIA_ROOT : list string) (a b : nat) :
  model_path MEDIA_ROOT a = model_path MEDIA_ROOT b -> a = b.
Proof.
  unfold model_path. intros H. apply app_inj_tail in H as [_ H].
  now apply user_model_file_inj.
Qed.

(** ** What saving leaves alone *)

Lemma mkdir_dirs (name : list string) (fs : FS) (p : list string) :
  p <> name -> is_dir (fst (mkdir name fs)) p = is_dir fs p.
Proof.
  intros Hne. unfold mkdir. destruct (path_exists fs name); [reflexivity|].
  destruct (is_file fs (dirname name)); [reflexivity|].
  destruct (negb (is_dir fs (dirname name))); [reflexivity|].
  cbn [fst]. unfold is_dir. cbn [dirs]. f_equal.
  apply bool_decide_ext. rewrite elem_of_union, elem_of_singleton. tauto.
Qed.

(** [os.makedirs] makes no directory but the prefixes of its path,
    however it ends. *)
Lemma makedirs_rec_dirs (depth : nat) :
  forall (name : list string) (fs : FS) (p : list string),
    (forall k, p <> firstn k name) ->
    is_dir (fst (makedirs_rec depth name fs)) p = is_dir fs p.
Proof.
  induction depth as [|depth IH]; intros name fs p Hp; cbn [makedirs_rec].
  - assert (Hne : p <> name) by (rewrite <- (firstn_all name); apply Hp).
    pose proof (mkdir_dirs name fs p Hne) as Hm.
    destruct (mkdir name fs) as [fs2 [[]|e]]; cbn [fst] in *; [assumption|].
    destruct (is_dir fs2 name); assumption.
  - assert (Hne : p <> name) by (rewrite <- (firstn_all name); apply Hp).
    assert (Hp' : forall k, p <> firstn k (dirname name)).
    { intros k. rewrite dirname_firstn, firstn_firstn. apply Hp. }
    destruct (negb (bool_decide (dirname name = nil))
              && negb (path_exists fs (dirname name))).
    + pose proof (IH (dirname name) fs p Hp') as Hrec.
      destruct (makedirs_rec depth (dirname name) fs) as [fs1 [[]|e]];
        cbn [fst] in Hrec.
      * pose proof (mkdir_dirs name fs1 p Hne) as Hm.
        destruct (mkdir name fs1) as [fs2 [[]|e]]; cbn [fst] in *; [congruence|].
        destruct (is_dir fs2 name); cbn [fst]; congruence.
      * destruct e; try exact Hrec.
        pose proof (mkdir_dirs name fs1 p Hne) as Hm.
        destruct (mkdir name fs1) as [fs2 [[]|e]]; cbn [fst] in *; [congruence|].
        destruct (is_dir fs2 name); cbn [fst]; congruence.
    + pose proof (mkdir_dirs name fs p Hne) as Hm.
      destruct (mkdir name fs) as [fs2 [[]|e]]; cbn [fst] in *; [assumption|].
      destruct (is_dir fs2 name); assumption.
Qed.

Lemma save_model_frame (self : EquipmentMLModel) (filepath : list string)
      (fs : FS) (p : list string) :
  p <> filepath ->
  is_dir (fst (save_model self filepath fs)) p = is_dir fs p
  /\ files (fst (save_model self filepath fs)) !! p = files fs !! p.
Proof.
  intros Hne. unfold save_model.
  destruct (negb (truthy (is_trained self))); [auto|].
  unfold write_pickle.
  destruct (is_dir fs filepath); [auto|].
  destruct (is_file fs (dirname filepath)); [auto|].
  destruct (negb (is_dir fs (dirname filepath))); [auto|].
  cbn [fst files]. split; [reflexivity|]. now apply lookup_insert_ne.
Qed.

(** The save sequence of the views touches no other path of the model
    directory, however it ends. *)
Lemma save_user_model_frame (MEDIA_ROOT : list string) (file_name other : string)
      (self : EquipmentMLModel) (fs : FS) :
  other <> file_name ->
  let p := model_dir MEDIA_ROOT ++ other :: nil in
  let fs' := fst (save_user_model MEDIA_ROOT file_name self fs) in
  is_dir fs' p = is_dir fs p /\ files fs' !! p = files fs !! p.
Proof.
  intros Hne p fs'. subst fs'. unfold save_user_model.
  pose proof (makedirs_rec_files (List.length (model_dir MEDIA_ROOT))
                                 (model_dir MEDIA_ROOT) fs) as Hfiles.
  assert (Hdirs : is_dir (fst (makedirs (model_dir MEDIA_ROOT) fs)) p = is_dir fs p).
  { apply makedirs_rec_dirs. intros k Hk.
    apply (f_equal (@List.length string)) in Hk. subst p.
    rewrite length_firstn, length_app in Hk. cbn [List.length] in Hk. lia. }
  fold (makedirs (model_dir MEDIA_ROOT) fs) in Hfiles.
  destruct (makedirs (model_dir MEDIA_ROOT) fs) as [fs1 [[]|e]]; cbn [fst] in *.
  - destruct (save_model_frame self (model_dir MEDIA_ROOT ++ file_name :: nil) fs1 p)
      as [Hd Hf].
    { subst p. intros H. apply app_inv_head in H. congruence. }
    rewrite Hd, Hf, Hdirs, Hfiles. auto.
  - rewrite Hdirs, Hfiles. auto.
Qed.

Lemma save_user_model_file (MEDIA_ROOT : list string) (file_name : string)
      (self : EquipmentMLModel) (fs fs' : FS) :
  save_user_model MEDIA_ROOT file_name self fs = (fs', Ok tt) ->
  files fs' !! (model_dir MEDIA_ROOT ++ file_name :: nil) = Some (pickled self).
Proof.
  intros Hsave. unfold save_user_model in Hsave.
  destruct (makedirs (model_dir MEDIA_ROOT) fs) as [fs1 [[]|e]]; [|discriminate].
  apply save_model_Ok in Hsave as [_ ->]. cbn [files]. apply lookup_insert_eq.
Qed.

(** ** What the views read of the disk *)

Lemma load_model_ext (filepath : list string) (fs fs' : FS) (s : TrainState) :
  is_dir fs' filepath = is_dir fs filepath ->
  files fs' !! filepath = files fs !! filepath ->
  path_exists fs' filepath = path_exists fs filepath
  /\ load_model filepath fs' s = load_model filepath fs s.
Proof.
  intros Hd Hf.
  assert (Hp : path_exists fs' filepath = path_exists fs filepath).
  { unfold path_exists, is_file. now rewrite Hd, Hf. }
  split; [exact Hp|]. unfold load_model, read_pickle. now rewrite Hp, Hd, Hf.
Qed.

Section ViewsProps.

Variable permutation : nat -> list nat.
Variable stratified_indices : list nat -> nat -> nat -> list nat * list nat.
Variable np_sqrt : Q -> Q.
Variable fit_regressor : algorithm -> list (list Q) -> list Q -> list Q -> Q.
Variable fit_classifier : list (list Q) -> list nat -> list Q -> nat.
Variable predict_proba : Classifier -> list Q -> list Q.
Variable MEDIA_ROOT : list string.
Variable order_by_uploaded_at_desc : list DatasetHistory -> list DatasetHistory.

(** What the auto-train block did when it stored metrics. *)
Lemma auto_train_stored (user_id : nat) (table : list DatasetHistory) (fs fs' : FS)
      (response : option FlatMetrics) (fm : FlatMetrics) :
  auto_train permutation stratified_indices np_sqrt fit_regressor fit_classifier
             MEDIA_ROOT order_by_uploaded_at_desc user_id table fs
  = (fs', response, Some fm) ->
  exists s' m,
    train permutation stratified_indices np_sqrt fit_regressor fit_classifier
          (flat_map ds_raw_data
             (order_by_uploaded_at_desc (objects_filter table user_id)))
          fresh = (s', Ok m)
    /\ fm = flatten_metrics m
    /\ response = Some fm
    /\ save_user_model MEDIA_ROOT (user_model_file user_id) (obj s') fs = (fs', Ok tt).
Proof.
  unfold auto_train. cbv zeta. fold fresh.
  destruct (10 <=? _)%nat; [|discriminate].
  destruct (train _ _ _ _ _ _ fresh) as [s' [m|e]] eqn:Hrun; [|discriminate].
  destruct (save_user_model _ _ _ _) as [fs1 [[]|e]] eqn:Hsave; [|discriminate].
  intros [= <- <- <-]. exists s', m. auto.
Qed.

Lemma predict_parameters_served (user_id : nat) (o : EquipmentMLModel)
      (m : RegressionMetrics * ClassificationMetrics) (fs : FS)
      (equipment_type : string) :
  fully_trained o m ->
  files fs !! model_path MEDIA_ROOT user_id = Some (pickled o) ->
  equipment_type <> EmptyString ->
  predict_parameters MEDIA_ROOT user_id (Some equipment_type) fs
  = mkResponse HTTP_200_OK
               (inr (prediction_for o equipment_type, Some (shown_metrics (fst m)))).
Proof.
  intros (Htr & _ & _ & _ & h & Hh & Hreg & _) Hfile Hne.
  unfold predict_parameters.
  destruct equipment_type as [|c ty]; [congruence|].
  rewrite (path_exists_file _ _ _ Hfile). cbn [negb].
  rewrite (load_pickled o _ fs (mkState init nil) Hfile). cbn [obj].
  rewrite (predict_trained o _ Htr), Hh. cbn [history_regression]. rewrite Hreg.
  reflexivity.
Qed.

Lemma views_ext (user_id : nat) (fs fs' : FS) :
  is_dir fs' (model_path MEDIA_ROOT user_id) = is_dir fs (model_path MEDIA_ROOT user_id) ->
  files fs' !! model_path MEDIA_ROOT user_id = files fs !! model_path MEDIA_ROOT user_id ->
  (forall equipment_type,
      predict_parameters MEDIA_ROOT user_id equipment_type fs'
      = predict_parameters MEDIA_ROOT user_id equipment_type fs)
  /\ (forall flowrate pressure temperature,
         predict_equipment_type predict_proba MEDIA_ROOT user_id
                                flowrate pressure temperature fs'
         = predict_equipment_type predict_proba MEDIA_ROOT user_id
                                  flowrate pressure temperature fs).
Proof.
  intros Hd Hf.
  destruct (load_model_ext (model_path MEDIA_ROOT user_id) fs fs'
                           (mkState init nil) Hd Hf) as [Hp Hl].
  split.
  - intros equipment_type. unfold predict_parameters. now rewrite Hp, Hl.
  - intros flowrate pressure temperature. unfold predict_equipment_type.
    now rewrite Hp, Hl.
Qed.

(** X25: when the auto-train block of [upload_csv] has stored metrics on
    the uploaded dataset, the response carries the same metrics, the
    user's model file holds the model just trained, and
    [predict_parameters] answers every non-empty equipment type with
    status 200, that model's prediction, and the R2 scores and training
    sample count of those metrics. *)
Theorem upload_trains_then_predicts (user_id : nat) (table : list DatasetHistory)
        (fs fs' : FS) (response : option FlatMetrics) (fm : FlatMetrics) :
  auto_train permutation stratified_indices np_sqrt fit_regressor fit_classifier
             MEDIA_ROOT order_by_uploaded_at_desc user_id table fs
  = (fs', response, Some fm) ->
  response = Some fm
  /\ exists o,
      files fs' !! model_path MEDIA_ROOT user_id = Some (pickled o)
      /\ forall equipment_type,
          equipment_type <> EmptyString ->
          predict_parameters MEDIA_ROOT user_id (Some equipment_type) fs'
          = mkResponse HTTP_200_OK
              (inr (prediction_for o equipment_type,
                    Some {| pmx_flowrate_r2 := Some (pm_r2_score (fm_flowrate fm));
                            pmx_pressure_r2 := Some (pm_r2_score (fm_pressure fm));
                            pmx_temperature_r2 :=
                              Some (pm_r2_score (fm_temperature fm));
                            pmx_training_samples :=
                              Some (fm_training_samples fm) |})).
Proof.
  intros Hrun.
  apply auto_train_stored in Hrun as (s' & m & Htrain & -> & -> & Hsave).
  split; [reflexivity|]. exists (obj s').
  apply save_user_model_file in Hsave. fold (model_path MEDIA_ROOT user_id) in Hsave.
  split; [exact Hsave|]. intros equipment_type Hne.
  pose proof (train_fully_trained permutation stratified_indices np_sqrt
                fit_regressor fit_classifier _ fresh s' m fresh_constructed Htrain)
    as Hfull.
  rewrite (predict_parameters_served user_id (obj s') m fs' equipment_type
             Hfull Hsave Hne).
  destruct m as [rm cm]. reflexivity.
Qed.

(** X26: the auto-train block of [upload_csv] leaves the other users'
    models alone: however it ends, the model file of any other user and
    what [predict_parameters] and [predict_equipment_type] answer that
    user are unchanged; and when the response carries no metrics, the
    disk is as it was and no metrics are stored. *)
Theorem auto_train_frame (user_id : nat) (table : list DatasetHistory)
        (fs fs' : FS) (response stored : option FlatMetrics) :
  auto_train permutation stratified_indices np_sqrt fit_regressor fit_classifier
             MEDIA_ROOT order_by_uploaded_at_desc user_id table fs
  = (fs', response, stored) ->
  (response = None -> fs' = fs /\ stored = None)
  /\ forall other,
      other <> user_id ->
      files fs' !! model_path MEDIA_ROOT other = files fs !! model_path MEDIA_ROOT other
      /\ (forall equipment_type,
             predict_parameters MEDIA_ROOT other equipment_type fs'
             = predict_parameters MEDIA_ROOT other equipment_type fs)
      /\ (forall flowrate pressure temperature,
             predict_equipment_type predict_proba MEDIA_ROOT other
                                    flowrate pressure temperature fs'
             = predict_equipment_type predict_proba MEDIA_ROOT other
                                      flowrate pressure temperature fs).
Proof.
  unfold auto_train. cbv zeta.
  assert (Hsame : forall other,
             files fs !! model_path MEDIA_ROOT other
             = files fs !! model_path MEDIA_ROOT other
             /\ (forall equipment_type,
                    predict_parameters MEDIA_ROOT other equipment_type fs
                    = predict_parameters MEDIA_ROOT other equipment_type fs)
             /\ (forall flowrate pressure temperature,
                    predict_equipment_type predict_proba MEDIA_ROOT other
                                           flowrate pressure temperature fs
                    = predict_equipment_type predict_proba MEDIA_ROOT other
                                             flowrate pressure temperature fs))
    by (intros; auto).
  destruct (10 <=? _)%nat; [|intros [= <- <- <-]; auto].
  destruct (train _ _ _ _ _ _ _) as [s' [m|e]]; [|intros [= <- <- <-]; auto].
  pose proof (save_user_model_frame MEDIA_ROOT (user_model_file user_id)) as Hframe.
  destruct (save_user_model _ _ _ _) as [fs1 r] eqn:Hsave.
  assert (Hother : forall other,
             other <> user_id ->
             is_dir fs1 (model_path MEDIA_ROOT other)
             = is_dir fs (model_path MEDIA_ROOT other)
             /\ files fs1 !! model_path MEDIA_ROOT other
                = files fs !! model_path MEDIA_ROOT other).
  { intros other Hne.
    specialize (Hframe (user_model_file other) (obj s') fs).
    rewrite Hsave in Hframe. apply Hframe.
    intros H. apply Hne. now apply user_model_file_inj. }
  destruct r as [[]|e]; intros [= <- <- <-]; (split; [discriminate|]);
    intros other Hne; destruct (Hother other Hne) as [Hd Hf];
    (split; [exact Hf|]); now apply views_ext.
Qed.

(** X27: [predict_equipment_type] takes a parameter that is zero for a
    missing one: with any of the three equal to 0 it answers 400, also
    when the user has a trained model; once the auto-train block has
    stored metrics, three non-zero parameters are answered with what
    [predict_type] gives on the model just trained, with status 200, or
    with status 500 if it raises. *)
Theorem type_prediction_after_upload (user_id : nat) (table : list DatasetHistory)
        (fs fs' : FS) (response : option FlatMetrics) (fm : FlatMetrics)
        (flowrate pressure temperature : Q) :
  auto_train permutation stratified_indices np_sqrt fit_regressor fit_classifier
             MEDIA_ROOT order_by_uploaded_at_desc user_id table fs
  = (fs', response, Some fm) ->
  exists o,
    files fs' !! model_path MEDIA_ROOT user_id = Some (pickled o)
    /\ (flowrate == 0 \/ pressure == 0 \/ temperature == 0 ->
        predict_equipment_type predict_proba MEDIA_ROOT user_id
                               (Some flowrate) (Some pressure) (Some temperature) fs'
        = mkResponse HTTP_400_BAD_REQUEST
            (inl (ErrorMessage
                    "All parameters (flowrate, pressure, temperature) are required")))
    /\ (~ flowrate == 0 -> ~ pressure == 0 -> ~ temperature == 0 ->
        predict_equipment_type predict_proba MEDIA_ROOT user_id
                               (Some flowrate) (Some pressure) (Some temperature) fs'
        = match predict_type predict_proba o flowrate pressure temperature with
          | Ok prediction => mkResponse HTTP_200_OK (inr prediction)
          | Raise e =>
            mkResponse HTTP_500_INTERNAL_SERVER_ERROR
                       (inl (ErrorOf "Error making prediction: " (ModelError e)))
          end).
Proof.
  intros Hrun.
  apply auto_train_stored in Hrun as (s' & m & Htrain & -> & -> & Hsave).
  exists (obj s').
  apply save_user_model_file in Hsave. fold (model_path MEDIA_ROOT user_id) in Hsave.
  split; [exact Hsave|]. unfold predict_equipment_type, number_given. split.
  - intros Hzero.
    destruct (Qeq_bool flowrate 0) eqn:Ef; [reflexivity|].
    destruct (Qeq_bool pressure 0) eqn:Ep; [reflexivity|].
    destruct (Qeq_bool temperature 0) eqn:Et; [reflexivity|].
    exfalso. destruct Hzero as [H|[H|H]]; apply Qeq_bool_iff in H; congruence.
  - intros Hf Hp Ht.
    destruct (Qeq_bool flowrate 0) eqn:Ef; [now apply Qeq_bool_iff in Ef|].
    destruct (Qeq_bool pressure 0) eqn:Ep; [now apply Qeq_bool_iff in Ep|].
    destruct (Qeq_bool temperature 0) eqn:Et; [now apply Qeq_bool_iff in Et|].
    cbn [negb andb].
    rewrite (path_exists_file _ _ _ Hsave). cbn [negb].
    rewrite (load_pickled (obj s') _ fs' (mkState init nil) Hsave). cbn [obj].
    destruct (predict_type _ _ _ _ _); reflexivity.
Qed.

Lemma predictions_of_trained (o : EquipmentMLModel) (types : list string) :
  trained o ->
  omap (fun eq_type =>
          match predict o eq_type with
          | Ok pred => Some pred
          | Raise _ => None
          end) types
  = map (prediction_for o) types.
Proof.
  intros Htr. induction types as [|t types IH]; [reflexivity|].
  cbn [omap list_omap map]. rewrite (predict_trained o t Htr).
  f_equal. exact IH.
Qed.

(** X28: once the auto-train block has stored metrics,
    [get_all_predictions] answers with status 200 and one prediction of
    the model just trained for each distinct equipment type among the
    rows of the user's datasets, in alphabetical order; [total_types] is
    their number and [model_metrics] carries the R2 scores and sample
    counts of the stored metrics. *)
Theorem all_predictions_after_upload (user_id : nat)
        (table table_now : list DatasetHistory)
        (fs fs' : FS) (response : option FlatMetrics) (fm : FlatMetrics) :
  ordering_ok order_by_uploaded_at_desc ->
  auto_train permutation stratified_indices np_sqrt fit_regressor fit_classifier
             MEDIA_ROOT order_by_uploaded_at_desc user_id table fs
  = (fs', response, Some fm) ->
  exists o types,
    files fs' !! model_path MEDIA_ROOT user_id = Some (pickled o)
    /\ Sorted.StronglySorted label_lt types
    /\ (forall t,
          In t types <->
          exists d row,
            In d table_now /\ ds_user d = user_id
            /\ In row (ds_raw_data d) /\ Type_ row = t)
    /\ get_all_predictions MEDIA_ROOT order_by_uploaded_at_desc user_id table_now fs'
       = mkResponse HTTP_200_OK
           (inr {| ap_predictions := map (prediction_for o) types;
                   ap_model_metrics :=
                     Some {| mm_flowrate_r2 := Some (pm_r2_score (fm_flowrate fm));
                             mm_pressure_r2 := Some (pm_r2_score (fm_pressure fm));
                             mm_temperature_r2 :=
                               Some (pm_r2_score (fm_temperature fm));
                             mm_training_samples := Some (fm_training_samples fm);
                             mm_total_samples := Some (fm_total_samples fm) |};
                   ap_total_types := List.length types |}).
Proof.
  intros Horder Hrun.
  apply auto_train_stored in Hrun as (s' & m & Htrain & -> & -> & Hsave).
  apply save_user_model_file in Hsave. fold (model_path MEDIA_ROOT user_id) in Hsave.
  pose proof (train_fully_trained permutation stratified_indices np_sqrt
                fit_regressor fit_classifier _ fresh s' m fresh_constructed Htrain)
    as (Htr & _ & _ & _ & h & Hh & Hreg & _).
  set (datasets := order_by_uploaded_at_desc (objects_filter table_now user_id)).
  exists (obj s'), (np_unique (map Type_ (flat_map ds_raw_data datasets))).
  split; [exact Hsave|]. split; [apply np_unique_sorted|]. split.
  - intros t. rewrite In_np_unique, in_map_iff. split.
    + intros (row & Ht & Hrow). apply in_flat_map in Hrow as (d & Hd & Hrow).
      apply (Permutation_in _ (proj1 (Horder _))) in Hd.
      apply filter_In in Hd as [Hd Hu]. apply Nat.eqb_eq in Hu.
      exists d, row. auto.
    + intros (d & row & Hd & Hu & Hrow & Ht). exists row. split; [exact Ht|].
      apply in_flat_map. exists d. split; [|exact Hrow].
      apply (Permutation_in _ (Permutation_sym (proj1 (Horder _)))).
      apply filter_In. split; [exact Hd|now apply Nat.eqb_eq].
  - unfold get_all_predictions.
    rewrite (path_exists_file _ _ _ Hsave). cbn [negb].
    rewrite (load_pickled (obj s') _ fs' (mkState init nil) Hsave). cbn [obj].
    cbv zeta. fold datasets.
    rewrite (predictions_of_trained (obj s') _ Htr), Hh.
    cbn [history_regression]. rewrite Hreg. cbn [option_map].
    rewrite length_map. destruct m as [rm cm]. reflexivity.
Qed.

(** X29: [train_model] answers 200 only when the request names a dataset
    of the user's with at least ten rows, and then the model it saved
    answers [predict_parameters] for every non-empty equipment type with
    status 200 and the metrics of the response; without a dataset id (or
    with id 0) it always answers 500, ordering by [timestamp], which is
    no field of [DatasetHistory]; an answer 400 or 404 leaves the disk
    as it was. *)
Theorem train_model_outcomes (user_id : nat) (dataset_id : option nat)
        (table : list DatasetHistory) (fs fs' : FS)
        (response : Response (ErrorBody + TrainData)) :
  train_model permutation stratified_indices np_sqrt fit_regressor fit_classifier
              MEDIA_ROOT user_id dataset_id table fs
  = (fs', response) ->
  (status response = HTTP_200_OK ->
   exists id dataset o metrics,
     dataset_id = Some id
     /\ objects_get table id user_id = Some dataset
     /\ (10 <= List.length (ds_raw_data dataset))%nat
     /\ data response = inr metrics
     /\ files fs' !! model_path MEDIA_ROOT user_id = Some (pickled o)
     /\ forall equipment_type,
         equipment_type <> EmptyString ->
         predict_parameters MEDIA_ROOT user_id (Some equipment_type) fs'
         = mkResponse HTTP_200_OK
             (inr (prediction_for o equipment_type,
                   Some (shown_metrics (fst metrics)))))
  /\ (dataset_id = None \/ dataset_id = Some O ->
      fs' = fs
      /\ response
         = mkResponse HTTP_500_INTERNAL_SERVER_ERROR
             (inl (ErrorOf "Error training model: "
                           (FieldError "Cannot resolve keyword 'timestamp' into field"))))
  /\ (status response = HTTP_400_BAD_REQUEST
      \/ status response = HTTP_404_NOT_FOUND -> fs' = fs).
Proof.
  unfold train_model. cbv zeta.
  destruct dataset_id as [[|n]|].
  - cbn [order_by_timestamp_desc]. intros [= <- <-]. cbn [status].
    split; [discriminate|]. auto.
  - destruct (objects_get table (S n) user_id) as [dataset|] eqn:Hget.
    + destruct (Nat.ltb_spec (List.length (ds_raw_data dataset)) 10) as [Hlt|Hge].
      * intros [= <- <-]. cbn [status].
        split; [discriminate|]. split; [intros [H|H]; discriminate H|auto].
      * destruct (train _ _ _ _ _ _ _) as [s' [m|e]] eqn:Htrain.
        -- destruct (save_user_model _ _ _ _) as [fs1 [[]|e]] eqn:Hsave;
             intros [= <- <-]; cbn [status].
           ++ split; [|split; [intros [H|H]; discriminate H
                              |intros [H|H]; discriminate H]].
              intros _. exists (S n), dataset, (obj s'), m.
              apply save_user_model_file in Hsave.
              fold (model_path MEDIA_ROOT user_id) in Hsave.
              repeat (split; [solve [auto]|]).
              intros equipment_type Hne.
              apply (predict_parameters_served user_id (obj s') m fs1
                       equipment_type); [|exact Hsave|exact Hne].
              exact (train_fully_trained permutation stratified_indices np_sqrt
                       fit_regressor fit_classifier _ fresh s' m
                       fresh_constructed Htrain).
           ++ split; [discriminate|].
              split; intros [H|H]; discriminate H.
        -- intros [= <- <-]. cbn [status].
           split; [discriminate|]. split; intros [H|H]; discriminate H.
    + intros [= <- <-]. cbn [status].
      split; [discriminate|]. split; [intros [H|H]; discriminate H|auto].
  - cbn [order_by_timestamp_desc]. intros [= <- <-]. cbn [status].
    split; [discriminate|]. auto.
Qed.

End ViewsProps.

(** ** The sample upload *)

(** On a disk holding the media directory, the first upload of ten rows
    trains and saves a model. *)
Lemma first_upload_stored :
  exists fs' fm,
    auto_train sample_permutation sample_stratified_indices sample_sqrt
               sample_fit_regressor sample_fit_classifier ("media" :: nil)
               sample_order 1 first_upload media_disk
    = (fs', Some fm, Some fm).
Proof.
  unfold auto_train. cbv zeta.
  change (flat_map ds_raw_data (sample_order (objects_filter first_upload 1)))
    with ten_rows.
  change (10 <=? List.length ten_rows)%nat with true. cbv iota. fold fresh.
  destruct (train sample_permutation sample_stratified_indices sample_sqrt
                  sample_fit_regressor sample_fit_classifier ten_rows fresh)
    as [s' [m|e]] eqn:Hrun; [|vm_compute in Hrun; discriminate Hrun].
  destruct (train_trained sample_permutation sample_stratified_indices sample_sqrt
              sample_fit_regressor sample_fit_classifier ten_rows fresh s' m
              fresh_constructed Hrun) as [(Htr & _) _].
  destruct (save_user_model_Ok ("media" :: nil) (user_model_file 1) (obj s')
                               media_disk) as [fs' ->].
  - now rewrite Htr.
  - reflexivity.
  - reflexivity.
  - eauto.
Qed.

Lemma upload_trains_then_predicts_witness :
  exists fs' fm o,
    auto_train sample_permutation sample_stratified_indices sample_sqrt
               sample_fit_regressor sample_fit_classifier ("media" :: nil)
               sample_order 1 first_upload media_disk
    = (fs', Some fm, Some fm)
    /\ files fs' !! model_path ("media" :: nil) 1 = Some (pickled o)
    /\ exists metrics,
        predict_parameters ("media" :: nil) 1 (Some "Pump") fs'
        = mkResponse HTTP_200_OK (inr (prediction_for o "Pump", Some metrics)).
Proof.
  destruct first_upload_stored as (fs' & fm & Hrun).
  destruct (upload_trains_then_predicts
              sample_permutation sample_stratified_indices sample_sqrt
              sample_fit_regressor sample_fit_classifier ("media" :: nil)
              sample_order 1 first_upload media_disk fs' (Some fm) fm Hrun)
    as (_ & o & Hfile & Hpred).
  exists fs', fm, o. split; [exact Hrun|]. split; [exact Hfile|].
  eexists. apply Hpred. discriminate.
Defined.

Lemma auto_train_frame_witness :
  let fs' :=
      fst (fst (auto_train sample_permutation sample_stratified_indices sample_sqrt
                           sample_fit_regressor sample_fit_classifier
                           ("media" :: nil) sample_order 1 first_upload media_disk)) in
  files fs' !! model_path ("media" :: nil) 2
  = files media_disk !! model_path ("media" :: nil) 2
  /\ forall equipment_type,
      predict_parameters ("media" :: nil) 2 equipment_type fs'
      = predict_parameters ("media" :: nil) 2 equipment_type media_disk.
Proof.
  destruct (auto_train sample_permutation sample_stratified_indices sample_sqrt
                       sample_fit_regressor sample_fit_classifier
                       ("media" :: nil) sample_order 1 first_upload media_disk)
    as [[fs' response] stored] eqn:Hrun.
  cbn [fst].
  destruct (auto_train_frame
              sample_permutation sample_stratified_indices sample_sqrt
              sample_fit_regressor sample_fit_classifier sample_predict_proba
              ("media" :: nil) sample_order 1 first_upload media_disk fs'
              response stored Hrun) as [_ Hother].
  destruct (Hother 2%nat) as (Hfile & Hpred & _); [discriminate|].
  split; assumption.
Defined.

Lemma type_prediction_after_upload_witness :
  exists fs' fm,
    auto_train sample_permutation sample_stratified_indices sample_sqrt
               sample_fit_regressor sample_fit_classifier ("media" :: nil)
               sample_order 1 first_upload media_disk
    = (fs', Some fm, Some fm)
    /\ predict_equipment_type sample_predict_proba ("media" :: nil) 1
                              (Some 100) (Some 0) (Some 90) fs'
       = mkResponse HTTP_400_BAD_REQUEST
           (inl (ErrorMessage
                   "All parameters (flowrate, pressure, temperature) are required")).
Proof.
  destruct first_upload_stored as (fs' & fm & Hrun).
  destruct (type_prediction_after_upload
              sample_permutation sample_stratified_indices sample_sqrt
              sample_fit_regressor sample_fit_classifier sample_predict_proba
              ("media" :: nil) sample_order 1 first_upload media_disk fs'
              (Some fm) fm 100 0 90 Hrun)
    as (o & _ & Hzero & _).
  exists fs', fm. split; [exact Hrun|]. apply Hzero. right. left. reflexivity.
Defined.

Lemma all_predictions_after_upload_witness :
  exists fs' fm o types,
    auto_train sample_permutation sample_stratified_indices sample_sqrt
               sample_fit_regressor sample_fit_classifier ("media" :: nil)
               sample_order 1 first_upload media_disk
    = (fs', Some fm, Some fm)
    /\ (In "Pump" types /\ In "Valve" types)
    /\ exists metrics,
        get_all_predictions ("media" :: nil) sample_order 1 first_upload fs'
        = mkResponse HTTP_200_OK
            (inr {| ap_predictions := map (prediction_for o) types;
                    ap_model_metrics := Some metrics;
                    ap_total_types := List.length types |}).
Proof.
  destruct first_upload_stored as (fs' & fm & Hrun).
  destruct (all_predictions_after_upload
              sample_permutation sample_stratified_indices sample_sqrt
              sample_fit_regressor sample_fit_classifier ("media" :: nil)
              sample_order 1 first_upload first_upload media_disk fs'
              (Some fm) fm sample_order_ok Hrun)
    as (o & types & _ & _ & Htypes & Hall).
  exists fs', fm, o, types. split; [exact Hrun|]. split.
  - split; apply Htypes.
    + exists (sample_upload 1 1 ten_rows),
             (mkRow "P-101" "Pump" (Some 120) (Some 5) (Some 80)).
      cbn. repeat split; auto.
    + exists (sample_upload 1 1 ten_rows),
             (mkRow "V-201" "Valve" (Some 60) (Some 4) (Some 105)).
      cbn. repeat split; auto.
  - eexists. exact Hall.
Defined.

Lemma train_model_outcomes_witness :
  train_model sample_permutation sample_stratified_indices sample_sqrt
              sample_fit_regressor sample_fit_classifier ("media" :: nil)
              1 None first_upload media_disk
  = (media_disk,
     mkResponse HTTP_500_INTERNAL_SERVER_ERROR
       (inl (ErrorOf "Error training model: "
                     (FieldError "Cannot resolve keyword 'timestamp' into field")))).
Proof.
  destruct (train_model sample_permutation sample_stratified_indices sample_sqrt
                        sample_fit_regressor sample_fit_classifier ("media" :: nil)
                        1 None first_upload media_disk)
    as [fs' response] eqn:Hrun.
  destruct (train_model_outcomes
              sample_permutation sample_stratified_indices sample_sqrt
              sample_fit_regressor sample_fit_classifier ("media" :: nil)
              1 None first_upload media_disk fs' response Hrun)
    as (_ & Hnone & _).
  destruct Hnone as [-> ->]; [now left|reflexivity].
Defined.
